(** * Baclend_GEN: the generation-response contract and the project store

    A shallow embedding of the Express server of the AI backend generator
    (the Groq edition, with the OpenRouter edition's gateway kept for
    comparison), and the properties of its response extractor, project
    materializer and project store.

    Conventions of the embedding.
    - A JavaScript string is a [string]: one [ascii] per code unit, so the
      strings covered are those whose code units are below 256.
    - A JavaScript value that the server handles is a [JSON] value; the
      value [undefined] is [None] in an [option JSON].
    - The file system is a tree of directories and regular files (no
      symbolic links, no permissions); it is threaded, with the error
      console, through a state-and-exception monad [M].
    - What the server takes from its platform and cannot be read off its
      source (the JSON codec, the Date conversions, the bytes of an
      array-like, the order in which an inconsistent comparison sorts,
      the directory the script is installed in) is a field of the class
      [Platform]. *)

From Stdlib Require Import String Ascii List ZArith Lia Bool Arith.
From Stdlib Require Import DecimalString Permutation Sorted.
Import ListNotations.

Open Scope list_scope.
Open Scope string_scope.

Set Warnings "-register-all".

(* ================================================================== *)
(** * Strings *)
(* ================================================================== *)

Module Str.

(** The double quote, which a literal of this file cannot contain. *)
Definition dquote : string := String (ascii_of_nat 34) EmptyString.

(** [s.startsWith(p)] *)
Fixpoint starts_with (p s : string) : bool :=
  match p, s with
  | EmptyString, _ => true
  | String a p', String b s' => Ascii.eqb a b && starts_with p' s'
  | String _ _, EmptyString => false
  end.

(** The rest of [s] after its prefix [p]. *)
Fixpoint drop_prefix (p s : string) : option string :=
  match p, s with
  | EmptyString, _ => Some s
  | String a p', String b s' =>
      if Ascii.eqb a b then drop_prefix p' s' else None
  | String _ _, EmptyString => None
  end.

(** [s.includes(p)] *)
Fixpoint includes (p s : string) : bool :=
  starts_with p s
  || match s with
     | EmptyString => false
     | String _ s' => includes p s'
     end.

(** [s.endsWith(suf)] *)
Fixpoint ends_with (suf s : string) : bool :=
  String.eqb suf s
  || match s with
     | EmptyString => false
     | String _ s' => ends_with suf s'
     end.

(** [s.split(sep)] for a separator of one character. *)
Fixpoint split_on (sep : ascii) (s : string) : list string :=
  match s with
  | EmptyString => [EmptyString]
  | String c s' =>
      if Ascii.eqb c sep then EmptyString :: split_on sep s'
      else match split_on sep s' with
           | h :: t => String c h :: t
           | [] => [String c EmptyString]
           end
  end.

(** [l.join(sep)] *)
Definition join (sep : string) (l : list string) : string :=
  String.concat sep l.

(** White space and line terminators of ECMAScript among the code units
    below 256: TAB, LF, VT, FF, CR, SP and NBSP.  This is the class [\s]
    of a regular expression and what [trim] removes. *)
Definition is_space (c : ascii) : bool :=
  let n := nat_of_ascii c in
  ((9 <=? n)%nat && (n <=? 13)%nat) || (n =? 32)%nat || (n =? 160)%nat.

Fixpoint trim_start (s : string) : string :=
  match s with
  | EmptyString => EmptyString
  | String c s' => if is_space c then trim_start s' else s
  end.

Fixpoint all_space (s : string) : bool :=
  match s with
  | EmptyString => true
  | String c s' => is_space c && all_space s'
  end.

Fixpoint trim_end (s : string) : string :=
  match s with
  | EmptyString => EmptyString
  | String c s' => if all_space s then EmptyString else String c (trim_end s')
  end.

(** [s.trim()] *)
Definition trim (s : string) : string := trim_end (trim_start s).

Definition of_nat (n : nat) : string := NilZero.string_of_uint (Nat.to_uint n).
Definition of_N (n : N) : string := NilZero.string_of_uint (N.to_uint n).
Definition of_Z (z : Z) : string := NilZero.string_of_int (Z.to_int z).

(** Number of bytes of the UTF-8 encoding: a code unit below 128 takes
    one byte, the others (below 256) two. *)
Fixpoint utf8_length (s : string) : nat :=
  match s with
  | EmptyString => 0
  | String c s' => ((if (nat_of_ascii c <? 128)%nat then 1 else 2) + utf8_length s')%nat
  end.

(** [s.slice(n)] *)
Fixpoint drop (n : nat) (s : string) : string :=
  match n, s with
  | O, _ => s
  | S n', String _ s' => drop n' s'
  | S _, EmptyString => EmptyString
  end.

(** Replace every occurrence of the character [c] by the string [r]. *)
Fixpoint subst_char (c : ascii) (r : string) (s : string) : string :=
  match s with
  | EmptyString => EmptyString
  | String a s' =>
      if Ascii.eqb a c then r ++ subst_char c r s'
      else String a (subst_char c r s')
  end.

End Str.

(* ================================================================== *)
(** * JavaScript values *)
(* ================================================================== *)

(** A number is an exact decimal [mant * 10 ^ expo]; the rounding of IEEE
    doubles is outside the model.  The properties of an object are kept in
    the order in which JavaScript enumerates them. *)
Inductive JSON : Type :=
| JNull
| JBool (b : bool)
| JNum (mant expo : Z)
| JStr (s : string)
| JArr (items : list JSON)
| JObj (props : list (string * JSON)).

(** A thrown exception: its constructor name and its message. *)
Record JsError : Type := mkError { err_name : string; err_message : string }.

Definition TypeError (msg : string) : JsError := mkError "TypeError" msg.
Definition Error (msg : string) : JsError := mkError "Error" msg.
Definition SystemError (code rest : string) : JsError :=
  mkError "Error" (code ++ ": " ++ rest).

Inductive outcome (A : Type) : Type :=
| Return (a : A)
| Throw (e : JsError).
Arguments Return {A} a.
Arguments Throw {A} e.

Module Js.

(** ToBoolean *)
Definition truthy (v : option JSON) : bool :=
  match v with
  | None | Some JNull => false
  | Some (JBool b) => b
  | Some (JNum m _) => negb (m =? 0)%Z
  | Some (JStr s) => negb (String.eqb s "")
  | Some (JArr _) | Some (JObj _) => true
  end.

(** [a || b] *)
Definition or (a b : option JSON) : option JSON :=
  if truthy a then a else b.

(** [a === "literal"] *)
Definition is_string (lit : string) (v : option JSON) : bool :=
  match v with
  | Some (JStr s) => String.eqb s lit
  | _ => false
  end.

Definition num (n : nat) : JSON := JNum (Z.of_nat n) 0.

(** A canonical array index: the decimal numeral, without leading zero,
    of an integer below 2^32 - 1. *)
Definition array_index (k : string) : option N :=
  match NilZero.uint_of_string k with
  | Some u =>
      let n := N.of_uint u in
      if String.eqb (Str.of_N n) k && (n <? 4294967295)%N then Some n
      else None
  | None => None
  end.

(** ** Objects: ordinary own property keys

    Integer keys come first, in ascending order, then the other keys in
    the order of their creation. *)
Definition obj := list (string * JSON).

Fixpoint obj_get (k : string) (o : obj) : option JSON :=
  match o with
  | [] => None
  | (k', v) :: o' => if String.eqb k k' then Some v else obj_get k o'
  end.

Fixpoint obj_replace (k : string) (v : JSON) (o : obj) : obj :=
  match o with
  | [] => []
  | (k', v') :: o' =>
      if String.eqb k k' then (k, v) :: o' else (k', v') :: obj_replace k v o'
  end.

(** Is the new key [k] enumerated before the existing key [k']? *)
Definition key_before (k k' : string) : bool :=
  match array_index k, array_index k' with
  | Some i, Some j => (i <? j)%N
  | Some _, None => true
  | None, _ => false
  end.

Fixpoint obj_insert (k : string) (v : JSON) (o : obj) : obj :=
  match o with
  | [] => [(k, v)]
  | (k', v') :: o' =>
      if key_before k k' then (k, v) :: o
      else (k', v') :: obj_insert k v o'
  end.

(** The definition of the own property [k] with the value [v], as an
    object literal, a spread and [JSON.parse] define it: an own property
    of that name gets the value, otherwise the property is created. *)
Definition obj_set (k : string) (v : JSON) (o : obj) : obj :=
  match obj_get k o with
  | Some _ => obj_replace k v o
  | None => obj_insert k v o
  end.

(** The assignment [o[k] = v] of an object [v] to a plain object [o].  It
    defines the own property, but for the key [__proto__] when [o] has no
    own property of that name: the assignment then goes to the accessor
    of [Object.prototype], which makes [v] the prototype of [o] and
    creates no property. *)
Definition obj_put (k : string) (v : JSON) (o : obj) : obj :=
  match obj_get k o with
  | Some _ => obj_replace k v o
  | None => if String.eqb k "__proto__" then o else obj_insert k v o
  end.

(** The spread of [source] at the end of an object literal that starts
    as [target]: every property of [source] is defined. *)
Definition obj_assign (target source : obj) : obj :=
  fold_left (fun t kv => obj_set (fst kv) (snd kv) t) source target.

(** [Object.assign(target, source)]: every property of [source] is
    assigned. *)
Definition Object_assign (target source : obj) : obj :=
  fold_left (fun t kv => obj_put (fst kv) (snd kv) t) source target.

(** An object literal [{k1: v1, ..., kn: vn}]; a property whose value is
    [undefined] is left out, as it is when the object is serialized. *)
Fixpoint literal (fields : list (string * option JSON)) : obj :=
  match fields with
  | [] => []
  | (k, Some v) :: fs => obj_assign [(k, v)] (literal fs)
  | (_, None) :: fs => literal fs
  end.

Fixpoint indexed (i : nat) (l : list JSON) : obj :=
  match l with
  | [] => []
  | v :: l' => (Str.of_nat i, v) :: indexed (S i) l'
  end.

Fixpoint chars (s : string) : list JSON :=
  match s with
  | EmptyString => []
  | String c s' => JStr (String c EmptyString) :: chars s'
  end.

(** The own enumerable string-keyed properties of a value. *)
Definition own_props (v : JSON) : obj :=
  match v with
  | JObj o => o
  | JArr l => indexed 0 l
  | JStr s => indexed 0 (chars s)
  | JNull | JBool _ | JNum _ _ => []
  end.

(** [{...v}]: [undefined] and [null] spread to nothing. *)
Definition spread (v : option JSON) : obj :=
  match v with
  | Some v => own_props v
  | None => []
  end.

(** [Object.entries(v)] *)
Definition Object_entries (v : option JSON) : outcome obj :=
  match v with
  | None | Some JNull =>
      Throw (TypeError "Cannot convert undefined or null to object")
  | Some v => Return (own_props v)
  end.

(** [Object.keys(o)] *)
Definition Object_keys (o : obj) : list string := map fst o.

(** [v.k] for a key [k] that no built-in prototype defines; reading a
    property of [undefined] or [null] throws. *)
Definition get_prop (v : option JSON) (k : string) : outcome (option JSON) :=
  match v with
  | None =>
      Throw (TypeError ("Cannot read properties of undefined (reading '"
                        ++ k ++ "')"))
  | Some JNull =>
      Throw (TypeError ("Cannot read properties of null (reading '"
                        ++ k ++ "')"))
  | Some v => Return (obj_get k (own_props v))
  end.

(** ** Sorting

    The result of a comparison function is a number, [None] when it is
    NaN.  [SortCompare] counts NaN as zero. *)
Definition comes_after {A} (comparefn : A -> A -> option Z) (a b : A) : bool :=
  match comparefn a b with
  | Some v => (0 <? v)%Z
  | None => false
  end.

Fixpoint sort_insert {A} (comparefn : A -> A -> option Z) (x : A) (l : list A)
  : list A :=
  match l with
  | [] => [x]
  | y :: l' =>
      if comes_after comparefn x y then y :: sort_insert comparefn x l'
      else x :: l
  end.

(** The stable sort: an element moves behind another only when the
    comparison of the two is positive.  For a consistent comparison
    function this is the order that [Array.prototype.sort] must produce
    (ascending by the comparison, equal elements in their original
    order). *)
Fixpoint stable_sort {A} (comparefn : A -> A -> option Z) (l : list A) : list A :=
  match l with
  | [] => []
  | x :: l' => sort_insert comparefn x (stable_sort comparefn l')
  end.

Definition sorts_before {A} (comparefn : A -> A -> option Z) (a b : A) : Prop :=
  exists v, comparefn a b = Some v /\ (v < 0)%Z.
Definition sorts_equal {A} (comparefn : A -> A -> option Z) (a b : A) : Prop :=
  comparefn a b = Some 0%Z.
Definition sorts_after {A} (comparefn : A -> A -> option Z) (a b : A) : Prop :=
  exists v, comparefn a b = Some v /\ (0 < v)%Z.

(** [comparefn] is a consistent comparator for the elements of [l]
    (ECMA-262, Array.prototype.sort): no comparison is NaN, and the
    comparisons divide the elements into classes that are totally
    ordered. *)
Definition consistent {A} (comparefn : A -> A -> option Z) (l : list A) : Prop :=
  (forall a b, In a l -> In b l -> comparefn a b <> None) /\
  (forall a, In a l -> sorts_equal comparefn a a) /\
  (forall a b, In a l -> In b l ->
     sorts_equal comparefn a b -> sorts_equal comparefn b a) /\
  (forall a b c, In a l -> In b l -> In c l ->
     sorts_equal comparefn a b -> sorts_equal comparefn b c ->
     sorts_equal comparefn a c) /\
  (forall a b c, In a l -> In b l -> In c l ->
     sorts_before comparefn a b -> sorts_before comparefn b c ->
     sorts_before comparefn a c) /\
  (forall a b c, In a l -> In b l -> In c l ->
     sorts_after comparefn a b -> sorts_after comparefn b c ->
     sorts_after comparefn a c).

End Js.

(* ================================================================== *)
(** * Paths: the [path] module of Node, POSIX flavour *)
(* ================================================================== *)

Module Path.

Definition slash : ascii := "/"%char.

Definition segments_of (p : string) : list string := Str.split_on slash p.

(** One step of [normalizeString]: the stack holds the segments kept so
    far, the last one on top. *)
Definition step (allowAboveRoot : bool) (stack : list string) (seg : string)
  : list string :=
  if String.eqb seg "" || String.eqb seg "." then stack
  else if String.eqb seg ".." then
    match stack with
    | top :: below =>
        if String.eqb top ".." then
          (if allowAboveRoot then seg :: stack else stack)
        else below
    | [] => if allowAboveRoot then [seg] else []
    end
  else seg :: stack.

Definition normalize_segments (allowAboveRoot : bool) (stack : list string)
  (segs : list string) : list string :=
  fold_left (step allowAboveRoot) segs stack.

Definition is_absolute (p : string) : bool := Str.starts_with "/" p.
Definition has_trailing_slash (p : string) : bool := Str.ends_with "/" p && negb (String.eqb p "").

(** [path.normalize(p)] *)
Definition normalize (p : string) : string :=
  if String.eqb p "" then "."
  else
    let absolute := is_absolute p in
    let trailing := has_trailing_slash p in
    let body :=
      Str.join "/" (rev (normalize_segments (negb absolute) [] (segments_of p))) in
    if String.eqb body "" then
      (if absolute then "/" else if trailing then "./" else ".")
    else
      (if absolute then "/" else "") ++ body ++ (if trailing then "/" else "").

(** [path.join(...args)] *)
Definition join (args : list string) : string :=
  match filter (fun a => negb (String.eqb a "")) args with
  | [] => "."
  | parts => normalize (Str.join "/" parts)
  end.

(** The text of [s] before its last slash that a character other than a
    slash follows. *)
Fixpoint before_last_separator (s : string) : option string :=
  match s with
  | EmptyString => None
  | String c s' =>
      match before_last_separator s' with
      | Some p => Some (String c p)
      | None =>
          match s' with
          | String d _ =>
              if Ascii.eqb c slash && negb (Ascii.eqb d slash)
              then Some EmptyString else None
          | EmptyString => None
          end
      end
  end.

(** [path.dirname(p)] *)
Definition dirname (p : string) : string :=
  match p with
  | EmptyString => "."
  | String c0 rest =>
      let hasRoot := Ascii.eqb c0 slash in
      match before_last_separator rest with
      | None => if hasRoot then "/" else "."
      | Some before =>
          if hasRoot && String.eqb before "" then "//"
          else String c0 before
      end
  end.

(** A name that a directory can hold. *)
Definition valid_name (s : string) : bool :=
  negb (String.eqb s "") && negb (String.eqb s ".")
  && negb (String.eqb s "..") && negb (Str.includes "/" s).

End Path.

(* ================================================================== *)
(** * The platform *)
(* ================================================================== *)

(** What Node provides and the source does not show. *)
Class Platform : Type := {
  (** [JSON.parse(text)] *)
  JSON_parse : string -> outcome JSON;
  (** [JSON.stringify(value, null, 2)] *)
  JSON_stringify : JSON -> string;
  (** [new Date(value).getTime()]; [None] is NaN, the time of an invalid
      date. *)
  Date_getTime : option JSON -> option Z;
  (** [new Date(time).toISOString()] *)
  Date_toISOString : Z -> string;
  (** [error.stack] *)
  error_stack : JsError -> string;
  (** [Buffer.from(value)] for an array or an object: the bytes of an
      array-like, an error for another object. *)
  Buffer_from_object : JSON -> outcome string;
  Buffer_from_object_error :
    forall (value : JSON) (e : JsError),
      Buffer_from_object value = Throw e ->
      err_name e = "TypeError" \/ err_name e = "RangeError";
  (** [array.sort(comparefn)].  The language fixes the order for a
      consistent comparison function only; for any other, for one that
      yields NaN in particular, the order is the engine's own. *)
  Array_sort : forall A : Type, (A -> A -> option Z) -> list A -> list A;
  Array_sort_consistent :
    forall (A : Type) (comparefn : A -> A -> option Z) (l : list A),
      Js.consistent comparefn l ->
      Array_sort A comparefn l = Js.stable_sort comparefn l;
  (** The directory of the script, an absolute path. *)
  __dirname : string;
  dirname_absolute : Path.is_absolute __dirname = true
}.
Arguments Array_sort {_ A} comparefn l.

(* ================================================================== *)
(** * The file system *)
(* ================================================================== *)

(** A regular file has a content and a modification time (milliseconds
    since the epoch); a directory lists its entries in the order in which
    [readdir] yields them. *)
Inductive node : Type :=
| File (content : string) (mtime : Z)
| Dir (entries : list (string * node)).

Inductive errno : Type := ENOENT | ENOTDIR | EISDIR | EEXIST | EBUSY.

Module Tree.

Fixpoint child (name : string) (es : list (string * node)) : option node :=
  match es with
  | [] => None
  | (k, n) :: es' => if String.eqb name k then Some n else child name es'
  end.

(** Replace the entry [name], or add it after the others. *)
Fixpoint set_child (name : string) (n : node) (es : list (string * node))
  : list (string * node) :=
  match es with
  | [] => [(name, n)]
  | (k, m) :: es' =>
      if String.eqb name k then (k, n) :: es'
      else (k, m) :: set_child name n es'
  end.

Fixpoint remove_child (name : string) (es : list (string * node))
  : list (string * node) :=
  match es with
  | [] => []
  | (k, m) :: es' =>
      if String.eqb name k then remove_child name es'
      else (k, m) :: remove_child name es'
  end.

Fixpoint lookup (p : list string) (n : node) : option node :=
  match p with
  | [] => Some n
  | s :: p' =>
      match n with
      | Dir es =>
          match child s es with
          | Some c => lookup p' c
          | None => None
          end
      | File _ _ => None
      end
  end.

(** [mkdir -p]: every missing directory of the path is created; it fails
    when a component is a regular file. *)
Fixpoint mkdir_p (p : list string) (n : node) : errno + node :=
  match n with
  | File _ _ => inl (match p with [] => EEXIST | _ => ENOTDIR end)
  | Dir es =>
      match p with
      | [] => inr n
      | s :: p' =>
          match mkdir_p p' (match child s es with
                            | Some c => c
                            | None => Dir []
                            end) with
          | inr c' => inr (Dir (set_child s c' es))
          | inl e => inl e
          end
      end
  end.

(** Create or replace the regular file at [p]; its directory must exist. *)
Fixpoint write (p : list string) (f : node) (n : node) : errno + node :=
  match n with
  | File _ _ => inl ENOTDIR
  | Dir es =>
      match p with
      | [] => inl EISDIR
      | s :: p' =>
          match p' with
          | [] =>
              match child s es with
              | Some (Dir _) => inl EISDIR
              | _ => inr (Dir (set_child s f es))
              end
          | _ :: _ =>
              match child s es with
              | Some c =>
                  match write p' f c with
                  | inr c' => inr (Dir (set_child s c' es))
                  | inl e => inl e
                  end
              | None => inl ENOENT
              end
          end
      end
  end.

(** Does the path [p] run through a regular file: does a proper prefix of
    it name one? *)
Fixpoint through_file (p : list string) (n : node) : bool :=
  match p with
  | [] => false
  | s :: p' =>
      match n with
      | File _ _ => true
      | Dir es =>
          match child s es with
          | Some c => through_file p' c
          | None => false
          end
      end
  end.

(** Remove the entry at [p] with all that it holds; the root itself can
    only be emptied. *)
Fixpoint remove (p : list string) (n : node) : node :=
  match n with
  | File _ _ => n
  | Dir es =>
      match p with
      | [] => Dir []
      | s :: p' =>
          match p' with
          | [] => Dir (remove_child s es)
          | _ :: _ =>
              match child s es with
              | Some c => Dir (set_child s (remove p' c) es)
              | None => n
              end
          end
      end
  end.

End Tree.

(** A line of [console.error]: its arguments. *)
Inductive LogArg : Type :=
| LStr (s : string)
| LErr (e : JsError).

Record World : Type := mkWorld {
  fs_root : node;
  console : list (list LogArg)
}.

(** The monad of the server's asynchronous functions: they run one after
    the other on the world and return a value or throw. *)
Definition M (A : Type) : Type := World -> World * outcome A.

Definition ret {A} (a : A) : M A := fun w => (w, Return a).
Definition throw {A} (e : JsError) : M A := fun w => (w, Throw e).
Definition bind {A B} (m : M A) (k : A -> M B) : M B :=
  fun w =>
    match m w with
    | (w', Return a) => k a w'
    | (w', Throw e) => (w', Throw e)
    end.
Definition try_catch {A} (m : M A) (handler : JsError -> M A) : M A :=
  fun w =>
    match m w with
    | (w', Return a) => (w', Return a)
    | (w', Throw e) => handler e w'
    end.
Definition lift {A} (o : outcome A) : M A := fun w => (w, o).

Declare Scope js_scope.
Delimit Scope js_scope with js.
Notation "x <- m ;; k" := (bind m (fun x => k))
  (at level 61, m at next level, right associativity) : js_scope.
Notation "m ;;; k" := (bind m (fun _ => k))
  (at level 61, right associativity) : js_scope.
Open Scope js_scope.

(** [for (const x of l) body(x)] *)
Fixpoint for_of {A} (l : list A) (body : A -> M unit) : M unit :=
  match l with
  | [] => ret tt
  | x :: l' => body x ;;; for_of l' body
  end.

(** [console.error(...args)] *)
Definition console_error (args : list LogArg) : M unit :=
  fun w => (mkWorld (fs_root w) (console w ++ [args]), Return tt).

Module Fs.

(** The components of a path handed to the file system.  Every path that
    the server hands over comes out of [path.join] or [path.dirname] and
    is absolute; its dots, if any, are resolved textually. *)
Definition components (p : string) : list string :=
  rev (Path.normalize_segments false [] (Path.segments_of p)).

Definition describe (e : errno) : string :=
  match e with
  | ENOENT => "ENOENT: no such file or directory"
  | ENOTDIR => "ENOTDIR: not a directory"
  | EISDIR => "EISDIR: illegal operation on a directory"
  | EEXIST => "EEXIST: file already exists"
  | EBUSY => "EBUSY: resource busy or locked"
  end.

Definition failure (e : errno) (syscall path : string) : JsError :=
  Error (describe e ++ ", " ++ syscall ++ " '" ++ path ++ "'").

(** The node that a path names.  A path with a trailing slash names
    directories only. *)
Definition resolve (syscall p : string) : M node :=
  fun w =>
    match Tree.lookup (components p) (fs_root w) with
    | Some (File c t) =>
        if Path.has_trailing_slash p
        then (w, Throw (failure ENOTDIR syscall p))
        else (w, Return (File c t))
    | Some (Dir es) => (w, Return (Dir es))
    | None => (w, Throw (failure ENOENT syscall p))
    end.

(** [fs.mkdir(p, { recursive: true })] *)
Definition mkdir (p : string) : M unit :=
  fun w =>
    match Tree.mkdir_p (components p) (fs_root w) with
    | inr root' => (mkWorld root' (console w), Return tt)
    | inl e => (w, Throw (failure e "mkdir" p))
    end.

(** Open the file [p] for writing and write [content], at the time
    [now]: the file is created, or loses what it held. *)
Definition write_content (now : Z) (p : string) (content : string) : M unit :=
  fun w =>
    if Path.has_trailing_slash p then
      (w, Throw (failure
                   (match Tree.lookup (components p) (fs_root w) with
                    | Some (File _ _) => ENOTDIR
                    | _ => EISDIR
                    end) "open" p))
    else
      match Tree.write (components p) (File content now) (fs_root w) with
      | inr root' => (mkWorld root' (console w), Return tt)
      | inl e => (w, Throw (failure e "open" p))
      end.

(** [Buffer.from(chunk, 'utf8')]: the bytes of a chunk of the data. *)
Definition Buffer_from `{Platform} (chunk : JSON) : outcome string :=
  match chunk with
  | JStr s => Return s
  | JArr _ | JObj _ => Buffer_from_object chunk
  | JNull | JBool _ | JNum _ _ =>
      Throw (TypeError
        "The first argument must be of type string or an instance of Buffer, ArrayBuffer, or Array or an Array-like Object.")
  end.

(** The chunks of an array are written one after the other; the first
    chunk that has no bytes ends the writing with its error.  The result
    is what has been written by then, and the error if there is one. *)
Fixpoint write_chunks `{Platform} (chunks : list JSON) : string * option JsError :=
  match chunks with
  | [] => ("", None)
  | chunk :: rest =>
      match Buffer_from chunk with
      | Return bytes =>
          let (written, error) := write_chunks rest in
          (bytes ++ written, error)
      | Throw e => ("", Some e)
      end
  end.

(** [fs.writeFile(p, data, 'utf8')], at the time [now].  A string is
    written as it is.  An array is iterated: the file is opened (and
    emptied) first, then the chunks are written, so that a chunk that is
    refused leaves the file with the chunks before it.  Any other value
    is refused before the file is touched.  (The messages of the two
    TypeErrors are Node's up to their last sentence, which describes the
    value received.) *)
Definition writeFile `{Platform} (now : Z) (p : string) (data : option JSON)
  : M unit :=
  match data with
  | Some (JStr content) => write_content now p content
  | Some (JArr chunks) =>
      let (content, error) := write_chunks chunks in
      write_content now p content ;;;
      match error with
      | Some e => throw e
      | None => ret tt
      end
  | _ =>
      throw (TypeError
        ("The " ++ Str.dquote ++ "data" ++ Str.dquote
         ++ " argument must be of type string or an instance of Buffer, TypedArray, or DataView."))
  end.

(** [fs.readFile(p, 'utf8')] *)
Definition readFile (p : string) : M string :=
  n <- resolve "open" p ;;
  match n with
  | File content _ => ret content
  | Dir _ => throw (Error (describe EISDIR ++ ", read"))
  end.

(** What the server reads of [fs.stat(p)].  The size and the times of a
    directory are not modelled: the server never reads them. *)
Record Stats : Type := mkStats {
  isDirectory : bool;
  size : nat;
  mtime : Z
}.

Definition stat (p : string) : M Stats :=
  n <- resolve "stat" p ;;
  match n with
  | File content t => ret (mkStats false (Str.utf8_length content) t)
  | Dir _ => ret (mkStats true 0 0)
  end.

(** [fs.access(p)] *)
Definition access (p : string) : M unit :=
  resolve "access" p ;;; ret tt.

(** [fs.readdir(p)] *)
Definition readdir (p : string) : M (list string) :=
  n <- resolve "scandir" p ;;
  match n with
  | Dir es => ret (map fst es)
  | File _ _ => throw (failure ENOTDIR "scandir" p)
  end.

(** The path [p] cannot be examined, because a regular file is where it
    needs a directory (ENOTDIR): it runs through a regular file, or it
    names one and ends with a slash. *)
Definition not_a_directory (p : string) (root : node) : bool :=
  Tree.through_file (components p) root
  || match Tree.lookup (components p) root with
     | Some (File _ _) => Path.has_trailing_slash p
     | _ => false
     end.

(** [fs.rm(p, { recursive: true, force: true })].  The path is examined
    first ([lstat]): [force] forgives that nothing has this name
    (ENOENT), and nothing else, so that a path which cannot be examined
    fails and nothing is removed. *)
Definition rm (p : string) : M unit :=
  fun w =>
    match components p with
    | [] =>
        (mkWorld (Tree.remove [] (fs_root w)) (console w),
         Throw (failure EBUSY "rm" p))
    | _ :: _ =>
        if not_a_directory p (fs_root w)
        then (w, Throw (failure ENOTDIR "lstat" p))
        else (mkWorld (Tree.remove (components p) (fs_root w)) (console w),
              Return tt)
    end.

End Fs.

(** An HTTP response: [res.status(status).json(body)]. *)
Record Response : Type := mkResponse {
  status : nat;
  body : JSON
}.

Definition json (o : list (string * option JSON)) : Response :=
  mkResponse 200 (JObj (Js.literal o)).
Definition status_json (code : nat) (o : list (string * option JSON)) : Response :=
  mkResponse code (JObj (Js.literal o)).

(* ================================================================== *)
(** * Conversion to text *)
(* ================================================================== *)

Module JsText.

Fixpoint zeros (n : nat) : string :=
  match n with
  | O => ""
  | S n' => String "0"%char (zeros n')
  end.

(** Remove the zeros that end a mantissa. *)
Fixpoint strip_zeros (fuel : nat) (m e : Z) : Z * Z :=
  match fuel with
  | O => (m, e)
  | S fuel' =>
      if (m mod 10 =? 0)%Z then strip_zeros fuel' (m / 10)%Z (e + 1)%Z
      else (m, e)
  end.

(** Number::toString for the decimal [m * 10 ^ e]. *)
Definition number_to_string (m e : Z) : string :=
  if (m =? 0)%Z then "0"
  else
    let '(m', e') := strip_zeros (S (Z.to_nat (Z.log2 (Z.abs m)))) (Z.abs m) e in
    let digits := Str.of_Z m' in
    let k := Z.of_nat (String.length digits) in
    let n := (k + e')%Z in
    (if (m <? 0)%Z then "-" else "")
    ++ (if (k <=? n)%Z && (n <=? 21)%Z then
          digits ++ zeros (Z.to_nat (n - k))
        else if (0 <? n)%Z && (n <=? 21)%Z then
          substring 0 (Z.to_nat n) digits ++ "."
          ++ substring (Z.to_nat n) (Z.to_nat (k - n)) digits
        else if (-6 <? n)%Z && (n <=? 0)%Z then
          "0." ++ zeros (Z.to_nat (- n)) ++ digits
        else
          let ex := (n - 1)%Z in
          let exs := (if (ex <? 0)%Z then "-" else "+") ++ Str.of_Z (Z.abs ex) in
          if (k =? 1)%Z then digits ++ "e" ++ exs
          else substring 0 1 digits ++ "."
               ++ substring 1 (Z.to_nat (k - 1)) digits ++ "e" ++ exs).

(** ToString of a value (an object that redefines [toString] apart). *)
Fixpoint to_string (v : JSON) : string :=
  match v with
  | JNull => "null"
  | JBool true => "true"
  | JBool false => "false"
  | JNum m e => number_to_string m e
  | JStr s => s
  | JArr l =>
      Str.join "," (map (fun x => match x with
                                  | JNull => ""
                                  | _ => to_string x
                                  end) l)
  | JObj _ => "[object Object]"
  end.

(** [`${v}`] *)
Definition template (v : option JSON) : string :=
  match v with
  | Some v => to_string v
  | None => "undefined"
  end.

(** A literal in which [~] stands for the double quote. *)
Definition quoted (s : string) : string :=
  Str.subst_char "~"%char Str.dquote s.

End JsText.

(* ================================================================== *)
(** * Regular expressions *)
(* ================================================================== *)

(** The fragment that the server's three expressions use: literals, the
    star (greedy or lazy) of a character class, and one capture group.
    Matching backtracks as ECMAScript prescribes. *)
Module Regex.

Inductive atom : Type :=
| Lit (s : string)
| Star (greedy : bool) (cls : ascii -> bool)
| GroupOpen
| GroupClose.

(** A match: the text matched and the text captured by the group. *)
Definition result : Type := string * string.

Definition add (inside : bool) (c : string) (r : option result)
  : option result :=
  match r with
  | Some (m0, m1) => Some (c ++ m0, if inside then c ++ m1 else m1)
  | None => None
  end.

Fixpoint match_here (re : list atom) (inside : bool) (s : string)
  {struct re} : option result :=
  match re with
  | [] => Some ("", "")
  | Lit l :: re' =>
      match Str.drop_prefix l s with
      | Some s' => add inside l (match_here re' inside s')
      | None => None
      end
  | GroupOpen :: re' => match_here re' true s
  | GroupClose :: re' => match_here re' false s
  | Star true cls :: re' =>
      (fix star (s : string) : option result :=
         match s with
         | String c s' =>
             if cls c then
               match star s' with
               | Some r => add inside (String c "") (Some r)
               | None => match_here re' inside s
               end
             else match_here re' inside s
         | EmptyString => match_here re' inside s
         end) s
  | Star false cls :: re' =>
      (fix star (s : string) : option result :=
         match match_here re' inside s with
         | Some r => Some r
         | None =>
             match s with
             | String c s' =>
                 if cls c then add inside (String c "") (star s') else None
             | EmptyString => None
             end
         end) s
  end.

(** [s.match(re)] for an expression without the global flag: the match
    that starts leftmost. *)
Fixpoint search (re : list atom) (s : string) : option result :=
  match match_here re false s with
  | Some r => Some r
  | None =>
      match s with
      | EmptyString => None
      | String _ s' => search re s'
      end
  end.

Definition any (c : ascii) : bool := true.
Definition space (c : ascii) : bool := Str.is_space c.

(** [/```json\s*([\s\S]*?)\s*```/] *)
Definition json_fence : list atom :=
  [Lit "```json"; Star true space; GroupOpen; Star false any; GroupClose;
   Star true space; Lit "```"].

(** [/```\s*([\s\S]*?)\s*```/] *)
Definition plain_fence : list atom :=
  [Lit "```"; Star true space; GroupOpen; Star false any; GroupClose;
   Star true space; Lit "```"].

(** [/\{[\s\S]*\}/] *)
Definition braces : list atom :=
  [Lit "{"; Star true any; Lit "}"].

End Regex.

(* ================================================================== *)
(** * The server: configuration and the LLM gateway *)
(* ================================================================== *)

Definition and_then {A B} (o : outcome A) (k : A -> outcome B) : outcome B :=
  match o with
  | Return a => k a
  | Throw e => Throw e
  end.

Notation "x <~ o ;; k" := (and_then o (fun x => k))
  (at level 61, o at next level, right associativity) : js_scope.

(** The short names of the models and the identifiers of the provider. *)
Definition AVAILABLE_MODELS : Js.obj :=
  [("llama-4-scout", JStr "meta-llama/llama-4-scout-17b-16e-instruct");
   ("llama-3.3-70b", JStr "llama-3.3-70b-versatile");
   ("mixtral-8x7b", JStr "mixtral-8x7b-32768");
   ("gemma2-9b", JStr "gemma2-9b-it")].

Definition PROJECTS_DIR `{Platform} : string :=
  Path.join [__dirname; "generated_projects"].

(** The provider behind the SDK: from the parameters of a completion to
    the content of its first choice, if it has one; it may throw. *)
Definition Provider : Type := Js.obj -> outcome (option string).

Definition or_default (v : option JSON) (d : JSON) : option JSON :=
  match v with
  | None => Some d
  | Some _ => v
  end.

Module GroqClient.

(** The argument of [groq.chat.completions.create].  A key of
    [AVAILABLE_MODELS] is looked up among its own properties. *)
Definition params (stream : bool) (model messages options : option JSON)
  : outcome Js.obj :=
  temperature <~ Js.get_prop options "temperature" ;;
  maxTokens <~ Js.get_prop options "maxTokens" ;;
  top_p <~ Js.get_prop options "top_p" ;;
  Return (Js.literal
    [("messages", messages);
     ("model", Js.or (Js.obj_get (JsText.template model) AVAILABLE_MODELS) model);
     ("temperature", Js.or temperature (Some (JNum 7 (-1))));
     ("max_tokens", Js.or maxTokens (Some (JNum 4000 0)));
     ("top_p", Js.or top_p (Some (JNum 1 0)));
     ("stream", Some (JBool stream));
     ("stop", Some JNull)]).

(** [chat(model, messages, options = {})]; the value returned stands for
    [{choices: [{message: {content}}]}], of which the callers read the
    content only. *)
Definition chat (groq : Provider) (model messages options : option JSON)
  : M string :=
  try_catch
    (request <- lift (params false model messages (or_default options (JObj []))) ;;
     content <- lift (groq request) ;;
     ret (match content with
          | Some c => c
          | None => ""
          end))
    (fun error =>
       console_error [LStr "Groq API error:"; LErr error] ;;;
       throw (Error ("Groq API error: " ++ err_message error))).

End GroqClient.

(** The gateway of the OpenRouter edition builds the body of its request
    differently: the options are spread after the defaults. *)
Module OpenRouterClient.

Definition AVAILABLE_MODELS : Js.obj :=
  [("gemini-2.0-flash", JStr "google/gemini-2.0-flash-exp:free");
   ("devstral-small", JStr "mistralai/devstral-small:free")].

Definition request_body (model messages options : option JSON)
  : outcome Js.obj :=
  temperature <~ Js.get_prop options "temperature" ;;
  maxTokens <~ Js.get_prop options "maxTokens" ;;
  Return (Js.obj_assign
    (Js.literal
       [("model", Js.or (Js.obj_get (JsText.template model) AVAILABLE_MODELS) model);
        ("messages", messages);
        ("temperature", Js.or temperature (Some (JNum 7 (-1))));
        ("max_tokens", Js.or maxTokens (Some (JNum 4000 0)))])
    (Js.spread options)).

End OpenRouterClient.

(* ================================================================== *)
(** * The project generator *)
(* ================================================================== *)

Module Prompts.

Definition generate : string := JsText.quoted
    "You are a senior full-stack backend developer and architect. Generate a complete, production-ready backend project structure based on the user's prompt.

CRITICAL: Your response must be a valid JSON object with this EXACT structure:
{
  ~projectName~: ~kebab-case-project-name~,
  ~description~: ~Brief project description~,
  ~technology~: ~primary technology stack (Node.js, Python, etc.)~,
  ~framework~: ~framework used (Express, FastAPI, Django, etc.)~,
  ~database~: ~database type (MongoDB, PostgreSQL, etc.)~,
  ~fileTree~: {
    ~src/~: { ~type~: ~directory~ },
    ~src/controllers/~: { ~type~: ~directory~ },
    ~src/models/~: { ~type~: ~directory~ },
    ~src/routes/~: { ~type~: ~directory~ },
    ~src/middleware/~: { ~type~: ~directory~ },
    ~src/utils/~: { ~type~: ~directory~ },
    ~src/config/~: { ~type~: ~directory~ },
    ~src/app.js~: {
      ~type~: ~file~,
      ~content~: ~complete file content here~
    },
    ~package.json~: {
      ~type~: ~file~, 
      ~content~: ~complete package.json content~
    }
  },
  ~dependencies~: {
    ~express~: ~^4.18.2~,
    ~mongoose~: ~^7.5.0~
  },
  ~devDependencies~: {
    ~nodemon~: ~^3.0.1~,
    ~jest~: ~^29.6.4~
  },
  ~setupInstructions~: [
    ~Clone the repository~,
    ~Run npm install~,
    ~Set up environment variables~,
    ~Run npm start~
  ],
  ~apiEndpoints~: [
    {
      ~method~: ~GET~,
      ~path~: ~/api/endpoint~,
      ~description~: ~endpoint description~,
      ~parameters~: [~param1~, ~param2~],
      ~response~: ~response description~
    }
  ],
  ~environmentVariables~: {
    ~NODE_ENV~: ~development~,
    ~PORT~: ~3000~,
    ~DATABASE_URL~: ~your_database_url~
  }
}

Generate COMPLETE, FUNCTIONAL code:
- All files must have complete, working code (no placeholders)
- Include proper error handling and validation
- Add authentication/authorization if needed
- Include database models and schemas
- Add middleware for CORS, logging, error handling
- Include Docker support when appropriate
- Add comprehensive API documentation
- Include testing setup
- Follow best practices and security measures
- Make it production-ready

The code should be immediately runnable after setup.".

Definition enhance : string :=
    "You are a senior developer. Enhance the provided code file to meet the specific requirements. 
    
IMPORTANT: Return ONLY the enhanced code content, no explanations, no markdown formatting, no code blocks.".

Definition rewrite : string :=
    "You are a senior developer. Completely rewrite the provided code file based on the instructions.
    
IMPORTANT: Return ONLY the rewritten code content, no explanations, no markdown formatting, no code blocks.".

End Prompts.

Module ProjectGenerator.

(** The text that [generateProjectStructure] hands to [JSON.parse], cut
    out of the content of the model's reply. *)
Definition jsonContent (content : string) : string :=
  if Str.includes "```json" content then
    match Regex.search Regex.json_fence content with
    | Some (_, group1) => group1
    | None => content
    end
  else if Str.includes "```" content then
    match Regex.search Regex.plain_fence content with
    | Some (_, group1) => group1
    | None => content
    end
  else
    match Regex.search Regex.braces content with
    | Some (match0, _) => match0
    | None => content
    end.

Definition message (role : string) (content : option JSON) : JSON :=
  JObj (Js.literal [("role", Some (JStr role)); ("content", content)]).

Definition options (temperature maxTokens : JSON) : option JSON :=
  Some (JObj (Js.literal [("temperature", Some temperature);
                          ("maxTokens", Some maxTokens)])).

(** The end of [generateProjectStructure]: parse what was cut out. *)
Definition parse_reply `{Platform} (content : string) : M JSON :=
  match JSON_parse (jsonContent content) with
  | Return projectData => ret projectData
  | Throw parseError =>
      console_error [LStr "JSON Parse Error:"; LErr parseError] ;;;
      console_error [LStr "Content:"; LStr (jsonContent content)] ;;;
      throw (Error "Invalid JSON response from AI model")
  end.

(** [generateProjectStructure(prompt, model = 'llama-4-scout')] *)
Definition generateProjectStructure `{Platform} (groq : Provider)
  (prompt model : option JSON) : M JSON :=
  let model := or_default model (JStr "llama-4-scout") in
  let messages :=
    JArr [message "system" (Some (JStr Prompts.generate));
          message "user" prompt] in
  content <- GroqClient.chat groq model (Some messages)
               (options (JNum 3 (-1)) (JNum 8000 0)) ;;
  parse_reply content.

Definition newline : string := String (ascii_of_nat 10) EmptyString.

(** Remove the code block markers of a reply, if present. *)
Definition strip_code_block (content : string) : outcome string :=
  if Str.starts_with "```" content then
    match Str.split_on (ascii_of_nat 10) content with
    | [] => Return content
    | _ :: lines =>
        match rev lines with
        | [] => Throw (TypeError
                  "Cannot read properties of undefined (reading 'trim')")
        | last :: before =>
            if String.eqb (Str.trim last) "```"
            then Return (Str.join newline (rev before))
            else Return (Str.join newline lines)
        end
    end
  else Return content.

(** [enhanceFileContent(filePath, currentContent, requirements, model)] *)
Definition enhanceFileContent (groq : Provider) (filePath currentContent : string)
  (requirements model : option JSON) : M string :=
  let model := or_default model (JStr "llama-4-scout") in
  let userPrompt :=
    "File: " ++ filePath ++ newline ++ newline
    ++ "Current content:" ++ newline ++ currentContent ++ newline ++ newline
    ++ "Enhancement requirements:" ++ newline
    ++ JsText.template requirements ++ newline ++ newline
    ++ "Provide the complete enhanced file content:" in
  let messages :=
    JArr [message "system" (Some (JStr Prompts.enhance));
          message "user" (Some (JStr userPrompt))] in
  content <- GroqClient.chat groq model (Some messages)
               (options (JNum 2 (-1)) (JNum 6000 0)) ;;
  lift (strip_code_block (Str.trim content)).

(** [rewriteFileContent(filePath, currentContent, instructions, model)] *)
Definition rewriteFileContent (groq : Provider) (filePath currentContent : string)
  (instructions model : option JSON) : M string :=
  let model := or_default model (JStr "llama-4-scout") in
  let userPrompt :=
    "File: " ++ filePath ++ newline ++ newline
    ++ "Current content:" ++ newline ++ currentContent ++ newline ++ newline
    ++ "Rewrite instructions:" ++ newline
    ++ JsText.template instructions ++ newline ++ newline
    ++ "Provide the complete rewritten file content:" in
  let messages :=
    JArr [message "system" (Some (JStr Prompts.rewrite));
          message "user" (Some (JStr userPrompt))] in
  content <- GroqClient.chat groq model (Some messages)
               (options (JNum 3 (-1)) (JNum 6000 0)) ;;
  lift (strip_code_block (Str.trim content)).

End ProjectGenerator.

(* ================================================================== *)
(** * File system utilities *)
(* ================================================================== *)

Module FileSystemManager.

(** The body of the loop of [createProjectFiles]. *)
Definition createEntry `{Platform} (now : Z) (projectPath : string)
  (entry : string * JSON) : M unit :=
  let '(filePath, fileData) := entry in
  let fullPath := Path.join [projectPath; filePath] in
  type <- lift (Js.get_prop (Some fileData) "type") ;;
  if Js.is_string "directory" type then
    Fs.mkdir fullPath
  else if Js.is_string "file" type then
    let dirPath := Path.dirname fullPath in
    Fs.mkdir dirPath ;;;
    content <- lift (Js.get_prop (Some fileData) "content") ;;
    Fs.writeFile now fullPath (Js.or content (Some (JStr "")))
  else ret tt.

(** [createProjectFiles(projectId, fileTree)], at the time [now]. *)
Definition createProjectFiles `{Platform} (now : Z) (projectId : string)
  (fileTree : option JSON) : M string :=
  let projectPath := Path.join [PROJECTS_DIR; projectId] in
  Fs.mkdir projectPath ;;;
  entries <- lift (Js.Object_entries fileTree) ;;
  for_of entries (createEntry now projectPath) ;;;
  ret projectPath.

Definition directory_entry : JSON := JObj [("type", JStr "directory")].
Definition file_entry : JSON := JObj [("type", JStr "file")].

(** The tree that [getFileTree(projectPath, relativePath)] returns when
    the directory it reads is [n]: the recursive call on an item reads the
    entry of that name.  The entries are assigned to the keys of a plain
    object, so that an item of the project's directory itself whose name
    is [__proto__] gets no key. *)
Fixpoint scan (relativePath : string) (n : node) {struct n} : Js.obj :=
  match n with
  | File _ _ => []
  | Dir es =>
      (fix items (l : list (string * node)) (tree : Js.obj) {struct l} : Js.obj :=
         match l with
         | [] => tree
         | (item, c) :: l' =>
             let key :=
               if String.eqb relativePath "" then item
               else relativePath ++ "/" ++ item in
             match c with
             | Dir _ =>
                 items l' (Js.Object_assign (Js.obj_put key directory_entry tree)
                                            (scan key c))
             | File _ _ => items l' (Js.obj_put key file_entry tree)
             end
         end) es []
  end.

(** [getFileTree(projectPath)] *)
Definition getFileTree (projectPath : string) : M Js.obj :=
  n <- Fs.resolve "scandir" projectPath ;;
  match n with
  | Dir _ => ret (scan "" n)
  | File _ _ => throw (Fs.failure ENOTDIR "scandir" projectPath)
  end.

End FileSystemManager.

(* ================================================================== *)
(** * The routes *)
(* ================================================================== *)

(** [process.env] *)
Record Env : Type := mkEnv {
  GROQ_API_KEY : option string;
  NODE_ENV : option string
}.

Module Routes.

Definition str (s : string) : option JSON := Some (JStr s).
Definition nl : string := ProjectGenerator.newline.

(** [a.map(f)] for a function [f] that yields text. *)
Fixpoint map_text (f : JSON -> outcome string) (l : list JSON)
  : outcome (list string) :=
  match l with
  | [] => Return []
  | x :: l' => y <~ f x ;; ys <~ map_text f l' ;; Return (y :: ys)
  end.

Definition array_map (v : option JSON) (f : JSON -> outcome string)
  : outcome (list string) :=
  match v with
  | Some (JArr l) => map_text f l
  | None => Throw (TypeError "Cannot read properties of undefined (reading 'map')")
  | Some JNull => Throw (TypeError "Cannot read properties of null (reading 'map')")
  | Some _ => Throw (TypeError "map is not a function")
  end.

(** [a.join(sep)] of a value that is truthy. *)
Definition array_join (sep : string) (v : option JSON) : outcome string :=
  match v with
  | Some (JArr l) =>
      Return (Str.join sep (map (fun x => match x with
                                          | JNull => ""
                                          | _ => JsText.to_string x
                                          end) l))
  | _ => Throw (TypeError "join is not a function")
  end.

Definition endpoint_text (endpoint : JSON) : outcome string :=
  method <~ Js.get_prop (Some endpoint) "method" ;;
  path <~ Js.get_prop (Some endpoint) "path" ;;
  description <~ Js.get_prop (Some endpoint) "description" ;;
  parameters <~ Js.get_prop (Some endpoint) "parameters" ;;
  parameters_text <~
    (if Js.truthy parameters then
       joined <~ array_join ", " parameters ;;
       Return ("**Parameters**: " ++ joined ++ nl)
     else Return "") ;;
  response <~ Js.get_prop (Some endpoint) "response" ;;
  Return ("### " ++ JsText.template method ++ " " ++ JsText.template path ++ nl
          ++ JsText.template description ++ nl
          ++ parameters_text
          ++ (if Js.truthy response
              then "**Response**: " ++ JsText.template response ++ nl
              else "")).

Definition entry_lines (sep : string) (v : option JSON) : string :=
  Str.join nl
    (map (fun kv => "- " ++ fst kv ++ sep ++ JsText.to_string (snd kv))
         (Js.spread (Js.or v (Some (JObj []))))).

Definition prop (projectData : JSON) (k : string) : option JSON :=
  Js.obj_get k (Js.own_props projectData).

(** The text of the README.md of a generated project. *)
Definition readmeContent (projectData : JSON) : outcome string :=
  setup <~ array_map (prop projectData "setupInstructions")
             (fun instruction => Return ("1. " ++ JsText.to_string instruction)) ;;
  endpoints <~ array_map (prop projectData "apiEndpoints") endpoint_text ;;
  Return ("# " ++ JsText.template (prop projectData "projectName") ++ nl ++ nl
    ++ JsText.template (prop projectData "description") ++ nl ++ nl
    ++ "## Technology Stack" ++ nl
    ++ "- **Framework**: "
    ++ JsText.template (Js.or (prop projectData "framework") (str "N/A")) ++ nl
    ++ "- **Database**: "
    ++ JsText.template (Js.or (prop projectData "database") (str "N/A")) ++ nl
    ++ "- **Technology**: " ++ JsText.template (prop projectData "technology")
    ++ nl ++ nl
    ++ "## Setup Instructions" ++ nl ++ Str.join nl setup ++ nl ++ nl
    ++ "## Environment Variables" ++ nl
    ++ entry_lines "=" (prop projectData "environmentVariables") ++ nl ++ nl
    ++ "## API Endpoints" ++ nl ++ Str.join (nl ++ nl) endpoints ++ nl ++ nl
    ++ "## Dependencies" ++ nl ++ "### Production" ++ nl
    ++ entry_lines ": " (prop projectData "dependencies") ++ nl ++ nl
    ++ "### Development" ++ nl
    ++ entry_lines ": " (prop projectData "devDependencies") ++ nl ++ nl
    ++ "Generated by AI Backend Generator" ++ nl).

(** The record that [project-metadata.json] holds: the generated fields,
    then the properties of the parsed reply spread over them. *)
Definition metadata `{Platform} (projectId : string) (prompt model : option JSON)
  (now : Z) (projectData : JSON) : Js.obj :=
  Js.obj_assign
    (Js.literal [("id", str projectId);
                 ("prompt", prompt);
                 ("model", model);
                 ("generated", str (Date_toISOString now))])
    (Js.spread (Some projectData)).

Definition keys_array (o : Js.obj) : option JSON :=
  Some (JArr (map JStr (Js.Object_keys o))).

(** [POST /api/generate]; [uuid] is the identifier that [uuidv4()] draws
    and [now] the time of the request. *)
Definition post_generate `{Platform} (env : Env) (groq : Provider)
  (uuid : string) (now : Z) (req_body : option JSON) : M Response :=
  try_catch
    (prompt <- lift (Js.get_prop req_body "prompt") ;;
     model <- lift (Js.get_prop req_body "model") ;;
     let model := or_default model (JStr "llama-4-scout") in
     if negb (Js.truthy prompt) then
       ret (status_json 400 [("error", str "Prompt is required")])
     else if match GROQ_API_KEY env with
             | Some key => String.eqb key ""
             | None => true
             end then
       ret (status_json 500 [("error", str "Groq API key not configured")])
     else
       let projectId := uuid in
       projectData <- ProjectGenerator.generateProjectStructure groq prompt model ;;
       fileTree <- lift (Js.get_prop (Some projectData) "fileTree") ;;
       projectPath <- FileSystemManager.createProjectFiles now projectId fileTree ;;
       Fs.writeFile now (Path.join [projectPath; "project-metadata.json"])
         (str (JSON_stringify (JObj (metadata projectId prompt model now projectData)))) ;;;
       readme <- lift (readmeContent projectData) ;;
       Fs.writeFile now (Path.join [projectPath; "README.md"]) (str readme) ;;;
       ret (json
         [("success", Some (JBool true));
          ("projectId", str projectId);
          ("projectName", prop projectData "projectName");
          ("description", prop projectData "description");
          ("technology", prop projectData "technology");
          ("framework", prop projectData "framework");
          ("database", prop projectData "database");
          ("fileTree", keys_array (Js.spread fileTree));
          ("dependencies", prop projectData "dependencies");
          ("devDependencies", prop projectData "devDependencies");
          ("setupInstructions", prop projectData "setupInstructions");
          ("apiEndpoints", prop projectData "apiEndpoints");
          ("environmentVariables", prop projectData "environmentVariables");
          ("downloadUrl", str ("/api/download/" ++ projectId));
          ("viewUrl", str ("/api/project/" ++ projectId))]))
    (fun error =>
       console_error [LStr "Generation error:"; LErr error] ;;;
       ret (status_json 500
         [("error", str "Failed to generate project");
          ("message", str (err_message error));
          ("details", match NODE_ENV env with
                      | Some mode =>
                          if String.eqb mode "development"
                          then str (error_stack error) else None
                      | None => None
                      end)])).

(** [GET /api/project/:projectId] *)
Definition get_project `{Platform} (projectId : string) : M Response :=
  try_catch
    (let projectPath := Path.join [PROJECTS_DIR; projectId] in
     let metadataPath := Path.join [projectPath; "project-metadata.json"] in
     try_catch
       (Fs.access projectPath ;;;
        metadata <- Fs.readFile metadataPath ;;
        projectData <- lift (JSON_parse metadata) ;;
        currentFileTree <- FileSystemManager.getFileTree projectPath ;;
        ret (mkResponse 200
               (JObj (Js.obj_assign (Js.spread (Some projectData))
                        (Js.literal [("currentFileTree",
                                      keys_array currentFileTree)])))))
       (fun _ => ret (status_json 404 [("error", str "Project not found")])))
    (fun error =>
       console_error [LStr "Project details error:"; LErr error] ;;;
       ret (status_json 500 [("error", str "Failed to get project details")])).

(** [GET /api/project/:projectId/file/*] *)
Definition get_file `{Platform} (projectId filePath : string) : M Response :=
  try_catch
    (let fullPath := Path.join [PROJECTS_DIR; projectId; filePath] in
     try_catch
       (stats <- Fs.stat fullPath ;;
        if Fs.isDirectory stats then
          ret (status_json 400 [("error", str "Path is a directory, not a file")])
        else
          content <- Fs.readFile fullPath ;;
          ret (json [("content", str content);
                     ("path", str filePath);
                     ("size", Some (Js.num (Fs.size stats)));
                     ("modified", str (Date_toISOString (Fs.mtime stats)))]))
       (fun _ => ret (status_json 404 [("error", str "File not found")])))
    (fun error =>
       console_error [LStr "File content error:"; LErr error] ;;;
       ret (status_json 500 [("error", str "Failed to get file content")])).

(** [PUT /api/project/:projectId/file/*] *)
Definition put_file `{Platform} (now : Z) (projectId filePath : string)
  (req_body : option JSON) : M Response :=
  try_catch
    (content <- lift (Js.get_prop req_body "content") ;;
     match content with
     | None => ret (status_json 400 [("error", str "Content is required")])
     | Some _ =>
         let fullPath := Path.join [PROJECTS_DIR; projectId; filePath] in
         let dirPath := Path.dirname fullPath in
         Fs.mkdir dirPath ;;;
         Fs.writeFile now fullPath content ;;;
         ret (json [("success", Some (JBool true));
                    ("message", str "File updated successfully");
                    ("path", str filePath)])
     end)
    (fun error =>
       console_error [LStr "File update error:"; LErr error] ;;;
       ret (status_json 500 [("error", str "Failed to update file")])).

(** [PUT /api/project/:projectId/enhance/*] *)
Definition put_enhance `{Platform} (groq : Provider) (now : Z)
  (projectId filePath : string) (req_body : option JSON) : M Response :=
  try_catch
    (requirements <- lift (Js.get_prop req_body "requirements") ;;
     model <- lift (Js.get_prop req_body "model") ;;
     let model := or_default model (JStr "llama-4-scout") in
     if negb (Js.truthy requirements) then
       ret (status_json 400 [("error", str "Requirements are required")])
     else
       let fullPath := Path.join [PROJECTS_DIR; projectId; filePath] in
       try_catch
         (currentContent <- Fs.readFile fullPath ;;
          enhancedContent <- ProjectGenerator.enhanceFileContent groq filePath
                               currentContent requirements model ;;
          let backupPath := fullPath ++ ".backup" in
          Fs.writeFile now backupPath (str currentContent) ;;;
          Fs.writeFile now fullPath (str enhancedContent) ;;;
          ret (json [("success", Some (JBool true));
                     ("message", str "File enhanced successfully");
                     ("backupCreated", Some (JBool true));
                     ("content", str enhancedContent)]))
         (fun _ => ret (status_json 404 [("error", str "File not found")])))
    (fun error =>
       console_error [LStr "Enhancement error:"; LErr error] ;;;
       ret (status_json 500 [("error", str "Failed to enhance file")])).

(** [PUT /api/project/:projectId/rewrite/*]; [now] is also what
    [Date.now()] returns. *)
Definition put_rewrite `{Platform} (groq : Provider) (now : Z)
  (projectId filePath : string) (req_body : option JSON) : M Response :=
  try_catch
    (instructions <- lift (Js.get_prop req_body "instructions") ;;
     model <- lift (Js.get_prop req_body "model") ;;
     let model := or_default model (JStr "llama-4-scout") in
     if negb (Js.truthy instructions) then
       ret (status_json 400 [("error", str "Instructions are required")])
     else
       let fullPath := Path.join [PROJECTS_DIR; projectId; filePath] in
       try_catch
         (currentContent <- Fs.readFile fullPath ;;
          rewrittenContent <- ProjectGenerator.rewriteFileContent groq filePath
                                currentContent instructions model ;;
          let backupPath := fullPath ++ ".backup." ++ Str.of_Z now in
          Fs.writeFile now backupPath (str currentContent) ;;;
          Fs.writeFile now fullPath (str rewrittenContent) ;;;
          ret (json [("success", Some (JBool true));
                     ("message", str "File rewritten successfully");
                     ("backupCreated", Some (JBool true));
                     ("content", str rewrittenContent)]))
         (fun _ => ret (status_json 404 [("error", str "File not found")])))
    (fun error =>
       console_error [LStr "Rewrite error:"; LErr error] ;;;
       ret (status_json 500 [("error", str "Failed to rewrite file")])).

(** The time of [new Date(project.generated)]. *)
Definition generated_time `{Platform} (project : JSON) : option Z :=
  Date_getTime (prop project "generated").

(** [(a, b) => new Date(b.generated) - new Date(a.generated)] *)
Definition newest_first `{Platform} (a b : JSON) : option Z :=
  match generated_time b, generated_time a with
  | Some tb, Some ta => Some (tb - ta)%Z
  | _, _ => None
  end.

(** The summary that the listing pushes for the metadata of a project. *)
Definition summary (projectData : JSON) : outcome JSON :=
  id <~ Js.get_prop (Some projectData) "id" ;;
  name <~ Js.get_prop (Some projectData) "projectName" ;;
  description <~ Js.get_prop (Some projectData) "description" ;;
  technology <~ Js.get_prop (Some projectData) "technology" ;;
  framework <~ Js.get_prop (Some projectData) "framework" ;;
  database <~ Js.get_prop (Some projectData) "database" ;;
  generated <~ Js.get_prop (Some projectData) "generated" ;;
  model <~ Js.get_prop (Some projectData) "model" ;;
  Return (JObj (Js.literal
    [("id", id); ("name", name); ("description", description);
     ("technology", technology); ("framework", framework);
     ("database", database); ("generated", generated); ("model", model)])).

(** The body of the [try] of the loop of the listing. *)
Definition read_summary `{Platform} (dir : string) : M JSON :=
  let metadataPath := Path.join [PROJECTS_DIR; dir; "project-metadata.json"] in
  metadata <- Fs.readFile metadataPath ;;
  projectData <- lift (JSON_parse metadata) ;;
  lift (summary projectData).

(** The loop of the listing over the entries of the storage root. *)
Fixpoint collect `{Platform} (projectDirs : list string) (projects : list JSON)
  : M (list JSON) :=
  match projectDirs with
  | [] => ret projects
  | dir :: rest =>
      if Str.ends_with ".zip" dir then collect rest projects
      else
        projects' <- try_catch
                       (project <- read_summary dir ;;
                        ret (projects ++ [project])%list)
                       (fun _ => ret projects) ;;
        collect rest projects'
  end.

(** [GET /api/projects] *)
Definition get_projects `{Platform} : M Response :=
  try_catch
    (projectDirs <- Fs.readdir PROJECTS_DIR ;;
     projects <- collect projectDirs [] ;;
     let projects := Array_sort newest_first projects in
     ret (json [("projects", Some (JArr projects));
                ("total", Some (Js.num (List.length projects)))]))
    (fun error =>
       console_error [LStr "Projects list error:"; LErr error] ;;;
       ret (status_json 500 [("error", str "Failed to list projects")])).

(** [DELETE /api/project/:projectId] *)
Definition delete_project `{Platform} (projectId : string) : M Response :=
  try_catch
    (let projectPath := Path.join [PROJECTS_DIR; projectId] in
     Fs.rm projectPath ;;;
     ret (json [("success", Some (JBool true));
                ("message", str "Project deleted successfully")]))
    (fun error =>
       console_error [LStr "Delete error:"; LErr error] ;;;
       ret (status_json 500 [("error", str "Failed to delete project")])).

End Routes.

(* ================================================================== *)
(** * A runtime: an executable instance of the platform *)
(* ================================================================== *)

(** The instance runs the server on concrete inputs.  Its JSON codec
    covers the strings of the embedding (an escape beyond the code 255
    is refused), and its dates the format that [toISOString] produces. *)
Module Runtime.

Definition code (c : ascii) : nat := nat_of_ascii c.
Definition is_ws (c : ascii) : bool :=
  (code c =? 32)%nat || (code c =? 9)%nat || (code c =? 10)%nat || (code c =? 13)%nat.
Definition is_digit (c : ascii) : bool := (48 <=? code c)%nat && (code c <=? 57)%nat.

Fixpoint skip_ws (s : string) : string :=
  match s with
  | String c s' => if is_ws c then skip_ws s' else s
  | EmptyString => s
  end.

Definition hex_value (c : ascii) : option nat :=
  let n := code c in
  if is_digit c then Some (n - 48)%nat
  else if (97 <=? n)%nat && (n <=? 102)%nat then Some (n - 87)%nat
  else if (65 <=? n)%nat && (n <=? 70)%nat then Some (n - 55)%nat
  else None.

Definition unicode_escape (h1 h2 h3 h4 : ascii) : option ascii :=
  match hex_value h1, hex_value h2, hex_value h3, hex_value h4 with
  | Some 0%nat, Some 0%nat, Some a, Some b => Some (ascii_of_nat (16 * a + b))
  | _, _, _, _ => None
  end.

Definition simple_escape (e : ascii) : option ascii :=
  match code e with
  | 34 => Some e | 92 => Some e | 47 => Some e
  | 98 => Some (ascii_of_nat 8) | 102 => Some (ascii_of_nat 12)
  | 110 => Some (ascii_of_nat 10) | 114 => Some (ascii_of_nat 13)
  | 116 => Some (ascii_of_nat 9)
  | _ => None
  end%nat.

Definition cons_text (c : ascii) (r : option (string * string))
  : option (string * string) :=
  match r with
  | Some (text, rest) => Some (String c text, rest)
  | None => None
  end.

(** The text of a string literal, after its opening quote. *)
Fixpoint parse_string (s : string) : option (string * string) :=
  match s with
  | EmptyString => None
  | String c s' =>
      if (code c =? 34)%nat then Some (EmptyString, s')
      else if (code c =? 92)%nat then
        match s' with
        | String e s'' =>
            if (code e =? 117)%nat then
              match s'' with
              | String h1 (String h2 (String h3 (String h4 r))) =>
                  match unicode_escape h1 h2 h3 h4 with
                  | Some d => cons_text d (parse_string r)
                  | None => None
                  end
              | _ => None
              end
            else
              match simple_escape e with
              | Some d => cons_text d (parse_string s'')
              | None => None
              end
        | EmptyString => None
        end
      else if (code c <? 32)%nat then None
      else cons_text c (parse_string s')
  end.

(** A run of digits: their value, their number and the rest. *)
Fixpoint digits (s : string) (value : Z) (count : Z) : Z * Z * string :=
  match s with
  | String c s' =>
      if is_digit c
      then digits s' (10 * value + Z.of_nat (code c - 48))%Z (count + 1)%Z
      else (value, count, s)
  | EmptyString => (value, count, s)
  end.

Definition canonical (m e : Z) : JSON :=
  if (m =? 0)%Z then JNum 0 0
  else
    let '(m', e') := JsText.strip_zeros (S (Z.to_nat (Z.log2 (Z.abs m)))) (Z.abs m) e in
    JNum (Z.sgn m * m') e'.

(** A number literal, after its sign. *)
Definition parse_number (negative : bool) (s : string) : option (JSON * string) :=
  let '(int_value, int_count, rest) := digits s 0 0 in
  let leading_zero :=
    match s with
    | String c _ => (code c =? 48)%nat
    | EmptyString => false
    end in
  if (int_count =? 0)%Z || (leading_zero && (1 <? int_count)%Z) then None
  else
    let fraction :=
      match rest with
      | String c rest' =>
          if (code c =? 46)%nat then
            let '(v, n, r) := digits rest' int_value 0 in
            if (n =? 0)%Z then None else Some (v, n, r)
          else Some (int_value, 0%Z, rest)
      | EmptyString => Some (int_value, 0%Z, rest)
      end in
    match fraction with
    | None => None
    | Some (mant, frac_count, rest) =>
        let exponent :=
          match rest with
          | String c rest' =>
              if (code c =? 101)%nat || (code c =? 69)%nat then
                let '(sign, rest'') :=
                  match rest' with
                  | String d r =>
                      if (code d =? 43)%nat then (1%Z, r)
                      else if (code d =? 45)%nat then ((-1)%Z, r)
                      else (1%Z, rest')
                  | EmptyString => (1%Z, rest')
                  end in
                let '(v, n, r) := digits rest'' 0 0 in
                if (n =? 0)%Z then None else Some ((sign * v)%Z, r)
              else Some (0%Z, rest)
          | EmptyString => Some (0%Z, rest)
          end in
        match exponent with
        | None => None
        | Some (ex, rest) =>
            Some (canonical (if negative then - mant else mant)%Z
                            (ex - frac_count)%Z, rest)
        end
    end.

Definition keyword (k : string) (v : JSON) (s : string) : option (JSON * string) :=
  match Str.drop_prefix k s with
  | Some rest => Some (v, rest)
  | None => None
  end.

(** A value, the elements of an array after its bracket and the members
    of an object after its brace. *)
Fixpoint parse_value (fuel : nat) (s : string) : option (JSON * string) :=
  match fuel with
  | O => None
  | S fuel' =>
      match skip_ws s with
      | EmptyString => None
      | String c s' =>
          if (code c =? 123)%nat then
            match skip_ws s' with
            | String d r =>
                if (code d =? 125)%nat then Some (JObj [], r)
                else parse_members fuel' (skip_ws s') []
            | EmptyString => None
            end
          else if (code c =? 91)%nat then
            match skip_ws s' with
            | String d r =>
                if (code d =? 93)%nat then Some (JArr [], r)
                else parse_elements fuel' s' []
            | EmptyString => None
            end
          else if (code c =? 34)%nat then
            match parse_string s' with
            | Some (text, rest) => Some (JStr text, rest)
            | None => None
            end
          else if (code c =? 45)%nat then parse_number true s'
          else if is_digit c then parse_number false (String c s')
          else if (code c =? 116)%nat then keyword "true" (JBool true) (String c s')
          else if (code c =? 102)%nat then keyword "false" (JBool false) (String c s')
          else if (code c =? 110)%nat then keyword "null" JNull (String c s')
          else None
      end
  end
with parse_elements (fuel : nat) (s : string) (acc : list JSON)
  : option (JSON * string) :=
  match fuel with
  | O => None
  | S fuel' =>
      match parse_value fuel' s with
      | Some (v, rest) =>
          match skip_ws rest with
          | String c r =>
              if (code c =? 44)%nat then parse_elements fuel' r (acc ++ [v])%list
              else if (code c =? 93)%nat then Some (JArr (acc ++ [v])%list, r)
              else None
          | EmptyString => None
          end
      | None => None
      end
  end
with parse_members (fuel : nat) (s : string) (acc : Js.obj)
  : option (JSON * string) :=
  match fuel with
  | O => None
  | S fuel' =>
      match s with
      | String q s' =>
          if (code q =? 34)%nat then
            match parse_string s' with
            | Some (key, rest) =>
                match skip_ws rest with
                | String c r =>
                    if (code c =? 58)%nat then
                      match parse_value fuel' r with
                      | Some (v, rest') =>
                          match skip_ws rest' with
                          | String d r' =>
                              if (code d =? 44)%nat
                              then parse_members fuel' (skip_ws r') (Js.obj_set key v acc)
                              else if (code d =? 125)%nat
                              then Some (JObj (Js.obj_set key v acc), r')
                              else None
                          | EmptyString => None
                          end
                      | None => None
                      end
                    else None
                | EmptyString => None
                end
            | None => None
            end
          else None
      | EmptyString => None
      end
  end.

Definition SyntaxError (msg : string) : JsError := mkError "SyntaxError" msg.

(** [JSON.parse(text)] *)
Definition parse (text : string) : outcome JSON :=
  match parse_value (2 * String.length text + 2) text with
  | Some (v, rest) =>
      match skip_ws rest with
      | EmptyString => Return v
      | String _ _ => Throw (SyntaxError "Unexpected non-whitespace character after JSON")
      end
  | None => Throw (SyntaxError "Unexpected token in JSON")
  end.

Definition hex_digit (n : nat) : ascii :=
  if (n <? 10)%nat then ascii_of_nat (48 + n) else ascii_of_nat (87 + n).

Definition escape (c : ascii) : string :=
  let n := code c in
  let bs := String (ascii_of_nat 92) EmptyString in
  if (n =? 34)%nat || (n =? 92)%nat then bs ++ String c EmptyString
  else if (n =? 8)%nat then bs ++ "b"
  else if (n =? 12)%nat then bs ++ "f"
  else if (n =? 10)%nat then bs ++ "n"
  else if (n =? 13)%nat then bs ++ "r"
  else if (n =? 9)%nat then bs ++ "t"
  else if (n <? 32)%nat then
    bs ++ "u00" ++ String (hex_digit (n / 16)) (String (hex_digit (n mod 16)) EmptyString)
  else String c EmptyString.

Fixpoint escape_all (s : string) : string :=
  match s with
  | EmptyString => EmptyString
  | String c s' => escape c ++ escape_all s'
  end.

Definition quote (s : string) : string :=
  Str.dquote ++ escape_all s ++ Str.dquote.

(** [JSON.stringify(v, null, 2)], the current indentation being [indent]. *)
Fixpoint print (indent : string) (v : JSON) : string :=
  let nl := ProjectGenerator.newline in
  let inner := indent ++ "  " in
  match v with
  | JNull => "null"
  | JBool true => "true"
  | JBool false => "false"
  | JNum m e => JsText.number_to_string m e
  | JStr s => quote s
  | JArr [] => "[]"
  | JArr l =>
      "[" ++ nl
      ++ Str.join ("," ++ nl) (map (fun x => inner ++ print inner x) l)
      ++ nl ++ indent ++ "]"
  | JObj [] => "{}"
  | JObj o =>
      "{" ++ nl
      ++ Str.join ("," ++ nl)
           (map (fun kv => inner ++ quote (fst kv) ++ ": " ++ print inner (snd kv)) o)
      ++ nl ++ indent ++ "}"
  end.

Definition stringify (v : JSON) : string := print "" v.

(** ** Dates: the proleptic Gregorian calendar, in UTC *)

Definition days_from_civil (y m d : Z) : Z :=
  let y := (if m <=? 2 then y - 1 else y)%Z in
  let era := (y / 400)%Z in
  let yoe := (y - era * 400)%Z in
  let doy := ((153 * (if 2 <? m then m - 3 else m + 9) + 2) / 5 + d - 1)%Z in
  let doe := (yoe * 365 + yoe / 4 - yoe / 100 + doy)%Z in
  (era * 146097 + doe - 719468)%Z.

Definition civil_from_days (z : Z) : Z * Z * Z :=
  let z := (z + 719468)%Z in
  let era := (z / 146097)%Z in
  let doe := (z - era * 146097)%Z in
  let yoe := ((doe - doe / 1460 + doe / 36524 - doe / 146096) / 365)%Z in
  let doy := (doe - (365 * yoe + yoe / 4 - yoe / 100))%Z in
  let mp := ((5 * doy + 2) / 153)%Z in
  let d := (doy - (153 * mp + 2) / 5 + 1)%Z in
  let m := (if mp <? 10 then mp + 3 else mp - 9)%Z in
  ((yoe + era * 400 + (if m <=? 2 then 1 else 0))%Z, m, d).

Definition pad (width : nat) (z : Z) : string :=
  let text := Str.of_Z z in
  JsText.zeros (width - String.length text) ++ text.

(** [new Date(t).toISOString()], for a year from 0 to 9999. *)
Definition toISOString (t : Z) : string :=
  let '(y, m, d) := civil_from_days (t / 86400000) in
  let ms := (t mod 86400000)%Z in
  pad 4 y ++ "-" ++ pad 2 m ++ "-" ++ pad 2 d ++ "T"
  ++ pad 2 (ms / 3600000) ++ ":" ++ pad 2 (ms / 60000 mod 60) ++ ":"
  ++ pad 2 (ms / 1000 mod 60) ++ "." ++ pad 3 (ms mod 1000) ++ "Z".

Definition field (width : nat) (s : string) : option (Z * string) :=
  let '(v, n, rest) := digits s 0 0 in
  if (n =? Z.of_nat width)%Z then Some (v, rest) else None.

Definition expect (c : string) (r : option (Z * string)) : option string :=
  match r with
  | Some (_, rest) => Str.drop_prefix c rest
  | None => None
  end.

Definition value_of (r : option (Z * string)) : Z :=
  match r with
  | Some (v, _) => v
  | None => 0
  end.

(** The time of a text in the format of [toISOString]. *)
Definition parse_date (s : string) : option Z :=
  let y := field 4 s in
  match expect "-" y with None => None | Some s1 =>
  let m := field 2 s1 in
  match expect "-" m with None => None | Some s2 =>
  let d := field 2 s2 in
  match expect "T" d with None => None | Some s3 =>
  let hh := field 2 s3 in
  match expect ":" hh with None => None | Some s4 =>
  let mm := field 2 s4 in
  match expect ":" mm with None => None | Some s5 =>
  let ss := field 2 s5 in
  match expect "." ss with None => None | Some s6 =>
  let ms := field 3 s6 in
  match expect "Z" ms with
  | Some EmptyString =>
      Some (days_from_civil (value_of y) (value_of m) (value_of d) * 86400000
            + value_of hh * 3600000 + value_of mm * 60000
            + value_of ss * 1000 + value_of ms)%Z
  | _ => None
  end end end end end end end.

(** [new Date(v).getTime()] *)
Definition getTime (v : option JSON) : option Z :=
  match v with
  | Some (JStr s) => parse_date s
  | Some JNull => Some 0%Z
  | Some (JBool b) => Some (if b then 1 else 0)%Z
  | Some (JNum m e) =>
      if (0 <=? e)%Z then Some (m * 10 ^ e)%Z else Some (Z.quot m (10 ^ (- e)))
  | Some (JArr _) | Some (JObj _) | None => None
  end.

(** [Buffer.from(value)] for the arrays of numbers, booleans and nulls:
    each element gives the byte of the integer part of its number,
    modulo 256.  The other array-likes are outside this runtime, which
    refuses them as it refuses an object that is not array-like. *)
Fixpoint bytes_of_elements (l : list JSON) : option string :=
  match l with
  | [] => Some ""
  | v :: l' =>
      match
        match v with
        | JNull => Some 0%Z
        | JBool b => Some (if b then 1 else 0)%Z
        | JNum m e =>
            Some (if (0 <=? e)%Z then m * 10 ^ e else Z.quot m (10 ^ (- e)))%Z
        | _ => None
        end, bytes_of_elements l'
      with
      | Some z, Some s => Some (String (ascii_of_N (Z.to_N (z mod 256))) s)
      | _, _ => None
      end
  end.

Definition bytes_of (v : JSON) : outcome string :=
  match match v with JArr l => bytes_of_elements l | _ => None end with
  | Some s => Return s
  | None =>
      Throw (TypeError
        "The first argument must be of type string or an instance of Buffer, ArrayBuffer, or Array or an Array-like Object.")
  end.

Lemma bytes_of_error (v : JSON) (e : JsError) :
  bytes_of v = Throw e -> err_name e = "TypeError" \/ err_name e = "RangeError".
Proof.
  unfold bytes_of. destruct (match v with JArr l => bytes_of_elements l | _ => None end);
    intros H; inversion H. left. reflexivity.
Qed.

Definition stack (e : JsError) : string :=
  err_name e ++ ": " ++ err_message e.

(** The runtime sorts by insertion, from the right: the order that the
    language fixes for a consistent comparison function. *)
Definition runtime : Platform := {|
  JSON_parse := parse;
  JSON_stringify := stringify;
  Date_getTime := getTime;
  Date_toISOString := toISOString;
  error_stack := stack;
  Buffer_from_object := bytes_of;
  Buffer_from_object_error := bytes_of_error;
  Array_sort := fun A => Js.stable_sort;
  Array_sort_consistent := fun _ _ _ _ => eq_refl;
  __dirname := "/app";
  dirname_absolute := eq_refl
|}.

End Runtime.

(* ================================================================== *)
(** * The start of the server and its status routes *)
(* ================================================================== *)

Module Service.

(** [fs.mkdir(p, { recursive: true })] for a path [p] that is relative:
    the file system resolves it against the working directory [cwd] of
    the process, an absolute path; the error names the path as given. *)
Definition mkdir_relative (cwd p : string) : M unit :=
  fun w =>
    match Tree.mkdir_p (Fs.components (Path.join [cwd; p])) (fs_root w) with
    | inr root' => (mkWorld root' (console w), Return tt)
    | inl e => (w, Throw (Fs.failure e "mkdir" p))
    end.

(** [ensureDirectories()] *)
Definition ensureDirectories `{Platform} (cwd : string) : M unit :=
  try_catch
    (Fs.mkdir PROJECTS_DIR ;;;
     mkdir_relative cwd "uploads")
    (fun error =>
       console_error [LStr "Error creating directories:"; LErr error]).

(** [!!GROQ_API_KEY] *)
Definition groqConfigured (env : Env) : bool :=
  Js.truthy (option_map JStr (GROQ_API_KEY env)).

(** [GET /health], at the time [now]. *)
Definition get_health `{Platform} (env : Env) (now : Z) : Response :=
  json [("status", Routes.str "healthy");
        ("timestamp", Routes.str (Date_toISOString now));
        ("models", Routes.keys_array AVAILABLE_MODELS);
        ("groqConfigured", Some (JBool (groqConfigured env)))].

(** [GET /api/models] *)
Definition get_models : Response :=
  json [("models", Routes.keys_array AVAILABLE_MODELS);
        ("default", Routes.str "llama-4-scout");
        ("details", Some (JObj AVAILABLE_MODELS))].

End Service.

(* ================================================================== *)
(** * The chat route *)
(* ================================================================== *)

Module Assistant.

Definition systemPrompt : string :=
  "You are a helpful backend development assistant. Provide clear, practical advice for backend development questions. Include code examples when helpful.".

(** The text that the [try] block of the route appends to the system
    prompt for the project [projectId].  [path.join] accepts strings
    only; whatever is thrown here, the route discards. *)
Definition project_context `{Platform} (projectId : option JSON) : M string :=
  match projectId with
  | Some (JStr id) =>
      let metadataPath := Path.join [PROJECTS_DIR; id; "project-metadata.json"] in
      metadata <- Fs.readFile metadataPath ;;
      projectData <- lift (JSON_parse metadata) ;;
      projectName <- lift (Js.get_prop (Some projectData) "projectName") ;;
      technology <- lift (Js.get_prop (Some projectData) "technology") ;;
      framework <- lift (Js.get_prop (Some projectData) "framework") ;;
      database <- lift (Js.get_prop (Some projectData) "database") ;;
      description <- lift (Js.get_prop (Some projectData) "description") ;;
      ret (Routes.nl ++ Routes.nl
           ++ "Context: You are helping with a project called " ++ Str.dquote
           ++ JsText.template projectName ++ Str.dquote ++ ". " ++ Routes.nl
           ++ "Technology: " ++ JsText.template technology ++ Routes.nl
           ++ "Framework: "
           ++ JsText.template (Js.or framework (Routes.str "N/A")) ++ Routes.nl
           ++ "Database: "
           ++ JsText.template (Js.or database (Routes.str "N/A")) ++ Routes.nl
           ++ "Description: " ++ JsText.template description)
  | _ => throw (TypeError "The path argument must be of type string")
  end.

(** The system prompt of a chat about the project [projectId], if any. *)
Definition system_prompt `{Platform} (projectId : option JSON) : M string :=
  if Js.truthy projectId then
    try_catch
      (context <- project_context projectId ;;
       ret (systemPrompt ++ context))
      (fun _ => ret systemPrompt)
  else ret systemPrompt.

(** [...context]: the elements of an array, the characters of a string;
    the default is the empty array, and no other value is iterable. *)
Definition context_items (context : option JSON) : outcome (list JSON) :=
  match context with
  | None => Return []
  | Some (JArr items) => Return items
  | Some (JStr s) => Return (Js.chars s)
  | Some _ => Throw (TypeError "context is not iterable")
  end.

(** [POST /api/chat], answered at the time [now]. *)
Definition post_chat `{Platform} (groq : Provider) (now : Z)
  (req_body : option JSON) : M Response :=
  try_catch
    (message <- lift (Js.get_prop req_body "message") ;;
     model <- lift (Js.get_prop req_body "model") ;;
     let model := or_default model (JStr "llama-4-scout") in
     context <- lift (Js.get_prop req_body "context") ;;
     projectId <- lift (Js.get_prop req_body "projectId") ;;
     if negb (Js.truthy message) then
       ret (status_json 400 [("error", Routes.str "Message is required")])
     else
       prompt <- system_prompt projectId ;;
       items <- lift (context_items context) ;;
       let messages :=
         JArr (ProjectGenerator.message "system" (Some (JStr prompt))
               :: items ++ [ProjectGenerator.message "user" message])%list in
       content <- GroqClient.chat groq model (Some messages) None ;;
       ret (json [("response", Routes.str content);
                  ("model", model);
                  ("timestamp", Routes.str (Date_toISOString now))]))
    (fun error =>
       console_error [LStr "Chat error:"; LErr error] ;;;
       ret (status_json 500 [("error", Routes.str "Failed to process chat message")])).

End Assistant.

(* ================================================================== *)
(** * Vocabulary of the properties *)
(* ================================================================== *)

(** The value of the key [k] in an object literal: the last field of
    that name that is defined. *)
Fixpoint field_value (k : string) (fields : list (string * option JSON))
  : option JSON :=
  match fields with
  | [] => None
  | (k', Some v) :: fs =>
      match field_value k fs with
      | Some x => Some x
      | None => if String.eqb k k' then Some v else None
      end
  | (_, None) :: fs => field_value k fs
  end.

(** The parameters that the Groq gateway sends for the options [o]. *)
Definition groq_request (stream : bool) (model messages : option JSON) (o : Js.obj)
  : Js.obj :=
  Js.literal
    [("messages", messages);
     ("model", Js.or (Js.obj_get (JsText.template model) AVAILABLE_MODELS) model);
     ("temperature", Js.or (Js.obj_get "temperature" o) (Some (JNum 7 (-1))));
     ("max_tokens", Js.or (Js.obj_get "maxTokens" o) (Some (JNum 4000 0)));
     ("top_p", Js.or (Js.obj_get "top_p" o) (Some (JNum 1 0)));
     ("stream", Some (JBool stream));
     ("stop", Some JNull)].

(** ** The candidates of the response extractor, on the text itself *)

Module Extractor.

(** The rest of [s] after the first occurrence of [opener]. *)
Fixpoint after_first (opener s : string) : option string :=
  match Str.drop_prefix opener s with
  | Some rest => Some rest
  | None =>
      match s with
      | EmptyString => None
      | String _ s' => after_first opener s'
      end
  end.

(** The text of [s] up to the white space that precedes the first closing
    fence; nothing when no fence closes. *)
Fixpoint interior (s : string) : option string :=
  if Str.starts_with "```" (Str.trim_start s) then Some EmptyString
  else
    match s with
    | EmptyString => None
    | String c s' =>
        match interior s' with
        | Some i => Some (String c i)
        | None => None
        end
    end.

(** The interior of the first block that [opener] opens and a fence
    closes, without the white space around it. *)
Definition first_block (opener content : string) : option string :=
  match after_first opener content with
  | Some rest => interior (Str.trim_start rest)
  | None => None
  end.

(** The text of [s] up to its last closing brace. *)
Fixpoint up_to_last_brace (s : string) : option string :=
  match s with
  | EmptyString => None
  | String c s' =>
      match up_to_last_brace s' with
      | Some p => Some (String c p)
      | None => if Ascii.eqb c "}"%char then Some (String c EmptyString) else None
      end
  end.

(** From the first opening brace to the last closing brace. *)
Definition brace_span (content : string) : option string :=
  match after_first "{" content with
  | Some rest =>
      match up_to_last_brace rest with
      | Some p => Some ("{" ++ p)
      | None => None
      end
  | None => None
  end.

(** The candidate by the words of the specification: the first block
    tagged json, else the first block, else the span of the braces. *)
Definition claimed_candidate (content : string) : option string :=
  match first_block "```json" content with
  | Some i => Some i
  | None =>
      match first_block "```" content with
      | Some i => Some i
      | None => brace_span content
      end
  end.

Definition or_whole (content : string) (candidate : option string) : string :=
  match candidate with
  | Some c => c
  | None => content
  end.

End Extractor.

(** ** The listing *)

Module Listing.

(** The element [a] has the key [k]. *)
Definition has_key {A} (key : A -> option Z) (k : Z) (a : A) : bool :=
  match key a with
  | Some ka => (ka =? k)%Z
  | None => false
  end.

(** The element [a] has a key that is not below the key of [b]. *)
Definition descending {A} (key : A -> option Z) (a b : A) : Prop :=
  exists ka kb, key a = Some ka /\ key b = Some kb /\ (kb <= ka)%Z.

(** The path of the metadata of the entry [dir] of the storage root. *)
Definition metadataPath `{Platform} (dir : string) : string :=
  Path.join [PROJECTS_DIR; dir; "project-metadata.json"].

(** What the entry [dir] of the storage root contributes to the listing:
    its summary, or nothing. *)
Definition listed `{Platform} (w : World) (dir : string) : list JSON :=
  if Str.ends_with ".zip" dir then []
  else
    match snd (Routes.read_summary dir w) with
    | Return project => [project]
    | Throw _ => []
    end.

End Listing.

(** ** Worlds for the examples *)

Module Examples.

(** The metadata of a project generated at the time [t]. *)
Definition metadata_text (id : string) (t : Z) : string :=
  Runtime.stringify
    (JObj [("id", JStr id); ("generated", JStr (Runtime.toISOString t));
           ("projectName", JStr "demo")]).

Definition project (id : string) (t : Z) : string * node :=
  (id, Dir [("project-metadata.json", File (metadata_text id t) t)]).

Definition in_storage (entries : list (string * node)) : World :=
  mkWorld (Dir [("app", Dir [("generated_projects", Dir entries)])]) [].

(** A storage root with three projects, an archive, a project whose
    metadata is corrupt and one whose metadata is missing. *)
Definition three_projects : World :=
  in_storage
    [project "a" 1000; ("a.zip", File "PK" 1500);
     ("broken", Dir [("project-metadata.json", File "{ not json" 1600)]);
     project "b" 3000; ("empty", Dir []); project "c" 2000].

Definition summary_of (id : string) (t : Z) : JSON :=
  JObj [("id", JStr id); ("name", JStr "demo");
        ("generated", JStr (Runtime.toISOString t))].

End Examples.

(** ** Paths as lists of names *)

Module Names.

(** [q] is a prefix of [p]. *)
Fixpoint prefixb (q p : list string) : bool :=
  match q, p with
  | [], _ => true
  | a :: q', b :: p' => String.eqb a b && prefixb q' p'
  | _ :: _, [] => false
  end.

(** A segment that [path.join] keeps when no segment is a double dot. *)
Definition kept (seg : string) : bool :=
  negb (String.eqb seg "") && negb (String.eqb seg ".").

Definition no_slash (seg : string) : bool := negb (Str.includes "/" seg).

(** The text of an absolute path in normal form. *)
Definition render (segs : list string) (trailing : bool) : string :=
  match segs with
  | [] => "/"
  | _ :: _ => "/" ++ Str.join "/" segs ++ (if trailing then "/" else "")
  end.

Definition nonempty (a : string) : bool := negb (String.eqb a "").

(** The kind of a node of the tree. *)
Inductive kind : Type := KFile | KDir.

Definition kind_of (n : node) : kind :=
  match n with
  | File _ _ => KFile
  | Dir _ => KDir
  end.

(** The kind of what the path [p] names in [n], if anything. *)
Definition kind_at (p : list string) (n : node) : option kind :=
  option_map kind_of (Tree.lookup p n).

(** Whatever the tree [n] holds is in the tree [n'], and of its kind. *)
Definition keeps_kinds (n n' : node) : Prop :=
  forall q k, kind_at q n = Some k -> kind_at q n' = Some k.

End Names.

(** The place of an entry of a file tree, under the directory
    [projectPath], holds in the tree [root] what the type of the entry
    asks for: a directory for the type directory, a regular file for the
    type file. *)
Definition entry_placed (projectPath : string) (entry : string * JSON)
  (root : node) : Prop :=
  forall type,
    Js.get_prop (Some (snd entry)) "type" = Return type ->
    (Js.is_string "directory" type = true ->
     Names.kind_at (Fs.components (Path.join [projectPath; fst entry])) root
     = Some Names.KDir) /\
    (Js.is_string "file" type = true ->
     Names.kind_at (Fs.components (Path.join [projectPath; fst entry])) root
     = Some Names.KFile).

(** ** Errors *)

(** The errors that the file system and the language raise. *)
Definition platform_error (e : JsError) : Prop :=
  err_name e = "Error" \/ err_name e = "TypeError" \/ err_name e = "RangeError".

Module Replies.

(** A reply of the model, within a json fence, that claims the identifier
    [spoof] and a date of its own. *)
Definition spoofed_descriptor : Js.obj :=
  [("projectName", JStr "demo"); ("description", JStr "d");
   ("technology", JStr "Node");
   ("fileTree",
    JObj [("src/", JObj [("type", JStr "directory")]);
          ("src/app.js", JObj [("type", JStr "file"); ("content", JStr "x")])]);
   ("setupInstructions", JArr [JStr "npm i"]); ("apiEndpoints", JArr []);
   ("id", JStr "spoof"); ("generated", JStr "1999-01-01T00:00:00.000Z")].

Definition spoofed_reply : string :=
  "Here you go: ```json" ++ ProjectGenerator.newline
  ++ Runtime.stringify (JObj spoofed_descriptor) ++ ProjectGenerator.newline
  ++ "``` bye".

End Replies.

(* ================================================================== *)
(** * Vocabulary of the further properties *)
(* ================================================================== *)

Module Samples.

Definition file (content : string) : JSON :=
  JObj [("type", JStr "file"); ("content", JStr content)].

Definition directory : JSON := JObj [("type", JStr "directory")].

(** A reply whose file tree has a README.md of its own. *)
Definition documented : Js.obj :=
  [("projectName", JStr "demo"); ("description", JStr "d");
   ("technology", JStr "Node");
   ("fileTree", JObj [("README.md", file "mine"); ("src/app.js", file "x")]);
   ("setupInstructions", JArr [JStr "npm i"]); ("apiEndpoints", JArr [])].

(** A reply that has a file tree and no setup instructions. *)
Definition incomplete : Js.obj :=
  [("projectName", JStr "demo");
   ("fileTree", JObj [("src/app.js", file "x")])].

(** A file tree in the shape that the prompt of the generator shows:
    directories with a slash at their end, files with and without a
    content. *)
Definition scaffold : Js.obj :=
  [("src/", directory); ("src/controllers/", directory);
   ("src/app.js", file "x");
   ("package.json", JObj [("type", JStr "file")])].

Definition reply_of (descriptor : Js.obj) : string :=
  Runtime.stringify (JObj descriptor).

End Samples.

Module Answers.

(** The answer of the generation route to an error. *)
Definition generation_failure `{Platform} (env : Env) (error : JsError) : Response :=
  status_json 500
    [("error", Some (JStr "Failed to generate project"));
     ("message", Some (JStr (err_message error)));
     ("details", match NODE_ENV env with
                 | Some mode =>
                     if String.eqb mode "development"
                     then Some (JStr (error_stack error)) else None
                 | None => None
                 end)].

(** The answer of the details route for a project that it cannot read. *)
Definition project_not_found : Response :=
  status_json 404 [("error", Some (JStr "Project not found"))].

End Answers.

(** ** The listing of a directory tree *)

Module Scan.

(** The key of an item of the directory that getFileTree reads with the
    relative path [rel]. *)
Definition item_key (rel item : string) : string :=
  if String.eqb rel "" then item else rel ++ "/" ++ item.

(** The key under which getFileTree lists what the path [p] names below
    the directory that it reads with the relative path [rel]. *)
Fixpoint key_of (rel : string) (p : list string) : string :=
  match p with
  | [] => rel
  | item :: p' => key_of (item_key rel item) p'
  end.

(** The entry by which a node is listed. *)
Definition entry_of (n : node) : JSON :=
  match n with
  | File _ _ => FileSystemManager.file_entry
  | Dir _ => FileSystemManager.directory_entry
  end.

(** The loop of getFileTree over the items of a directory. *)
Fixpoint items (rel : string) (l : list (string * node)) (tree : Js.obj) : Js.obj :=
  match l with
  | [] => tree
  | (item, c) :: l' =>
      let key := item_key rel item in
      match c with
      | Dir _ =>
          items rel l'
            (Js.Object_assign (Js.obj_put key FileSystemManager.directory_entry tree)
                              (FileSystemManager.scan key c))
      | File _ _ => items rel l' (Js.obj_put key FileSystemManager.file_entry tree)
      end
  end.

(** A directory tree as a file system holds it: in every directory the
    names are names of entries (no slash, not empty, no dot names) and no
    name occurs twice. *)
Fixpoint well_formed (n : node) : bool :=
  match n with
  | File _ _ => true
  | Dir es =>
      (fix entries (l : list (string * node)) : bool :=
         match l with
         | [] => true
         | (name, c) :: l' =>
             Path.valid_name name
             && negb (existsb (String.eqb name) (map fst l'))
             && well_formed c && entries l'
         end) es
  end.

End Scan.

(** ** The file tree of a reply *)

Module Descriptor.
Import Names.

(** The kind of an entry of a file tree: a directory, or a file whose
    content is a text or is absent. *)
Definition kind_of_entry (fileData : JSON) : option kind :=
  match fileData with
  | JObj props =>
      match Js.obj_get "type" props with
      | Some (JStr type) =>
          if String.eqb type "directory" then Some KDir
          else if String.eqb type "file" then
            match Js.obj_get "content" props with
            | None | Some (JStr _) => Some KFile
            | Some _ => None
            end
          else None
      | _ => None
      end
  | _ => None
  end.

(** The text of a file entry. *)
Definition content_of (fileData : JSON) : string :=
  match Js.obj_get "content" (Js.own_props fileData) with
  | Some (JStr content) => content
  | _ => ""
  end.

(** The names of the path that a key stands for: its segments; the key
    of a directory may end with a slash. *)
Definition names (key : string) (k : kind) : list string :=
  match k with
  | KFile => Path.segments_of key
  | KDir =>
      if Str.ends_with "/" key then removelast (Path.segments_of key)
      else Path.segments_of key
  end.

Definition entry_kind (entry : string * JSON) : kind :=
  match kind_of_entry (snd entry) with
  | Some k => k
  | None => KDir
  end.

Definition entry_names (entry : string * JSON) : list string :=
  names (fst entry) (entry_kind entry).

Definition is_file (entry : string * JSON) : bool :=
  match entry_kind entry with
  | KFile => true
  | KDir => false
  end.

(** An entry of a known kind whose key is a path of names. *)
Definition well_named (entry : string * JSON) : bool :=
  match kind_of_entry (snd entry) with
  | Some _ =>
      match entry_names entry with
      | [] => false
      | l => forallb Path.valid_name l
      end
  | None => false
  end.

(** What the path of a file is a prefix of is this file. *)
Definition compatible (e e' : string * JSON) : bool :=
  if is_file e && prefixb (entry_names e) (entry_names e')
  then is_file e' && prefixb (entry_names e') (entry_names e)
  else true.

(** A file tree that describes a directory tree: every entry is well
    named, and no file is in the place of a directory of the tree. *)
Definition well_formed (fileTree : Js.obj) : bool :=
  forallb well_named fileTree
  && forallb (fun e => forallb (compatible e) fileTree) fileTree.

(** The entry of the listing for a kind. *)
Definition entry_for (k : kind) : JSON :=
  match k with
  | KFile => FileSystemManager.file_entry
  | KDir => FileSystemManager.directory_entry
  end.

(** What an entry does to the directory of the project, as a tree. *)
Definition apply (now : Z) (entry : string * JSON) (sub : node) : errno + node :=
  match entry_kind entry with
  | KDir => Tree.mkdir_p (entry_names entry) sub
  | KFile =>
      match Tree.mkdir_p (removelast (entry_names entry)) sub with
      | inr sub1 =>
          Tree.write (entry_names entry) (File (content_of (snd entry)) now) sub1
      | inl e => inl e
      end
  end.

Fixpoint apply_all (now : Z) (entries : list (string * JSON)) (sub : node)
  : errno + node :=
  match entries with
  | [] => inr sub
  | entry :: rest =>
      match apply now entry sub with
      | inr sub' => apply_all now rest sub'
      | inl e => inl e
      end
  end.

(** An entry that createProjectFiles passes over: its type is neither
    directory nor file. *)
Definition ignored (entry : string * JSON) : bool :=
  match Js.get_prop (Some (snd entry)) "type" with
  | Return type =>
      negb (Js.is_string "directory" type) && negb (Js.is_string "file" type)
  | Throw _ => false
  end.

(** The node [m] at the path [p] is accounted for by the entries [done]:
    it is the file of a file entry, or a directory on the path of an
    entry. *)
Definition covered (done : list (string * JSON)) (p : list string) (m : node) : Prop :=
  exists e,
    In e done /\
    ((kind_of m = KFile /\ entry_kind e = KFile /\ entry_names e = p) \/
     (kind_of m = KDir /\ prefixb p (entry_names e) = true /\
      (entry_kind e = KFile -> p <> entry_names e))).

(** The directory of the project when the entries [done] are created. *)
Definition created (done : list (string * JSON)) (sub : node) : Prop :=
  Scan.well_formed sub = true /\
  kind_of sub = KDir /\
  (forall p m, p <> [] -> Tree.lookup p sub = Some m -> covered done p m) /\
  (forall e, In e done -> kind_at (entry_names e) sub = Some (entry_kind e)).

End Descriptor.

(* ================================================================== *)
(** * Properties *)
(* ================================================================== *)

(** ** Objects *)

Module JsFacts.

Lemma obj_get_replace k k' v o :
  Js.obj_get k (Js.obj_replace k' v o) =
  if String.eqb k k' then
    match Js.obj_get k' o with Some _ => Some v | None => None end
  else Js.obj_get k o.
Proof.
  induction o as [|[k0 v0] o IH]; simpl.
  - destruct (String.eqb k k'); reflexivity.
  - destruct (String.eqb k' k0) eqn:E0; simpl.
    + apply String.eqb_eq in E0; subst k0.
      destruct (String.eqb k k'); reflexivity.
    + rewrite IH. destruct (String.eqb k k') eqn:E.
      * apply String.eqb_eq in E; subst k. rewrite E0. reflexivity.
      * reflexivity.
Qed.

Lemma obj_get_insert k k' v o :
  Js.obj_get k' o = None ->
  Js.obj_get k (Js.obj_insert k' v o) =
  if String.eqb k k' then Some v else Js.obj_get k o.
Proof.
  induction o as [|[k0 v0] o IH]; simpl; intros Hn.
  - destruct (String.eqb k k'); reflexivity.
  - destruct (String.eqb k' k0) eqn:E0; [discriminate|].
    destruct (Js.key_before k' k0); simpl.
    + destruct (String.eqb k k'); reflexivity.
    + rewrite IH by assumption.
      destruct (String.eqb k k') eqn:E; [|reflexivity].
      apply String.eqb_eq in E; subst k. rewrite E0. reflexivity.
Qed.

Lemma obj_get_set k k' v o :
  Js.obj_get k (Js.obj_set k' v o) =
  if String.eqb k k' then Some v else Js.obj_get k o.
Proof.
  unfold Js.obj_set. destruct (Js.obj_get k' o) eqn:E.
  - rewrite obj_get_replace, E. reflexivity.
  - apply obj_get_insert; assumption.
Qed.

Lemma obj_get_app k o1 o2 :
  Js.obj_get k (o1 ++ o2)%list =
  match Js.obj_get k o1 with Some v => Some v | None => Js.obj_get k o2 end.
Proof.
  induction o1 as [|[k0 v0] o1 IH]; simpl; [reflexivity|].
  destruct (String.eqb k k0); auto.
Qed.

Lemma obj_get_assign k source : forall target,
  Js.obj_get k (Js.obj_assign target source) =
  match Js.obj_get k (rev source) with
  | Some v => Some v
  | None => Js.obj_get k target
  end.
Proof.
  unfold Js.obj_assign.
  induction source as [|[k0 v0] s IH]; intros t; simpl; [reflexivity|].
  rewrite IH, obj_get_app, obj_get_set. simpl.
  destruct (Js.obj_get k (rev s)); [reflexivity|].
  destruct (String.eqb k k0); reflexivity.
Qed.

Lemma obj_get_rev k o :
  NoDup (map fst o) -> Js.obj_get k (rev o) = Js.obj_get k o.
Proof.
  induction o as [|[k0 v0] o IH]; simpl; intros Hnd; [reflexivity|].
  inversion Hnd as [|? ? Hnotin Hnd']; subst.
  rewrite obj_get_app, IH by assumption. simpl.
  destruct (String.eqb k k0) eqn:E.
  - apply String.eqb_eq in E; subst k0.
    destruct (Js.obj_get k o) eqn:G; [|reflexivity].
    exfalso. apply Hnotin. clear - G.
    induction o as [|[k1 v1] o IH]; simpl in *; [discriminate|].
    destruct (String.eqb k k1) eqn:E1.
    + apply String.eqb_eq in E1. auto.
    + right. auto.
  - destruct (Js.obj_get k o); reflexivity.
Qed.

Lemma obj_get_in k o v : Js.obj_get k o = Some v -> In k (map fst o).
Proof.
  induction o as [|[k0 v0] o IH]; simpl; [discriminate|].
  destruct (String.eqb k k0) eqn:E; intros H.
  - apply String.eqb_eq in E. auto.
  - auto.
Qed.

Lemma obj_get_none k o : Js.obj_get k o = None -> ~ In k (map fst o).
Proof.
  induction o as [|[k0 v0] o IH]; simpl; [tauto|].
  destruct (String.eqb k k0) eqn:E; [discriminate|].
  apply String.eqb_neq in E. intros H [H1|H1]; [congruence|]. apply IH; assumption.
Qed.

Lemma keys_replace k v o : map fst (Js.obj_replace k v o) = map fst o.
Proof.
  induction o as [|[k0 v0] o IH]; simpl; [reflexivity|].
  destruct (String.eqb k k0) eqn:E; simpl.
  - apply String.eqb_eq in E. subst. reflexivity.
  - rewrite IH. reflexivity.
Qed.

Lemma keys_insert k v o :
  exists l1 l2, map fst o = (l1 ++ l2)%list /\
                map fst (Js.obj_insert k v o) = (l1 ++ k :: l2)%list.
Proof.
  induction o as [|[k0 v0] o IH]; simpl.
  - exists [], []. auto.
  - destruct (Js.key_before k k0); simpl.
    + exists [], (k0 :: map fst o). auto.
    + destruct IH as (l1 & l2 & H1 & H2).
      exists (k0 :: l1), l2. simpl. rewrite H1, H2. auto.
Qed.

Lemma nodup_set k v o :
  NoDup (map fst o) -> NoDup (map fst (Js.obj_set k v o)).
Proof.
  intros Hnd. unfold Js.obj_set. destruct (Js.obj_get k o) eqn:E.
  - rewrite keys_replace. assumption.
  - apply obj_get_none in E.
    destruct (keys_insert k v o) as (l1 & l2 & H1 & H2).
    rewrite H2. rewrite H1 in Hnd, E.
    apply (Permutation_NoDup (Permutation_middle l1 l2 k)).
    constructor; assumption.
Qed.

Lemma nodup_assign source : forall target,
  NoDup (map fst target) -> NoDup (map fst (Js.obj_assign target source)).
Proof.
  unfold Js.obj_assign.
  induction source as [|[k v] s IH]; intros t Ht; simpl; [assumption|].
  apply IH, nodup_set, Ht.
Qed.

Lemma nodup_literal fields : NoDup (map fst (Js.literal fields)).
Proof.
  induction fields as [|[k [v|]] fs IH]; simpl.
  - constructor.
  - apply nodup_assign. simpl. constructor; [tauto|constructor].
  - assumption.
Qed.

Lemma obj_get_literal k fields :
  Js.obj_get k (Js.literal fields) = field_value k fields.
Proof.
  induction fields as [|[k' [v|]] fs IH]; simpl; [reflexivity| |assumption].
  rewrite obj_get_assign, obj_get_rev by apply nodup_literal.
  rewrite IH. simpl. reflexivity.
Qed.

Lemma field_value_absent k fields :
  ~ In k (map fst fields) -> field_value k fields = None.
Proof.
  induction fields as [|[k' [v|]] fs IH]; simpl; intros H; [reflexivity| |].
  - rewrite IH by tauto. destruct (String.eqb k k') eqn:E; [|reflexivity].
    apply String.eqb_eq in E. subst. tauto.
  - apply IH. tauto.
Qed.

Lemma field_value_unique k v fields :
  NoDup (map fst fields) -> In (k, v) fields -> field_value k fields = v.
Proof.
  induction fields as [|[k' x] fs IH]; simpl; intros Hnd Hin; [tauto|].
  inversion Hnd as [|? ? Hnotin Hnd']; subst.
  destruct Hin as [Heq|Hin].
  - inversion Heq; subst. rewrite (field_value_absent _ _ Hnotin).
    destruct v; [rewrite String.eqb_refl|]; reflexivity.
  - rewrite (IH Hnd' Hin).
    assert (Hne : String.eqb k k' = false).
    { apply String.eqb_neq. intros ->. apply Hnotin.
      change k' with (fst (k', v)). apply in_map, Hin. }
    destruct x, v; rewrite ?Hne; reflexivity.
Qed.

End JsFacts.

(** ** The LLM gateway *)

Module GatewayFacts.
Import JsFacts.

Lemma or_default_cases (t : option JSON) (d : JSON) :
  (Js.truthy t = false /\ Js.or t (Some d) = Some d) \/
  (Js.truthy t = true /\ exists v, t = Some v /\ Js.or t (Some d) = Some v).
Proof.
  unfold Js.or. destruct (Js.truthy t) eqn:E; [right|left]; split; auto.
  destruct t as [v|]; [eauto|discriminate].
Qed.

Lemma request_field stream model messages o k v :
  In (k, v)
    [("messages", messages);
     ("model", Js.or (Js.obj_get (JsText.template model) AVAILABLE_MODELS) model);
     ("temperature", Js.or (Js.obj_get "temperature" o) (Some (JNum 7 (-1))));
     ("max_tokens", Js.or (Js.obj_get "maxTokens" o) (Some (JNum 4000 0)));
     ("top_p", Js.or (Js.obj_get "top_p" o) (Some (JNum 1 0)));
     ("stream", Some (JBool stream));
     ("stop", Some JNull)] ->
  Js.obj_get k (groq_request stream model messages o) = v.
Proof.
  intros Hin. unfold groq_request. rewrite JsFacts.obj_get_literal.
  apply JsFacts.field_value_unique; [|exact Hin].
  simpl. repeat constructor; simpl; intuition discriminate.
Qed.

Lemma params_eq stream model messages o :
  GroqClient.params stream model messages (Some (JObj o)) =
  Return (groq_request stream model messages o).
Proof. reflexivity. Qed.

End GatewayFacts.

(** C10.  The gateway of the Groq edition fills in its defaults with a
    logical or: whenever the option that the caller supplies is falsy (the
    number 0 included, not only an absent option), the request goes out
    with temperature 0.7, max_tokens 4000 or top_p 1 in its place; a
    truthy option goes out as supplied. *)
Theorem chat_defaults_replace_falsy_options :
  forall (stream : bool) (model messages : option JSON) (o : Js.obj),
  exists request,
    GroqClient.params stream model messages (Some (JObj o)) = Return request /\
    (forall groq w content,
        stream = false ->
        groq request = Return content ->
        GroqClient.chat groq model messages (Some (JObj o)) w =
        (w, Return (match content with Some c => c | None => "" end))) /\
    (forall e, Js.obj_get "temperature" o = Some (JNum 0 e) ->
               Js.obj_get "temperature" request = Some (JNum 7 (-1))) /\
    (forall e, Js.obj_get "maxTokens" o = Some (JNum 0 e) ->
               Js.obj_get "max_tokens" request = Some (JNum 4000 0)) /\
    (forall e, Js.obj_get "top_p" o = Some (JNum 0 e) ->
               Js.obj_get "top_p" request = Some (JNum 1 0)) /\
    (Js.truthy (Js.obj_get "temperature" o) = false ->
     Js.obj_get "temperature" request = Some (JNum 7 (-1))) /\
    (Js.truthy (Js.obj_get "maxTokens" o) = false ->
     Js.obj_get "max_tokens" request = Some (JNum 4000 0)) /\
    (Js.truthy (Js.obj_get "top_p" o) = false ->
     Js.obj_get "top_p" request = Some (JNum 1 0)) /\
    (Js.truthy (Js.obj_get "temperature" o) = true ->
     Js.obj_get "temperature" request = Js.obj_get "temperature" o) /\
    (Js.truthy (Js.obj_get "maxTokens" o) = true ->
     Js.obj_get "max_tokens" request = Js.obj_get "maxTokens" o) /\
    (Js.truthy (Js.obj_get "top_p" o) = true ->
     Js.obj_get "top_p" request = Js.obj_get "top_p" o).
Proof.
  intros stream model messages o.
  exists (groq_request stream model messages o).
  split; [apply GatewayFacts.params_eq|].
  repeat split.
  - intros groq w content Hs Hg. subst stream.
    unfold GroqClient.chat, or_default. rewrite GatewayFacts.params_eq.
    unfold try_catch, bind, lift, ret. rewrite Hg. reflexivity.
  - intros e H. erewrite GatewayFacts.request_field by (simpl; eauto 10).
    rewrite H. reflexivity.
  - intros e H. erewrite GatewayFacts.request_field by (simpl; eauto 10).
    rewrite H. reflexivity.
  - intros e H. erewrite GatewayFacts.request_field by (simpl; eauto 10).
    rewrite H. reflexivity.
  - intros H. erewrite GatewayFacts.request_field by (simpl; eauto 10).
    unfold Js.or. rewrite H. reflexivity.
  - intros H. erewrite GatewayFacts.request_field by (simpl; eauto 10).
    unfold Js.or. rewrite H. reflexivity.
  - intros H. erewrite GatewayFacts.request_field by (simpl; eauto 10).
    unfold Js.or. rewrite H. reflexivity.
  - intros H. erewrite GatewayFacts.request_field by (simpl; eauto 10).
    unfold Js.or. rewrite H. reflexivity.
  - intros H. erewrite GatewayFacts.request_field by (simpl; eauto 10).
    unfold Js.or. rewrite H. reflexivity.
  - intros H. erewrite GatewayFacts.request_field by (simpl; eauto 10).
    unfold Js.or. rewrite H. reflexivity.
Qed.

(** The gateway of the OpenRouter edition spreads the options after its
    defaults: there a temperature of 0 reaches the provider. *)
Remark openrouter_keeps_zero_temperature :
  and_then
    (OpenRouterClient.request_body None None
       (Some (JObj [("temperature", JNum 0 0)])))
    (fun request => Return (Js.obj_get "temperature" request))
  = Return (Some (JNum 0 0)).
Proof. reflexivity. Qed.

(** ** Reading a file of a project *)

(** C3, as the claim states it, fails: a path that names a directory is
    answered with the status 400, not 404. *)
Lemma get_file_of_directory_is_not_404 :
  let w := mkWorld (Dir [("app", Dir [("generated_projects",
                      Dir [("p1", Dir [("src", Dir [])])])])]) [] in
  Tree.lookup (Fs.components (Path.join [@PROJECTS_DIR Runtime.runtime; "p1"; "src"]))
              (fs_root w) = Some (Dir []) /\
  @Routes.get_file Runtime.runtime "p1" "src" w =
    (w, Return (status_json 400
                  [("error", Some (JStr "Path is a directory, not a file"))])) /\
  ~ (exists r, snd (@Routes.get_file Runtime.runtime "p1" "src" w) = Return r
               /\ status r = 404).
Proof.
  split; [reflexivity|]. split; [reflexivity|].
  intros (r & Hr & Hs). vm_compute in Hr. inversion Hr; subst r.
  discriminate Hs.
Qed.

(** C3, amended.  The handler answers 404 whenever the requested path
    does not exist (a regular file followed by a slash does not name
    anything), 400 when it names a directory, and otherwise 200 with the
    content of the file, its size in bytes and its modification time. *)
Theorem get_file_answers :
  forall `{Platform} (projectId filePath : string) (w : World),
    let fullPath := Path.join [PROJECTS_DIR; projectId; filePath] in
    Routes.get_file projectId filePath w =
    (w, Return
          match Tree.lookup (Fs.components fullPath) (fs_root w) with
          | Some (File content t) =>
              if Path.has_trailing_slash fullPath then
                status_json 404 [("error", Some (JStr "File not found"))]
              else
                json [("content", Some (JStr content));
                      ("path", Some (JStr filePath));
                      ("size", Some (Js.num (Str.utf8_length content)));
                      ("modified", Some (JStr (Date_toISOString t)))]
          | Some (Dir _) =>
              status_json 400
                [("error", Some (JStr "Path is a directory, not a file"))]
          | None => status_json 404 [("error", Some (JStr "File not found"))]
          end).
Proof.
  intros P projectId filePath w. cbv zeta.
  unfold Routes.get_file.
  generalize (Path.join [PROJECTS_DIR; projectId; filePath]) as fullPath.
  intros fullPath.
  unfold try_catch, bind, Fs.stat, Fs.readFile, Fs.resolve, bind, ret, throw.
  destruct (Tree.lookup (Fs.components fullPath) (fs_root w)) as [[content t|es]|] eqn:E;
    [destruct (Path.has_trailing_slash fullPath) eqn:Ht|..]; simpl;
    rewrite ?E, ?Ht; reflexivity.
Qed.

(** ** The directory tree *)

Module TreeFacts.

Lemma child_set_child name name' n es :
  Tree.child name (Tree.set_child name' n es) =
  if String.eqb name name' then Some n else Tree.child name es.
Proof.
  induction es as [|[k m] es IH]; simpl.
  - destruct (String.eqb name name'); reflexivity.
  - destruct (String.eqb name' k) eqn:E; simpl.
    + apply String.eqb_eq in E. subst k.
      destruct (String.eqb name name'); reflexivity.
    + rewrite IH. destruct (String.eqb name name') eqn:E'; [|reflexivity].
      apply String.eqb_eq in E'. subst name'. rewrite E. reflexivity.
Qed.

Lemma child_remove_child name name' es :
  Tree.child name (Tree.remove_child name' es) =
  if String.eqb name name' then None else Tree.child name es.
Proof.
  induction es as [|[k m] es IH]; simpl.
  - destruct (String.eqb name name'); reflexivity.
  - destruct (String.eqb name' k) eqn:E; simpl.
    + apply String.eqb_eq in E. subst k. rewrite IH.
      destruct (String.eqb name name'); reflexivity.
    + rewrite IH. destruct (String.eqb name name') eqn:E'; [|reflexivity].
      apply String.eqb_eq in E'. subst name'. rewrite E. reflexivity.
Qed.

Lemma set_child_same name c es :
  Tree.child name es = Some c -> Tree.set_child name c es = es.
Proof.
  induction es as [|[k m] es IH]; simpl; [discriminate|].
  destruct (String.eqb name k) eqn:E; intros H.
  - inversion H; subst. reflexivity.
  - rewrite IH by assumption. reflexivity.
Qed.

Lemma remove_child_absent name es :
  Tree.child name es = None -> Tree.remove_child name es = es.
Proof.
  induction es as [|[k m] es IH]; simpl; [reflexivity|].
  destruct (String.eqb name k) eqn:E; intros H; [discriminate|].
  rewrite IH by assumption. reflexivity.
Qed.

Lemma remove_deep s s' p' es :
  Tree.remove (s :: s' :: p') (Dir es) =
  match Tree.child s es with
  | Some c => Dir (Tree.set_child s (Tree.remove (s' :: p') c) es)
  | None => Dir es
  end.
Proof. reflexivity. Qed.

(** Nothing is left at or below a path that was removed. *)
Lemma lookup_remove_below p : forall q n,
  p <> [] -> Tree.lookup (p ++ q) (Tree.remove p n) = None.
Proof.
  induction p as [|s p IH]; intros q n Hp; [congruence|].
  destruct n as [c t|es]; [reflexivity|].
  destruct p as [|s' p'].
  - simpl. rewrite child_remove_child, String.eqb_refl. reflexivity.
  - cbn [Tree.remove]. destruct (Tree.child s es) as [c|] eqn:E.
    + cbn [Tree.lookup app]. rewrite child_set_child, String.eqb_refl.
      apply (IH q c). discriminate.
    + cbn [Tree.lookup app]. rewrite E. reflexivity.
Qed.

(** Removing a path that names nothing changes nothing. *)
Lemma remove_absent p : forall n,
  Tree.lookup p n = None -> Tree.remove p n = n.
Proof.
  induction p as [|s p IH]; intros n H; [discriminate|].
  destruct n as [c t|es]; [reflexivity|].
  destruct p as [|s' p'].
  - simpl in *. destruct (Tree.child s es) eqn:E; [discriminate|].
    rewrite remove_child_absent by assumption. reflexivity.
  - rewrite remove_deep. cbn [Tree.lookup] in H.
    destruct (Tree.child s es) as [c|] eqn:E; [|reflexivity].
    rewrite (IH c H), set_child_same by assumption. reflexivity.
Qed.

End TreeFacts.

(** ** Backups of the AI edits *)

(** C2.  The enhance handler names its backup by the fixed suffix
    [.backup]: of two enhancements of one file, the second overwrites the
    backup of the first, and the original content is lost.  Here the file
    [a.js] holds [v0] and the model answers [v1], then [v2]. *)
Theorem enhance_twice_overwrites_backup :
  let w0 := mkWorld (Dir [("app", Dir [("generated_projects",
                       Dir [("p1", Dir [("a.js", File "v0" 0)])])])]) [] in
  let req := Some (JObj [("requirements", JStr "improve")]) in
  let first := @Routes.put_enhance Runtime.runtime
                 (fun _ => Return (Some "v1")) 1000 "p1" "a.js" req w0 in
  let second := @Routes.put_enhance Runtime.runtime
                  (fun _ => Return (Some "v2")) 2000 "p1" "a.js" req (fst first) in
  fs_root (fst first) =
    Dir [("app", Dir [("generated_projects",
      Dir [("p1", Dir [("a.js", File "v1" 1000);
                       ("a.js.backup", File "v0" 1000)])])])] /\
  fs_root (fst second) =
    Dir [("app", Dir [("generated_projects",
      Dir [("p1", Dir [("a.js", File "v2" 2000);
                       ("a.js.backup", File "v1" 2000)])])])] /\
  (exists r1 r2, snd first = Return r1 /\ snd second = Return r2 /\
                 status r1 = 200 /\ status r2 = 200).
Proof.
  split; [reflexivity|]. split; [reflexivity|].
  eexists. eexists. split; [reflexivity|]. split; [reflexivity|].
  split; reflexivity.
Qed.

(** The rewrite handler, next to it, adds the time to the suffix: two
    rewrites at different times leave two backups. *)
Remark rewrite_twice_keeps_both_backups :
  let w0 := mkWorld (Dir [("app", Dir [("generated_projects",
                       Dir [("p1", Dir [("a.js", File "v0" 0)])])])]) [] in
  let req := Some (JObj [("instructions", JStr "redo")]) in
  let first := @Routes.put_rewrite Runtime.runtime
                 (fun _ => Return (Some "v1")) 1000 "p1" "a.js" req w0 in
  let second := @Routes.put_rewrite Runtime.runtime
                  (fun _ => Return (Some "v2")) 2000 "p1" "a.js" req (fst first) in
  fs_root (fst second) =
    Dir [("app", Dir [("generated_projects",
      Dir [("p1", Dir [("a.js", File "v2" 2000);
                       ("a.js.backup.1000", File "v0" 1000);
                       ("a.js.backup.2000", File "v1" 2000)])])])].
Proof. reflexivity. Qed.

(** ** Regular expressions of the extractor *)

Module RegexFacts.
Import Extractor.

Definition fence_tail : list Regex.atom :=
  [Regex.Star true Regex.space; Regex.GroupOpen; Regex.Star false Regex.any;
   Regex.GroupClose; Regex.Star true Regex.space; Regex.Lit "```"].

Definition lit_fence (s : string) : option Regex.result :=
  match Str.drop_prefix "```" s with
  | Some _ => Some ("```", "")
  | None => None
  end.

Definition closing (s : string) : option Regex.result :=
  Regex.match_here [Regex.Star true Regex.space; Regex.Lit "```"] false s.

Definition lazy (s : string) : option Regex.result :=
  Regex.match_here [Regex.Star false Regex.any; Regex.GroupClose;
                    Regex.Star true Regex.space; Regex.Lit "```"] true s.

Definition greedy (s : string) : option Regex.result :=
  Regex.match_here fence_tail false s.

Lemma closing_nil : closing "" = None.
Proof. reflexivity. Qed.

Lemma closing_cons c s :
  closing (String c s) =
  if Str.is_space c then
    match closing s with
    | Some r => Regex.add false (String c "") (Some r)
    | None => lit_fence (String c s)
    end
  else lit_fence (String c s).
Proof.
  unfold closing, lit_fence. cbn [Regex.match_here].
  unfold Regex.space at 1.
  destruct (Str.is_space c); [|destruct (Str.drop_prefix "```" (String c s)); reflexivity].
  match goal with |- match ?a with _ => _ end = match ?b with _ => _ end =>
    change a with b; destruct b as [[? ?]|] end; [reflexivity|].
  destruct (Str.drop_prefix "```" (String c s)); reflexivity.
Qed.

Lemma lazy_unfold s :
  lazy s =
  match closing s with
  | Some r => Some r
  | None =>
      match s with
      | String c s' => Regex.add true (String c "") (lazy s')
      | EmptyString => None
      end
  end.
Proof. destruct s; reflexivity. Qed.

Lemma greedy_nil : greedy "" = lazy "".
Proof. reflexivity. Qed.

Lemma greedy_cons c s :
  greedy (String c s) =
  if Str.is_space c then
    match greedy s with
    | Some r => Regex.add false (String c "") (Some r)
    | None => lazy (String c s)
    end
  else lazy (String c s).
Proof.
  unfold greedy, lazy, fence_tail. cbn [Regex.match_here].
  unfold Regex.space at 1.
  destruct (Str.is_space c); reflexivity.
Qed.

Lemma space_not_backtick c : Str.is_space c = true -> Ascii.eqb "`"%char c = false.
Proof.
  destruct c as [[] [] [] [] [] [] [] []]; vm_compute; congruence.
Qed.

Lemma starts_with_drop_prefix p : forall s,
  Str.starts_with p s = match Str.drop_prefix p s with Some _ => true | None => false end.
Proof.
  induction p as [|a p IH]; intros s; simpl; [reflexivity|].
  destruct s as [|b s]; [reflexivity|].
  destruct (Ascii.eqb a b); simpl; [apply IH|reflexivity].
Qed.

Lemma lit_fence_starts s :
  lit_fence s = if Str.starts_with "```" s then Some ("```", "") else None.
Proof.
  unfold lit_fence. rewrite starts_with_drop_prefix.
  destruct (Str.drop_prefix "```" s); reflexivity.
Qed.

Lemma fence_after_space c s :
  Str.is_space c = true -> Str.starts_with "```" (String c s) = false.
Proof.
  intros H. cbn [Str.starts_with]. rewrite (space_not_backtick _ H). reflexivity.
Qed.

Lemma trim_start_idempotent s : Str.trim_start (Str.trim_start s) = Str.trim_start s.
Proof.
  induction s as [|c s IH]; simpl; [reflexivity|].
  destruct (Str.is_space c) eqn:E; [assumption|]. simpl. rewrite E. reflexivity.
Qed.

Lemma trim_start_cons c s :
  Str.trim_start (String c s) = if Str.is_space c then Str.trim_start s else String c s.
Proof. reflexivity. Qed.

Lemma interior_cons c s :
  interior (String c s) =
  if Str.starts_with "```" (Str.trim_start (String c s)) then Some ""
  else match interior s with
       | Some i => Some (String c i)
       | None => None
       end.
Proof. reflexivity. Qed.

Lemma includes_cons p c s :
  Str.includes p (String c s) = Str.starts_with p (String c s) || Str.includes p s.
Proof. reflexivity. Qed.

(** The closing part [\s*```] matches where a fence follows the white
    space; it captures nothing. *)
Lemma closing_spec s :
  option_map snd (closing s) =
  if Str.starts_with "```" (Str.trim_start s) then Some "" else None.
Proof.
  induction s as [|c s IH]; [reflexivity|].
  rewrite closing_cons, trim_start_cons.
  destruct (Str.is_space c) eqn:E.
  - destruct (closing s) as [[m0 m1]|]; cbn [option_map snd Regex.add] in *.
    + exact IH.
    + rewrite lit_fence_starts, (fence_after_space _ _ E).
      destruct (Str.starts_with "```" (Str.trim_start s)); [discriminate IH|reflexivity].
  - rewrite lit_fence_starts.
    destruct (Str.starts_with "```" (String c s)); reflexivity.
Qed.

(** The lazy group [([\s\S]*?)] followed by the closing part captures
    the interior. *)
Lemma lazy_spec s : option_map snd (lazy s) = interior s.
Proof.
  induction s as [|c s IH]; rewrite lazy_unfold.
  - reflexivity.
  - pose proof (closing_spec (String c s)) as Hc.
    rewrite interior_cons.
    destruct (closing (String c s)) as [[m0 m1]|]; cbn [option_map snd] in Hc |- *.
    + destruct (Str.starts_with "```" (Str.trim_start (String c s)));
        [exact Hc|discriminate Hc].
    + destruct (Str.starts_with "```" (Str.trim_start (String c s)));
        [discriminate Hc|].
      destruct (lazy s) as [[m0 m1]|]; cbn [option_map snd Regex.add] in IH |- *;
        rewrite <- IH; reflexivity.
Qed.

Lemma includes_trim_start s :
  Str.includes "```" (Str.trim_start s) = Str.includes "```" s.
Proof.
  induction s as [|c s IH]; [reflexivity|].
  rewrite trim_start_cons. destruct (Str.is_space c) eqn:E; [|reflexivity].
  rewrite IH, includes_cons, (fence_after_space _ _ E). reflexivity.
Qed.

Lemma starts_with_includes p s :
  Str.starts_with p s = true -> Str.includes p s = true.
Proof. intros H. destruct s; cbn [Str.includes]; rewrite H; reflexivity. Qed.

(** An interior exists exactly when a fence occurs. *)
Lemma interior_none s : interior s = None <-> Str.includes "```" s = false.
Proof.
  induction s as [|c s IH]; [split; reflexivity|].
  rewrite interior_cons, includes_cons.
  destruct (Str.starts_with "```" (Str.trim_start (String c s))) eqn:Et.
  - split; [discriminate|]. intros H. exfalso.
    apply starts_with_includes in Et. rewrite includes_trim_start in Et.
    rewrite includes_cons in Et. congruence.
  - assert (Hs : Str.starts_with "```" (String c s) = false).
    { destruct (Str.is_space c) eqn:E; [apply fence_after_space, E|].
      rewrite trim_start_cons, E in Et. exact Et. }
    rewrite Hs. cbn [orb].
    destruct (interior s); [|tauto].
    split; [discriminate|]. intros H. apply IH in H. discriminate.
Qed.

Lemma interior_trim_none s :
  interior (Str.trim_start s) = None -> interior s = None.
Proof.
  rewrite !interior_none, includes_trim_start. tauto.
Qed.

(** The whole of the tail [\s*([\s\S]*?)\s*```]. *)
Lemma greedy_spec s : option_map snd (greedy s) = interior (Str.trim_start s).
Proof.
  induction s as [|c s IH]; [reflexivity|].
  rewrite greedy_cons, trim_start_cons.
  destruct (Str.is_space c) eqn:E; [|apply lazy_spec].
  destruct (greedy s) as [[m0 m1]|]; cbn [option_map snd Regex.add] in IH |- *;
    [exact IH|].
  rewrite lazy_spec. symmetry in IH. pose proof (interior_trim_none _ IH) as IH'.
  rewrite IH. apply interior_none. rewrite includes_cons, (fence_after_space _ _ E).
  apply interior_none, IH'.
Qed.

Lemma drop_prefix_drop p : forall s r,
  Str.drop_prefix p s = Some r -> r = Str.drop (String.length p) s.
Proof.
  induction p as [|a p IH]; intros s r; simpl.
  - intros H. inversion H. reflexivity.
  - destruct s as [|b s]; [discriminate|].
    destruct (Ascii.eqb a b); [apply IH|discriminate].
Qed.

Lemma includes_drop_tail p n : forall c s,
  Str.includes p (Str.drop n (String c s)) = false ->
  Str.includes p (Str.drop n s) = false.
Proof.
  induction n as [|n IH]; intros c s H.
  - cbn [Str.drop] in *. rewrite includes_cons in H.
    apply orb_false_iff in H. tauto.
  - cbn [Str.drop] in H. destruct s as [|c' s'].
    + destruct n; exact H.
    + cbn [Str.drop]. apply (IH c' s'), H.
Qed.

Lemma search_unfold re s :
  Regex.search re s =
  match Regex.match_here re false s with
  | Some r => Some r
  | None =>
      match s with
      | EmptyString => None
      | String _ s' => Regex.search re s'
      end
  end.
Proof. destruct s; reflexivity. Qed.

Lemma match_opener opener s :
  Regex.match_here (Regex.Lit opener :: fence_tail) false s =
  match Str.drop_prefix opener s with
  | Some rest => Regex.add false opener (greedy rest)
  | None => None
  end.
Proof. reflexivity. Qed.

Lemma option_map_none {A B} (f : A -> B) (x : option A) :
  option_map f x = None -> x = None.
Proof. destruct x; [discriminate|reflexivity]. Qed.

Lemma option_map_snd_add inside c r :
  inside = false -> option_map snd (Regex.add inside c r) = option_map snd r.
Proof. intros ->. destruct r as [[m0 m1]|]; reflexivity. Qed.

(** No fence after the opener: no match, here or further on. *)
Lemma search_fence_none opener : forall s,
  Str.includes "```" (Str.drop (String.length opener) s) = false ->
  Regex.search (Regex.Lit opener :: fence_tail) s = None.
Proof.
  induction s as [|c s IH]; intros H; rewrite search_unfold, match_opener.
  - destruct (Str.drop_prefix opener "") as [rest|] eqn:E; [|reflexivity].
    apply drop_prefix_drop in E. rewrite <- E in H.
    rewrite (option_map_none snd (greedy rest)); [reflexivity|].
    rewrite greedy_spec. apply interior_none. rewrite includes_trim_start. exact H.
  - rewrite (IH (includes_drop_tail _ _ _ _ H)).
    destruct (Str.drop_prefix opener (String c s)) as [rest|] eqn:E; [|reflexivity].
    apply drop_prefix_drop in E. rewrite <- E in H.
    rewrite (option_map_none snd (greedy rest)); [reflexivity|].
    rewrite greedy_spec. apply interior_none. rewrite includes_trim_start. exact H.
Qed.

(** What the fence expressions capture: the interior of the first block. *)
Lemma search_fence opener s :
  option_map snd (Regex.search (Regex.Lit opener :: fence_tail) s) =
  first_block opener s.
Proof.
  unfold first_block.
  induction s as [|c s IH]; rewrite search_unfold, match_opener; cbn [after_first].
  - destruct (Str.drop_prefix opener "") as [rest|]; [|reflexivity].
    destruct (greedy rest) as [[m0 m1]|] eqn:G; rewrite <- greedy_spec, G; reflexivity.
  - destruct (Str.drop_prefix opener (String c s)) as [rest|] eqn:E; [|exact IH].
    destruct (greedy rest) as [[m0 m1]|] eqn:G; rewrite <- greedy_spec, G;
      [reflexivity|].
    cbn [Regex.add option_map].
    rewrite search_fence_none; [reflexivity|].
    apply (includes_drop_tail _ _ c).
    rewrite <- (drop_prefix_drop _ _ _ E).
    rewrite <- includes_trim_start. apply interior_none.
    rewrite <- greedy_spec, G. reflexivity.
Qed.

(** ** The expression of the braces *)

Definition last_brace (s : string) : option Regex.result :=
  Regex.match_here [Regex.Star true Regex.any; Regex.Lit "}"] false s.

Lemma last_brace_cons c s :
  last_brace (String c s) =
  match last_brace s with
  | Some r => Regex.add false (String c "") (Some r)
  | None => if Ascii.eqb "}"%char c then Some ("}", "") else None
  end.
Proof.
  unfold last_brace. cbn [Regex.match_here]. unfold Regex.any at 1.
  match goal with |- match ?a with _ => _ end = match ?b with _ => _ end =>
    change a with b; destruct b as [[? ?]|] end; [reflexivity|].
  cbn [Str.drop_prefix]. destruct (Ascii.eqb "}"%char c); reflexivity.
Qed.

Lemma last_brace_spec s : option_map fst (last_brace s) = up_to_last_brace s.
Proof.
  induction s as [|c s IH]; [reflexivity|].
  rewrite last_brace_cons. cbn [up_to_last_brace].
  destruct (last_brace s) as [[m0 m1]|]; cbn [option_map fst Regex.add] in IH |- *;
    rewrite <- IH; [reflexivity|].
  rewrite Ascii.eqb_sym. destruct (Ascii.eqb c "}"%char) eqn:E; [|reflexivity].
  apply Ascii.eqb_eq in E. subst c. reflexivity.
Qed.

Lemma match_braces s :
  Regex.match_here Regex.braces false s =
  match Str.drop_prefix "{" s with
  | Some rest => Regex.add false "{" (last_brace rest)
  | None => None
  end.
Proof. reflexivity. Qed.

Lemma up_to_last_brace_tail c s :
  up_to_last_brace (String c s) = None -> up_to_last_brace s = None.
Proof.
  cbn [up_to_last_brace]. destruct (up_to_last_brace s); [discriminate|reflexivity].
Qed.

Lemma search_braces_none : forall s,
  up_to_last_brace s = None -> Regex.search Regex.braces s = None.
Proof.
  induction s as [|c s IH]; intros H; rewrite search_unfold, match_braces;
    [reflexivity|].
  pose proof (up_to_last_brace_tail _ _ H) as Ht.
  rewrite (IH Ht).
  destruct (Str.drop_prefix "{" (String c s)) as [rest|] eqn:E; [|reflexivity].
  cbn [Str.drop_prefix] in E. destruct (Ascii.eqb "{"%char c); [|discriminate].
  inversion E; subst rest.
  rewrite (option_map_none fst (last_brace s)); [reflexivity|].
  rewrite last_brace_spec. exact Ht.
Qed.

(** What the expression of the braces matches: from the first opening
    brace to the last closing brace. *)
Lemma search_braces s :
  option_map fst (Regex.search Regex.braces s) = brace_span s.
Proof.
  unfold brace_span.
  induction s as [|c s IH]; rewrite search_unfold, match_braces; cbn [after_first];
    [reflexivity|].
  destruct (Str.drop_prefix "{" (String c s)) as [rest|] eqn:E; [|exact IH].
  cbn [Str.drop_prefix] in E. destruct (Ascii.eqb "{"%char c); [|discriminate].
  inversion E; subst rest. rewrite <- last_brace_spec.
  destruct (last_brace s) as [[m0 m1]|] eqn:L; [reflexivity|].
  cbn [Regex.add option_map].
  rewrite search_braces_none; [reflexivity|].
  rewrite <- last_brace_spec, L. reflexivity.
Qed.

End RegexFacts.

(** ** The response extractor *)

Module ExtractorFacts.
Import Extractor.

Lemma after_first_includes opener : forall s rest,
  after_first opener s = Some rest -> Str.includes opener s = true.
Proof.
  induction s as [|c s IH]; intros rest; cbn [after_first].
  - destruct (Str.drop_prefix opener "") eqn:E; [|discriminate].
    intros _. apply RegexFacts.starts_with_includes.
    rewrite RegexFacts.starts_with_drop_prefix, E. reflexivity.
  - destruct (Str.drop_prefix opener (String c s)) eqn:E.
    + intros _. apply RegexFacts.starts_with_includes.
      rewrite RegexFacts.starts_with_drop_prefix, E. reflexivity.
    + intros H. rewrite RegexFacts.includes_cons, (IH _ H). apply orb_true_r.
Qed.

Lemma first_block_includes opener s i :
  first_block opener s = Some i -> Str.includes opener s = true.
Proof.
  unfold first_block. destruct (after_first opener s) eqn:E; [|discriminate].
  intros _. eapply after_first_includes, E.
Qed.

Lemma json_marker_is_fence s :
  Str.includes "```json" s = true -> Str.includes "```" s = true.
Proof.
  induction s as [|c s IH]; [discriminate|].
  rewrite !RegexFacts.includes_cons. intros H. apply orb_true_iff in H.
  destruct H as [H|H]; [|rewrite (IH H); apply orb_true_r].
  assert (Hs : Str.starts_with "```" (String c s) = true).
  { cbn [Str.starts_with] in *.
    destruct (Ascii.eqb "`"%char c); [|discriminate].
    destruct s as [|c1 s]; [discriminate|].
    destruct (Ascii.eqb "`"%char c1); [|discriminate].
    destruct s as [|c2 s]; [discriminate|].
    destruct (Ascii.eqb "`"%char c2); [|discriminate]. reflexivity. }
  rewrite Hs. reflexivity.
Qed.

(** The text handed to the parser, by the markers that the reply holds. *)
Lemma jsonContent_eq content :
  ProjectGenerator.jsonContent content =
  if Str.includes "```json" content then
    or_whole content (first_block "```json" content)
  else if Str.includes "```" content then
    or_whole content (first_block "```" content)
  else or_whole content (brace_span content).
Proof.
  unfold ProjectGenerator.jsonContent.
  rewrite <- !RegexFacts.search_fence, <- RegexFacts.search_braces.
  change (Regex.Lit "```json" :: RegexFacts.fence_tail) with Regex.json_fence.
  change (Regex.Lit "```" :: RegexFacts.fence_tail) with Regex.plain_fence.
  destruct (Str.includes "```json" content);
    [destruct (Regex.search Regex.json_fence content) as [[m0 m1]|]; reflexivity|].
  destruct (Str.includes "```" content);
    [destruct (Regex.search Regex.plain_fence content) as [[m0 m1]|]; reflexivity|].
  destruct (Regex.search Regex.braces content) as [[m0 m1]|]; reflexivity.
Qed.

End ExtractorFacts.

(** C4, as the claim states it, fails: a reply with a fence that is never
    closed holds no fenced block, so that the span of the braces should
    be parsed; the code parses the whole reply, which is no JSON. *)
Lemma jsonContent_of_unclosed_fence_is_whole_reply :
  let content := "``` {}" in
  Extractor.claimed_candidate content = Some "{}" /\
  ProjectGenerator.jsonContent content = content /\
  Runtime.parse "{}" = Return (JObj []) /\
  (exists e, Runtime.parse (ProjectGenerator.jsonContent content) = Throw e).
Proof.
  split; [reflexivity|]. split; [reflexivity|]. split; [reflexivity|].
  eexists. reflexivity.
Qed.

(** C4, amended.  The branch is chosen by the marker that the reply
    contains, and a branch that finds nothing leaves the whole reply:
    with a marker of a json fence, the interior of the first block that
    this marker opens and a fence closes; else with any fence marker, the
    interior of the first block likewise; else the span from the first
    opening brace to the last closing brace.  Where the specification's
    rule applies with its block closed, or its braces present, the code
    agrees with it.  What is selected is then parsed. *)
Theorem jsonContent_precedence :
  forall (content : string),
    ProjectGenerator.jsonContent content =
      (if Str.includes "```json" content then
         Extractor.or_whole content (Extractor.first_block "```json" content)
       else if Str.includes "```" content then
         Extractor.or_whole content (Extractor.first_block "```" content)
       else Extractor.or_whole content (Extractor.brace_span content)) /\
    (forall i, Extractor.first_block "```json" content = Some i ->
               ProjectGenerator.jsonContent content = i) /\
    (Str.includes "```json" content = false ->
     forall i, Extractor.first_block "```" content = Some i ->
               ProjectGenerator.jsonContent content = i) /\
    (Str.includes "```" content = false ->
     forall m, Extractor.brace_span content = Some m ->
               ProjectGenerator.jsonContent content = m) /\
    (forall `{Platform} (w : World) (projectData : JSON),
        JSON_parse (ProjectGenerator.jsonContent content) = Return projectData ->
        ProjectGenerator.parse_reply content w = (w, Return projectData)).
Proof.
  intros content. split; [apply ExtractorFacts.jsonContent_eq|].
  repeat split.
  - intros i Hi. rewrite ExtractorFacts.jsonContent_eq.
    rewrite (ExtractorFacts.first_block_includes _ _ _ Hi), Hi. reflexivity.
  - intros Hj i Hi. rewrite ExtractorFacts.jsonContent_eq, Hj.
    rewrite (ExtractorFacts.first_block_includes _ _ _ Hi), Hi. reflexivity.
  - intros Hf m Hm. rewrite ExtractorFacts.jsonContent_eq, Hf.
    destruct (Str.includes "```json" content) eqn:Hj.
    + apply ExtractorFacts.json_marker_is_fence in Hj. congruence.
    + rewrite Hm. reflexivity.
  - intros P w projectData Hp. unfold ProjectGenerator.parse_reply.
    rewrite Hp. reflexivity.
Qed.

(** ** Replies that do not parse *)

Module GeneratorFacts.

(** A handler that catches all that its body throws returns a response. *)
Lemma try_catch_returns {A} (m : M A) (handler : JsError -> M A) (w : World) :
  (forall e v, exists a, snd (handler e v) = Return a) ->
  exists a, snd (try_catch m handler w) = Return a.
Proof.
  intros H. unfold try_catch. destruct (m w) as [w' [a|e]]; [eexists; reflexivity|].
  apply H.
Qed.

Lemma chat_returns (groq : Provider) (model messages : option JSON) (o : Js.obj)
  (content : string) (w : World) :
  (forall request, groq request = Return (Some content)) ->
  GroqClient.chat groq model messages (Some (JObj o)) w = (w, Return content).
Proof.
  intros H. unfold GroqClient.chat, or_default. rewrite GatewayFacts.params_eq.
  unfold try_catch, bind, lift, ret. rewrite H. reflexivity.
Qed.

Lemma try_catch_throw {A} (m : M A) (handler : JsError -> M A) w w' e :
  m w = (w', Throw e) -> try_catch m handler w = handler e w'.
Proof. intros H. unfold try_catch. rewrite H. reflexivity. Qed.

Lemma try_catch_return {A} (m : M A) (handler : JsError -> M A) w w' a :
  m w = (w', Return a) -> try_catch m handler w = (w', Return a).
Proof. intros H. unfold try_catch. rewrite H. reflexivity. Qed.

Lemma bind_return {A B} (m : M A) (k : A -> M B) w w' a :
  m w = (w', Return a) -> bind m k w = k a w'.
Proof. intros H. unfold bind. rewrite H. reflexivity. Qed.

Lemma bind_throw {A B} (m : M A) (k : A -> M B) w w' e :
  m w = (w', Throw e) -> bind m k w = (w', Throw e).
Proof. intros H. unfold bind. rewrite H. reflexivity. Qed.

End GeneratorFacts.

(** C5, as the claim states it, fails: the error raised for a reply that
    does not parse carries a fixed message, without the text that failed
    to parse. *)
Lemma malformed_reply_error_omits_the_text :
  let w := mkWorld (Dir []) [] in
  ProjectGenerator.jsonContent "xyz" = "xyz" /\
  snd (@ProjectGenerator.parse_reply Runtime.runtime "xyz" w) =
    Throw (Error "Invalid JSON response from AI model") /\
  Str.includes "xyz" (err_message (Error "Invalid JSON response from AI model")) = false.
Proof. repeat split. Qed.

(** C5, amended.  When the text cut out of a reply does not parse, the
    generator writes the parser's error and that text to the error
    console and throws one error, always the same: an [Error] of message
    "Invalid JSON response from AI model"; it throws no other.  The
    handler of the route catches what is thrown: it always returns a
    response, here with the status 500 and that message, and the files
    are left as they were. *)
Theorem malformed_reply_is_reported :
  forall `{Platform} (content : string) (w : World),
    (forall parseError,
        JSON_parse (ProjectGenerator.jsonContent content) = Throw parseError ->
        ProjectGenerator.parse_reply content w =
        (mkWorld (fs_root w)
           (console w ++ [[LStr "JSON Parse Error:"; LErr parseError];
                          [LStr "Content:"; LStr (ProjectGenerator.jsonContent content)]]),
         Throw (Error "Invalid JSON response from AI model"))) /\
    (forall e, snd (ProjectGenerator.parse_reply content w) = Throw e ->
               e = Error "Invalid JSON response from AI model") /\
    (forall env groq uuid now req_body,
        exists response,
          snd (Routes.post_generate env groq uuid now req_body w) = Return response) /\
    (forall env groq uuid now (fields : Js.obj) prompt key parseError,
        Js.obj_get "prompt" fields = Some prompt ->
        Js.truthy (Some prompt) = true ->
        GROQ_API_KEY env = Some key -> key <> "" ->
        (forall request, groq request = Return (Some content)) ->
        JSON_parse (ProjectGenerator.jsonContent content) = Throw parseError ->
        exists response,
          snd (Routes.post_generate env groq uuid now (Some (JObj fields)) w)
            = Return response /\
          status response = 500 /\
          Js.obj_get "message" (Js.own_props (body response)) =
            Some (JStr "Invalid JSON response from AI model") /\
          fs_root (fst (Routes.post_generate env groq uuid now (Some (JObj fields)) w))
            = fs_root w).
Proof.
  intros P content w. split; [|split; [|split]].
  - intros parseError Hp. unfold ProjectGenerator.parse_reply. rewrite Hp.
    unfold bind, console_error, throw. simpl. rewrite <- app_assoc. reflexivity.
  - intros e. unfold ProjectGenerator.parse_reply.
    destruct (JSON_parse (ProjectGenerator.jsonContent content)); [discriminate|].
    unfold bind, console_error, throw. simpl. congruence.
  - intros env groq uuid now req_body. unfold Routes.post_generate.
    apply GeneratorFacts.try_catch_returns. intros e v.
    eexists. reflexivity.
  - intros env groq uuid now fields prompt key parseError Hprompt Htruthy Hkey Hne Hgroq Hp.
    unfold Routes.post_generate.
    erewrite GeneratorFacts.try_catch_throw.
    2:{ erewrite GeneratorFacts.bind_return
          by (unfold lift; cbn [Js.get_prop Js.own_props]; rewrite Hprompt; reflexivity).
        erewrite GeneratorFacts.bind_return by reflexivity.
        rewrite Htruthy, Hkey. cbn [negb].
        apply String.eqb_neq in Hne. rewrite Hne.
        eapply GeneratorFacts.bind_throw.
        unfold ProjectGenerator.generateProjectStructure, ProjectGenerator.options.
        erewrite GeneratorFacts.bind_return
          by (apply GeneratorFacts.chat_returns, Hgroq).
        unfold ProjectGenerator.parse_reply. rewrite Hp.
        unfold bind, console_error, throw. cbn [fs_root console]. reflexivity. }
    unfold bind, console_error, ret. cbn [fst snd fs_root console].
    eexists. split; [reflexivity|]. split; [reflexivity|]. split; [|reflexivity].
    unfold status_json. cbn [body Js.own_props]. rewrite JsFacts.obj_get_literal.
    apply JsFacts.field_value_unique;
      [cbn [map fst]; repeat constructor; cbn [In]; intuition discriminate
      |cbn [In]; auto].
Qed.

(** ** Sorting *)

Module SortFacts.

Section Stable.

Variable A : Type.
Variable key : A -> option Z.
Variable comparefn : A -> A -> option Z.

(** The comparison puts the greater key first; without a key on both
    sides it decides nothing. *)
Hypothesis comes_after_key : forall a b,
  Js.comes_after comparefn a b =
  match key a, key b with
  | Some ka, Some kb => (ka <? kb)%Z
  | _, _ => false
  end.

Local Abbreviation has_key := (Listing.has_key key).
Local Abbreviation descending := (Listing.descending key).

Lemma insert_permutation x l :
  Permutation (Js.sort_insert comparefn x l) (x :: l).
Proof.
  induction l as [|y l IH]; simpl; [apply Permutation_refl|].
  destruct (Js.comes_after comparefn x y); [|apply Permutation_refl].
  eapply Permutation_trans; [apply perm_skip, IH|apply perm_swap].
Qed.

Lemma sort_permutation l : Permutation (Js.stable_sort comparefn l) l.
Proof.
  induction l as [|x l IH]; simpl; [constructor|].
  eapply Permutation_trans; [apply insert_permutation|apply perm_skip, IH].
Qed.

Lemma filter_insert k x l :
  filter (has_key k) (Js.sort_insert comparefn x l) =
  if has_key k x then x :: filter (has_key k) l else filter (has_key k) l.
Proof.
  induction l as [|y l IH]; simpl; [reflexivity|].
  destruct (Js.comes_after comparefn x y) eqn:E; [|reflexivity].
  simpl. rewrite IH. rewrite comes_after_key in E.
  unfold Listing.has_key in *.
  destruct (key x) as [kx|]; [|discriminate].
  destruct (key y) as [ky|]; [|discriminate].
  apply Z.ltb_lt in E.
  destruct (kx =? k)%Z eqn:Ex; [|reflexivity].
  apply Z.eqb_eq in Ex. subst kx.
  destruct (ky =? k)%Z eqn:Ey; [|reflexivity].
  apply Z.eqb_eq in Ey. lia.
Qed.

(** The sort is stable: the elements of one key keep their order. *)
Lemma sort_stable k l :
  filter (has_key k) (Js.stable_sort comparefn l) = filter (has_key k) l.
Proof.
  induction l as [|x l IH]; simpl; [reflexivity|].
  rewrite filter_insert, IH. reflexivity.
Qed.

Lemma insert_sorted x l :
  key x <> None ->
  Forall (fun a => key a <> None) l ->
  StronglySorted descending l ->
  StronglySorted descending (Js.sort_insert comparefn x l).
Proof.
  intros Hx Hl Hs. induction Hs as [|y l Hs IH Hy]; simpl.
  - constructor; constructor.
  - inversion Hl as [|? ? Hky Hl']; subst.
    destruct (key x) as [kx|] eqn:Ekx; [|congruence].
    destruct (key y) as [ky|] eqn:Eky; [|congruence].
    destruct (Js.comes_after comparefn x y) eqn:E;
      rewrite comes_after_key, Ekx, Eky in E.
    + apply Z.ltb_lt in E. constructor; [apply IH, Hl'|].
      apply (Permutation_Forall (Permutation_sym (insert_permutation x l))).
      constructor; [|exact Hy].
      exists ky, kx. repeat split; auto. lia.
    + apply Z.ltb_ge in E. constructor; [constructor; assumption|].
      constructor; [exists kx, ky; auto|].
      eapply Forall_impl; [|exact Hy].
      intros z (ky' & kz & H1 & H2 & H3). rewrite Eky in H1. inversion H1; subst.
      exists kx, kz. repeat split; auto. lia.
Qed.

(** When every element has a key, the result is in descending order. *)
Lemma sort_sorted l :
  Forall (fun a => key a <> None) l ->
  StronglySorted descending (Js.stable_sort comparefn l).
Proof.
  induction l as [|x l IH]; simpl; intros H; [constructor|].
  inversion H; subst. apply insert_sorted; auto.
  apply (Permutation_Forall (Permutation_sym (sort_permutation l))). assumption.
Qed.

(** Three elements of increasing keys, in whatever order they come, are
    returned last first. *)
Lemma sort_three p1 p2 p3 k1 k2 k3 l :
  key p1 = Some k1 -> key p2 = Some k2 -> key p3 = Some k3 ->
  (k1 < k2)%Z -> (k2 < k3)%Z ->
  Permutation l [p1; p2; p3] ->
  Js.stable_sort comparefn l = [p3; p2; p1].
Proof.
  intros H1 H2 H3 H12 H23 Hperm.
  assert (Hkeys : Forall (fun a => key a <> None) l).
  { apply (Permutation_Forall (Permutation_sym Hperm)).
    repeat constructor; congruence. }
  pose proof (sort_sorted l Hkeys) as Hsorted.
  pose proof (Permutation_trans (sort_permutation l) Hperm) as Hp.
  destruct (Js.stable_sort comparefn l) as [|a [|b [|c [|? ?]]]];
    try (apply Permutation_length in Hp; discriminate Hp).
  assert (Ha : In a [p1; p2; p3]) by (eapply Permutation_in; [exact Hp|simpl; auto]).
  assert (Hb : In b [p1; p2; p3]) by (eapply Permutation_in; [exact Hp|simpl; auto]).
  assert (Hc : In c [p1; p2; p3]) by (eapply Permutation_in; [exact Hp|simpl; auto]).
  assert (Hnd : NoDup [a; b; c]).
  { apply (Permutation_NoDup (Permutation_sym Hp)).
    repeat constructor; simpl; intuition (subst; rewrite ?H1, ?H2, ?H3 in *; 
      match goal with H : Some _ = Some _ |- _ => inversion H; lia end). }
  inversion Hsorted as [|? ? Hs1 Hf1]; subst.
  inversion Hs1 as [|? ? Hs2 Hf2]; subst.
  inversion Hf1 as [|? ? (ka & kb & Eka & Ekb & Hab) Hf1']; subst.
  inversion Hf1' as [|? ? (ka' & kc & Eka' & Ekc & Hac) _]; subst.
  inversion Hf2 as [|? ? (kb' & kc' & Ekb' & Ekc' & Hbc) _]; subst.
  inversion Hnd as [|? ? Hna Hnd1]; subst.
  inversion Hnd1 as [|? ? Hnb _]; subst.
  simpl in Ha, Hb, Hc, Hna, Hnb.
  destruct Ha as [<-|[<-|[<-|[]]]]; destruct Hb as [<-|[<-|[<-|[]]]];
    destruct Hc as [<-|[<-|[<-|[]]]];
    try reflexivity; try tauto; exfalso;
    rewrite ?H1, ?H2, ?H3 in *;
    repeat match goal with H : Some _ = Some _ |- _ => inversion H; clear H end;
    lia.
Qed.

End Stable.

End SortFacts.

(** ** Listing the projects *)

Module ListingFacts.
Import Listing.

Lemma resolve_pure syscall p w : fst (Fs.resolve syscall p w) = w.
Proof.
  unfold Fs.resolve.
  destruct (Tree.lookup (Fs.components p) (fs_root w)) as [[c t|es]|];
    [destruct (Path.has_trailing_slash p)|..]; reflexivity.
Qed.

Lemma readFile_pure p w : fst (Fs.readFile p w) = w.
Proof.
  unfold Fs.readFile, bind. pose proof (resolve_pure "open" p w) as H.
  destruct (Fs.resolve "open" p w) as [w' [[c t|es]|e]]; simpl in *; exact H.
Qed.

Lemma read_summary_pure `{Platform} dir w : fst (Routes.read_summary dir w) = w.
Proof.
  unfold Routes.read_summary, bind. pose proof (readFile_pure (metadataPath dir) w) as H0.
  unfold metadataPath in H0.
  destruct (Fs.readFile _ w) as [w' [text|e]]; simpl in *; [|exact H0].
  unfold lift. destruct (JSON_parse text) as [projectData|e]; [|exact H0].
  exact H0.
Qed.

(** The loop of the listing reads and does not write. *)
Lemma collect_eq `{Platform} dirs : forall projects w,
  Routes.collect dirs projects w =
  (w, Return (projects ++ flat_map (listed w) dirs)%list).
Proof.
  induction dirs as [|dir dirs IH]; intros projects w; cbn [Routes.collect flat_map].
  - unfold ret. rewrite app_nil_r. reflexivity.
  - unfold listed at 1. destruct (Str.ends_with ".zip" dir).
    + apply IH.
    + unfold bind at 1, try_catch, bind at 1.
      pose proof (read_summary_pure dir w) as Hp.
      destruct (Routes.read_summary dir w) as [w' [project|e]]; simpl in Hp; subst w';
        unfold ret; cbn [snd]; rewrite IH, <- ?app_assoc; reflexivity.
Qed.

Lemma newest_first_key `{Platform} a b :
  Js.comes_after Routes.newest_first a b =
  match Routes.generated_time a, Routes.generated_time b with
  | Some ka, Some kb => (ka <? kb)%Z
  | _, _ => false
  end.
Proof.
  unfold Js.comes_after, Routes.newest_first.
  destruct (Routes.generated_time a) as [ka|], (Routes.generated_time b) as [kb|];
    try reflexivity.
  destruct (Z.ltb_spec ka kb), (Z.ltb_spec 0 (kb - ka)); try reflexivity; lia.
Qed.

Lemma newest_first_dated `{Platform} a b ta tb :
  Routes.generated_time a = Some ta -> Routes.generated_time b = Some tb ->
  Routes.newest_first a b = Some (tb - ta)%Z.
Proof. intros Ha Hb. unfold Routes.newest_first. rewrite Ha, Hb. reflexivity. Qed.

(** On summaries that all have a valid date, the comparison of the
    listing is a consistent comparator. *)
Lemma newest_first_consistent `{Platform} l :
  Forall (fun p => Routes.generated_time p <> None) l ->
  Js.consistent Routes.newest_first l.
Proof.
  intros Hl.
  assert (Hd : forall a, In a l -> exists t, Routes.generated_time a = Some t).
  { intros a Ha. pose proof (proj1 (Forall_forall _ _) Hl a Ha) as Hn.
    cbv beta in Hn. destruct (Routes.generated_time a) as [t|]; [exists t; reflexivity|congruence]. }
  unfold Js.consistent, Js.sorts_equal, Js.sorts_before, Js.sorts_after.
  repeat split.
  - intros a b Ha Hb. destruct (Hd a Ha) as (ta & Ea), (Hd b Hb) as (tb & Eb).
    rewrite (newest_first_dated a b ta tb) by assumption. discriminate.
  - intros a Ha. destruct (Hd a Ha) as (ta & Ea).
    rewrite (newest_first_dated a a ta ta) by assumption. f_equal. lia.
  - intros a b Ha Hb. destruct (Hd a Ha) as (ta & Ea), (Hd b Hb) as (tb & Eb).
    rewrite (newest_first_dated a b ta tb), (newest_first_dated b a tb ta) by assumption.
    intros E. inversion E. f_equal. lia.
  - intros a b c Ha Hb Hc.
    destruct (Hd a Ha) as (ta & Ea), (Hd b Hb) as (tb & Eb), (Hd c Hc) as (tc & Ec).
    rewrite (newest_first_dated a b ta tb), (newest_first_dated b c tb tc),
      (newest_first_dated a c ta tc) by assumption.
    intros E1 E2. inversion E1. inversion E2. f_equal. lia.
  - intros a b c Ha Hb Hc.
    destruct (Hd a Ha) as (ta & Ea), (Hd b Hb) as (tb & Eb), (Hd c Hc) as (tc & Ec).
    rewrite (newest_first_dated a b ta tb), (newest_first_dated b c tb tc),
      (newest_first_dated a c ta tc) by assumption.
    intros (v1 & E1 & H1) (v2 & E2 & H2). inversion E1. inversion E2.
    eexists. split; [reflexivity|lia].
  - intros a b c Ha Hb Hc.
    destruct (Hd a Ha) as (ta & Ea), (Hd b Hb) as (tb & Eb), (Hd c Hc) as (tc & Ec).
    rewrite (newest_first_dated a b ta tb), (newest_first_dated b c tb tc),
      (newest_first_dated a c ta tc) by assumption.
    intros (v1 & E1 & H1) (v2 & E2 & H2). inversion E1. inversion E2.
    eexists. split; [reflexivity|lia].
Qed.

(** The listing, whatever the entries of the storage root. *)
Lemma get_projects_found `{Platform} w projectDirs :
  snd (Fs.readdir PROJECTS_DIR w) = Return projectDirs ->
  Routes.get_projects w =
    (w, Return (json
       [("projects", Some (JArr (Array_sort Routes.newest_first
                                   (flat_map (listed w) projectDirs))));
        ("total", Some (Js.num (List.length
                                   (Array_sort Routes.newest_first
                                      (flat_map (listed w) projectDirs)))))])).
Proof.
  intros Hdirs. unfold Routes.get_projects, try_catch.
  assert (Hrd : Fs.readdir PROJECTS_DIR w = (w, Return projectDirs)).
  { pose proof (resolve_pure "scandir" PROJECTS_DIR w) as Hp.
    unfold Fs.readdir, bind, ret, throw in *.
    destruct (Fs.resolve "scandir" PROJECTS_DIR w) as [w' [[c t|es]|e]];
      cbn [fst snd] in *; subst w'; try discriminate Hdirs.
    inversion Hdirs. reflexivity. }
  unfold bind at 1. rewrite Hrd.
  unfold bind. rewrite collect_eq. reflexivity.
Qed.

End ListingFacts.




(** ** Paths *)

Module PathFacts.
Import Names.

Lemma segments_nonempty s : Path.segments_of s <> [].
Proof.
  unfold Path.segments_of. destruct s as [|c s]; simpl; [discriminate|].
  destruct (Ascii.eqb c Path.slash); [discriminate|].
  destruct (Str.split_on Path.slash s); discriminate.
Qed.

Lemma segments_cons c s :
  Path.segments_of (String c s) =
  if Ascii.eqb c Path.slash then "" :: Path.segments_of s
  else match Path.segments_of s with
       | h :: t => String c h :: t
       | [] => [String c ""]
       end.
Proof. reflexivity. Qed.

(** Splitting at a slash splits the segments. *)
Lemma segments_app a b :
  Path.segments_of (a ++ "/" ++ b) = (Path.segments_of a ++ Path.segments_of b)%list.
Proof.
  induction a as [|c a IH].
  - reflexivity.
  - change (String c a ++ "/" ++ b) with (String c (a ++ "/" ++ b)).
    rewrite !segments_cons, IH.
    destruct (Ascii.eqb c Path.slash); [reflexivity|].
    pose proof (segments_nonempty a) as Hne.
    destruct (Path.segments_of a); [congruence|reflexivity].
Qed.

Lemma includes_slash_cons c s :
  Str.includes "/" (String c s) = Ascii.eqb Path.slash c || Str.includes "/" s.
Proof.
  cbn [Str.includes Str.starts_with]. rewrite andb_true_r. reflexivity.
Qed.

Lemma segments_no_slash s : no_slash s = true -> Path.segments_of s = [s].
Proof.
  unfold no_slash. induction s as [|c s IH]; [reflexivity|].
  rewrite includes_slash_cons, segments_cons, Ascii.eqb_sym.
  destruct (Ascii.eqb c Path.slash); [discriminate|]. simpl orb.
  intros H. rewrite (IH H). reflexivity.
Qed.

Lemma segments_have_no_slash s : Forall (fun seg => no_slash seg = true) (Path.segments_of s).
Proof.
  induction s as [|c s IH]; [repeat constructor|].
  rewrite segments_cons. destruct (Ascii.eqb c Path.slash) eqn:E.
  - constructor; [reflexivity|exact IH].
  - destruct (Path.segments_of s) as [|h t]; [repeat constructor|].
    + unfold no_slash. rewrite includes_slash_cons, Ascii.eqb_sym, E. reflexivity.
    + inversion IH; subst. constructor; [|assumption].
      unfold no_slash in *. rewrite includes_slash_cons, Ascii.eqb_sym, E. assumption.
Qed.

Lemma join_cons a b l :
  Str.join "/" (a :: b :: l) = a ++ "/" ++ Str.join "/" (b :: l).
Proof. reflexivity. Qed.

(** The segments of names joined by slashes are these names. *)
Lemma segments_join l :
  l <> [] -> Forall (fun seg => no_slash seg = true) l ->
  Path.segments_of (Str.join "/" l) = l.
Proof.
  induction l as [|a l IH]; [congruence|]. intros _ H. inversion H; subst.
  destruct l as [|b l].
  - apply segments_no_slash. assumption.
  - rewrite join_cons, segments_app, segments_no_slash by assumption.
    rewrite IH by (assumption || discriminate). reflexivity.
Qed.

(** A text is its segments joined by slashes. *)
Lemma join_segments s : Str.join "/" (Path.segments_of s) = s.
Proof.
  induction s as [|c s IH]; [reflexivity|].
  rewrite segments_cons. destruct (Ascii.eqb c Path.slash) eqn:E.
  - apply Ascii.eqb_eq in E. subst c.
    pose proof (segments_nonempty s) as Hne.
    destruct (Path.segments_of s) as [|h t] eqn:Es; [congruence|].
    rewrite join_cons, IH. reflexivity.
  - pose proof (segments_nonempty s) as Hne.
    destruct (Path.segments_of s) as [|h t] eqn:Es; [congruence|].
    destruct t as [|h' t].
    + simpl in *. rewrite IH. reflexivity.
    + rewrite join_cons in *. rewrite <- IH. reflexivity.
Qed.

(** *** Normalization *)

Lemma valid_name_spec seg :
  Path.valid_name seg = true <->
  seg <> "" /\ seg <> "." /\ seg <> ".." /\ no_slash seg = true.
Proof.
  unfold Path.valid_name, no_slash.
  rewrite !andb_true_iff, !negb_true_iff, !String.eqb_neq. tauto.
Qed.

Lemma step_valid allow stack seg :
  Path.valid_name seg = true -> Path.step allow stack seg = seg :: stack.
Proof.
  intros H. apply valid_name_spec in H. destruct H as (H1 & H2 & H3 & _).
  unfold Path.step. apply String.eqb_neq in H1, H2, H3.
  rewrite H1, H2, H3. reflexivity.
Qed.

Lemma step_kept_without_dots allow stack seg :
  seg <> ".." ->
  Path.step allow stack seg = if kept seg then seg :: stack else stack.
Proof.
  intros H. unfold Path.step, kept. apply String.eqb_neq in H. rewrite H.
  destruct (String.eqb seg ""), (String.eqb seg "."); reflexivity.
Qed.

Lemma fold_valid allow segs : forall stack,
  Forall (fun seg => Path.valid_name seg = true) segs ->
  fold_left (Path.step allow) segs stack = (rev segs ++ stack)%list.
Proof.
  induction segs as [|seg segs IH]; intros stack H; [reflexivity|].
  inversion H; subst. cbn [fold_left]. rewrite step_valid by assumption.
  rewrite IH by assumption. simpl. rewrite <- app_assoc. reflexivity.
Qed.

(** Without a double dot, the segments that are kept are pushed. *)
Lemma fold_without_dots allow segs : forall stack,
  Forall (fun seg => seg <> "..") segs ->
  fold_left (Path.step allow) segs stack = (rev (filter kept segs) ++ stack)%list.
Proof.
  induction segs as [|seg segs IH]; intros stack H; [reflexivity|].
  inversion H; subst. cbn [fold_left filter].
  rewrite step_kept_without_dots by assumption. rewrite IH by assumption.
  destruct (kept seg); [|reflexivity]. simpl. rewrite <- app_assoc. reflexivity.
Qed.

Lemma step_keeps_valid stack seg :
  Forall (fun s => Path.valid_name s = true) stack ->
  no_slash seg = true ->
  Forall (fun s => Path.valid_name s = true) (Path.step false stack seg).
Proof.
  intros Hst Hseg. unfold Path.step.
  destruct (String.eqb seg "") eqn:E1; [exact Hst|].
  destruct (String.eqb seg ".") eqn:E2; [exact Hst|]. cbn [orb].
  destruct (String.eqb seg "..") eqn:E3.
  - destruct stack as [|top below]; [constructor|].
    inversion Hst; subst. destruct (String.eqb top ".."); assumption.
  - constructor; [|exact Hst]. apply valid_name_spec.
    apply String.eqb_neq in E1, E2, E3. auto.
Qed.

Lemma fold_keeps_valid segs : forall stack,
  Forall (fun s => Path.valid_name s = true) stack ->
  Forall (fun seg => no_slash seg = true) segs ->
  Forall (fun s => Path.valid_name s = true) (fold_left (Path.step false) segs stack).
Proof.
  induction segs as [|seg segs IH]; intros stack Hst Hs; [exact Hst|].
  inversion Hs; subst. cbn [fold_left]. apply IH; [|assumption].
  apply step_keeps_valid; assumption.
Qed.

(** The components of a path are names. *)
Lemma components_valid p : Forall (fun s => Path.valid_name s = true) (Fs.components p).
Proof.
  unfold Fs.components, Path.normalize_segments.
  apply Forall_rev, fold_keeps_valid; [constructor|apply segments_have_no_slash].
Qed.

Lemma append_empty s : s ++ "" = s.
Proof. induction s as [|c s IH]; simpl; [|rewrite IH]; reflexivity. Qed.

Lemma join_empty_iff l :
  Forall (fun s => Path.valid_name s = true) l ->
  String.eqb (Str.join "/" l) "" = match l with [] => true | _ => false end.
Proof.
  intros H. destruct l as [|a l]; [reflexivity|].
  inversion H as [|? ? Ha _]; subst. apply valid_name_spec in Ha.
  destruct a as [|c a]; [tauto|].
  destruct l; reflexivity.
Qed.

Lemma normalize_absolute p :
  Path.is_absolute p = true ->
  Path.normalize p = render (Fs.components p) (Path.has_trailing_slash p).
Proof.
  intros Habs. unfold Path.normalize.
  destruct (String.eqb p "") eqn:E; [apply String.eqb_eq in E; subst; discriminate|].
  rewrite Habs. cbn [negb].
  change (rev (Path.normalize_segments false [] (Path.segments_of p)))
    with (Fs.components p).
  rewrite (join_empty_iff _ (components_valid p)).
  unfold render. destruct (Fs.components p); reflexivity.
Qed.

Lemma components_render segs trailing :
  Forall (fun s => Path.valid_name s = true) segs ->
  Fs.components (render segs trailing) = segs.
Proof.
  intros H. destruct segs as [|a l]; [reflexivity|].
  assert (Hns : Forall (fun seg => no_slash seg = true) (a :: l)).
  { eapply Forall_impl; [|exact H]. intros s Hs. apply valid_name_spec in Hs. tauto. }
  unfold Fs.components, Path.normalize_segments, render.
  change ("/" ++ Str.join "/" (a :: l) ++ (if trailing then "/" else ""))
    with (String Path.slash (Str.join "/" (a :: l) ++ (if trailing then "/" else ""))).
  rewrite segments_cons, Ascii.eqb_refl.
  assert (Hsegs : exists tail, Forall (fun s => s = "") tail /\
            Path.segments_of (Str.join "/" (a :: l) ++ (if trailing then "/" else ""))
            = (a :: l ++ tail)%list).
  { destruct trailing.
    - exists [""]. split; [repeat constructor|].
      change "/" with ("/" ++ ""). rewrite segments_app, segments_join by (assumption || discriminate).
      reflexivity.
    - exists []. split; [constructor|].
      rewrite append_empty, segments_join, app_nil_r by (assumption || discriminate).
      reflexivity. }
  destruct Hsegs as (tail & Htail & ->).
  change ("" :: a :: l ++ tail)%list with ([""] ++ (a :: l) ++ tail)%list.
  rewrite !fold_left_app.
  change (fold_left (Path.step false) [""] []) with (@nil string).
  rewrite (fold_valid false (a :: l) [] H).
  rewrite app_nil_r.
  assert (Hskip : forall st, fold_left (Path.step false) tail st = st).
  { clear - Htail. induction Htail as [|x tail Hx _ IH]; intros st; [reflexivity|].
    subst x. cbn [fold_left]. apply IH. }
  rewrite Hskip. apply rev_involutive.
Qed.

(** Normalizing an absolute path does not change what it names. *)
Lemma components_normalize p :
  Path.is_absolute p = true -> Fs.components (Path.normalize p) = Fs.components p.
Proof.
  intros H. rewrite normalize_absolute by assumption.
  apply components_render, components_valid.
Qed.

Lemma render_absolute segs trailing : Path.is_absolute (render segs trailing) = true.
Proof. destruct segs; reflexivity. Qed.

(** *** Joining *)

Lemma segments_join_parts parts :
  parts <> [] ->
  Path.segments_of (Str.join "/" parts) = flat_map Path.segments_of parts.
Proof.
  induction parts as [|a l IH]; [congruence|]. intros _.
  destruct l as [|b l].
  - simpl. rewrite app_nil_r. reflexivity.
  - rewrite join_cons, segments_app, IH by discriminate. reflexivity.
Qed.

Lemma fold_skips_empty_args allow args : forall stack,
  fold_left (Path.step allow) (flat_map Path.segments_of (filter nonempty args)) stack =
  fold_left (Path.step allow) (flat_map Path.segments_of args) stack.
Proof.
  induction args as [|a args IH]; intros stack; [reflexivity|].
  cbn [filter flat_map]. unfold nonempty at 1.
  destruct (String.eqb a "") eqn:E; cbn [negb].
  - apply String.eqb_eq in E. subst a. rewrite fold_left_app. apply IH.
  - cbn [flat_map]. rewrite !fold_left_app. apply IH.
Qed.

Lemma join_absolute a rest :
  Path.is_absolute a = true ->
  Path.join (a :: rest) = Path.normalize (Str.join "/" (a :: filter nonempty rest)) /\
  Path.is_absolute (Str.join "/" (a :: filter nonempty rest)) = true.
Proof.
  intros H. unfold Path.join. cbn [filter].
  destruct a as [|c a]; [discriminate|]. cbn [String.eqb negb].
  split; [reflexivity|].
  destruct (filter nonempty rest); [exact H|].
  rewrite join_cons. exact H.
Qed.

(** What a join names, when its first argument is absolute: the
    segments of the arguments, normalized from the root. *)
Lemma components_join a rest :
  Path.is_absolute a = true ->
  Fs.components (Path.join (a :: rest)) =
  rev (fold_left (Path.step false) (flat_map Path.segments_of (a :: rest)) []).
Proof.
  intros H. destruct (join_absolute a rest H) as [-> Habs].
  rewrite components_normalize by assumption.
  unfold Fs.components, Path.normalize_segments.
  rewrite segments_join_parts by discriminate.
  replace (a :: filter nonempty rest) with (filter nonempty (a :: rest)).
  - rewrite fold_skips_empty_args. reflexivity.
  - cbn [filter]. destruct a; [discriminate|reflexivity].
Qed.

Lemma join_is_absolute a rest :
  Path.is_absolute a = true -> Path.is_absolute (Path.join (a :: rest)) = true.
Proof.
  intros H. destruct (join_absolute a rest H) as [-> Habs].
  rewrite normalize_absolute by assumption. apply render_absolute.
Qed.

(** Joining one path to an absolute path resolves it from there. *)
Lemma components_join2 a b :
  Path.is_absolute a = true ->
  Fs.components (Path.join [a; b]) =
  rev (fold_left (Path.step false) (Path.segments_of b) (rev (Fs.components a))).
Proof.
  intros H. rewrite components_join by assumption.
  cbn [flat_map]. rewrite app_nil_r, fold_left_app.
  unfold Fs.components, Path.normalize_segments. rewrite rev_involutive. reflexivity.
Qed.

Lemma components_join3 a b c :
  Path.is_absolute a = true ->
  Fs.components (Path.join [a; b; c]) = Fs.components (Path.join [Path.join [a; b]; c]).
Proof.
  intros H. rewrite (components_join2 (Path.join [a; b])) by (apply join_is_absolute, H).
  rewrite !components_join by assumption.
  cbn [flat_map]. rewrite !app_nil_r, rev_involutive, app_assoc, fold_left_app.
  reflexivity.
Qed.

Lemma PROJECTS_DIR_absolute `{Platform} : Path.is_absolute PROJECTS_DIR = true.
Proof. apply join_is_absolute, dirname_absolute. Qed.

(** A name joined to a path is one more component. *)
Lemma components_join_name a name :
  Path.is_absolute a = true -> Path.valid_name name = true ->
  Fs.components (Path.join [a; name]) = (Fs.components a ++ [name])%list.
Proof.
  intros Ha Hn. rewrite components_join2 by assumption.
  pose proof Hn as Hn'. apply valid_name_spec in Hn'.
  rewrite segments_no_slash by tauto. cbn [fold_left].
  rewrite step_valid by assumption. simpl. rewrite rev_involutive. reflexivity.
Qed.

End PathFacts.

(** ** Creating directories and writing files in the tree *)

Module TreeWrites.
Import Names TreeFacts.

Lemma prefixb_nil_r q : prefixb q [] = match q with [] => true | _ => false end.
Proof. destruct q; reflexivity. Qed.

Lemma prefixb_refl p : prefixb p p = true.
Proof. induction p as [|a p IH]; simpl; [|rewrite String.eqb_refl]; auto. Qed.

Lemma prefixb_spec q : forall p, prefixb q p = true <-> exists r, p = (q ++ r)%list.
Proof.
  induction q as [|a q IH]; intros p; simpl.
  - split; [eauto|reflexivity].
  - destruct p as [|b p].
    + split; [discriminate|]. intros (r & H). discriminate.
    + rewrite andb_true_iff, String.eqb_eq, IH. split.
      * intros (-> & r & ->). eauto.
      * intros (r & H). inversion H; subst. eauto.
Qed.

Lemma mkdir_p_cons s p es :
  Tree.mkdir_p (s :: p) (Dir es) =
  match Tree.mkdir_p p (match Tree.child s es with
                        | Some c => c
                        | None => Dir []
                        end) with
  | inr c' => inr (Dir (Tree.set_child s c' es))
  | inl e => inl e
  end.
Proof. reflexivity. Qed.

Lemma mkdir_p_is_dir p : forall n n',
  Tree.mkdir_p p n = inr n' -> exists es, n' = Dir es.
Proof.
  destruct p as [|s p]; intros [c t|es] n'; try discriminate.
  - simpl. intros H. inversion H. eauto.
  - rewrite mkdir_p_cons. destruct (Tree.mkdir_p p _); [discriminate|].
    intros H. inversion H. eauto.
Qed.

(** Off the path, [mkdir -p] changes nothing. *)
Lemma lookup_mkdir_p_other p : forall n n' q,
  Tree.mkdir_p p n = inr n' -> prefixb q p = false ->
  Tree.lookup q n' = Tree.lookup q n.
Proof.
  induction p as [|s p IH]; intros [c t|es] n' q Hm Hq; try discriminate.
  - simpl in Hm. inversion Hm. reflexivity.
  - rewrite mkdir_p_cons in Hm.
    destruct (Tree.mkdir_p p _) as [e|c'] eqn:E; [discriminate|].
    inversion Hm; subst n'. clear Hm.
    destruct q as [|a q]; [discriminate|]. cbn [prefixb] in Hq.
    cbn [Tree.lookup]. rewrite child_set_child.
    destruct (String.eqb a s) eqn:Eas; [|reflexivity].
    apply String.eqb_eq in Eas. subst a. cbn [andb] in Hq.
    rewrite (IH _ _ q E Hq).
    destruct (Tree.child s es); [reflexivity|].
    destruct q; [discriminate|reflexivity].
Qed.

(** Along the path, [mkdir -p] leaves directories. *)
Lemma lookup_mkdir_p_prefix p : forall n n' q,
  Tree.mkdir_p p n = inr n' -> prefixb q p = true ->
  exists es, Tree.lookup q n' = Some (Dir es).
Proof.
  induction p as [|s p IH]; intros n n' q Hm Hq.
  - rewrite prefixb_nil_r in Hq. destruct q; [|discriminate].
    destruct (mkdir_p_is_dir _ _ _ Hm) as (es & ->). simpl. eauto.
  - destruct n as [c t|es]; [discriminate|].
    rewrite mkdir_p_cons in Hm.
    destruct (Tree.mkdir_p p _) as [e|c'] eqn:E; [discriminate|].
    inversion Hm; subst n'. clear Hm.
    destruct q as [|a q]; [simpl; eauto|].
    cbn [prefixb] in Hq. apply andb_true_iff in Hq. destruct Hq as [Ha Hq].
    apply String.eqb_eq in Ha. subst a.
    cbn [Tree.lookup]. rewrite child_set_child, String.eqb_refl.
    eapply IH; eassumption.
Qed.

(** [mkdir -p] succeeds when no regular file is on the path. *)
Lemma mkdir_p_succeeds p : forall n,
  (forall q, prefixb q p = true -> kind_at q n <> Some KFile) ->
  exists n', Tree.mkdir_p p n = inr n'.
Proof.
  induction p as [|s p IH]; intros n H.
  - destruct n as [c t|es]; [|simpl; eauto].
    exfalso. apply (H []); reflexivity.
  - destruct n as [c t|es]; [exfalso; apply (H []); reflexivity|].
    rewrite mkdir_p_cons.
    destruct (IH (match Tree.child s es with Some c => c | None => Dir [] end))
      as (c' & ->); [|eauto].
    intros q Hq. specialize (H (s :: q)).
    cbn [prefixb] in H. rewrite String.eqb_refl in H. specialize (H Hq).
    unfold kind_at in *. cbn [Tree.lookup] in H.
    destruct (Tree.child s es); [exact H|].
    destruct q; simpl; discriminate.
Qed.

Lemma write_cons s s' p es f :
  Tree.write (s :: s' :: p) f (Dir es) =
  match Tree.child s es with
  | Some c =>
      match Tree.write (s' :: p) f c with
      | inr c' => inr (Dir (Tree.set_child s c' es))
      | inl e => inl e
      end
  | None => inl ENOENT
  end.
Proof. reflexivity. Qed.

Lemma write_last s es f :
  Tree.write [s] f (Dir es) =
  match Tree.child s es with
  | Some (Dir _) => inl EISDIR
  | _ => inr (Dir (Tree.set_child s f es))
  end.
Proof. reflexivity. Qed.

(** A file that was written is there. *)
Lemma lookup_write p : forall n n' f,
  Tree.write p f n = inr n' -> Tree.lookup p n' = Some f.
Proof.
  induction p as [|s p IH]; intros [c t|es] n' f Hw; try discriminate.
  destruct p as [|s' p].
  - rewrite write_last in Hw.
    assert (n' = Dir (Tree.set_child s f es))
      by (destruct (Tree.child s es) as [[? ?|?]|]; inversion Hw; reflexivity).
    subst n'. cbn [Tree.lookup]. rewrite child_set_child, String.eqb_refl. reflexivity.
  - rewrite write_cons in Hw. destruct (Tree.child s es) as [c|]; [|discriminate].
    destruct (Tree.write (s' :: p) f c) as [e|c'] eqn:E; [discriminate|].
    inversion Hw; subst n'. cbn [Tree.lookup].
    rewrite child_set_child, String.eqb_refl. apply (IH _ _ _ E).
Qed.

(** Writing a regular file changes nothing off its path. *)
Lemma lookup_write_other p : forall n n' content t q,
  Tree.write p (File content t) n = inr n' -> prefixb q p = false ->
  Tree.lookup q n' = Tree.lookup q n.
Proof.
  induction p as [|s p IH]; intros [c0 t0|es] n' content t q Hw Hq; try discriminate.
  destruct q as [|a q]; [discriminate|]. cbn [prefixb] in Hq.
  destruct p as [|s' p].
  - rewrite write_last in Hw.
    destruct (Tree.child s es) as [[c1 t1|es1]|] eqn:Ec; inversion Hw; subst n';
      cbn [Tree.lookup]; rewrite child_set_child;
      (destruct (String.eqb a s) eqn:Eas; [|reflexivity]);
      apply String.eqb_eq in Eas; subst a; rewrite Ec;
      rewrite prefixb_nil_r in Hq; destruct q; try discriminate; reflexivity.
  - rewrite write_cons in Hw. destruct (Tree.child s es) as [c|] eqn:Ec; [|discriminate].
    destruct (Tree.write (s' :: p) (File content t) c) as [e|c'] eqn:E; [discriminate|].
    inversion Hw; subst n'. cbn [Tree.lookup]. rewrite child_set_child.
    destruct (String.eqb a s) eqn:Eas; [|reflexivity].
    apply String.eqb_eq in Eas. subst a. rewrite Ec. cbn [andb] in Hq.
    apply (IH _ _ _ _ _ E Hq).
Qed.

(** Above a file that was written, the directories are as before. *)
Lemma kind_write_prefix p : forall n n' f q,
  Tree.write p f n = inr n' -> prefixb q p = true -> q <> p ->
  kind_at q n' = Some KDir /\ kind_at q n = Some KDir.
Proof.
  induction p as [|s p IH]; intros [c0 t0|es] n' f q Hw Hq Hne; try discriminate.
  destruct q as [|a q].
  - assert (exists es', n' = Dir es') as (es' & ->).
    { destruct p as [|s' p].
      - rewrite write_last in Hw.
        destruct (Tree.child s es) as [[? ?|?]|]; inversion Hw; eauto.
      - rewrite write_cons in Hw. destruct (Tree.child s es); [|discriminate].
        destruct (Tree.write _ _ _); inversion Hw; eauto. }
    split; reflexivity.
  - cbn [prefixb] in Hq. apply andb_true_iff in Hq. destruct Hq as [Ha Hq].
    apply String.eqb_eq in Ha. subst a.
    destruct p as [|s' p].
    + rewrite prefixb_nil_r in Hq. destruct q; [congruence|discriminate].
    + rewrite write_cons in Hw. destruct (Tree.child s es) as [c|] eqn:Ec; [|discriminate].
      destruct (Tree.write (s' :: p) f c) as [e|c'] eqn:E; [discriminate|].
      inversion Hw; subst n'. unfold kind_at. cbn [Tree.lookup].
      rewrite child_set_child, String.eqb_refl, Ec.
      apply (IH _ _ _ q E Hq). congruence.
Qed.

(** Writing succeeds in a directory that exists, on a name that is not
    one of a directory. *)
Lemma write_succeeds p0 s : forall n f,
  kind_at p0 n = Some KDir -> kind_at (p0 ++ [s]) n <> Some KDir ->
  exists n', Tree.write (p0 ++ [s]) f n = inr n'.
Proof.
  induction p0 as [|a p0 IH]; intros n f Hd Hn.
  - destruct n as [c t|es]; [discriminate|]. cbn [app]. rewrite write_last.
    unfold kind_at in Hn. cbn [Tree.lookup app] in Hn.
    destruct (Tree.child s es) as [[? ?|?]|]; eauto. exfalso. apply Hn. reflexivity.
  - destruct n as [c t|es]; [discriminate|].
    unfold kind_at in *. cbn [Tree.lookup app] in *.
    assert (Hw : Tree.write (a :: p0 ++ [s]) f (Dir es) =
                 match Tree.child a es with
                 | Some c =>
                     match Tree.write (p0 ++ [s]) f c with
                     | inr c' => inr (Dir (Tree.set_child a c' es))
                     | inl e => inl e
                     end
                 | None => inl ENOENT
                 end).
    { destruct p0; reflexivity. }
    rewrite Hw. destruct (Tree.child a es) as [c|]; [|discriminate].
    destruct (IH c f Hd Hn) as (c' & ->). eauto.
Qed.

Lemma lookup_app p : forall q n,
  Tree.lookup (p ++ q) n =
  match Tree.lookup p n with
  | Some m => Tree.lookup q m
  | None => None
  end.
Proof.
  induction p as [|s p IH]; intros q n; [reflexivity|].
  cbn [app Tree.lookup]. destruct n as [c t|es]; [reflexivity|].
  destruct (Tree.child s es); [apply IH|reflexivity].
Qed.

End TreeWrites.

(** ** The directory of a path *)

Module DirnameFacts.
Import Names PathFacts.

Lemma append_assoc a : forall b c, (a ++ b) ++ c = a ++ (b ++ c).
Proof. induction a as [|x a IH]; intros b c; simpl; [|rewrite IH]; reflexivity. Qed.

Lemma before_cons c s :
  Path.before_last_separator (String c s) =
  match Path.before_last_separator s with
  | Some p => Some (String c p)
  | None =>
      match s with
      | String d _ =>
          if Ascii.eqb c Path.slash && negb (Ascii.eqb d Path.slash)
          then Some "" else None
      | EmptyString => None
      end
  end.
Proof. reflexivity. Qed.

(** A name, with or without a slash after it, has no directory part. *)
Lemma before_name n (trailing : bool) :
  no_slash n = true ->
  Path.before_last_separator (n ++ (if trailing then "/" else "")) = None.
Proof.
  unfold no_slash. induction n as [|c n IH]; intros H.
  - destruct trailing; reflexivity.
  - rewrite includes_slash_cons in H. apply negb_true_iff, orb_false_iff in H.
    destruct H as [Hc Hn]. cbn [append]. rewrite before_cons.
    rewrite IH by (apply negb_true_iff, Hn).
    rewrite Ascii.eqb_sym, Hc.
    destruct (n ++ (if trailing then "/" else "")); reflexivity.
Qed.

(** Before the last separator of [a/rest], when [rest] starts with a
    name. *)
Lemma before_app a d rest :
  no_slash a = true -> Ascii.eqb d Path.slash = false ->
  Path.before_last_separator (a ++ "/" ++ String d rest) =
  Some (a ++ match Path.before_last_separator (String d rest) with
             | Some p => "/" ++ p
             | None => ""
             end).
Proof.
  unfold no_slash. intros Ha Hd. induction a as [|c a IH].
  - cbn [append]. rewrite before_cons.
    destruct (Path.before_last_separator (String d rest)); [reflexivity|].
    rewrite Ascii.eqb_refl, Hd. reflexivity.
  - rewrite includes_slash_cons in Ha. apply negb_true_iff, orb_false_iff in Ha.
    destruct Ha as [_ Ha]. cbn [append]. rewrite before_cons.
    change (a ++ String "/" (String d rest)) with (a ++ "/" ++ String d rest).
    rewrite IH by (apply negb_true_iff, Ha). reflexivity.
Qed.

Lemma valid_name_head n :
  Path.valid_name n = true ->
  exists d rest, n = String d rest /\ Ascii.eqb d Path.slash = false.
Proof.
  intros H. apply valid_name_spec in H. destruct H as (H1 & _ & _ & H4).
  destruct n as [|d rest]; [congruence|]. exists d, rest. split; [reflexivity|].
  unfold no_slash in H4. rewrite includes_slash_cons in H4.
  apply negb_true_iff, orb_false_iff in H4. rewrite Ascii.eqb_sym. tauto.
Qed.

Lemma join_snoc_head l n :
  Forall (fun s => Path.valid_name s = true) (l ++ [n]) ->
  exists d rest, Str.join "/" (l ++ [n]) = String d rest /\
                 Ascii.eqb d Path.slash = false.
Proof.
  intros H. destruct l as [|a l].
  - inversion H; subst. cbn [app]. apply valid_name_head. assumption.
  - inversion H as [|? ? Ha _]; subst.
    destruct (valid_name_head _ Ha) as (d & rest & -> & Hd).
    cbn [app]. destruct (l ++ [n])%list eqn:E.
    + destruct l; discriminate.
    + rewrite join_cons. cbn [append]. eauto.
Qed.

Lemma before_join l : forall n (trailing : bool),
  Forall (fun s => Path.valid_name s = true) (l ++ [n]) ->
  Path.before_last_separator
    (Str.join "/" (l ++ [n]) ++ (if trailing then "/" else "")) =
  match l with
  | [] => None
  | _ :: _ => Some (Str.join "/" l)
  end.
Proof.
  induction l as [|a l IH]; intros n trailing H.
  - inversion H; subst. cbn [app]. change (Str.join "/" [n]) with n.
    apply before_name. apply valid_name_spec. assumption.
  - inversion H as [|? ? Ha Hl]; subst.
    destruct (join_snoc_head l n Hl) as (d & rest & Hj & Hd).
    assert (Hcons : Str.join "/" ((a :: l) ++ [n]) = a ++ "/" ++ Str.join "/" (l ++ [n])).
    { cbn [app]. destruct (l ++ [n])%list eqn:E; [destruct l; discriminate|].
      apply join_cons. }
    rewrite Hcons, !append_assoc.
    pose proof (IH n trailing Hl) as IH'. rewrite Hj in IH' |- *.
    cbn [append] in IH' |- *.
    change (a ++ String "/" (String d (rest ++ (if trailing then "/" else ""))))
      with (a ++ "/" ++ String d (rest ++ (if trailing then "/" else ""))).
    rewrite before_app by (assumption || (apply valid_name_spec; assumption)).
    rewrite IH'. destruct l as [|b l]; [rewrite append_empty; reflexivity|].
    rewrite join_cons. reflexivity.
Qed.

(** The directory of an absolute path in normal form names the path
    without its last component. *)
Lemma components_dirname segs trailing :
  Forall (fun s => Path.valid_name s = true) segs ->
  Fs.components (Path.dirname (render segs trailing)) = removelast segs.
Proof.
  intros H. destruct segs as [|a l] using rev_ind; [reflexivity|]. clear IHl.
  rewrite removelast_last.
  assert (Hr : render (l ++ [a]) trailing =
    String Path.slash (Str.join "/" (l ++ [a]) ++ (if trailing then "/" else ""))).
  { unfold render. destruct (l ++ [a])%list eqn:E; [destruct l; discriminate|].
    reflexivity. }
  rewrite Hr. unfold Path.dirname. rewrite Ascii.eqb_refl, before_join by assumption.
  destruct l as [|b l]; [reflexivity|].
  assert (Hl : Forall (fun s => Path.valid_name s = true) (b :: l)).
  { apply Forall_app in H. tauto. }
  assert (Hne : String.eqb (Str.join "/" (b :: l)) "" = false).
  { rewrite join_empty_iff by assumption. reflexivity. }
  rewrite Hne. cbn [andb].
  change (String Path.slash (Str.join "/" (b :: l))) with ("/" ++ Str.join "/" (b :: l)).
  rewrite <- (append_empty (Str.join "/" (b :: l))) at 1.
  apply (components_render (b :: l) false Hl).
Qed.

(** The directory of a joined path. *)
Lemma components_dirname_join a rest :
  Path.is_absolute a = true ->
  Fs.components (Path.dirname (Path.join (a :: rest))) =
  removelast (Fs.components (Path.join (a :: rest))).
Proof.
  intros H. destruct (join_absolute a rest H) as [Hj Habs].
  rewrite Hj, normalize_absolute by assumption.
  rewrite components_dirname, components_render by apply components_valid.
  reflexivity.
Qed.

End DirnameFacts.

(** ** The materializer: where it writes *)

Module MaterializerFacts.
Import Names PathFacts TreeWrites.

Lemma mkdir_frame p w q :
  prefixb q (Fs.components p) = false ->
  Tree.lookup q (fs_root (fst (Fs.mkdir p w))) = Tree.lookup q (fs_root w).
Proof.
  intros H. unfold Fs.mkdir.
  destruct (Tree.mkdir_p (Fs.components p) (fs_root w)) as [e|root'] eqn:E;
    [reflexivity|].
  cbn [fst fs_root]. eapply lookup_mkdir_p_other; eassumption.
Qed.

Lemma write_content_frame now p content w q :
  prefixb q (Fs.components p) = false ->
  Tree.lookup q (fs_root (fst (Fs.write_content now p content w)))
  = Tree.lookup q (fs_root w).
Proof.
  intros H. unfold Fs.write_content.
  destruct (Path.has_trailing_slash p); [reflexivity|].
  destruct (Tree.write (Fs.components p) (File content now) (fs_root w))
    as [e|root'] eqn:E; [reflexivity|].
  cbn [fst fs_root]. eapply lookup_write_other; eassumption.
Qed.

(** The file system after [fs.writeFile]: that of the writing of a
    content, or the one before. *)
Lemma writeFile_root `{Platform} now p data w :
  (exists content,
      fs_root (fst (Fs.writeFile now p data w))
      = fs_root (fst (Fs.write_content now p content w))) \/
  fs_root (fst (Fs.writeFile now p data w)) = fs_root w.
Proof.
  unfold Fs.writeFile.
  destruct data as [[| | |content|chunks|]|]; try (right; reflexivity).
  - left. exists content. reflexivity.
  - destruct (Fs.write_chunks chunks) as [content error].
    left. exists content. unfold bind.
    destruct (Fs.write_content now p content w) as [w1 [[]|e]]; [|reflexivity].
    destruct error; reflexivity.
Qed.

Lemma writeFile_frame `{Platform} now p data w q :
  prefixb q (Fs.components p) = false ->
  Tree.lookup q (fs_root (fst (Fs.writeFile now p data w))) = Tree.lookup q (fs_root w).
Proof.
  intros Hq. destruct (writeFile_root now p data w) as [(content & E)|E]; rewrite E.
  - apply write_content_frame, Hq.
  - reflexivity.
Qed.

Lemma prefixb_trans a : forall b c,
  prefixb a b = true -> prefixb b c = true -> prefixb a c = true.
Proof.
  induction a as [|x a IH]; intros b c Hab Hbc; [reflexivity|].
  destruct b as [|y b]; [discriminate|]. destruct c as [|z c]; [discriminate|].
  cbn [prefixb] in *. apply andb_true_iff in Hab, Hbc.
  destruct Hab as [Hxy Hab], Hbc as [Hyz Hbc].
  apply String.eqb_eq in Hxy, Hyz. subst. rewrite String.eqb_refl. eauto.
Qed.

Lemma prefixb_removelast p : prefixb (removelast p) p = true.
Proof.
  induction p as [|a p IH]; [reflexivity|].
  cbn [removelast]. destruct p as [|b p]; [reflexivity|].
  cbn [prefixb]. rewrite String.eqb_refl. exact IH.
Qed.

Lemma prefixb_app p x : prefixb p (p ++ x) = true.
Proof. apply prefixb_spec. eauto. Qed.

(** Two prefixes of one path are comparable. *)
Lemma prefixb_comparable q : forall r p,
  prefixb q p = true -> prefixb r p = true ->
  prefixb q r = true \/ prefixb r q = true.
Proof.
  induction q as [|a q IH]; intros r p Hq Hr; [left; reflexivity|].
  destruct r as [|b r]; [right; reflexivity|].
  destruct p as [|c p]; [discriminate|].
  cbn [prefixb] in *. apply andb_true_iff in Hq, Hr.
  destruct Hq as [Hac Hq], Hr as [Hbc Hr].
  apply String.eqb_eq in Hac, Hbc. subst. rewrite !String.eqb_refl.
  apply (IH r p); assumption.
Qed.

Lemma not_prefix_of_lower q r p :
  prefixb r q = false -> prefixb q r = false ->
  prefixb r p = true \/ prefixb p r = true ->
  prefixb q p = false.
Proof.
  intros Hrq Hqr Hp. destruct (prefixb q p) eqn:E; [|reflexivity]. exfalso.
  destruct Hp as [Hp|Hp].
  - destruct (prefixb_comparable q r p E Hp); congruence.
  - rewrite (prefixb_trans _ _ _ E Hp) in Hqr. discriminate.
Qed.

Section Frame.

Context `{Platform}.
Variable now : Z.
Variable projectPath : string.
Hypothesis projectPath_absolute : Path.is_absolute projectPath = true.

(** An entry changes nothing off the path that it resolves to. *)
Lemma createEntry_frame entry w q :
  prefixb q (Fs.components (Path.join [projectPath; fst entry])) = false ->
  Tree.lookup q (fs_root (fst (FileSystemManager.createEntry now projectPath entry w)))
  = Tree.lookup q (fs_root w).
Proof.
  destruct entry as [filePath fileData]. cbn [fst]. intros Hq.
  unfold FileSystemManager.createEntry, bind, lift.
  destruct (Js.get_prop (Some fileData) "type") as [type|e]; [|reflexivity].
  destruct (Js.is_string "directory" type); [apply mkdir_frame, Hq|].
  destruct (Js.is_string "file" type); [|reflexivity].
  assert (Hd : prefixb q (Fs.components (Path.dirname (Path.join [projectPath; filePath]))) = false).
  { rewrite DirnameFacts.components_dirname_join by assumption.
    destruct (prefixb q (removelast _)) eqn:E; [|reflexivity].
    rewrite (prefixb_trans _ _ _ E (prefixb_removelast _)) in Hq. discriminate. }
  pose proof (mkdir_frame (Path.dirname (Path.join [projectPath; filePath])) w q Hd) as Hm.
  destruct (Fs.mkdir _ w) as [w1 [[]|e]]; cbn [fst] in Hm; [|exact Hm].
  destruct (Js.get_prop (Some fileData) "content") as [content|e]; [|exact Hm].
  rewrite <- Hm. apply writeFile_frame, Hq.
Qed.

Lemma for_of_frame entries : forall w q,
  (forall entry, In entry entries ->
     prefixb q (Fs.components (Path.join [projectPath; fst entry])) = false) ->
  Tree.lookup q (fs_root (fst (for_of entries
                                 (FileSystemManager.createEntry now projectPath) w)))
  = Tree.lookup q (fs_root w).
Proof.
  induction entries as [|entry entries IH]; intros w q Hq; [reflexivity|].
  cbn [for_of]. unfold bind at 1.
  pose proof (createEntry_frame entry w q (Hq entry (or_introl eq_refl))) as He.
  destruct (FileSystemManager.createEntry now projectPath entry w) as [w1 [[]|e]];
    cbn [fst] in He; [|exact He].
  rewrite <- He. apply IH. intros entry' Hin. apply Hq. right. exact Hin.
Qed.

End Frame.

(** Without a double dot, an entry resolves inside the root it is joined
    to. *)
Lemma entry_inside root filePath :
  Path.is_absolute root = true ->
  Forall (fun seg => seg <> "..") (Path.segments_of filePath) ->
  Fs.components (Path.join [root; filePath]) =
  (Fs.components root ++ filter kept (Path.segments_of filePath))%list.
Proof.
  intros Habs Hdots. rewrite components_join2 by assumption.
  rewrite fold_without_dots by assumption.
  rewrite rev_app_distr, !rev_involutive. reflexivity.
Qed.

(** ** The errors of the materializer *)

Lemma mkdir_error p w e : snd (Fs.mkdir p w) = Throw e -> platform_error e.
Proof.
  unfold Fs.mkdir. destruct (Tree.mkdir_p _ _); [|discriminate].
  intros H. inversion H. left. reflexivity.
Qed.

Lemma write_content_error now p content w e :
  snd (Fs.write_content now p content w) = Throw e -> platform_error e.
Proof.
  unfold Fs.write_content.
  destruct (Path.has_trailing_slash p); [intros H; inversion H; left; reflexivity|].
  destruct (Tree.write _ _ _); [|discriminate].
  intros H. inversion H. left. reflexivity.
Qed.

Lemma write_chunks_error `{Platform} chunks : forall content e,
  Fs.write_chunks chunks = (content, Some e) -> platform_error e.
Proof.
  induction chunks as [|chunk chunks IH]; intros content e; cbn [Fs.write_chunks];
    [discriminate|].
  destruct (Fs.Buffer_from chunk) as [bytes|e0] eqn:Eb.
  - destruct (Fs.write_chunks chunks) as [written error]. intros Hc. inversion Hc; subst.
    eapply IH. reflexivity.
  - intros Hc. inversion Hc; subst. unfold Fs.Buffer_from in Eb.
    destruct chunk; try discriminate Eb;
      try (inversion Eb; right; left; reflexivity);
      destruct (Buffer_from_object_error _ _ Eb) as [Hn|Hn];
      unfold platform_error; tauto.
Qed.

Lemma writeFile_error `{Platform} now p data w e :
  snd (Fs.writeFile now p data w) = Throw e -> platform_error e.
Proof.
  unfold Fs.writeFile, throw.
  destruct data as [[| | |content|chunks|]|];
    try (intros Hd; inversion Hd; right; left; reflexivity).
  - apply write_content_error.
  - destruct (Fs.write_chunks chunks) as [content error] eqn:Ec. unfold bind.
    destruct (Fs.write_content now p content w) as [w1 [[]|e1]] eqn:Ew.
    + destruct error as [e2|]; [|discriminate].
      intros Hd. inversion Hd; subst. eapply write_chunks_error, Ec.
    + intros Hd. inversion Hd; subst.
      apply (write_content_error now p content w). rewrite Ew. reflexivity.
Qed.

Lemma get_prop_error v k e : Js.get_prop v k = Throw e -> platform_error e.
Proof.
  destruct v as [[| | | | |]|]; simpl; intros H; inversion H; right; left; reflexivity.
Qed.

Lemma createEntry_error `{P : Platform} now projectPath entry w e :
  snd (FileSystemManager.createEntry now projectPath entry w) = Throw e ->
  platform_error e.
Proof.
  destruct entry as [filePath fileData].
  unfold FileSystemManager.createEntry, bind, lift.
  destruct (Js.get_prop (Some fileData) "type") as [type|e0] eqn:Et;
    [|intros H; inversion H; subst; eapply get_prop_error, Et].
  destruct (Js.is_string "directory" type); [apply mkdir_error|].
  destruct (Js.is_string "file" type); [|discriminate].
  destruct (Fs.mkdir _ w) as [w1 [[]|e1]] eqn:Em;
    [|intros H; inversion H; subst;
     match type of Em with Fs.mkdir ?p ?w0 = _ =>
       apply (mkdir_error p w0); rewrite Em; reflexivity end].
  destruct (Js.get_prop (Some fileData) "content") as [content|e2] eqn:Ec;
    [|intros H; inversion H; subst; eapply get_prop_error, Ec].
  apply writeFile_error.
Qed.

Lemma for_of_error `{P : Platform} now projectPath entries : forall w e,
  snd (for_of entries (FileSystemManager.createEntry now projectPath) w) = Throw e ->
  platform_error e.
Proof.
  induction entries as [|entry entries IH]; intros w e; [discriminate|].
  cbn [for_of]. unfold bind at 1.
  destruct (FileSystemManager.createEntry now projectPath entry w) as [w1 [[]|e1]] eqn:E.
  - apply IH.
  - intros H. inversion H; subst. apply (createEntry_error now projectPath entry w).
    rewrite E. reflexivity.
Qed.

Lemma createProjectFiles_error `{Platform} now projectId fileTree w e :
  snd (FileSystemManager.createProjectFiles now projectId fileTree w) = Throw e ->
  platform_error e.
Proof.
  unfold FileSystemManager.createProjectFiles. unfold bind at 1.
  destruct (Fs.mkdir _ w) as [w1 [[]|e1]] eqn:Em;
    [|intros H'; inversion H'; subst;
     match type of Em with Fs.mkdir ?p ?w0 = _ =>
       apply (mkdir_error p w0); rewrite Em; reflexivity end].
  unfold bind at 1, lift.
  destruct (Js.Object_entries fileTree) as [entries|e2] eqn:Eo.
  - unfold bind at 1.
    destruct (for_of entries _ w1) as [w2 [[]|e3]] eqn:Ef; [discriminate|].
    intros H'. inversion H'; subst.
    apply (for_of_error now (Path.join [PROJECTS_DIR; projectId]) entries w1).
    rewrite Ef. reflexivity.
  - intros H'. inversion H'; subst.
    destruct fileTree as [[| | | | |]|]; inversion Eo; right; left; reflexivity.
Qed.

End MaterializerFacts.

(** ** What the materializer creates *)

Module CreatedFacts.
Import Names PathFacts TreeWrites.

Lemma keeps_kinds_refl n : keeps_kinds n n.
Proof. intros q k Hk. exact Hk. Qed.

Lemma keeps_kinds_trans a b c : keeps_kinds a b -> keeps_kinds b c -> keeps_kinds a c.
Proof. intros Hab Hbc q k Hk. apply Hbc, Hab, Hk. Qed.

(** What is on the path of a directory that [mkdir -p] made was a
    directory. *)
Lemma mkdir_p_prefix_was_dir p : forall n n' q m,
  Tree.mkdir_p p n = inr n' -> prefixb q p = true ->
  Tree.lookup q n = Some m -> kind_of m = KDir.
Proof.
  induction p as [|s p IH]; intros [c0 t0|es] n' q m Hm Hq Hl; try discriminate Hm.
  - rewrite prefixb_nil_r in Hq. destruct q; [|discriminate].
    inversion Hl. reflexivity.
  - destruct q as [|a q]; [inversion Hl; reflexivity|].
    cbn [prefixb] in Hq. apply andb_true_iff in Hq. destruct Hq as [Ha Hq].
    apply String.eqb_eq in Ha. subst a.
    cbn [Tree.lookup] in Hl. rewrite mkdir_p_cons in Hm.
    destruct (Tree.child s es) as [c|]; [|discriminate].
    destruct (Tree.mkdir_p p c) as [e|c'] eqn:E; [discriminate|].
    eapply IH; eassumption.
Qed.

Lemma mkdir_p_keeps_kinds p n n' : Tree.mkdir_p p n = inr n' -> keeps_kinds n n'.
Proof.
  intros Hm q k Hk. unfold kind_at in *. destruct (prefixb q p) eqn:E.
  - destruct (Tree.lookup q n) as [m|] eqn:El; [|discriminate].
    destruct (lookup_mkdir_p_prefix _ _ _ _ Hm E) as (es & Hes). rewrite Hes.
    cbn [option_map] in *.
    rewrite (mkdir_p_prefix_was_dir _ _ _ _ _ Hm E El) in Hk. exact Hk.
  - rewrite (lookup_mkdir_p_other _ _ _ _ Hm E). exact Hk.
Qed.

(** What was in the place of a file that has been written was a file. *)
Lemma write_at_was_file p : forall n n' f m,
  Tree.write p f n = inr n' -> Tree.lookup p n = Some m -> kind_of m = KFile.
Proof.
  induction p as [|s p IH]; intros [c0 t0|es] n' f m Hw Hl; try discriminate Hw.
  destruct p as [|s' p].
  - rewrite write_last in Hw. cbn [Tree.lookup] in Hl.
    destruct (Tree.child s es) as [[c t|es']|]; try discriminate.
    inversion Hl. reflexivity.
  - rewrite write_cons in Hw. cbn [Tree.lookup] in Hl |- *.
    destruct (Tree.child s es) as [c|]; [|discriminate].
    destruct (Tree.write (s' :: p) f c) as [e|c'] eqn:E; [discriminate|].
    eapply IH; eassumption.
Qed.

Lemma write_keeps_kinds p n n' content t :
  Tree.write p (File content t) n = inr n' -> keeps_kinds n n'.
Proof.
  intros Hw q k Hk. destruct (prefixb q p) eqn:E.
  - destruct (list_eq_dec string_dec q p) as [Heq|Hne].
    + subst q. unfold kind_at in *. rewrite (lookup_write _ _ _ _ Hw).
      destruct (Tree.lookup p n) as [m|] eqn:El; [|discriminate].
      cbn [option_map] in *.
      rewrite (write_at_was_file _ _ _ _ _ Hw El) in Hk. exact Hk.
    + destruct (kind_write_prefix _ _ _ _ _ Hw E Hne) as [Hk' Hk0]. congruence.
  - unfold kind_at in *. rewrite (lookup_write_other _ _ _ _ _ _ Hw E). exact Hk.
Qed.

(** A directory that has been made is there, with all that was there. *)
Lemma mkdir_creates p w w' :
  Fs.mkdir p w = (w', Return tt) ->
  keeps_kinds (fs_root w) (fs_root w') /\
  kind_at (Fs.components p) (fs_root w') = Some KDir.
Proof.
  unfold Fs.mkdir.
  destruct (Tree.mkdir_p (Fs.components p) (fs_root w)) as [e|root'] eqn:E;
    [discriminate|].
  intros Hm. inversion Hm; subst w'. cbn [fs_root]. split.
  - eapply mkdir_p_keeps_kinds, E.
  - destruct (lookup_mkdir_p_prefix _ _ _ _ E (prefixb_refl _)) as (es & Hes).
    unfold kind_at. rewrite Hes. reflexivity.
Qed.

Lemma write_content_creates now p content w w' :
  Fs.write_content now p content w = (w', Return tt) ->
  keeps_kinds (fs_root w) (fs_root w') /\
  kind_at (Fs.components p) (fs_root w') = Some KFile.
Proof.
  unfold Fs.write_content. destruct (Path.has_trailing_slash p); [discriminate|].
  destruct (Tree.write (Fs.components p) (File content now) (fs_root w))
    as [e|root'] eqn:E; [discriminate|].
  intros Hw. inversion Hw; subst w'. cbn [fs_root]. split.
  - eapply write_keeps_kinds, E.
  - unfold kind_at. rewrite (lookup_write _ _ _ _ E). reflexivity.
Qed.

(** A file that has been written is there, with all that was there. *)
Lemma writeFile_creates `{P : Platform} now p data w w' :
  Fs.writeFile now p data w = (w', Return tt) ->
  keeps_kinds (fs_root w) (fs_root w') /\
  kind_at (Fs.components p) (fs_root w') = Some KFile.
Proof.
  unfold Fs.writeFile, throw.
  destruct data as [[| | |content|chunks|]|]; try discriminate.
  - apply write_content_creates.
  - destruct (Fs.write_chunks chunks) as [content error]. unfold bind.
    destruct (Fs.write_content now p content w) as [w1 [[]|e1]] eqn:Ew; [|discriminate].
    destruct error as [e|]; [discriminate|].
    intros Hr. inversion Hr; subst w1. eapply write_content_creates, Ew.
Qed.

Lemma entry_placed_later projectPath entry n n' :
  keeps_kinds n n' -> entry_placed projectPath entry n -> entry_placed projectPath entry n'.
Proof.
  intros Hk Hp type Ht. destruct (Hp type Ht) as [Hd Hf].
  split; intros Hs; apply Hk; auto.
Qed.

Section Created.

Context `{P : Platform}.
Variable now : Z.
Variable projectPath : string.

(** An entry that has been created is in its place, with all that was
    there. *)
Lemma createEntry_creates entry w w' :
  FileSystemManager.createEntry now projectPath entry w = (w', Return tt) ->
  keeps_kinds (fs_root w) (fs_root w') /\ entry_placed projectPath entry (fs_root w').
Proof.
  destruct entry as [filePath fileData].
  unfold FileSystemManager.createEntry, entry_placed, bind, lift. cbn [fst snd].
  destruct (Js.get_prop (Some fileData) "type") as [type|e] eqn:Et; [|discriminate].
  destruct (Js.is_string "directory" type) eqn:Ed.
  - intros Hm. destruct (mkdir_creates _ _ _ Hm) as [Hk Hd].
    split; [exact Hk|]. intros type' Ht'. inversion Ht'; subst type'.
    split; [intros _; exact Hd|]. intros Hf.
    destruct type as [[| | |s| |]|]; try discriminate Ed. cbn [Js.is_string] in Ed, Hf.
    apply String.eqb_eq in Ed, Hf. congruence.
  - destruct (Js.is_string "file" type) eqn:Ef.
    + destruct (Fs.mkdir _ w) as [w1 [[]|e1]] eqn:Em; [|discriminate].
      destruct (Js.get_prop (Some fileData) "content") as [content|e2]; [|discriminate].
      intros Hw. destruct (mkdir_creates _ _ _ Em) as [Hk1 _].
      destruct (writeFile_creates _ _ _ _ _ Hw) as [Hk2 Hfile].
      split; [eapply keeps_kinds_trans; eassumption|].
      intros type' Ht'. inversion Ht'; subst type'.
      split; [congruence|intros _; exact Hfile].
    + intros Hr. inversion Hr; subst w'. split; [apply keeps_kinds_refl|].
      intros type' Ht'. inversion Ht'; subst type'. split; congruence.
Qed.

Lemma for_of_creates entries : forall w w',
  for_of entries (FileSystemManager.createEntry now projectPath) w = (w', Return tt) ->
  keeps_kinds (fs_root w) (fs_root w') /\
  forall entry, In entry entries -> entry_placed projectPath entry (fs_root w').
Proof.
  induction entries as [|entry entries IH]; intros w w'; cbn [for_of].
  - intros Hr. inversion Hr; subst w'. split; [apply keeps_kinds_refl|]. intros ? [].
  - unfold bind at 1.
    destruct (FileSystemManager.createEntry now projectPath entry w) as [w1 [[]|e]] eqn:E;
      [|discriminate].
    intros Hf. destruct (createEntry_creates _ _ _ E) as [Hk1 Hp1].
    destruct (IH _ _ Hf) as [Hk2 Hall].
    split; [eapply keeps_kinds_trans; eassumption|].
    intros entry' [<-|Hin]; [|apply Hall, Hin].
    eapply entry_placed_later; eassumption.
Qed.

End Created.

(** What createProjectFiles has made when it returns. *)
Lemma createProjectFiles_creates `{P : Platform} now projectId fileTree w w' p :
  FileSystemManager.createProjectFiles now projectId fileTree w = (w', Return p) ->
  p = Path.join [PROJECTS_DIR; projectId] /\
  keeps_kinds (fs_root w) (fs_root w') /\
  kind_at (Fs.components p) (fs_root w') = Some KDir /\
  forall entry, In entry (Js.spread fileTree) -> entry_placed p entry (fs_root w').
Proof.
  unfold FileSystemManager.createProjectFiles. unfold bind at 1.
  destruct (Fs.mkdir _ w) as [w1 [[]|e1]] eqn:Em; [|discriminate].
  unfold bind at 1, lift.
  destruct (Js.Object_entries fileTree) as [entries|e2] eqn:Eo; [|discriminate].
  assert (Hentries : entries = Js.spread fileTree).
  { destruct fileTree as [[| | | | |]|]; inversion Eo; reflexivity. }
  unfold bind at 1.
  destruct (for_of entries _ w1) as [w2 [[]|e3]] eqn:Ef; [|discriminate].
  unfold ret. intros Hr. inversion Hr; subst w2 p.
  destruct (mkdir_creates _ _ _ Em) as [Hk1 Hd].
  destruct (for_of_creates _ _ _ _ _ Ef) as [Hk2 Hall].
  split; [reflexivity|]. split; [eapply keeps_kinds_trans; eassumption|].
  split; [apply Hk2, Hd|]. rewrite <- Hentries. exact Hall.
Qed.

End CreatedFacts.

(** C1, as the claim states it, fails: an entry whose path climbs out of
    the project is written, outside the root of the project, and no
    error is raised. *)
Lemma createProjectFiles_follows_parent_segments :
  let w := mkWorld (Dir []) [] in
  let fileTree :=
    Some (JObj [("../evil.txt", JObj [("type", JStr "file"); ("content", JStr "x")])]) in
  let run := @FileSystemManager.createProjectFiles Runtime.runtime 7 "p1" fileTree w in
  snd run = Return "/app/generated_projects/p1" /\
  Fs.components "/app/generated_projects/p1" = ["app"; "generated_projects"; "p1"] /\
  Tree.lookup ["app"; "generated_projects"; "evil.txt"] (fs_root (fst run))
    = Some (File "x" 7) /\
  Tree.lookup ["app"; "generated_projects"; "p1"] (fs_root (fst run)) = Some (Dir []).
Proof. repeat split. Qed.

(** C1, amended.  The materializer has no check of the paths: it never
    fails with a PathTraversal error.  When it returns, it returns the
    directory of the project, which exists; what existed before still
    exists, a file or a directory as before; and every entry of the file
    tree is in its place, the join of the directory of the project and
    the path of the entry: a directory for an entry of the type
    directory, a regular file for an entry of the type file.  An entry
    whose path has no parent segment resolves inside the root of the
    project; when no entry has one, nothing is changed outside the root
    of the project and the directories above it. *)
Theorem createProjectFiles_creates_every_entry_where_it_joins :
  forall `{Platform} (now : Z) (projectId : string) (fileTree : option JSON)
         (w : World),
    let projectPath := Path.join [PROJECTS_DIR; projectId] in
    let root := Fs.components projectPath in
    let run := FileSystemManager.createProjectFiles now projectId fileTree w in
    (forall e, snd run = Throw e -> err_name e <> "PathTraversal") /\
    (forall p,
        snd run = Return p ->
        p = projectPath /\
        Names.kind_at root (fs_root (fst run)) = Some Names.KDir /\
        (forall q k,
            Names.kind_at q (fs_root w) = Some k ->
            Names.kind_at q (fs_root (fst run)) = Some k) /\
        (forall filePath fileData type,
            In (filePath, fileData) (Js.spread fileTree) ->
            Js.get_prop (Some fileData) "type" = Return type ->
            let place := Fs.components (Path.join [projectPath; filePath]) in
            (Js.is_string "directory" type = true ->
             Names.kind_at place (fs_root (fst run)) = Some Names.KDir) /\
            (Js.is_string "file" type = true ->
             Names.kind_at place (fs_root (fst run)) = Some Names.KFile))) /\
    (forall filePath,
        Forall (fun seg => seg <> "..") (Path.segments_of filePath) ->
        Names.prefixb root (Fs.components (Path.join [projectPath; filePath])) = true) /\
    ((forall filePath fileData,
         In (filePath, fileData) (Js.spread fileTree) ->
         Forall (fun seg => seg <> "..") (Path.segments_of filePath)) ->
     forall q,
       Names.prefixb root q = false -> Names.prefixb q root = false ->
       Tree.lookup q (fs_root (fst run)) = Tree.lookup q (fs_root w)).
Proof.
  intros P now projectId fileTree w projectPath root run.
  assert (Habs : Path.is_absolute projectPath = true)
    by apply PathFacts.join_is_absolute, PathFacts.PROJECTS_DIR_absolute.
  split; [|split; [|split]].
  - intros e He Hname.
    destruct (MaterializerFacts.createProjectFiles_error _ _ _ _ _ He) as [Hn|[Hn|Hn]];
      rewrite Hn in Hname; discriminate.
  - intros p Hp.
    assert (Hrun : run = (fst run, Return p))
      by (destruct run as [w' o]; cbn [fst snd] in *; subst o; reflexivity).
    destruct (CreatedFacts.createProjectFiles_creates _ _ _ _ _ _ Hrun)
      as (Hpath & Hkeeps & Hdir & Hall).
    fold projectPath in Hpath. subst p.
    split; [reflexivity|]. split; [exact Hdir|]. split; [exact Hkeeps|].
    intros filePath fileData type Hin Ht place.
    exact (Hall (filePath, fileData) Hin type Ht).
  - intros filePath Hdots.
    rewrite (MaterializerFacts.entry_inside _ _ Habs Hdots).
    apply MaterializerFacts.prefixb_app.
  - intros Hdots q Hrq Hqr. subst run.
    unfold FileSystemManager.createProjectFiles. fold projectPath.
    assert (Hroot : Names.prefixb q root = false) by exact Hqr.
    pose proof (MaterializerFacts.mkdir_frame projectPath w q Hroot) as Hm.
    unfold bind at 1.
    destruct (Fs.mkdir projectPath w) as [w1 [[]|e1]]; cbn [fst] in Hm; [|exact Hm].
    unfold bind at 1, lift.
    destruct (Js.Object_entries fileTree) as [entries|e2] eqn:Eo; [|exact Hm].
    assert (Hentries : entries = Js.spread fileTree).
    { destruct fileTree as [[| | | | |]|]; inversion Eo; reflexivity. }
    unfold bind at 1.
    assert (Hf : Tree.lookup q (fs_root (fst (for_of entries
                   (FileSystemManager.createEntry now projectPath) w1)))
                 = Tree.lookup q (fs_root w1)).
    { apply MaterializerFacts.for_of_frame; [exact Habs|].
      intros [filePath fileData] Hin. cbn [fst].
      rewrite Hentries in Hin.
      rewrite (MaterializerFacts.entry_inside _ _ Habs (Hdots _ _ Hin)).
      eapply MaterializerFacts.not_prefix_of_lower; [exact Hrq|exact Hqr|].
      left. apply MaterializerFacts.prefixb_app. }
    destruct (for_of entries _ w1) as [w2 [[]|e3]]; unfold ret; cbn [fst] in Hf |- *;
      rewrite Hf; exact Hm.
Qed.

(** ** Paths that end with a name *)

Module TrailingFacts.
Import Names PathFacts.

Lemma ends_with_cons suf c s :
  Str.ends_with suf (String c s) = String.eqb suf (String c s) || Str.ends_with suf s.
Proof. reflexivity. Qed.

Lemma ends_with_slash_app a : forall b,
  b <> "" -> Str.ends_with "/" (a ++ b) = Str.ends_with "/" b.
Proof.
  induction a as [|c a IH]; intros b Hb; [reflexivity|].
  cbn [append]. rewrite ends_with_cons, IH by assumption.
  assert (Hne : String.eqb "/" (String c (a ++ b)) = false).
  { apply String.eqb_neq. intros Heq. inversion Heq as [[Hc Hab]].
    destruct a; simpl in Hab; [congruence|discriminate]. }
  rewrite Hne. reflexivity.
Qed.

Lemma ends_with_slash_includes s :
  Str.ends_with "/" s = true -> Str.includes "/" s = true.
Proof.
  induction s as [|c s IH]; [discriminate|].
  rewrite ends_with_cons, includes_slash_cons. intros H.
  apply orb_true_iff in H. destruct H as [H|H].
  - apply String.eqb_eq in H. inversion H. reflexivity.
  - rewrite (IH H). apply orb_true_r.
Qed.

Lemma name_has_no_trailing_slash n :
  Path.valid_name n = true -> n <> "" /\ Str.ends_with "/" n = false.
Proof.
  intros H. apply valid_name_spec in H. destruct H as (H1 & _ & _ & H4).
  split; [exact H1|]. destruct (Str.ends_with "/" n) eqn:E; [|reflexivity].
  apply ends_with_slash_includes in E. unfold no_slash in H4. rewrite E in H4.
  discriminate.
Qed.

Lemma join_snoc parts n :
  parts <> [] -> Str.join "/" (parts ++ [n]) = Str.join "/" parts ++ "/" ++ n.
Proof.
  induction parts as [|a l IH]; [congruence|]. intros _.
  destruct l as [|b l]; [reflexivity|].
  change ((a :: b :: l) ++ [n])%list with (a :: (b :: l) ++ [n])%list.
  cbn [app]. rewrite !join_cons. cbn [app] in IH. rewrite IH by discriminate.
  rewrite !DirnameFacts.append_assoc. reflexivity.
Qed.

Lemma trailing_slash_eq p :
  Path.has_trailing_slash p = Str.ends_with "/" p.
Proof.
  unfold Path.has_trailing_slash. destruct p; [reflexivity|].
  cbn [String.eqb negb]. apply andb_true_r.
Qed.

Lemma filter_snoc_name rest n :
  Path.valid_name n = true ->
  filter nonempty (rest ++ [n]) = (filter nonempty rest ++ [n])%list.
Proof.
  intros H. rewrite filter_app. cbn [filter]. unfold nonempty at 2.
  apply name_has_no_trailing_slash in H. destruct H as [H _].
  apply String.eqb_neq in H. rewrite H. reflexivity.
Qed.

Lemma render_trailing a l trailing :
  Forall (fun s => Path.valid_name s = true) (a :: l) ->
  Path.has_trailing_slash (render (a :: l) trailing) = trailing.
Proof.
  intros H. rewrite trailing_slash_eq. unfold render.
  destruct trailing.
  - rewrite <- !DirnameFacts.append_assoc. rewrite ends_with_slash_app by discriminate.
    reflexivity.
  - rewrite append_empty.
    destruct (rev (a :: l)) as [|n front] eqn:E.
    { apply (f_equal (@rev string)) in E. rewrite rev_involutive in E. discriminate. }
    apply (f_equal (@rev string)) in E. rewrite rev_involutive in E. cbn [rev] in E.
    rewrite E in H |- *. apply Forall_app in H. destruct H as [_ Hn].
    inversion Hn as [|? ? Hn' _]; subst.
    destruct (name_has_no_trailing_slash _ Hn') as [Hne He].
    destruct (rev front) as [|x xs] eqn:Ef.
    + cbn [app]. change (Str.join "/" [n]) with n.
      rewrite ends_with_slash_app by assumption. exact He.
    + rewrite join_snoc by discriminate.
      rewrite <- !DirnameFacts.append_assoc.
      rewrite ends_with_slash_app by assumption. exact He.
Qed.

(** A join whose last argument is a name has no trailing slash. *)
Lemma join_name_trailing a rest n :
  Path.is_absolute a = true -> Path.valid_name n = true ->
  Path.has_trailing_slash (Path.join (a :: rest ++ [n])) = false.
Proof.
  intros Ha Hn. destruct (join_absolute a (rest ++ [n]) Ha) as [Hj Habs].
  rewrite Hj, normalize_absolute by assumption.
  assert (Hraw : Path.has_trailing_slash
                   (Str.join "/" (a :: filter nonempty (rest ++ [n]))) = false).
  { rewrite trailing_slash_eq, filter_snoc_name by assumption.
    change (a :: filter nonempty rest ++ [n])%list
      with ((a :: filter nonempty rest) ++ [n])%list.
    rewrite join_snoc by discriminate.
    destruct (name_has_no_trailing_slash _ Hn) as [Hne He].
    rewrite <- !DirnameFacts.append_assoc.
    rewrite ends_with_slash_app by assumption. exact He. }
  rewrite Hraw.
  pose proof (components_valid (Str.join "/" (a :: filter nonempty (rest ++ [n])))) as Hv.
  destruct (Fs.components _) as [|x l] eqn:E.
  - exfalso. (* the name is a component *)
    unfold Fs.components, Path.normalize_segments in E.
    rewrite segments_join_parts in E by discriminate.
    rewrite filter_snoc_name in E by assumption.
    change (a :: filter nonempty rest ++ [n])%list
      with ((a :: filter nonempty rest) ++ [n])%list in E.
    rewrite flat_map_app, fold_left_app in E. cbn [flat_map] in E.
    rewrite app_nil_r in E.
    pose proof Hn as Hn'. apply valid_name_spec in Hn'.
    rewrite segments_no_slash in E by tauto. cbn [fold_left] in E.
    rewrite step_valid in E by assumption. cbn [rev] in E.
    destruct (rev _) in E; discriminate.
  - apply render_trailing. exact Hv.
Qed.

(** Two joins that name the same path, both ending with a name, are the
    same text. *)
Lemma join_eq a rest a' rest' n :
  Path.is_absolute a = true -> Path.is_absolute a' = true ->
  Path.valid_name n = true ->
  Fs.components (Path.join (a :: rest ++ [n])) =
  Fs.components (Path.join (a' :: rest' ++ [n])) ->
  Path.join (a :: rest ++ [n]) = Path.join (a' :: rest' ++ [n]).
Proof.
  intros Ha Ha' Hn Hc.
  pose proof (join_name_trailing a rest n Ha Hn) as Ht.
  pose proof (join_name_trailing a' rest' n Ha' Hn) as Ht'.
  destruct (join_absolute a (rest ++ [n]) Ha) as [Hj Habs].
  destruct (join_absolute a' (rest' ++ [n]) Ha') as [Hj' Habs'].
  rewrite Hj, Hj' in *.
  rewrite normalize_absolute in Ht, Ht', Hc |- * by assumption.
  rewrite normalize_absolute in Hc |- * by assumption.
  rewrite !components_render in Hc by apply components_valid.
  rewrite Hc in *.
  pose proof (components_valid (Str.join "/" (a' :: filter nonempty (rest' ++ [n])))) as Hv.
  destruct (Fs.components (Str.join "/" (a' :: filter nonempty (rest' ++ [n]))))
    as [|x l]; [reflexivity|].
  rewrite render_trailing in Ht, Ht' by assumption.
  rewrite Ht, Ht'. reflexivity.
Qed.

End TrailingFacts.

(** ** The store: reading what was written *)

Module StoreFacts.
Import Names PathFacts TreeWrites GeneratorFacts.

Lemma readFile_file p w content t :
  Tree.lookup (Fs.components p) (fs_root w) = Some (File content t) ->
  Path.has_trailing_slash p = false ->
  Fs.readFile p w = (w, Return content).
Proof.
  intros Hl Ht. unfold Fs.readFile, bind, Fs.resolve. rewrite Hl, Ht. reflexivity.
Qed.

Lemma access_directory p w es :
  Tree.lookup (Fs.components p) (fs_root w) = Some (Dir es) ->
  Fs.access p w = (w, Return tt).
Proof.
  intros Hl. unfold Fs.access, bind, Fs.resolve. rewrite Hl. reflexivity.
Qed.

Lemma getFileTree_directory p w es :
  Tree.lookup (Fs.components p) (fs_root w) = Some (Dir es) ->
  FileSystemManager.getFileTree p w =
  (w, Return (FileSystemManager.scan "" (Dir es))).
Proof.
  intros Hl. unfold FileSystemManager.getFileTree, bind, Fs.resolve.
  rewrite Hl. reflexivity.
Qed.

Lemma writeFile_written `{P : Platform} now p content w w' :
  Fs.writeFile now p (Some (JStr content)) w = (w', Return tt) ->
  Tree.lookup (Fs.components p) (fs_root w') = Some (File content now).
Proof.
  unfold Fs.writeFile, Fs.write_content.
  destruct (Path.has_trailing_slash p); [discriminate|].
  destruct (Tree.write _ _ _) as [e|root'] eqn:E; [discriminate|].
  intros H. inversion H; subst. cbn [fs_root]. eapply lookup_write, E.
Qed.

(** The directory that holds an entry is a directory. *)
Lemma holder_is_directory p name n m :
  Tree.lookup (p ++ [name]) n = Some m ->
  exists es, Tree.lookup p n = Some (Dir es).
Proof.
  rewrite lookup_app. destruct (Tree.lookup p n) as [[c t|es]|]; try discriminate.
  eauto.
Qed.

Lemma prefixb_sibling p : forall a b,
  prefixb (p ++ [a]) (p ++ [b]) = String.eqb a b.
Proof.
  induction p as [|x p IH]; intros a b; cbn [app prefixb].
  - apply andb_true_r.
  - rewrite String.eqb_refl. apply IH.
Qed.

Lemma try_catch_root {A} (m : M A) (handler : JsError -> M A) w :
  (forall e v, fs_root (fst (handler e v)) = fs_root v) ->
  fs_root (fst (try_catch m handler w)) = fs_root (fst (m w)).
Proof.
  intros H. unfold try_catch. destruct (m w) as [w' [a|e]]; [reflexivity|].
  cbn [fst]. apply H.
Qed.

End StoreFacts.

(** ** The metadata of a generated project *)

Module MetadataFacts.
Import Names PathFacts TreeWrites GeneratorFacts StoreFacts.

(** The properties of the reply win over the generated fields. *)
Lemma metadata_spread `{Platform} projectId prompt model now o k :
  NoDup (map fst o) ->
  Js.obj_get k (Routes.metadata projectId prompt model now (JObj o)) =
  match Js.obj_get k o with
  | Some v => Some v
  | None =>
      field_value k [("id", Routes.str projectId); ("prompt", prompt);
                     ("model", model);
                     ("generated", Routes.str (Date_toISOString now))]
  end.
Proof.
  intros Hnd. unfold Routes.metadata.
  rewrite JsFacts.obj_get_assign. cbn [Js.spread Js.own_props].
  rewrite JsFacts.obj_get_rev by assumption.
  rewrite JsFacts.obj_get_literal. reflexivity.
Qed.

(** The fields of the summary of a record. *)
Lemma summary_fields (o : Js.obj) :
  exists s, Routes.summary (JObj o) = Return (JObj s) /\
    Js.obj_get "id" s = Js.obj_get "id" o /\
    Js.obj_get "generated" s = Js.obj_get "generated" o /\
    Js.obj_get "model" s = Js.obj_get "model" o /\
    Js.obj_get "name" s = Js.obj_get "projectName" o.
Proof.
  eexists. split; [reflexivity|].
  repeat split; rewrite JsFacts.obj_get_literal;
    (apply JsFacts.field_value_unique;
     [cbn [map fst]; repeat constructor; cbn [In]; intuition discriminate
     |cbn [In Js.own_props]; auto 10]).
Qed.

End MetadataFacts.

(** C9.  The record written to project-metadata.json spreads the parsed
    reply after the generated fields: every property of the reply, among
    them id, prompt, model and generated when it has them, replaces the
    generated value in the stored record, while the record is stored in
    the directory named by the generated identifier; the details and the
    listing of the project then report the values of the reply. *)
Theorem metadata_spread_overrides_generated_fields :
  forall `{Platform} (env : Env) (groq : Provider) (uuid : string) (now : Z)
         (fields : Js.obj) (prompt : JSON) (key content : string) (o : Js.obj)
         (w w1 w2 : World),
    let projectPath := Path.join [PROJECTS_DIR; uuid] in
    let model := or_default (Js.obj_get "model" fields) (JStr "llama-4-scout") in
    let record := Routes.metadata uuid (Some prompt) model now (JObj o) in
    let run := Routes.post_generate env groq uuid now (Some (JObj fields)) w in
    Js.obj_get "prompt" fields = Some prompt ->
    Js.truthy (Some prompt) = true ->
    GROQ_API_KEY env = Some key -> key <> "" ->
    (forall request, groq request = Return (Some content)) ->
    JSON_parse (ProjectGenerator.jsonContent content) = Return (JObj o) ->
    NoDup (map fst o) ->
    Path.valid_name uuid = true -> Str.ends_with ".zip" uuid = false ->
    FileSystemManager.createProjectFiles now uuid (Js.obj_get "fileTree" o) w
      = (w1, Return projectPath) ->
    Fs.writeFile now (Path.join [projectPath; "project-metadata.json"])
      (Some (JStr (JSON_stringify (JObj record)))) w1 = (w2, Return tt) ->
    JSON_parse (JSON_stringify (JObj record)) = Return (JObj record) ->
    Tree.lookup (Fs.components PROJECTS_DIR ++ [uuid; "project-metadata.json"])
                (fs_root (fst run))
      = Some (File (JSON_stringify (JObj record)) now) /\
    (forall k v, Js.obj_get k o = Some v -> Js.obj_get k record = Some v) /\
    (Js.obj_get "id" o = None -> Js.obj_get "id" record = Some (JStr uuid)) /\
    (exists response,
        snd (Routes.get_project uuid (fst run)) = Return response /\
        status response = 200 /\
        forall k, k <> "currentFileTree" ->
                  Js.obj_get k (Js.own_props (body response)) = Js.obj_get k record) /\
    (exists s,
        Listing.listed (fst run) uuid = [JObj s] /\
        Js.obj_get "id" s = Js.obj_get "id" record /\
        Js.obj_get "generated" s = Js.obj_get "generated" record /\
        Js.obj_get "model" s = Js.obj_get "model" record).
Proof.
  intros P env groq uuid now fields prompt key content o w w1 w2
         projectPath model record run
         Hprompt Htruthy Hkey Hne Hgroq Hparse Hnd Hvalid Hzip Hcreate Hwrite Hround.
  pose proof PathFacts.PROJECTS_DIR_absolute as Hpd.
  assert (Habs : Path.is_absolute projectPath = true)
    by apply PathFacts.join_is_absolute, Hpd.
  assert (Hroot : Fs.components projectPath = (Fs.components PROJECTS_DIR ++ [uuid])%list)
    by (apply PathFacts.components_join_name; assumption).
  set (mdPath := Path.join [projectPath; "project-metadata.json"]) in *.
  assert (Hmd : Fs.components mdPath =
                (Fs.components PROJECTS_DIR ++ [uuid; "project-metadata.json"])%list).
  { unfold mdPath. rewrite PathFacts.components_join_name, Hroot, <- app_assoc
      by (assumption || reflexivity). reflexivity. }
  assert (Hreadme : Fs.components (Path.join [projectPath; "README.md"]) =
                    (Fs.components PROJECTS_DIR ++ [uuid; "README.md"])%list).
  { rewrite PathFacts.components_join_name, Hroot, <- app_assoc
      by (assumption || reflexivity). reflexivity. }
  set (text := JSON_stringify (JObj record)) in *.
  (* the file is there when the handler is done *)
  assert (Hstored : Tree.lookup (Fs.components mdPath) (fs_root (fst run))
                    = Some (File text now)).
  { pose proof (StoreFacts.writeFile_written _ _ _ _ _ Hwrite) as Hw2.
    subst run. unfold Routes.post_generate.
    rewrite StoreFacts.try_catch_root by reflexivity.
    erewrite GeneratorFacts.bind_return
      by (unfold lift; cbn [Js.get_prop Js.own_props]; rewrite Hprompt; reflexivity).
    erewrite GeneratorFacts.bind_return by reflexivity.
    rewrite Htruthy, Hkey. cbn [negb].
    apply String.eqb_neq in Hne. rewrite Hne.
    erewrite GeneratorFacts.bind_return.
    2:{ unfold ProjectGenerator.generateProjectStructure, ProjectGenerator.options.
        erewrite GeneratorFacts.bind_return
          by (apply GeneratorFacts.chat_returns, Hgroq).
        unfold ProjectGenerator.parse_reply. rewrite Hparse. reflexivity. }
    erewrite GeneratorFacts.bind_return by reflexivity.
    cbn [Js.own_props].
    erewrite GeneratorFacts.bind_return by exact Hcreate.
    erewrite GeneratorFacts.bind_return by exact Hwrite.
    unfold bind at 1, lift.
    destruct (Routes.readmeContent (JObj o)) as [readme|e]; [|exact Hw2].
    unfold bind at 1.
    assert (Hframe : Tree.lookup (Fs.components mdPath)
              (fs_root (fst (Fs.writeFile now (Path.join [projectPath; "README.md"])
                               (Routes.str readme) w2)))
            = Tree.lookup (Fs.components mdPath) (fs_root w2)).
    { apply MaterializerFacts.writeFile_frame.
      rewrite Hmd, Hreadme.
      change [uuid; "project-metadata.json"] with ([uuid] ++ ["project-metadata.json"])%list.
      change [uuid; "README.md"] with ([uuid] ++ ["README.md"])%list.
      rewrite !app_assoc, StoreFacts.prefixb_sibling. reflexivity. }
    destruct (Fs.writeFile now (Path.join [projectPath; "README.md"])
                (Routes.str readme) w2) as [w3 [[]|e]];
      cbn [fst] in Hframe |- *; unfold ret; cbn [fst]; rewrite Hframe; exact Hw2. }
  assert (Hrecord : forall k v, Js.obj_get k o = Some v -> Js.obj_get k record = Some v).
  { intros k v Hk. subst record. rewrite MetadataFacts.metadata_spread, Hk by assumption.
    reflexivity. }
  split; [rewrite <- Hmd; exact Hstored|].
  split; [exact Hrecord|].
  split.
  { intros Hid. subst record. rewrite MetadataFacts.metadata_spread, Hid by assumption.
    apply JsFacts.field_value_unique;
      [cbn [map fst]; repeat constructor; cbn [In]; intuition discriminate
      |cbn [In]; auto]. }
  assert (Hmdtrail : Path.has_trailing_slash mdPath = false).
  { apply (TrailingFacts.join_name_trailing projectPath [] "project-metadata.json");
      [assumption|reflexivity]. }
  assert (Hread : Fs.readFile mdPath (fst run) = (fst run, Return text))
    by (eapply StoreFacts.readFile_file; eassumption).
  split.
  - (* the details *)
    assert (Hdir : exists es, Tree.lookup (Fs.components projectPath) (fs_root (fst run))
                              = Some (Dir es)).
    { rewrite Hmd in Hstored. rewrite Hroot.
      change [uuid; "project-metadata.json"]
        with ([uuid] ++ ["project-metadata.json"])%list in Hstored.
      rewrite app_assoc in Hstored.
      eapply StoreFacts.holder_is_directory, Hstored. }
    destruct Hdir as (es & Hdir).
    unfold Routes.get_project. fold projectPath. fold mdPath.
    erewrite GeneratorFacts.try_catch_return.
    2:{ eapply GeneratorFacts.try_catch_return.
        erewrite GeneratorFacts.bind_return
          by (eapply StoreFacts.access_directory, Hdir).
        erewrite GeneratorFacts.bind_return by exact Hread.
        erewrite GeneratorFacts.bind_return by (unfold lift; rewrite Hround; reflexivity).
        erewrite GeneratorFacts.bind_return
          by (eapply StoreFacts.getFileTree_directory, Hdir).
        reflexivity. }
    eexists. split; [reflexivity|]. split; [reflexivity|].
    intros k Hk. cbn [body Js.own_props Js.spread].
    rewrite JsFacts.obj_get_assign.
    assert (Hnone : Js.obj_get k (rev (Js.literal
              [("currentFileTree",
                Routes.keys_array (FileSystemManager.scan "" (Dir es)))])) = None).
    { cbn. apply String.eqb_neq in Hk. rewrite Hk. reflexivity. }
    rewrite Hnone. reflexivity.
  - (* the listing *)
    destruct (MetadataFacts.summary_fields record) as (s & Hs & Hid & Hgen & Hmodel & _).
    exists s. split; [|auto].
    unfold Listing.listed. rewrite Hzip. unfold Routes.read_summary.
    assert (Hsame : Path.join [PROJECTS_DIR; uuid; "project-metadata.json"] = mdPath).
    { unfold mdPath.
      apply (TrailingFacts.join_eq PROJECTS_DIR [uuid] projectPath [] "project-metadata.json");
        try assumption; [reflexivity|].
      cbn [app]. apply PathFacts.components_join3. assumption. }
    rewrite Hsame.
    erewrite GeneratorFacts.bind_return by exact Hread.
    erewrite GeneratorFacts.bind_return by (unfold lift; rewrite Hround; reflexivity).
    unfold lift. rewrite Hs. reflexivity.
Qed.

Lemma metadata_spread_overrides_generated_fields_witness :
  let env := mkEnv (Some "k") None in
  let groq : Provider := fun _ => Return (Some Replies.spoofed_reply) in
  let run := @Routes.post_generate Runtime.runtime env groq "uuid-1" 1700000000000
               (Some (JObj [("prompt", JStr "make")])) (mkWorld (Dir []) []) in
  exists s, @Listing.listed Runtime.runtime (fst run) "uuid-1" = [JObj s] /\
            Js.obj_get "id" s = Some (JStr "spoof") /\
            Js.obj_get "generated" s = Some (JStr "1999-01-01T00:00:00.000Z").
Proof.
  intros env groq run.
  set (w := mkWorld (Dir []) []).
  set (created := @FileSystemManager.createProjectFiles Runtime.runtime 1700000000000
                    "uuid-1" (Js.obj_get "fileTree" Replies.spoofed_descriptor) w).
  set (record := @Routes.metadata Runtime.runtime "uuid-1" (Some (JStr "make"))
                   (Some (JStr "llama-4-scout")) 1700000000000
                   (JObj Replies.spoofed_descriptor)).
  set (written := @Fs.writeFile Runtime.runtime 1700000000000
                    (Path.join [Path.join [@PROJECTS_DIR Runtime.runtime; "uuid-1"];
                                "project-metadata.json"])
                    (Some (JStr (Runtime.stringify (JObj record)))) (fst created)).
  assert (Hnd : NoDup (map fst Replies.spoofed_descriptor)).
  { cbn [map fst Replies.spoofed_descriptor].
    repeat constructor; cbn [In]; intuition discriminate. }
  assert (Hne : "k" <> "") by discriminate.
  assert (Hparse : @JSON_parse Runtime.runtime
                     (ProjectGenerator.jsonContent Replies.spoofed_reply)
                   = Return (JObj Replies.spoofed_descriptor))
    by (vm_compute; reflexivity).
  assert (Hcreate : created
                    = (fst created, Return (Path.join [@PROJECTS_DIR Runtime.runtime; "uuid-1"])))
    by (vm_compute; reflexivity).
  assert (Hwrite : written = (fst written, Return tt)) by (vm_compute; reflexivity).
  assert (Hround : @JSON_parse Runtime.runtime (@JSON_stringify Runtime.runtime (JObj record))
                   = Return (JObj record))
    by (vm_compute; reflexivity).
  pose proof (@metadata_spread_overrides_generated_fields Runtime.runtime env groq
                "uuid-1" 1700000000000 [("prompt", JStr "make")] (JStr "make") "k"
                Replies.spoofed_reply Replies.spoofed_descriptor
                w (fst created) (fst written)
                eq_refl eq_refl eq_refl Hne (fun _ => eq_refl) Hparse Hnd
                eq_refl eq_refl Hcreate Hwrite Hround)
    as (_ & Hrecord & _ & _ & (s & Hlisted & Hid & Hgen & _)).
  exists s. split; [exact Hlisted|].
  split; [rewrite Hid|rewrite Hgen]; apply Hrecord; reflexivity.
Defined.
(** ** Deleting a project *)

Module RemovalFacts.

(** Nothing is at or below a path that runs through a regular file. *)
Lemma lookup_through_file p : forall n q,
  Tree.through_file p n = true -> Tree.lookup (p ++ q) n = None.
Proof.
  induction p as [|s p IH]; intros n q H; [discriminate|].
  destruct n as [c t|es]; [reflexivity|].
  cbn [Tree.through_file] in H. cbn [app Tree.lookup].
  destruct (Tree.child s es) as [c|]; [apply IH; exact H|reflexivity].
Qed.

Lemma through_file_remove p : forall n,
  Tree.through_file p (Tree.remove p n) = Tree.through_file p n.
Proof.
  induction p as [|s p IH]; intros n; [reflexivity|].
  destruct n as [c t|es]; [reflexivity|].
  destruct p as [|s' p'].
  - cbn [Tree.remove Tree.through_file].
    destruct (Tree.child s (Tree.remove_child s es)), (Tree.child s es); reflexivity.
  - rewrite TreeFacts.remove_deep. destruct (Tree.child s es) as [c|] eqn:E;
      cbn [Tree.through_file].
    + rewrite TreeFacts.child_set_child, String.eqb_refl, E. apply IH.
    + reflexivity.
Qed.

(** A path below a directory does not run through a regular file. *)
Lemma through_file_name p : forall n es name,
  Tree.lookup p n = Some (Dir es) -> Tree.through_file (p ++ [name]) n = false.
Proof.
  induction p as [|s p IH]; intros n es name H.
  - simpl in H. inversion H; subst n. simpl. destruct (Tree.child name es); reflexivity.
  - destruct n as [c t|es']; [discriminate|].
    cbn [Tree.lookup] in H. cbn [app Tree.through_file].
    destruct (Tree.child s es') as [c|]; [eapply IH; exact H|reflexivity].
Qed.

Lemma rm_removes p w :
  Fs.components p <> [] -> Fs.not_a_directory p (fs_root w) = false ->
  Fs.rm p w = (mkWorld (Tree.remove (Fs.components p) (fs_root w)) (console w),
               Return tt).
Proof.
  intros Hp Hn. unfold Fs.rm. rewrite Hn.
  destruct (Fs.components p); [congruence|reflexivity].
Qed.

Lemma rm_refuses p w :
  Fs.components p <> [] -> Fs.not_a_directory p (fs_root w) = true ->
  Fs.rm p w = (w, Throw (Fs.failure ENOTDIR "lstat" p)).
Proof.
  intros Hp Hn. unfold Fs.rm. rewrite Hn.
  destruct (Fs.components p); [congruence|reflexivity].
Qed.

(** A path that has been removed can be examined. *)
Lemma removed_is_examined p n :
  Fs.components p <> [] -> Fs.not_a_directory p n = false ->
  Fs.not_a_directory p (Tree.remove (Fs.components p) n) = false.
Proof.
  intros Hp Hn. unfold Fs.not_a_directory in *.
  apply orb_false_iff in Hn. destruct Hn as [Ht _].
  rewrite through_file_remove, Ht.
  pose proof (TreeFacts.lookup_remove_below (Fs.components p) [] n Hp) as Hl.
  rewrite app_nil_r in Hl. rewrite Hl. reflexivity.
Qed.

(** The directory of a project whose id is a name, under a storage root
    that is a directory, can be examined. *)
Lemma project_is_examined `{Platform} projectId n :
  Path.valid_name projectId = true ->
  Names.kind_at (Fs.components PROJECTS_DIR) n = Some Names.KDir ->
  Fs.not_a_directory (Path.join [PROJECTS_DIR; projectId]) n = false.
Proof.
  intros Hid Hk. pose proof PathFacts.PROJECTS_DIR_absolute as Hpd.
  unfold Fs.not_a_directory.
  rewrite PathFacts.components_join_name by assumption.
  rewrite (TrailingFacts.join_name_trailing PROJECTS_DIR [] projectId) by assumption.
  unfold Names.kind_at in Hk.
  destruct (Tree.lookup (Fs.components PROJECTS_DIR) n) as [[c t|es]|] eqn:El;
    try discriminate Hk.
  rewrite (through_file_name _ _ es projectId El).
  destruct (Tree.lookup (Fs.components PROJECTS_DIR ++ [projectId]) n) as [[? ?|?]|];
    reflexivity.
Qed.

End RemovalFacts.

(** C8, the counterexample.  The directory of the project [a.zip/x] (the
    id of the request DELETE /api/project/a.zip%2Fx) does not exist, and
    its deletion is an error: the path runs through the archive [a.zip],
    a regular file, the handler logs the error and answers 500. *)
Lemma delete_project_through_file_is_refused :
  let w := Examples.three_projects in
  let projectPath := Path.join [@PROJECTS_DIR Runtime.runtime; "a.zip/x"] in
  Tree.lookup (Fs.components projectPath) (fs_root w) = None /\
  @Routes.delete_project Runtime.runtime "a.zip/x" w =
    (mkWorld (fs_root w)
       [[LStr "Delete error:"; LErr (Fs.failure ENOTDIR "lstat" projectPath)]],
     Return (status_json 500 [("error", Some (JStr "Failed to delete project"))])).
Proof. split; vm_compute; reflexivity. Qed.

(** C8, as amended.  The deletion of a project answers with success and
    leaves nothing at or below the directory of the project, also when
    nothing was there (then it changes nothing), so that deleting twice
    is deleting once; unless the path of that directory cannot be
    examined, because it runs through a regular file or names one and
    ends with a slash: then the handler logs the error, answers 500 and
    removes nothing, although no such directory exists when the path
    runs through a file.  The directory of an id that is a plain name,
    under a storage root that is a directory, can always be examined. *)
Theorem delete_project_succeeds_unless_path_is_blocked :
  forall `{Platform} (projectId : string) (w : World),
    let projectPath := Path.join [PROJECTS_DIR; projectId] in
    Fs.components projectPath <> [] ->
    let success :=
      json [("success", Some (JBool true));
            ("message", Some (JStr "Project deleted successfully"))] in
    let refusal := status_json 500 [("error", Some (JStr "Failed to delete project"))] in
    let w' := fst (Routes.delete_project projectId w) in
    (Fs.not_a_directory projectPath (fs_root w) = false ->
     snd (Routes.delete_project projectId w) = Return success /\
     (forall q, Tree.lookup (Fs.components projectPath ++ q) (fs_root w') = None) /\
     (Tree.lookup (Fs.components projectPath) (fs_root w) = None -> w' = w) /\
     Routes.delete_project projectId w' = (w', Return success)) /\
    (Fs.not_a_directory projectPath (fs_root w) = true ->
     Routes.delete_project projectId w =
       (mkWorld (fs_root w)
          (console w ++ [[LStr "Delete error:";
                          LErr (Fs.failure ENOTDIR "lstat" projectPath)]]),
        Return refusal) /\
     (Tree.through_file (Fs.components projectPath) (fs_root w) = true ->
      forall q, Tree.lookup (Fs.components projectPath ++ q) (fs_root w) = None)) /\
    (Path.valid_name projectId = true ->
     Names.kind_at (Fs.components PROJECTS_DIR) (fs_root w) = Some Names.KDir ->
     Fs.not_a_directory projectPath (fs_root w) = false).
Proof.
  intros P projectId w projectPath Hp success refusal w'.
  split; [|split].
  - intros Hn.
    assert (Hrun : Routes.delete_project projectId w =
              (mkWorld (Tree.remove (Fs.components projectPath) (fs_root w)) (console w),
               Return success)).
    { unfold Routes.delete_project, try_catch, bind.
      fold projectPath. rewrite RemovalFacts.rm_removes by assumption. reflexivity. }
    assert (Hbelow : forall q,
              Tree.lookup (Fs.components projectPath ++ q) (fs_root w') = None).
    { intros q. subst w'. rewrite Hrun. simpl.
      apply TreeFacts.lookup_remove_below, Hp. }
    split; [rewrite Hrun; reflexivity|].
    split; [exact Hbelow|]. split.
    + intros Habs. subst w'. rewrite Hrun. simpl.
      rewrite TreeFacts.remove_absent by assumption. destruct w; reflexivity.
    + assert (Hn' : Fs.not_a_directory projectPath (fs_root w') = false).
      { subst w'. rewrite Hrun. simpl.
        apply RemovalFacts.removed_is_examined; assumption. }
      unfold Routes.delete_project, try_catch, bind. fold projectPath.
      rewrite RemovalFacts.rm_removes by assumption. cbn [ret].
      rewrite TreeFacts.remove_absent.
      * destruct w'; reflexivity.
      * specialize (Hbelow []). rewrite app_nil_r in Hbelow. exact Hbelow.
  - intros Hn. split.
    + unfold Routes.delete_project, try_catch, bind. fold projectPath.
      rewrite RemovalFacts.rm_refuses by assumption. reflexivity.
    + intros Ht q. apply RemovalFacts.lookup_through_file, Ht.
  - intros Hid Hk. apply RemovalFacts.project_is_examined; assumption.
Qed.

Lemma delete_project_succeeds_unless_path_is_blocked_witness :
  let w := mkWorld (Dir [("app", Dir [("generated_projects",
                      Dir [("p1", Dir [("a.js", File "x" 0)])])])]) [] in
  Fs.components (Path.join [@PROJECTS_DIR Runtime.runtime; "p1"]) <> [] /\
  fs_root (fst (@Routes.delete_project Runtime.runtime "p1" w)) =
    Dir [("app", Dir [("generated_projects", Dir [])])] /\
  @Routes.delete_project Runtime.runtime "p1"
     (fst (@Routes.delete_project Runtime.runtime "p1" w)) =
  (fst (@Routes.delete_project Runtime.runtime "p1" w),
   Return (json [("success", Some (JBool true));
                 ("message", Some (JStr "Project deleted successfully"))])).
Proof.
  intros w.
  assert (Hne : Fs.components (Path.join [@PROJECTS_DIR Runtime.runtime; "p1"]) <> [])
    by (vm_compute; discriminate).
  split; [exact Hne|]. split; [reflexivity|].
  exact (proj2 (proj2 (proj2
    (proj1 (@delete_project_succeeds_unless_path_is_blocked Runtime.runtime "p1" w Hne)
       eq_refl)))).
Defined.


(* ================================================================== *)
(** * Further properties of the server *)
(* ================================================================== *)

(** ** Lines of a text *)

Module LineFacts.

Lemma split_nonempty c s : Str.split_on c s <> [].
Proof.
  destruct s as [|a s]; simpl; [discriminate|].
  destruct (Ascii.eqb a c); [discriminate|].
  destruct (Str.split_on c s); discriminate.
Qed.

Lemma split_cons c a s :
  Str.split_on c (String a s) =
  if Ascii.eqb a c then "" :: Str.split_on c s
  else match Str.split_on c s with
       | h :: t => String a h :: t
       | [] => [String a ""]
       end.
Proof. reflexivity. Qed.

(** Splitting at a separator splits the pieces. *)
Lemma split_app c a b :
  Str.split_on c (a ++ String c b) = (Str.split_on c a ++ Str.split_on c b)%list.
Proof.
  induction a as [|x a IH].
  - cbn [append]. rewrite split_cons, Ascii.eqb_refl. reflexivity.
  - change (String x a ++ String c b) with (String x (a ++ String c b)).
    rewrite !split_cons, IH.
    destruct (Ascii.eqb x c); [reflexivity|].
    pose proof (split_nonempty c a) as Hne.
    destruct (Str.split_on c a); [congruence|reflexivity].
Qed.

Lemma includes_char_cons c a s :
  Str.includes (String c "") (String a s) = Ascii.eqb c a || Str.includes (String c "") s.
Proof.
  cbn [Str.includes Str.starts_with]. rewrite andb_true_r. reflexivity.
Qed.

(** A text without the separator is one piece. *)
Lemma split_none c s :
  Str.includes (String c "") s = false -> Str.split_on c s = [s].
Proof.
  induction s as [|a s IH]; [reflexivity|].
  rewrite includes_char_cons, split_cons, Ascii.eqb_sym.
  destruct (Ascii.eqb a c); [discriminate|]. simpl orb.
  intros H. rewrite (IH H). reflexivity.
Qed.

Lemma join_two sep a b l :
  Str.join sep (a :: b :: l) = a ++ sep ++ Str.join sep (b :: l).
Proof. reflexivity. Qed.

(** A text is its pieces joined by the separator. *)
Lemma join_split c s : Str.join (String c "") (Str.split_on c s) = s.
Proof.
  induction s as [|a s IH]; [reflexivity|].
  rewrite split_cons. destruct (Ascii.eqb a c) eqn:E.
  - apply Ascii.eqb_eq in E. subst a.
    pose proof (split_nonempty c s) as Hne.
    destruct (Str.split_on c s) as [|h t] eqn:Es; [congruence|].
    rewrite join_two, IH. reflexivity.
  - pose proof (split_nonempty c s) as Hne.
    destruct (Str.split_on c s) as [|h t] eqn:Es; [congruence|].
    destruct t as [|h' t].
    + simpl in *. rewrite IH. reflexivity.
    + rewrite join_two in *. rewrite <- IH. reflexivity.
Qed.

Lemma starts_with_app p : forall s, Str.starts_with p (p ++ s) = true.
Proof.
  induction p as [|a p IH]; intros s; [reflexivity|].
  cbn [append Str.starts_with]. rewrite Ascii.eqb_refl. apply IH.
Qed.

(** The lines of a reply between an opening line and a closing line. *)
Lemma lines_of_block (opening body closing : string) :
  Str.includes ProjectGenerator.newline opening = false ->
  Str.includes ProjectGenerator.newline closing = false ->
  Str.split_on (ascii_of_nat 10)
    (opening ++ ProjectGenerator.newline ++ body ++ ProjectGenerator.newline ++ closing)
  = (opening :: Str.split_on (ascii_of_nat 10) body ++ [closing])%list.
Proof.
  intros Ho Hc. unfold ProjectGenerator.newline in *.
  change (opening ++ String (ascii_of_nat 10) "" ++ body ++ String (ascii_of_nat 10) "" ++ closing)
    with (opening ++ String (ascii_of_nat 10) (body ++ String (ascii_of_nat 10) closing)).
  rewrite !split_app, (split_none _ _ Ho), (split_none _ _ Hc). reflexivity.
Qed.

End LineFacts.

Module CleaningFacts.

(** The reply without its code block markers. *)
Lemma strip_block (lang body closing : string) :
  Str.includes ProjectGenerator.newline lang = false ->
  Str.includes ProjectGenerator.newline closing = false ->
  Str.trim closing = "```" ->
  ProjectGenerator.strip_code_block
    ("```" ++ lang ++ ProjectGenerator.newline ++ body
     ++ ProjectGenerator.newline ++ closing) = Return body.
Proof.
  intros Hl Hc Ht. unfold ProjectGenerator.strip_code_block.
  rewrite LineFacts.starts_with_app.
  assert (Ho : Str.includes ProjectGenerator.newline ("```" ++ lang) = false).
  { cbn [append]. rewrite !RegexFacts.includes_cons. rewrite Hl. reflexivity. }
  change ("```" ++ lang ++ ProjectGenerator.newline ++ body
          ++ ProjectGenerator.newline ++ closing)
    with (("```" ++ lang) ++ ProjectGenerator.newline ++ body
          ++ ProjectGenerator.newline ++ closing).
  rewrite (LineFacts.lines_of_block _ _ _ Ho Hc).
  rewrite rev_app_distr. cbn [rev app]. rewrite Ht. cbn [String.eqb Ascii.eqb Bool.eqb].
  rewrite rev_involutive. f_equal. apply LineFacts.join_split.
Qed.

(** A reply that opens a code block and has one line only. *)
Lemma strip_single_line (content : string) :
  Str.starts_with "```" content = true ->
  Str.includes ProjectGenerator.newline content = false ->
  ProjectGenerator.strip_code_block content
  = Throw (TypeError "Cannot read properties of undefined (reading 'trim')").
Proof.
  intros Hs Hn. unfold ProjectGenerator.strip_code_block.
  rewrite Hs, (LineFacts.split_none _ _ Hn). reflexivity.
Qed.

(** A reply that opens no code block. *)
Lemma strip_plain (content : string) :
  Str.starts_with "```" content = false ->
  ProjectGenerator.strip_code_block content = Return content.
Proof. intros Hs. unfold ProjectGenerator.strip_code_block. rewrite Hs. reflexivity. Qed.

Lemma chat_of_reply (groq : Provider) (model messages : option JSON)
  (temperature maxTokens : JSON) (reply : string) (w : World) :
  (forall request, groq request = Return (Some reply)) ->
  GroqClient.chat groq model messages (ProjectGenerator.options temperature maxTokens) w
  = (w, Return reply).
Proof. intros H. unfold ProjectGenerator.options. apply GeneratorFacts.chat_returns, H. Qed.

Lemma enhance_of_reply (groq : Provider) (filePath currentContent : string)
  (requirements model : option JSON) (reply : string) (w : World) :
  (forall request, groq request = Return (Some reply)) ->
  ProjectGenerator.enhanceFileContent groq filePath currentContent requirements model w
  = (w, ProjectGenerator.strip_code_block (Str.trim reply)).
Proof.
  intros H. unfold ProjectGenerator.enhanceFileContent.
  erewrite GeneratorFacts.bind_return by (apply chat_of_reply, H). reflexivity.
Qed.

Lemma rewrite_of_reply (groq : Provider) (filePath currentContent : string)
  (instructions model : option JSON) (reply : string) (w : World) :
  (forall request, groq request = Return (Some reply)) ->
  ProjectGenerator.rewriteFileContent groq filePath currentContent instructions model w
  = (w, ProjectGenerator.strip_code_block (Str.trim reply)).
Proof.
  intros H. unfold ProjectGenerator.rewriteFileContent.
  erewrite GeneratorFacts.bind_return by (apply chat_of_reply, H). reflexivity.
Qed.

End CleaningFacts.

(** X1.  A reply that the model wrapped in a code block is unwrapped: when
    the trimmed reply is an opening line that starts with three backquotes,
    a body and a closing line that holds three backquotes only,
    enhanceFileContent and rewriteFileContent return the body, whatever
    lines the body has. *)
Theorem fenced_reply_is_unwrapped :
  forall (groq : Provider) (filePath currentContent : string)
         (requirements model : option JSON) (reply lang body closing : string)
         (w : World),
    (forall request, groq request = Return (Some reply)) ->
    Str.trim reply = "```" ++ lang ++ ProjectGenerator.newline ++ body
                     ++ ProjectGenerator.newline ++ closing ->
    Str.includes ProjectGenerator.newline lang = false ->
    Str.includes ProjectGenerator.newline closing = false ->
    Str.trim closing = "```" ->
    ProjectGenerator.enhanceFileContent groq filePath currentContent requirements model w
      = (w, Return body) /\
    ProjectGenerator.rewriteFileContent groq filePath currentContent requirements model w
      = (w, Return body).
Proof.
  intros groq filePath currentContent requirements model reply lang body closing w
         Hgroq Hreply Hlang Hclosing Htrim.
  rewrite (CleaningFacts.enhance_of_reply _ _ _ _ _ _ _ Hgroq).
  rewrite (CleaningFacts.rewrite_of_reply _ _ _ _ _ _ _ Hgroq).
  rewrite Hreply, (CleaningFacts.strip_block _ _ _ Hlang Hclosing Htrim).
  split; reflexivity.
Qed.

Lemma fenced_reply_is_unwrapped_witness :
  let nl := ProjectGenerator.newline in
  let reply := "  ```js" ++ nl ++ "let x;" ++ nl ++ nl ++ "let y;" ++ nl ++ " ``` " in
  let w := mkWorld (Dir []) [] in
  Str.trim reply = "```" ++ "js" ++ nl ++ ("let x;" ++ nl ++ nl ++ "let y;") ++ nl ++ " ```" /\
  ProjectGenerator.enhanceFileContent (fun _ => Return (Some reply)) "a.js" "let x"
    (Some (JStr "add y")) None w
  = (w, Return ("let x;" ++ nl ++ nl ++ "let y;")).
Proof.
  intros nl reply w.
  assert (Hreply : Str.trim reply
                   = "```" ++ "js" ++ nl ++ ("let x;" ++ nl ++ nl ++ "let y;") ++ nl ++ " ```")
    by reflexivity.
  split; [exact Hreply|].
  exact (proj1 (fenced_reply_is_unwrapped (fun _ => Return (Some reply)) "a.js" "let x"
                  (Some (JStr "add y")) None reply "js"
                  ("let x;" ++ nl ++ nl ++ "let y;") " ```" w
                  (fun _ => eq_refl) Hreply eq_refl eq_refl eq_refl)).
Defined.

(** ** The AI edits of a file *)

Module EditFacts.

Lemma readFile_returns p w content :
  snd (Fs.readFile p w) = Return content -> Fs.readFile p w = (w, Return content).
Proof.
  intros H. pose proof (ListingFacts.readFile_pure p w) as Hp.
  destruct (Fs.readFile p w) as [w' o]. cbn [fst snd] in *. subst. reflexivity.
Qed.

(** A gateway whose provider fails logs the error and throws its own. *)
Lemma chat_fails (groq : Provider) (model messages : option JSON)
  (o : Js.obj) (e : JsError) (w : World) :
  (forall request, groq request = Throw e) ->
  GroqClient.chat groq model messages (Some (JObj o)) w
  = (mkWorld (fs_root w) (console w ++ [[LStr "Groq API error:"; LErr e]])%list,
     Throw (Error ("Groq API error: " ++ err_message e))).
Proof.
  intros H. unfold GroqClient.chat, or_default. rewrite GatewayFacts.params_eq.
  unfold try_catch, bind, lift, ret. rewrite H. reflexivity.
Qed.

End EditFacts.

(** X2.  The enhance and rewrite routes answer 404 File not found when the
    provider fails, although the file exists: the handler that answers
    for a missing file catches the error of the gateway as well.  The
    file system is left as it was, and the error is on the console. *)
Theorem provider_failure_answers_file_not_found :
  forall `{Platform} (groq : Provider) (now : Z) (projectId filePath : string)
         (fields : Js.obj) (current : string) (e : JsError) (w : World),
    snd (Fs.readFile (Path.join [PROJECTS_DIR; projectId; filePath]) w)
      = Return current ->
    (forall request, groq request = Throw e) ->
    let logged := mkWorld (fs_root w)
                    (console w ++ [[LStr "Groq API error:"; LErr e]])%list in
    let answer := status_json 404 [("error", Some (JStr "File not found"))] in
    (Js.truthy (Js.obj_get "requirements" fields) = true ->
     Routes.put_enhance groq now projectId filePath (Some (JObj fields)) w
     = (logged, Return answer)) /\
    (Js.truthy (Js.obj_get "instructions" fields) = true ->
     Routes.put_rewrite groq now projectId filePath (Some (JObj fields)) w
     = (logged, Return answer)).
Proof.
  intros P groq now projectId filePath fields current e w Hread Hgroq logged answer.
  apply EditFacts.readFile_returns in Hread.
  split; intros Htruthy.
  - unfold Routes.put_enhance.
    eapply GeneratorFacts.try_catch_return.
    unfold lift. cbn [Js.get_prop Js.own_props].
    erewrite GeneratorFacts.bind_return by reflexivity.
    erewrite GeneratorFacts.bind_return by reflexivity.
    rewrite Htruthy. cbn [negb].
    erewrite GeneratorFacts.try_catch_throw; [reflexivity|].
    erewrite GeneratorFacts.bind_return by exact Hread.
    eapply GeneratorFacts.bind_throw.
    unfold ProjectGenerator.enhanceFileContent, ProjectGenerator.options.
    eapply GeneratorFacts.bind_throw. apply EditFacts.chat_fails, Hgroq.
  - unfold Routes.put_rewrite.
    eapply GeneratorFacts.try_catch_return.
    unfold lift. cbn [Js.get_prop Js.own_props].
    erewrite GeneratorFacts.bind_return by reflexivity.
    erewrite GeneratorFacts.bind_return by reflexivity.
    rewrite Htruthy. cbn [negb].
    erewrite GeneratorFacts.try_catch_throw; [reflexivity|].
    erewrite GeneratorFacts.bind_return by exact Hread.
    eapply GeneratorFacts.bind_throw.
    unfold ProjectGenerator.rewriteFileContent, ProjectGenerator.options.
    eapply GeneratorFacts.bind_throw. apply EditFacts.chat_fails, Hgroq.
Qed.

Lemma provider_failure_answers_file_not_found_witness :
  let w := Examples.in_storage [("p1", Dir [("a.js", File "v0" 0)])] in
  let e := Error "rate limit" in
  snd (Fs.readFile (Path.join [@PROJECTS_DIR Runtime.runtime; "p1"; "a.js"]) w)
    = Return "v0" /\
  @Routes.put_enhance Runtime.runtime (fun _ => Throw e) 5 "p1" "a.js"
    (Some (JObj [("requirements", JStr "more")])) w
  = (mkWorld (fs_root w) [[LStr "Groq API error:"; LErr e]],
     Return (status_json 404 [("error", Some (JStr "File not found"))])).
Proof.
  intros w e.
  assert (Hread : snd (Fs.readFile (Path.join [@PROJECTS_DIR Runtime.runtime; "p1"; "a.js"]) w)
                  = Return "v0") by reflexivity.
  split; [exact Hread|].
  exact (proj1 (@provider_failure_answers_file_not_found Runtime.runtime
                  (fun _ => Throw e) 5 "p1" "a.js" [("requirements", JStr "more")]
                  "v0" e w Hread (fun _ => eq_refl)) eq_refl).
Defined.

(** X3.  A reply that opens a code block and has no line break (three
    backquotes and no more line) makes the cleaning of the reply fail with
    a TypeError, the last line being read off an empty array; the enhance
    and rewrite routes then answer 404 File not found and write nothing. *)
Theorem reply_of_one_fence_line_answers_file_not_found :
  forall `{Platform} (groq : Provider) (now : Z) (projectId filePath : string)
         (fields : Js.obj) (current reply : string) (w : World),
    snd (Fs.readFile (Path.join [PROJECTS_DIR; projectId; filePath]) w)
      = Return current ->
    (forall request, groq request = Return (Some reply)) ->
    Str.starts_with "```" (Str.trim reply) = true ->
    Str.includes ProjectGenerator.newline (Str.trim reply) = false ->
    let answer := status_json 404 [("error", Some (JStr "File not found"))] in
    ProjectGenerator.strip_code_block (Str.trim reply)
      = Throw (TypeError "Cannot read properties of undefined (reading 'trim')") /\
    (Js.truthy (Js.obj_get "requirements" fields) = true ->
     Routes.put_enhance groq now projectId filePath (Some (JObj fields)) w
     = (w, Return answer)) /\
    (Js.truthy (Js.obj_get "instructions" fields) = true ->
     Routes.put_rewrite groq now projectId filePath (Some (JObj fields)) w
     = (w, Return answer)).
Proof.
  intros P groq now projectId filePath fields current reply w Hread Hgroq Hfence Hline
         answer.
  apply EditFacts.readFile_returns in Hread.
  pose proof (CleaningFacts.strip_single_line _ Hfence Hline) as Hstrip.
  split; [exact Hstrip|].
  split; intros Htruthy.
  - unfold Routes.put_enhance.
    eapply GeneratorFacts.try_catch_return.
    unfold lift. cbn [Js.get_prop Js.own_props].
    erewrite GeneratorFacts.bind_return by reflexivity.
    erewrite GeneratorFacts.bind_return by reflexivity.
    rewrite Htruthy. cbn [negb].
    erewrite GeneratorFacts.try_catch_throw; [reflexivity|].
    erewrite GeneratorFacts.bind_return by exact Hread.
    eapply GeneratorFacts.bind_throw.
    rewrite (CleaningFacts.enhance_of_reply _ _ _ _ _ _ _ Hgroq), Hstrip. reflexivity.
  - unfold Routes.put_rewrite.
    eapply GeneratorFacts.try_catch_return.
    unfold lift. cbn [Js.get_prop Js.own_props].
    erewrite GeneratorFacts.bind_return by reflexivity.
    erewrite GeneratorFacts.bind_return by reflexivity.
    rewrite Htruthy. cbn [negb].
    erewrite GeneratorFacts.try_catch_throw; [reflexivity|].
    erewrite GeneratorFacts.bind_return by exact Hread.
    eapply GeneratorFacts.bind_throw.
    rewrite (CleaningFacts.rewrite_of_reply _ _ _ _ _ _ _ Hgroq), Hstrip. reflexivity.
Qed.

Lemma reply_of_one_fence_line_answers_file_not_found_witness :
  let w := Examples.in_storage [("p1", Dir [("a.js", File "v0" 0)])] in
  snd (Fs.readFile (Path.join [@PROJECTS_DIR Runtime.runtime; "p1"; "a.js"]) w)
    = Return "v0" /\
  @Routes.put_enhance Runtime.runtime (fun _ => Return (Some " ```js ")) 5 "p1" "a.js"
    (Some (JObj [("requirements", JStr "more")])) w
  = (w, Return (status_json 404 [("error", Some (JStr "File not found"))])).
Proof.
  intros w.
  assert (Hread : snd (Fs.readFile (Path.join [@PROJECTS_DIR Runtime.runtime; "p1"; "a.js"]) w)
                  = Return "v0") by reflexivity.
  split; [exact Hread|].
  exact (proj1 (proj2 (@reply_of_one_fence_line_answers_file_not_found Runtime.runtime
                  (fun _ => Return (Some " ```js ")) 5 "p1" "a.js"
                  [("requirements", JStr "more")] "v0" " ```js " w Hread
                  (fun _ => eq_refl) eq_refl eq_refl)) eq_refl).
Defined.

(** ** Writing and reading a file of a project *)

Module FileFacts.

Lemma writeFile_no_trailing `{P : Platform} now p data w w' :
  Fs.writeFile now p data w = (w', Return tt) -> Path.has_trailing_slash p = false.
Proof.
  assert (Hc : forall content w1 w2,
             Fs.write_content now p content w1 = (w2, Return tt) ->
             Path.has_trailing_slash p = false).
  { intros content w1 w2. unfold Fs.write_content.
    destruct (Path.has_trailing_slash p); [discriminate|reflexivity]. }
  unfold Fs.writeFile, throw.
  destruct data as [[| | |content|chunks|o]|]; try discriminate.
  - apply Hc.
  - destruct (Fs.write_chunks chunks) as [content error]. unfold bind.
    destruct (Fs.write_content now p content w) as [w1 [[]|e]] eqn:Ew; [|discriminate].
    intros _. eapply Hc, Ew.
Qed.

(** What the route answers for a regular file. *)
Lemma get_file_of_file `{Platform} projectId filePath w content t :
  let fullPath := Path.join [PROJECTS_DIR; projectId; filePath] in
  Tree.lookup (Fs.components fullPath) (fs_root w) = Some (File content t) ->
  Path.has_trailing_slash fullPath = false ->
  Routes.get_file projectId filePath w =
  (w, Return (json [("content", Some (JStr content));
                    ("path", Some (JStr filePath));
                    ("size", Some (Js.num (Str.utf8_length content)));
                    ("modified", Some (JStr (Date_toISOString t)))])).
Proof.
  intros fullPath. subst fullPath. unfold Routes.get_file.
  generalize (Path.join [PROJECTS_DIR; projectId; filePath]) as fullPath.
  intros fullPath E Ht.
  unfold try_catch, bind, Fs.stat, Fs.readFile, Fs.resolve, bind, ret, throw.
  rewrite E, Ht. simpl. rewrite ?E, ?Ht. reflexivity.
Qed.

(** The steps of the route that writes a file. *)
Lemma put_file_steps `{Platform} now projectId filePath fields v w :
  Js.obj_get "content" fields = Some v ->
  let fullPath := Path.join [PROJECTS_DIR; projectId; filePath] in
  Routes.put_file now projectId filePath (Some (JObj fields)) w =
  match Fs.mkdir (Path.dirname fullPath) w with
  | (w1, Return _) =>
      match Fs.writeFile now fullPath (Some v) w1 with
      | (w2, Return _) =>
          (w2, Return (json [("success", Some (JBool true));
                             ("message", Some (JStr "File updated successfully"));
                             ("path", Some (JStr filePath))]))
      | (w2, Throw e) =>
          (mkWorld (fs_root w2) (console w2 ++ [[LStr "File update error:"; LErr e]])%list,
           Return (status_json 500 [("error", Some (JStr "Failed to update file"))]))
      end
  | (w1, Throw e) =>
      (mkWorld (fs_root w1) (console w1 ++ [[LStr "File update error:"; LErr e]])%list,
       Return (status_json 500 [("error", Some (JStr "Failed to update file"))]))
  end.
Proof.
  intros Hv fullPath. unfold Routes.put_file. fold fullPath.
  unfold try_catch, bind at 1, lift. cbn [Js.get_prop Js.own_props]. rewrite Hv.
  unfold bind.
  destruct (Fs.mkdir (Path.dirname fullPath) w) as [w1 [[]|e]]; [|reflexivity].
  destruct (Fs.writeFile now fullPath (Some v) w1) as [w2 [[]|e]]; reflexivity.
Qed.

End FileFacts.

(** X4.  What PUT /api/project/:projectId/file/* has written, GET of the
    same path returns: when the update of a file with a text answers 200,
    the file route then answers 200 with this text (the empty text
    included), its size in bytes and the time of the update. *)
Theorem put_file_then_get_file :
  forall `{Platform} (now : Z) (projectId filePath : string) (fields : Js.obj)
         (content : string) (w : World),
    Js.obj_get "content" fields = Some (JStr content) ->
    let put := Routes.put_file now projectId filePath (Some (JObj fields)) w in
    (exists r, snd put = Return r /\ status r = 200) ->
    Routes.get_file projectId filePath (fst put) =
    (fst put,
     Return (json [("content", Some (JStr content));
                   ("path", Some (JStr filePath));
                   ("size", Some (Js.num (Str.utf8_length content)));
                   ("modified", Some (JStr (Date_toISOString now)))])).
Proof.
  intros P now projectId filePath fields content w Hcontent put (r & Hr & Hstatus).
  subst put. rewrite (FileFacts.put_file_steps _ _ _ _ _ _ Hcontent) in *.
  destruct (Fs.mkdir _ w) as [w1 [[]|e]].
  2:{ cbn [snd] in Hr. inversion Hr; subst r. discriminate Hstatus. }
  destruct (Fs.writeFile now _ (Some (JStr content)) w1) as [w2 [[]|e]] eqn:Ew.
  2:{ cbn [snd] in Hr. inversion Hr; subst r. discriminate Hstatus. }
  cbn [fst]. apply FileFacts.get_file_of_file.
  - eapply StoreFacts.writeFile_written, Ew.
  - eapply FileFacts.writeFile_no_trailing, Ew.
Qed.

Lemma put_file_then_get_file_witness :
  let w := Examples.in_storage [("p1", Dir [])] in
  let put := @Routes.put_file Runtime.runtime 1700000000000 "p1" "src/lib/a.js"
               (Some (JObj [("content", JStr "")])) w in
  (exists r, snd put = Return r /\ status r = 200) /\
  @Routes.get_file Runtime.runtime "p1" "src/lib/a.js" (fst put) =
  (fst put,
   Return (json [("content", Some (JStr ""));
                 ("path", Some (JStr "src/lib/a.js"));
                 ("size", Some (Js.num 0));
                 ("modified", Some (JStr "2023-11-14T22:13:20.000Z"))])).
Proof.
  intros w put.
  assert (Hput : exists r, snd put = Return r /\ status r = 200)
    by (eexists; split; reflexivity).
  split; [exact Hput|].
  exact (@put_file_then_get_file Runtime.runtime 1700000000000 "p1" "src/lib/a.js"
           [("content", JStr "")] "" w eq_refl Hput).
Defined.

Module UpdateFacts.
Import Names.

(** Creating directories creates and changes no regular file. *)
Lemma mkdir_keeps_files p w q content t :
  Tree.lookup q (fs_root (fst (Fs.mkdir p w))) = Some (File content t) ->
  Tree.lookup q (fs_root w) = Some (File content t).
Proof.
  unfold Fs.mkdir.
  destruct (Tree.mkdir_p (Fs.components p) (fs_root w)) as [e|root'] eqn:E;
    [trivial|].
  cbn [fst fs_root]. intros Hq.
  destruct (prefixb q (Fs.components p)) eqn:Ep.
  - destruct (TreeWrites.lookup_mkdir_p_prefix _ _ _ _ E Ep) as (es & Hes).
    congruence.
  - rewrite <- (TreeWrites.lookup_mkdir_p_other _ _ _ _ E Ep). exact Hq.
Qed.

(** A value that is neither a text nor an array is refused, and nothing
    is written. *)
Lemma writeFile_rejects `{P : Platform} now p v w :
  (forall s, v <> JStr s) -> (forall l, v <> JArr l) ->
  exists e, Fs.writeFile now p (Some v) w = (w, Throw e).
Proof.
  intros Hv Ha. unfold Fs.writeFile, throw.
  destruct v as [| | |s|l|]; try (eexists; reflexivity).
  - exfalso. apply (Hv s). reflexivity.
  - exfalso. apply (Ha l). reflexivity.
Qed.

(** An array is written as the text of its chunks, up to the first chunk
    that is refused. *)
Lemma writeFile_chunks `{P : Platform} now p chunks written error w :
  Fs.write_chunks chunks = (written, error) ->
  Fs.writeFile now p (Some (JArr chunks)) w =
  match Fs.writeFile now p (Some (JStr written)) w, error with
  | (w1, Return _), Some e => (w1, Throw e)
  | r, _ => r
  end.
Proof.
  intros Hc. unfold Fs.writeFile. rewrite Hc. unfold bind, throw, ret.
  destruct (Fs.write_content now p written w) as [w1 [[]|e1]];
    destruct error; reflexivity.
Qed.

Lemma write_chunks_texts `{P : Platform} texts :
  Fs.write_chunks (map JStr texts) = (String.concat "" texts, None).
Proof.
  induction texts as [|t texts IH]; [reflexivity|].
  cbn [map Fs.write_chunks Fs.Buffer_from]. rewrite IH.
  destruct texts as [|t' texts]; [|reflexivity].
  cbn [String.concat]. rewrite PathFacts.append_empty. reflexivity.
Qed.

(** The directory of a path below a root is at or below the directory of
    the root. *)
Lemma dirname_comparable (root ks : list string) :
  prefixb root (removelast (root ++ ks)) = true
  \/ prefixb (removelast (root ++ ks)) root = true.
Proof.
  destruct ks as [|k ks].
  - right. rewrite app_nil_r. apply MaterializerFacts.prefixb_removelast.
  - left. rewrite removelast_app by discriminate. apply MaterializerFacts.prefixb_app.
Qed.

End UpdateFacts.


(** Three updates of the file [a.txt], which holds [old]: the chunks
    [ab] and [cd] are written as [abcd]; the chunk [1] is refused when
    the file has been emptied; and the chunk [ab] is written before the
    chunk [1] is refused. *)
Remark put_file_of_chunks :
  let w := Examples.in_storage [("p1", Dir [("a.txt", File "old" 0)])] in
  let put content :=
    @Routes.put_file Runtime.runtime 9 "p1" "a.txt"
      (Some (JObj [("content", JArr content)])) w in
  let at_file run :=
    Tree.lookup ["app"; "generated_projects"; "p1"; "a.txt"] (fs_root (fst run)) in
  let status_of run :=
    match snd run with Return r => Some (status r) | Throw _ => None end in
  (status_of (put [JStr "ab"; JStr "cd"]) = Some 200 /\
   at_file (put [JStr "ab"; JStr "cd"]) = Some (File "abcd" 9)) /\
  (status_of (put [JNum 1 0]) = Some 500 /\
   at_file (put [JNum 1 0]) = Some (File "" 9)) /\
  (status_of (put [JStr "ab"; JNum 1 0]) = Some 500 /\
   at_file (put [JStr "ab"; JNum 1 0]) = Some (File "ab" 9)).
Proof. repeat split; vm_compute; reflexivity. Qed.

(** X6.  An update whose path has no parent-directory segment stays in
    its project: PUT /api/project/:projectId/file/* leaves every path
    that is neither below the directory of the project nor above it as it
    was, whether the update succeeds or not. *)
Theorem put_file_without_parent_segments_stays_inside :
  forall `{Platform} (now : Z) (projectId filePath : string) (req_body : option JSON)
         (w : World),
    Path.valid_name projectId = true ->
    Forall (fun seg => seg <> "..") (Path.segments_of filePath) ->
    let root := (Fs.components PROJECTS_DIR ++ [projectId])%list in
    forall q,
      Names.prefixb root q = false -> Names.prefixb q root = false ->
      Tree.lookup q (fs_root (fst (Routes.put_file now projectId filePath req_body w)))
      = Tree.lookup q (fs_root w).
Proof.
  intros P now projectId filePath req_body w Hid Hsegs root q Hout Habove.
  pose proof PathFacts.PROJECTS_DIR_absolute as Hpd.
  set (fullPath := Path.join [PROJECTS_DIR; projectId; filePath]).
  assert (Hfull : Fs.components fullPath
                  = (root ++ filter Names.kept (Path.segments_of filePath))%list).
  { unfold fullPath. rewrite PathFacts.components_join3 by assumption.
    rewrite MaterializerFacts.entry_inside
      by (try apply PathFacts.join_is_absolute; assumption).
    rewrite PathFacts.components_join_name by assumption. reflexivity. }
  assert (Hq : Names.prefixb q (Fs.components fullPath) = false).
  { rewrite Hfull. apply (MaterializerFacts.not_prefix_of_lower q root); try assumption.
    left. apply MaterializerFacts.prefixb_app. }
  assert (Hd : Names.prefixb q (Fs.components (Path.dirname fullPath)) = false).
  { unfold fullPath. rewrite DirnameFacts.components_dirname_join by assumption.
    fold fullPath. rewrite Hfull.
    apply (MaterializerFacts.not_prefix_of_lower q root); try assumption.
    apply UpdateFacts.dirname_comparable. }
  unfold Routes.put_file. fold fullPath.
  rewrite StoreFacts.try_catch_root by reflexivity.
  unfold bind at 1, lift.
  destruct (Js.get_prop req_body "content") as [[v|]|e]; try reflexivity.
  pose proof (MaterializerFacts.mkdir_frame (Path.dirname fullPath) w q Hd) as Hm.
  unfold bind at 1.
  destruct (Fs.mkdir (Path.dirname fullPath) w) as [w1 [[]|e]]; cbn [fst] in Hm;
    [|exact Hm].
  pose proof (MaterializerFacts.writeFile_frame now fullPath (Some v) w1 q Hq) as Hw.
  unfold bind.
  destruct (Fs.writeFile now fullPath (Some v) w1) as [w2 [[]|e]]; cbn [fst] in Hw |- *;
    unfold ret; cbn [fst]; congruence.
Qed.

Lemma put_file_without_parent_segments_stays_inside_witness :
  let w := Examples.in_storage
             [("p1", Dir []); ("p2", Dir [("b.js", File "keep" 0)])] in
  Forall (fun seg => seg <> "..") (Path.segments_of "src/./a.js") /\
  Tree.lookup ["app"; "generated_projects"; "p2"; "b.js"]
    (fs_root (fst (@Routes.put_file Runtime.runtime 9 "p1" "src/./a.js"
                     (Some (JObj [("content", JStr "x")])) w)))
  = Some (File "keep" 0).
Proof.
  intros w.
  assert (Hsegs : Forall (fun seg => seg <> "..") (Path.segments_of "src/./a.js"))
    by (repeat constructor; discriminate).
  split; [exact Hsegs|].
  exact (@put_file_without_parent_segments_stays_inside Runtime.runtime 9 "p1"
           "src/./a.js" (Some (JObj [("content", JStr "x")])) w eq_refl Hsegs
           ["app"; "generated_projects"; "p2"; "b.js"] eq_refl eq_refl).
Defined.

(** ** The generation route *)

Module GenerateFacts.

(** A computation that returns went through its first step. *)
Lemma bind_inversion {A B} (m : M A) (k : A -> M B) w w' b :
  bind m k w = (w', Return b) ->
  exists a w1, m w = (w1, Return a) /\ k a w1 = (w', Return b).
Proof.
  unfold bind. destruct (m w) as [w1 [a|e]]; [|discriminate].
  intros Hk. exists a, w1. split; [reflexivity|exact Hk].
Qed.

(** The route up to the generation, for a request that has a prompt and a
    server that has a key. *)
Lemma post_generate_steps `{Platform} env groq uuid now fields w :
  Js.truthy (Js.obj_get "prompt" fields) = true ->
  Service.groqConfigured env = true ->
  exists m handler,
    Routes.post_generate env groq uuid now (Some (JObj fields)) w
      = try_catch m handler w /\
    (forall w' r, m w = (w', Return r) -> status r = 200) /\
    (forall e v, exists r,
       snd (handler e v) = Return r /\ status r = 500 /\
       Js.obj_get "error" (Js.own_props (body r)) = Some (JStr "Failed to generate project")).
Proof.
  intros Hprompt Hkey. unfold Routes.post_generate.
  eexists. eexists. split; [reflexivity|]. split.
  - intros w' r. unfold lift. cbn [Js.get_prop Js.own_props].
    unfold bind at 1. unfold bind at 1. rewrite Hprompt. cbn [negb].
    unfold Service.groqConfigured in Hkey.
    destruct (GROQ_API_KEY env) as [key|]; [|discriminate Hkey].
    cbn [option_map Js.truthy] in Hkey. apply negb_true_iff in Hkey. rewrite Hkey.
    intros Hm.
    repeat (apply bind_inversion in Hm; destruct Hm as (? & ? & _ & Hm)).
    unfold ret in Hm. inversion Hm. reflexivity.
  - intros e v. unfold bind, console_error, ret. cbn [snd].
    eexists. split; [reflexivity|]. split; [reflexivity|].
    unfold status_json. cbn [body Js.own_props].
    rewrite JsFacts.obj_get_literal.
    destruct (NODE_ENV env) as [mode|]; [destruct (String.eqb mode "development")|];
      reflexivity.
Qed.

Lemma post_generate_unconfigured `{Platform} env groq uuid now fields w :
  Js.truthy (Js.obj_get "prompt" fields) = true ->
  Service.groqConfigured env = false ->
  Routes.post_generate env groq uuid now (Some (JObj fields)) w
  = (w, Return (status_json 500
                  [("error", Some (JStr "Groq API key not configured"))])).
Proof.
  intros Hprompt Hkey. unfold Routes.post_generate, try_catch, bind, lift.
  cbn [Js.get_prop Js.own_props]. rewrite Hprompt. cbn [negb].
  unfold Service.groqConfigured in Hkey.
  destruct (GROQ_API_KEY env) as [key|]; [|reflexivity].
  cbn [option_map Js.truthy] in Hkey. apply negb_false_iff in Hkey. rewrite Hkey.
  reflexivity.
Qed.

End GenerateFacts.

(** X7.  POST /api/generate checks the prompt, then the key, and it
    always answers: the answer is 400 exactly when the request has no
    prompt (absent, empty, null, zero), whether the server has a key or
    not, and then nothing is changed; a request with a prompt on a server
    without a key is answered 500 Groq API key not configured, and
    nothing is changed either.  Neither answer depends on the provider. *)
Theorem post_generate_checks_prompt_then_key :
  forall `{Platform} (env : Env) (groq : Provider) (uuid : string) (now : Z)
         (fields : Js.obj) (w : World),
    let run := Routes.post_generate env groq uuid now (Some (JObj fields)) w in
    (exists r, snd run = Return r /\
               (status r = 400 <-> Js.truthy (Js.obj_get "prompt" fields) = false)) /\
    (Js.truthy (Js.obj_get "prompt" fields) = false ->
     run = (w, Return (status_json 400 [("error", Some (JStr "Prompt is required"))]))) /\
    (Js.truthy (Js.obj_get "prompt" fields) = true ->
     Service.groqConfigured env = false ->
     run = (w, Return (status_json 500
                         [("error", Some (JStr "Groq API key not configured"))]))).
Proof.
  intros P env groq uuid now fields w run.
  assert (Hmissing : Js.truthy (Js.obj_get "prompt" fields) = false ->
            run = (w, Return (status_json 400
                                [("error", Some (JStr "Prompt is required"))]))).
  { intros Hprompt. subst run. unfold Routes.post_generate, try_catch, bind, lift.
    cbn [Js.get_prop Js.own_props]. rewrite Hprompt. reflexivity. }
  split; [|split; [exact Hmissing|apply GenerateFacts.post_generate_unconfigured]].
  destruct (Js.truthy (Js.obj_get "prompt" fields)) eqn:Hprompt.
  - destruct (Service.groqConfigured env) eqn:Hkey.
    + destruct (GenerateFacts.post_generate_steps env groq uuid now fields w Hprompt Hkey)
        as (m & handler & Heq & Hm & Hhandler).
      fold run in Heq. rewrite Heq. unfold try_catch.
      destruct (m w) as [w' [r|e]] eqn:Em.
      * exists r. split; [reflexivity|]. rewrite (Hm _ _ eq_refl).
        split; discriminate.
      * destruct (Hhandler e w') as (r & Hr & Hs & _).
        exists r. split; [exact Hr|]. rewrite Hs. split; discriminate.
    + unfold run.
      rewrite (GenerateFacts.post_generate_unconfigured env groq uuid now fields w
                 Hprompt Hkey).
      eexists. split; [reflexivity|]. split; discriminate.
  - rewrite (Hmissing eq_refl). eexists. split; [reflexivity|]. split; reflexivity.
Qed.

(** X8.  GET /health tells whether generation is configured: for a
    request that has a prompt, the health report holds groqConfigured =
    false exactly when POST /api/generate answers 500 Groq API key not
    configured. *)
Theorem health_tells_whether_generate_is_configured :
  forall `{Platform} (env : Env) (groq : Provider) (uuid : string) (now checked : Z)
         (fields : Js.obj) (w : World),
    Js.truthy (Js.obj_get "prompt" fields) = true ->
    Js.obj_get "groqConfigured" (Js.own_props (body (Service.get_health env checked)))
      = Some (JBool false)
    <-> snd (Routes.post_generate env groq uuid now (Some (JObj fields)) w)
        = Return (status_json 500 [("error", Some (JStr "Groq API key not configured"))]).
Proof.
  intros P env groq uuid now checked fields w Hprompt.
  assert (Hhealth : Js.obj_get "groqConfigured"
                      (Js.own_props (body (Service.get_health env checked)))
                    = Some (JBool (Service.groqConfigured env))).
  { unfold Service.get_health, json. cbn [body Js.own_props].
    rewrite JsFacts.obj_get_literal. reflexivity. }
  rewrite Hhealth. destruct (Service.groqConfigured env) eqn:Hkey.
  - split; [discriminate|]. intros Hr. exfalso.
    destruct (GenerateFacts.post_generate_steps env groq uuid now fields w Hprompt Hkey)
      as (m & handler & Heq & Hm & Hhandler).
    rewrite Heq in Hr. unfold try_catch in Hr.
    destruct (m w) as [w' [r|e]] eqn:Em.
    + cbn [snd] in Hr. inversion Hr; subst r.
      specialize (Hm _ _ eq_refl). discriminate Hm.
    + destruct (Hhandler e w') as (r' & Hr' & _ & He).
      rewrite Hr in Hr'. inversion Hr'; subst r'. discriminate He.
  - split; [intros _|reflexivity].
    rewrite (GenerateFacts.post_generate_unconfigured env groq uuid now fields w
               Hprompt Hkey).
    reflexivity.
Qed.

Lemma health_tells_whether_generate_is_configured_witness :
  let env := mkEnv (Some "") (Some "production") in
  let w := mkWorld (Dir []) [] in
  Js.obj_get "groqConfigured"
    (Js.own_props (body (@Service.get_health Runtime.runtime env 0))) = Some (JBool false) /\
  snd (@Routes.post_generate Runtime.runtime env (fun _ => Return (Some "{}")) "u1" 0
         (Some (JObj [("prompt", JStr "an API")])) w)
  = Return (status_json 500 [("error", Some (JStr "Groq API key not configured"))]).
Proof.
  intros env w.
  assert (Hhealth : Js.obj_get "groqConfigured"
            (Js.own_props (body (@Service.get_health Runtime.runtime env 0)))
          = Some (JBool false)) by reflexivity.
  split; [exact Hhealth|].
  exact (proj1 (@health_tells_whether_generate_is_configured Runtime.runtime env
                  (fun _ => Return (Some "{}")) "u1" 0 0
                  [("prompt", JStr "an API")] w eq_refl) Hhealth).
Defined.

Module StoringFacts.

Lemma configured_key env :
  Service.groqConfigured env = true ->
  exists key, GROQ_API_KEY env = Some key /\ String.eqb key "" = false.
Proof.
  unfold Service.groqConfigured. destruct (GROQ_API_KEY env) as [key|]; [|discriminate].
  cbn [option_map Js.truthy]. intros Hkey. apply negb_true_iff in Hkey. eauto.
Qed.

Lemma generate_of_reply `{Platform} groq prompt model content projectData w :
  (forall request, groq request = Return (Some content)) ->
  JSON_parse (ProjectGenerator.jsonContent content) = Return projectData ->
  ProjectGenerator.generateProjectStructure groq prompt model w = (w, Return projectData).
Proof.
  intros Hgroq Hparse.
  unfold ProjectGenerator.generateProjectStructure, ProjectGenerator.options.
  erewrite GeneratorFacts.bind_return by (apply GeneratorFacts.chat_returns, Hgroq).
  unfold ProjectGenerator.parse_reply. rewrite Hparse. reflexivity.
Qed.

Lemma generate_of_failure `{Platform} groq prompt model e w :
  (forall request, groq request = Throw e) ->
  ProjectGenerator.generateProjectStructure groq prompt model w
  = (mkWorld (fs_root w) (console w ++ [[LStr "Groq API error:"; LErr e]])%list,
     Throw (Error ("Groq API error: " ++ err_message e))).
Proof.
  intros Hgroq.
  unfold ProjectGenerator.generateProjectStructure, ProjectGenerator.options.
  eapply GeneratorFacts.bind_throw. apply EditFacts.chat_fails, Hgroq.
Qed.

Lemma failure_fields `{Platform} env error :
  status (Answers.generation_failure env error) = 500 /\
  Js.obj_get "error" (Js.own_props (body (Answers.generation_failure env error)))
    = Some (JStr "Failed to generate project") /\
  Js.obj_get "message" (Js.own_props (body (Answers.generation_failure env error)))
    = Some (JStr (err_message error)) /\
  (Js.obj_get "details" (Js.own_props (body (Answers.generation_failure env error))) <> None
   <-> NODE_ENV env = Some "development").
Proof.
  unfold Answers.generation_failure, status_json. cbn [status body Js.own_props].
  rewrite !JsFacts.obj_get_literal.
  destruct (NODE_ENV env) as [mode|].
  - destruct (String.eqb mode "development") eqn:E.
    + apply String.eqb_eq in E. subst mode. cbn.
      repeat split; congruence.
    + apply String.eqb_neq in E. cbn. repeat split; congruence.
  - cbn. repeat split; congruence.
Qed.

End StoringFacts.

(** X9.  When the provider fails, POST /api/generate answers 500 Failed
    to generate project and forwards the message of the provider's error
    in the answer; the stack is part of the answer in development mode
    only.  Nothing is written: the file system is as before, and the
    console holds the error of the gateway and the error of the route. *)
Theorem generate_reports_provider_failure :
  forall `{Platform} (env : Env) (groq : Provider) (uuid : string) (now : Z)
         (fields : Js.obj) (e : JsError) (w : World),
    Js.truthy (Js.obj_get "prompt" fields) = true ->
    Service.groqConfigured env = true ->
    (forall request, groq request = Throw e) ->
    let reported := Error ("Groq API error: " ++ err_message e) in
    let run := Routes.post_generate env groq uuid now (Some (JObj fields)) w in
    fst run = mkWorld (fs_root w)
                (console w ++ [[LStr "Groq API error:"; LErr e];
                               [LStr "Generation error:"; LErr reported]])%list /\
    exists r,
      snd run = Return r /\ status r = 500 /\
      Js.obj_get "error" (Js.own_props (body r))
        = Some (JStr "Failed to generate project") /\
      Js.obj_get "message" (Js.own_props (body r))
        = Some (JStr ("Groq API error: " ++ err_message e)) /\
      (Js.obj_get "details" (Js.own_props (body r)) <> None
       <-> NODE_ENV env = Some "development").
Proof.
  intros P env groq uuid now fields e w Hprompt Hconf Hgroq reported run.
  destruct (StoringFacts.configured_key env Hconf) as (key & Hkey & Hne).
  assert (Hrun : run = (mkWorld (fs_root w)
                          (console w ++ [[LStr "Groq API error:"; LErr e];
                                         [LStr "Generation error:"; LErr reported]])%list,
                        Return (Answers.generation_failure env reported))).
  { subst run. unfold Routes.post_generate.
    erewrite GeneratorFacts.try_catch_throw.
    2:{ unfold lift. cbn [Js.get_prop Js.own_props].
        erewrite GeneratorFacts.bind_return by reflexivity.
        erewrite GeneratorFacts.bind_return by reflexivity.
        rewrite Hprompt, Hkey, Hne. cbn [negb].
        eapply GeneratorFacts.bind_throw.
        apply StoringFacts.generate_of_failure, Hgroq. }
    unfold bind, console_error, ret. cbn [fs_root console].
    rewrite <- app_assoc. reflexivity. }
  rewrite Hrun. cbn [fst snd]. split; [reflexivity|].
  eexists. split; [reflexivity|].
  apply (StoringFacts.failure_fields env reported).
Qed.

Lemma generate_reports_provider_failure_witness :
  let env := mkEnv (Some "k") (Some "development") in
  let e := Error "429 rate limit" in
  let run := @Routes.post_generate Runtime.runtime env (fun _ => Throw e) "u1" 0
               (Some (JObj [("prompt", JStr "an API")])) (mkWorld (Dir []) []) in
  fs_root (fst run) = Dir [] /\
  exists r, snd run = Return r /\
            Js.obj_get "message" (Js.own_props (body r))
              = Some (JStr "Groq API error: 429 rate limit").
Proof.
  intros env e run.
  destruct (@generate_reports_provider_failure Runtime.runtime env (fun _ => Throw e)
              "u1" 0 [("prompt", JStr "an API")] e (mkWorld (Dir []) [])
              eq_refl eq_refl (fun _ => eq_refl))
    as (Hw & r & Hr & _ & _ & Hmessage & _).
  split; [fold run in Hw; rewrite Hw; reflexivity|].
  exists r. split; [exact Hr|exact Hmessage].
Defined.

Module ReadmeFacts.

(** The README cannot be written for a reply without setup
    instructions. *)
Lemma readme_needs_setup (projectData : JSON) :
  Routes.prop projectData "setupInstructions" = None ->
  Routes.readmeContent projectData
  = Throw (TypeError "Cannot read properties of undefined (reading 'map')").
Proof. intros Hnone. unfold Routes.readmeContent. rewrite Hnone. reflexivity. Qed.

(** The route up to the README, for a reply that was parsed and stored. *)
Lemma post_generate_stored `{Platform} env groq uuid now fields content o w w1 w2 :
  let projectPath := Path.join [PROJECTS_DIR; uuid] in
  let prompt := Js.obj_get "prompt" fields in
  let model := or_default (Js.obj_get "model" fields) (JStr "llama-4-scout") in
  let text := JSON_stringify (JObj (Routes.metadata uuid prompt model now (JObj o))) in
  Js.truthy prompt = true ->
  Service.groqConfigured env = true ->
  (forall request, groq request = Return (Some content)) ->
  JSON_parse (ProjectGenerator.jsonContent content) = Return (JObj o) ->
  FileSystemManager.createProjectFiles now uuid (Js.obj_get "fileTree" o) w
    = (w1, Return projectPath) ->
  Fs.writeFile now (Path.join [projectPath; "project-metadata.json"])
    (Some (JStr text)) w1 = (w2, Return tt) ->
  exists answer,
    status answer = 200 /\
    Js.obj_get "projectId" (Js.own_props (body answer)) = Some (JStr uuid) /\
    Routes.post_generate env groq uuid now (Some (JObj fields)) w =
    match Routes.readmeContent (JObj o) with
    | Return readme =>
        match Fs.writeFile now (Path.join [projectPath; "README.md"])
                (Some (JStr readme)) w2 with
        | (w3, Return _) => (w3, Return answer)
        | (w3, Throw e) =>
            (mkWorld (fs_root w3) (console w3 ++ [[LStr "Generation error:"; LErr e]])%list,
             Return (Answers.generation_failure env e))
        end
    | Throw e =>
        (mkWorld (fs_root w2) (console w2 ++ [[LStr "Generation error:"; LErr e]])%list,
         Return (Answers.generation_failure env e))
    end.
Proof.
  intros projectPath prompt model text Hprompt Hconf Hgroq Hparse Hcreate Hwrite.
  destruct (StoringFacts.configured_key env Hconf) as (key & Hkey & Hne).
  eexists. split; [|split]; cycle 2.
  - unfold Routes.post_generate. unfold try_catch.
    unfold lift. cbn [Js.get_prop Js.own_props].
    erewrite GeneratorFacts.bind_return by reflexivity.
    erewrite GeneratorFacts.bind_return by reflexivity.
    fold prompt. rewrite Hprompt, Hkey, Hne. cbn [negb].
    erewrite GeneratorFacts.bind_return
      by (eapply StoringFacts.generate_of_reply; eassumption).
    erewrite GeneratorFacts.bind_return by reflexivity.
    erewrite GeneratorFacts.bind_return by exact Hcreate.
    erewrite GeneratorFacts.bind_return by exact Hwrite.
    unfold bind at 1.
    destruct (Routes.readmeContent (JObj o)) as [readme|e]; [|reflexivity].
    unfold bind at 1. unfold Routes.str.
    destruct (Fs.writeFile now (Path.join [projectPath; "README.md"])
                (Some (JStr readme)) w2) as [w3 [[]|e]]; reflexivity.
  - reflexivity.
  - unfold json. cbn [body Js.own_props]. rewrite JsFacts.obj_get_literal.
    apply JsFacts.field_value_unique;
      [cbn [map fst]; repeat constructor; cbn [In]; intuition discriminate
      |cbn [In]; auto].
Qed.

End ReadmeFacts.

(** X10.  A reply without setup instructions is stored and then reported
    as a failure: the route writes the files of the reply and the
    metadata before it composes the README, so when the reply has no
    setupInstructions the answer is 500 with the TypeError of the missing
    array, and the project directory with its metadata stays on disk. *)
Theorem incomplete_descriptor_is_stored_and_reported :
  forall `{Platform} (env : Env) (groq : Provider) (uuid : string) (now : Z)
         (fields : Js.obj) (content : string) (o : Js.obj) (w w1 w2 : World),
    let projectPath := Path.join [PROJECTS_DIR; uuid] in
    let prompt := Js.obj_get "prompt" fields in
    let model := or_default (Js.obj_get "model" fields) (JStr "llama-4-scout") in
    let text := JSON_stringify (JObj (Routes.metadata uuid prompt model now (JObj o))) in
    let run := Routes.post_generate env groq uuid now (Some (JObj fields)) w in
    Js.truthy prompt = true ->
    Service.groqConfigured env = true ->
    (forall request, groq request = Return (Some content)) ->
    JSON_parse (ProjectGenerator.jsonContent content) = Return (JObj o) ->
    FileSystemManager.createProjectFiles now uuid (Js.obj_get "fileTree" o) w
      = (w1, Return projectPath) ->
    Fs.writeFile now (Path.join [projectPath; "project-metadata.json"])
      (Some (JStr text)) w1 = (w2, Return tt) ->
    Js.obj_get "setupInstructions" o = None ->
    fs_root (fst run) = fs_root w2 /\
    Tree.lookup (Fs.components (Path.join [projectPath; "project-metadata.json"]))
                (fs_root (fst run)) = Some (File text now) /\
    exists r,
      snd run = Return r /\ status r = 500 /\
      Js.obj_get "error" (Js.own_props (body r))
        = Some (JStr "Failed to generate project") /\
      Js.obj_get "message" (Js.own_props (body r))
        = Some (JStr "Cannot read properties of undefined (reading 'map')").
Proof.
  intros P env groq uuid now fields content o w w1 w2 projectPath prompt model text run
         Hprompt Hconf Hgroq Hparse Hcreate Hwrite Hsetup.
  destruct (ReadmeFacts.post_generate_stored env groq uuid now fields content o w w1 w2
              Hprompt Hconf Hgroq Hparse Hcreate Hwrite) as (answer & _ & _ & Hrun).
  fold run in Hrun. rewrite (ReadmeFacts.readme_needs_setup (JObj o) Hsetup) in Hrun.
  rewrite Hrun. cbn [fst snd fs_root].
  split; [reflexivity|].
  split; [eapply StoreFacts.writeFile_written, Hwrite|].
  eexists. split; [reflexivity|].
  destruct (StoringFacts.failure_fields env
              (TypeError "Cannot read properties of undefined (reading 'map')"))
    as (Hs & He & Hm & _).
  auto.
Qed.

Lemma incomplete_descriptor_is_stored_and_reported_witness :
  let env := mkEnv (Some "k") None in
  let groq : Provider := fun _ => Return (Some (Samples.reply_of Samples.incomplete)) in
  let run := @Routes.post_generate Runtime.runtime env groq "u1" 0
               (Some (JObj [("prompt", JStr "an API")])) (mkWorld (Dir []) []) in
  Tree.lookup ["app"; "generated_projects"; "u1"; "src"; "app.js"] (fs_root (fst run))
    = Some (File "x" 0) /\
  exists r, snd run = Return r /\ status r = 500.
Proof.
  intros env groq run.
  set (w := mkWorld (Dir []) []).
  set (created := @FileSystemManager.createProjectFiles Runtime.runtime 0 "u1"
                    (Js.obj_get "fileTree" Samples.incomplete) w).
  set (text := Runtime.stringify
                 (JObj (@Routes.metadata Runtime.runtime "u1" (Some (JStr "an API"))
                          (Some (JStr "llama-4-scout")) 0 (JObj Samples.incomplete)))).
  set (written := @Fs.writeFile Runtime.runtime 0
                    (Path.join [Path.join [@PROJECTS_DIR Runtime.runtime; "u1"];
                                "project-metadata.json"])
                    (Some (JStr text)) (fst created)).
  assert (Hparse : @JSON_parse Runtime.runtime
                     (ProjectGenerator.jsonContent (Samples.reply_of Samples.incomplete))
                   = Return (JObj Samples.incomplete)) by (vm_compute; reflexivity).
  assert (Hcreate : created
                    = (fst created,
                       Return (Path.join [@PROJECTS_DIR Runtime.runtime; "u1"])))
    by (vm_compute; reflexivity).
  assert (Hwrite : written = (fst written, Return tt)) by (vm_compute; reflexivity).
  destruct (@incomplete_descriptor_is_stored_and_reported Runtime.runtime env groq "u1" 0
              [("prompt", JStr "an API")] (Samples.reply_of Samples.incomplete)
              Samples.incomplete w (fst created) (fst written)
              eq_refl eq_refl (fun _ => eq_refl) Hparse Hcreate Hwrite eq_refl)
    as (Hroot & _ & r & Hr & Hstatus & _).
  split.
  - subst run w. cbv zeta in Hroot. rewrite Hroot. vm_compute. reflexivity.
  - exists r. split; [exact Hr|exact Hstatus].
Defined.

(** X11.  The README.md of a generated project is the one that the route
    composes: it is written after the files of the reply, so a README.md
    that the file tree of the reply holds is replaced, and the file route
    returns the composed text for README.md. *)
Theorem generated_readme_replaces_file_of_reply :
  forall `{Platform} (env : Env) (groq : Provider) (uuid : string) (now : Z)
         (fields : Js.obj) (content : string) (o : Js.obj) (readme : string)
         (w w1 w2 w3 : World),
    let projectPath := Path.join [PROJECTS_DIR; uuid] in
    let prompt := Js.obj_get "prompt" fields in
    let model := or_default (Js.obj_get "model" fields) (JStr "llama-4-scout") in
    let text := JSON_stringify (JObj (Routes.metadata uuid prompt model now (JObj o))) in
    let run := Routes.post_generate env groq uuid now (Some (JObj fields)) w in
    Js.truthy prompt = true ->
    Service.groqConfigured env = true ->
    (forall request, groq request = Return (Some content)) ->
    JSON_parse (ProjectGenerator.jsonContent content) = Return (JObj o) ->
    FileSystemManager.createProjectFiles now uuid (Js.obj_get "fileTree" o) w
      = (w1, Return projectPath) ->
    Fs.writeFile now (Path.join [projectPath; "project-metadata.json"])
      (Some (JStr text)) w1 = (w2, Return tt) ->
    Routes.readmeContent (JObj o) = Return readme ->
    Fs.writeFile now (Path.join [projectPath; "README.md"]) (Some (JStr readme)) w2
      = (w3, Return tt) ->
    fst run = w3 /\
    (exists r, snd run = Return r /\ status r = 200 /\
               Js.obj_get "projectId" (Js.own_props (body r)) = Some (JStr uuid)) /\
    Routes.get_file uuid "README.md" (fst run) =
    (fst run,
     Return (json [("content", Some (JStr readme));
                   ("path", Some (JStr "README.md"));
                   ("size", Some (Js.num (Str.utf8_length readme)));
                   ("modified", Some (JStr (Date_toISOString now)))])).
Proof.
  intros P env groq uuid now fields content o readme w w1 w2 w3
         projectPath prompt model text run
         Hprompt Hconf Hgroq Hparse Hcreate Hwrite Hreadme Hwrite'.
  destruct (ReadmeFacts.post_generate_stored env groq uuid now fields content o w w1 w2
              Hprompt Hconf Hgroq Hparse Hcreate Hwrite) as (answer & Hs & Hid & Hrun).
  fold run in Hrun. fold projectPath in Hrun. rewrite Hreadme, Hwrite' in Hrun.
  rewrite Hrun. cbn [fst snd].
  split; [reflexivity|]. split; [eauto|].
  pose proof PathFacts.PROJECTS_DIR_absolute as Hpd.
  apply FileFacts.get_file_of_file.
  - rewrite PathFacts.components_join3 by assumption.
    eapply StoreFacts.writeFile_written, Hwrite'.
  - apply (TrailingFacts.join_name_trailing PROJECTS_DIR [uuid] "README.md");
      [assumption|reflexivity].
Qed.

Lemma generated_readme_replaces_file_of_reply_witness :
  let env := mkEnv (Some "k") None in
  let groq : Provider := fun _ => Return (Some (Samples.reply_of Samples.documented)) in
  let run := @Routes.post_generate Runtime.runtime env groq "u1" 0
               (Some (JObj [("prompt", JStr "an API")])) (mkWorld (Dir []) []) in
  exists readme,
    Routes.readmeContent (JObj Samples.documented) = Return readme /\
    readme <> "mine" /\
    snd (@Routes.get_file Runtime.runtime "u1" "README.md" (fst run)) =
    Return (json [("content", Some (JStr readme));
                  ("path", Some (JStr "README.md"));
                  ("size", Some (Js.num (Str.utf8_length readme)));
                  ("modified", Some (JStr (Runtime.toISOString 0)))]).
Proof.
  intros env groq run.
  set (w := mkWorld (Dir []) []).
  set (created := @FileSystemManager.createProjectFiles Runtime.runtime 0 "u1"
                    (Js.obj_get "fileTree" Samples.documented) w).
  set (text := Runtime.stringify
                 (JObj (@Routes.metadata Runtime.runtime "u1" (Some (JStr "an API"))
                          (Some (JStr "llama-4-scout")) 0 (JObj Samples.documented)))).
  set (projectPath := Path.join [@PROJECTS_DIR Runtime.runtime; "u1"]).
  set (written := @Fs.writeFile Runtime.runtime 0 (Path.join [projectPath; "project-metadata.json"])
                    (Some (JStr text)) (fst created)).
  set (readme := match Routes.readmeContent (JObj Samples.documented) with
                 | Return r => r
                 | Throw _ => ""
                 end).
  set (documented := @Fs.writeFile Runtime.runtime 0 (Path.join [projectPath; "README.md"])
                       (Some (JStr readme)) (fst written)).
  assert (Hparse : @JSON_parse Runtime.runtime
                     (ProjectGenerator.jsonContent (Samples.reply_of Samples.documented))
                   = Return (JObj Samples.documented)) by (vm_compute; reflexivity).
  assert (Hcreate : created = (fst created, Return projectPath))
    by (vm_compute; reflexivity).
  assert (Hwrite : written = (fst written, Return tt)) by (vm_compute; reflexivity).
  assert (Hreadme : Routes.readmeContent (JObj Samples.documented) = Return readme)
    by (vm_compute; reflexivity).
  assert (Hwrite' : documented = (fst documented, Return tt)) by (vm_compute; reflexivity).
  destruct (@generated_readme_replaces_file_of_reply Runtime.runtime env groq "u1" 0
              [("prompt", JStr "an API")] (Samples.reply_of Samples.documented)
              Samples.documented readme w (fst created) (fst written) (fst documented)
              eq_refl eq_refl (fun _ => eq_refl) Hparse Hcreate Hwrite Hreadme Hwrite')
    as (_ & _ & Hget).
  exists readme. split; [exact Hreadme|]. split; [vm_compute; discriminate|].
  subst run w. cbv zeta in Hget. rewrite Hget. reflexivity.
Defined.

(** ** The details of a project *)

Module DetailFacts.

(** A file that was read is a regular file without a trailing slash. *)
Lemma readFile_inversion p w text :
  snd (Fs.readFile p w) = Return text ->
  exists t, Tree.lookup (Fs.components p) (fs_root w) = Some (File text t).
Proof.
  unfold Fs.readFile, bind, Fs.resolve, ret, throw.
  destruct (Tree.lookup (Fs.components p) (fs_root w)) as [[c t|es]|];
    [destruct (Path.has_trailing_slash p)|..]; cbn [snd]; try discriminate.
  intros Hr. inversion Hr. eauto.
Qed.

(** The path of the metadata is the name of the file below the
    directory of the project. *)
Lemma metadata_components `{Platform} projectId :
  Fs.components (Path.join [Path.join [PROJECTS_DIR; projectId]; "project-metadata.json"])
  = (Fs.components (Path.join [PROJECTS_DIR; projectId]) ++ ["project-metadata.json"])%list.
Proof.
  apply PathFacts.components_join_name; [|reflexivity].
  apply PathFacts.join_is_absolute, PathFacts.PROJECTS_DIR_absolute.
Qed.

(** The route answers by what it reads of the metadata. *)
Lemma get_project_eq `{Platform} projectId w :
  let projectPath := Path.join [PROJECTS_DIR; projectId] in
  let metadataPath := Path.join [projectPath; "project-metadata.json"] in
  Routes.get_project projectId w =
  (w, Return
        match snd (Fs.readFile metadataPath w) with
        | Return text =>
            match JSON_parse text with
            | Return projectData =>
                mkResponse 200
                  (JObj (Js.obj_assign (Js.spread (Some projectData))
                           (Js.literal
                              [("currentFileTree",
                                Routes.keys_array
                                  match Tree.lookup (Fs.components projectPath) (fs_root w) with
                                  | Some n => FileSystemManager.scan "" n
                                  | None => []
                                  end)])))
            | Throw _ => Answers.project_not_found
            end
        | Throw _ => Answers.project_not_found
        end).
Proof.
  intros projectPath metadataPath. unfold Routes.get_project.
  fold projectPath. fold metadataPath.
  destruct (snd (Fs.readFile metadataPath w)) as [text|e] eqn:Er.
  - destruct (readFile_inversion _ _ _ Er) as (t & Hfile).
    apply EditFacts.readFile_returns in Er.
    unfold metadataPath, projectPath in Hfile. rewrite metadata_components in Hfile.
    destruct (StoreFacts.holder_is_directory _ _ _ _ Hfile) as (es & Hdir).
    fold projectPath in Hdir. rewrite Hdir.
    apply GeneratorFacts.try_catch_return.
    destruct (JSON_parse text) as [projectData|e] eqn:Ep.
    + apply GeneratorFacts.try_catch_return.
      erewrite GeneratorFacts.bind_return by (eapply StoreFacts.access_directory, Hdir).
      erewrite GeneratorFacts.bind_return by exact Er.
      erewrite GeneratorFacts.bind_return by (unfold lift; rewrite Ep; reflexivity).
      erewrite GeneratorFacts.bind_return
        by (eapply StoreFacts.getFileTree_directory, Hdir).
      reflexivity.
    + erewrite GeneratorFacts.try_catch_throw; [reflexivity|].
      erewrite GeneratorFacts.bind_return by (eapply StoreFacts.access_directory, Hdir).
      erewrite GeneratorFacts.bind_return by exact Er.
      eapply GeneratorFacts.bind_throw. unfold lift. rewrite Ep. reflexivity.
  - apply GeneratorFacts.try_catch_return.
    pose proof (ListingFacts.readFile_pure metadataPath w) as Hpure.
    pose proof (ListingFacts.resolve_pure "access" projectPath w) as Hacc.
    unfold try_catch, bind at 1, Fs.access, bind at 1.
    destruct (Fs.resolve "access" projectPath w) as [w1 [n|e1]]; cbn [fst] in Hacc;
      subst w1; [|reflexivity].
    unfold ret at 1. unfold bind at 1.
    destruct (Fs.readFile metadataPath w) as [w2 [text|e2]]; cbn [fst snd] in *;
      subst w2; [discriminate Er|reflexivity].
Qed.

End DetailFacts.

(** X12.  GET /api/project/:projectId reads and never writes, and it
    answers 200 or 404, never 500: 200 exactly when the metadata file of
    the project can be read and parsed, and 404 Project not found in
    every other case (no directory, no metadata, metadata that is not
    JSON). *)
Theorem get_project_answers_200_or_404 :
  forall `{Platform} (projectId : string) (w : World),
    let metadataPath :=
      Path.join [Path.join [PROJECTS_DIR; projectId]; "project-metadata.json"] in
    exists r,
      Routes.get_project projectId w = (w, Return r) /\
      (status r = 200 \/
       r = status_json 404 [("error", Some (JStr "Project not found"))]) /\
      (status r = 200 <->
       exists text projectData,
         snd (Fs.readFile metadataPath w) = Return text /\
         JSON_parse text = Return projectData).
Proof.
  intros P projectId w metadataPath.
  rewrite DetailFacts.get_project_eq. fold metadataPath.
  eexists. split; [reflexivity|].
  destruct (snd (Fs.readFile metadataPath w)) as [text|e].
  - destruct (JSON_parse text) as [projectData|e] eqn:Ep.
    + split; [left; reflexivity|]. split; [eauto|reflexivity].
    + split; [right; reflexivity|]. split; [discriminate|].
      intros (text' & projectData & Ht & Hp). inversion Ht; subst text'. congruence.
  - split; [right; reflexivity|]. split; [discriminate|].
    intros (text' & projectData & Ht & Hp). discriminate Ht.
Qed.

Module DeletionFacts.

Lemma child_none name es : Tree.child name es = None -> ~ In name (map fst es).
Proof.
  induction es as [|[k n] es IH]; cbn [Tree.child map fst In]; [tauto|].
  destruct (String.eqb name k) eqn:E; [discriminate|].
  apply String.eqb_neq in E. intros Hc [Hk|Hin]; [congruence|]. apply (IH Hc Hin).
Qed.

(** What is left of the file system when a project is deleted. *)
Lemma delete_project_root `{Platform} projectId w :
  Path.valid_name projectId = true ->
  fs_root (fst (Routes.delete_project projectId w))
  = Tree.remove (Fs.components PROJECTS_DIR ++ [projectId])%list (fs_root w).
Proof.
  intros Hid. pose proof PathFacts.PROJECTS_DIR_absolute as Hpd.
  unfold Routes.delete_project.
  rewrite StoreFacts.try_catch_root by reflexivity.
  assert (Hc : Fs.components (Path.join [PROJECTS_DIR; projectId])
               = (Fs.components PROJECTS_DIR ++ [projectId])%list)
    by (apply PathFacts.components_join_name; assumption).
  assert (Hne : Fs.components (Path.join [PROJECTS_DIR; projectId]) <> [])
    by (rewrite Hc; destruct (Fs.components PROJECTS_DIR); discriminate).
  unfold bind.
  destruct (Fs.not_a_directory (Path.join [PROJECTS_DIR; projectId]) (fs_root w)) eqn:En.
  - rewrite RemovalFacts.rm_refuses by assumption. cbn [fst].
    unfold Fs.not_a_directory in En.
    rewrite (TrailingFacts.join_name_trailing PROJECTS_DIR [] projectId) in En
      by assumption.
    rewrite Hc in En.
    assert (Ht : Tree.through_file (Fs.components PROJECTS_DIR ++ [projectId])
                   (fs_root w) = true).
    { destruct (Tree.through_file _ (fs_root w)); [reflexivity|].
      destruct (Tree.lookup _ (fs_root w)) as [[? ?|?]|]; discriminate En. }
    pose proof (RemovalFacts.lookup_through_file _ _ [] Ht) as Hl.
    rewrite app_nil_r in Hl. rewrite TreeFacts.remove_absent by exact Hl. reflexivity.
  - rewrite RemovalFacts.rm_removes by assumption. rewrite Hc. reflexivity.
Qed.

(** Nothing is at or below the directory of a deleted project. *)
Lemma nothing_below `{Platform} projectId w q :
  Path.valid_name projectId = true ->
  Tree.lookup ((Fs.components PROJECTS_DIR ++ [projectId]) ++ q)%list
    (fs_root (fst (Routes.delete_project projectId w))) = None.
Proof.
  intros Hid. rewrite delete_project_root by assumption.
  apply TreeFacts.lookup_remove_below. destruct (Fs.components PROJECTS_DIR); discriminate.
Qed.

(** A path that names nothing cannot be read. *)
Lemma readFile_missing p w :
  Tree.lookup (Fs.components p) (fs_root w) = None ->
  exists e, Fs.readFile p w = (w, Throw e).
Proof.
  intros Hl. unfold Fs.readFile, bind, Fs.resolve. rewrite Hl. eexists. reflexivity.
Qed.

End DeletionFacts.

(** X13.  A deleted project is gone for every route that reads: after
    DELETE /api/project/:projectId, the details of the project answer
    404, its files answer 404 (for paths without a parent segment), and
    the listing neither finds its directory nor reports it. *)
Theorem deleted_project_is_gone :
  forall `{Platform} (projectId : string) (w : World),
    Path.valid_name projectId = true ->
    let w' := fst (Routes.delete_project projectId w) in
    Routes.get_project projectId w'
      = (w', Return (status_json 404 [("error", Some (JStr "Project not found"))])) /\
    (forall filePath,
        Forall (fun seg => seg <> "..") (Path.segments_of filePath) ->
        Routes.get_file projectId filePath w'
        = (w', Return (status_json 404 [("error", Some (JStr "File not found"))]))) /\
    Listing.listed w' projectId = [] /\
    (forall projectDirs,
        snd (Fs.readdir PROJECTS_DIR w') = Return projectDirs ->
        ~ In projectId projectDirs).
Proof.
  intros P projectId w Hid w'.
  pose proof PathFacts.PROJECTS_DIR_absolute as Hpd.
  assert (Hroot : Fs.components (Path.join [PROJECTS_DIR; projectId])
                  = (Fs.components PROJECTS_DIR ++ [projectId])%list)
    by (apply PathFacts.components_join_name; assumption).
  assert (Hgone : forall q,
             Tree.lookup ((Fs.components PROJECTS_DIR ++ [projectId]) ++ q)%list
               (fs_root w') = None)
    by (intros q; apply DeletionFacts.nothing_below; assumption).
  assert (Hmd : Tree.lookup
                  (Fs.components (Path.join [Path.join [PROJECTS_DIR; projectId];
                                             "project-metadata.json"]))
                  (fs_root w') = None).
  { rewrite DetailFacts.metadata_components, Hroot. apply Hgone. }
  split; [|split; [|split]].
  - rewrite DetailFacts.get_project_eq.
    destruct (DeletionFacts.readFile_missing _ _ Hmd) as (e & He).
    rewrite He. reflexivity.
  - intros filePath Hsegs. unfold Routes.get_file.
    apply GeneratorFacts.try_catch_return.
    erewrite GeneratorFacts.try_catch_throw; [reflexivity|].
    eapply GeneratorFacts.bind_throw.
    unfold Fs.stat. eapply GeneratorFacts.bind_throw.
    unfold Fs.resolve.
    rewrite PathFacts.components_join3 by assumption.
    rewrite MaterializerFacts.entry_inside
      by (try apply PathFacts.join_is_absolute; assumption).
    rewrite Hroot, Hgone. reflexivity.
  - unfold Listing.listed. destruct (Str.ends_with ".zip" projectId); [reflexivity|].
    unfold Routes.read_summary.
    assert (Hl : Tree.lookup
                   (Fs.components (Path.join [PROJECTS_DIR; projectId;
                                              "project-metadata.json"]))
                   (fs_root w') = None)
      by (rewrite PathFacts.components_join3 by assumption; exact Hmd).
    destruct (DeletionFacts.readFile_missing _ _ Hl) as (e & He).
    erewrite GeneratorFacts.bind_throw by exact He. reflexivity.
  - intros projectDirs. unfold Fs.readdir, bind, Fs.resolve.
    specialize (Hgone []). rewrite app_nil_r, TreeWrites.lookup_app in Hgone.
    destruct (Tree.lookup (Fs.components PROJECTS_DIR) (fs_root w')) as [[c t|es]|];
      [destruct (Path.has_trailing_slash PROJECTS_DIR)|..]; cbn [snd];
      try discriminate.
    intros Hr. inversion Hr; subst projectDirs.
    apply DeletionFacts.child_none.
    cbn [Tree.lookup] in Hgone. destruct (Tree.child projectId es); [discriminate|reflexivity].
Qed.

Lemma deleted_project_is_gone_witness :
  let w' := fst (@Routes.delete_project Runtime.runtime "b" Examples.three_projects) in
  @Routes.get_project Runtime.runtime "b" w'
    = (w', Return (status_json 404 [("error", Some (JStr "Project not found"))])) /\
  snd (Fs.readdir (@PROJECTS_DIR Runtime.runtime) w')
    = Return ["a"; "a.zip"; "broken"; "empty"; "c"].
Proof.
  intros w'. split.
  - exact (proj1 (@deleted_project_is_gone Runtime.runtime "b" Examples.three_projects
                    eq_refl)).
  - reflexivity.
Defined.

(** ** The storage root *)

Module RootFacts.

(** The listing answers by what the storage root is. *)
Lemma get_projects_eq `{Platform} w :
  Routes.get_projects w =
  match Tree.lookup (Fs.components PROJECTS_DIR) (fs_root w) with
  | Some (Dir es) =>
      let projects :=
        Array_sort Routes.newest_first (flat_map (Listing.listed w) (map fst es)) in
      (w, Return (json [("projects", Some (JArr projects));
                        ("total", Some (Js.num (List.length projects)))]))
  | other =>
      let e := match other with
               | Some _ => Fs.failure ENOTDIR "scandir" PROJECTS_DIR
               | None => Fs.failure ENOENT "scandir" PROJECTS_DIR
               end in
      (mkWorld (fs_root w) (console w ++ [[LStr "Projects list error:"; LErr e]])%list,
       Return (status_json 500 [("error", Some (JStr "Failed to list projects"))]))
  end.
Proof.
  unfold Routes.get_projects, try_catch, bind at 1, Fs.readdir, bind at 1, Fs.resolve.
  destruct (Tree.lookup (Fs.components PROJECTS_DIR) (fs_root w)) as [[c t|es]|].
  - destruct (Path.has_trailing_slash PROJECTS_DIR); reflexivity.
  - unfold ret at 1. unfold bind. rewrite ListingFacts.collect_eq. reflexivity.
  - reflexivity.
Qed.

Lemma snoc_differs {A} (l : list A) (x : A) : (l ++ [x])%list <> l.
Proof.
  intros Heq. apply (f_equal (@List.length A)) in Heq.
  rewrite length_app in Heq. cbn in Heq. lia.
Qed.

End RootFacts.

(** X14.  GET /api/projects needs the storage root: it answers 200
    exactly when the root is a directory, and otherwise (no root, or a
    file in its place) 500 Failed to list projects with the error on the
    console; in no case does it change the file system. *)
Theorem get_projects_needs_storage_root :
  forall `{Platform} (w : World),
    let run := Routes.get_projects w in
    fs_root (fst run) = fs_root w /\
    exists r,
      snd run = Return r /\
      (status r = 200 <->
       exists es, Tree.lookup (Fs.components PROJECTS_DIR) (fs_root w) = Some (Dir es)) /\
      (status r = 200 -> fst run = w) /\
      (status r <> 200 ->
       r = status_json 500 [("error", Some (JStr "Failed to list projects"))] /\
       exists e, console (fst run)
                 = (console w ++ [[LStr "Projects list error:"; LErr e]])%list).
Proof.
  intros P w run. subst run. rewrite RootFacts.get_projects_eq.
  destruct (Tree.lookup (Fs.components PROJECTS_DIR) (fs_root w)) as [[c t|es]|].
  - cbn [fst snd fs_root]. split; [reflexivity|]. eexists. split; [reflexivity|].
    split; [split; [discriminate|intros (es & He); discriminate]|].
    split; [discriminate|]. intros _. split; [reflexivity|]. eexists. reflexivity.
  - cbn [fst snd]. split; [reflexivity|]. eexists. split; [reflexivity|].
    split; [split; eauto|]. split; [reflexivity|]. intros Hs. exfalso. apply Hs. reflexivity.
  - cbn [fst snd fs_root]. split; [reflexivity|]. eexists. split; [reflexivity|].
    split; [split; [discriminate|intros (es & He); discriminate]|].
    split; [discriminate|]. intros _. split; [reflexivity|]. eexists. reflexivity.
Qed.

Module StartFacts.

(** Creating directories keeps the directories that exist. *)
Lemma mkdir_p_keeps_dir p : forall n n' q es,
  Tree.mkdir_p p n = inr n' ->
  Tree.lookup q n = Some (Dir es) ->
  exists es', Tree.lookup q n' = Some (Dir es').
Proof.
  intros n n' q es Hm Hq. destruct (Names.prefixb q p) eqn:E.
  - eapply TreeWrites.lookup_mkdir_p_prefix; eassumption.
  - rewrite (TreeWrites.lookup_mkdir_p_other _ _ _ _ Hm E). eauto.
Qed.

End StartFacts.

(** X15.  ensureDirectories never throws: an error of a mkdir is written
    to the console and swallowed, and the uploads directory is not
    attempted when the storage root could not be created.  When nothing
    was logged, the storage root and the uploads directory exist as
    directories afterwards, and GET /api/projects answers 200. *)
Theorem ensureDirectories_never_throws :
  forall `{Platform} (cwd : string) (w : World),
    let run := Service.ensureDirectories cwd w in
    let w' := fst run in
    snd run = Return tt /\
    ((console w' = console w /\
      (exists es, Tree.lookup (Fs.components PROJECTS_DIR) (fs_root w') = Some (Dir es)) /\
      (exists es, Tree.lookup (Fs.components (Path.join [cwd; "uploads"])) (fs_root w')
                  = Some (Dir es)) /\
      (exists r, Routes.get_projects w' = (w', Return r) /\ status r = 200))
     \/
     (exists e, console w' = (console w ++ [[LStr "Error creating directories:"; LErr e]])%list /\
                (snd (Fs.mkdir PROJECTS_DIR w) = Throw e -> fs_root w' = fs_root w))).
Proof.
  intros P cwd w run w'. subst w' run.
  unfold Service.ensureDirectories, try_catch, bind, Fs.mkdir, Service.mkdir_relative.
  destruct (Tree.mkdir_p (Fs.components PROJECTS_DIR) (fs_root w)) as [e|root1] eqn:E1.
  - cbn [fst snd console fs_root console_error].
    split; [reflexivity|]. right. eexists. split; [reflexivity|reflexivity].
  - cbn [fs_root console].
    destruct (Tree.mkdir_p (Fs.components (Path.join [cwd; "uploads"])) root1)
      as [e|root2] eqn:E2.
    + cbn [fst snd console fs_root console_error].
      split; [reflexivity|]. right. eexists. split; [reflexivity|discriminate].
    + cbn [fst snd console fs_root]. split; [reflexivity|]. left.
      destruct (TreeWrites.lookup_mkdir_p_prefix _ _ _ _ E1 (TreeWrites.prefixb_refl _))
        as (es1 & H1).
      destruct (StartFacts.mkdir_p_keeps_dir _ _ _ _ _ E2 H1) as (es & Hes).
      split; [reflexivity|]. split; [eauto|].
      split; [eapply TreeWrites.lookup_mkdir_p_prefix;
              [exact E2|apply TreeWrites.prefixb_refl]|].
      rewrite RootFacts.get_projects_eq. cbn [fs_root]. rewrite Hes.
      eexists. split; reflexivity.
Qed.

(** ** The chat route *)

Module ChatFacts.

(** Reading the context of a project changes nothing. *)
Lemma project_context_pure `{Platform} projectId w :
  fst (Assistant.project_context projectId w) = w.
Proof.
  unfold Assistant.project_context.
  destruct projectId as [[| | |id| |]|]; try reflexivity.
  unfold bind at 1.
  pose proof (ListingFacts.readFile_pure
                (Path.join [PROJECTS_DIR; id; "project-metadata.json"]) w) as Hp.
  destruct (Fs.readFile _ w) as [w1 [text|e]]; cbn [fst] in Hp; subst w1; [|reflexivity].
  unfold bind at 1, lift at 1. destruct (JSON_parse text) as [projectData|e]; [|reflexivity].
  unfold bind, lift.
  destruct (Js.get_prop (Some projectData) "projectName"); [|reflexivity].
  destruct (Js.get_prop (Some projectData) "technology"); [|reflexivity].
  destruct (Js.get_prop (Some projectData) "framework"); [|reflexivity].
  destruct (Js.get_prop (Some projectData) "database"); [|reflexivity].
  destruct (Js.get_prop (Some projectData) "description"); reflexivity.
Qed.

(** The system prompt is the base prompt, followed by the context of the
    project when it could be read. *)
Lemma system_prompt_eq `{Platform} projectId w :
  Assistant.system_prompt projectId w =
  (w, Return (Assistant.systemPrompt
              ++ if Js.truthy projectId then
                   match snd (Assistant.project_context projectId w) with
                   | Return context => context
                   | Throw _ => ""
                   end
                 else "")).
Proof.
  unfold Assistant.system_prompt.
  destruct (Js.truthy projectId).
  - unfold try_catch, bind. pose proof (project_context_pure projectId w) as Hp.
    destruct (Assistant.project_context projectId w) as [w1 [context|e]];
      cbn [fst snd] in *; subst w1; unfold ret; [reflexivity|].
    rewrite PathFacts.append_empty. reflexivity.
  - unfold ret. rewrite PathFacts.append_empty. reflexivity.
Qed.

(** The parameters of a chat without options. *)
Lemma chat_eq (groq : Provider) (model messages : option JSON) (w : World) :
  GroqClient.chat groq model messages None w =
  match groq (groq_request false model messages []) with
  | Return content =>
      (w, Return (match content with Some c => c | None => "" end))
  | Throw e =>
      (mkWorld (fs_root w) (console w ++ [[LStr "Groq API error:"; LErr e]])%list,
       Throw (Error ("Groq API error: " ++ err_message e)))
  end.
Proof.
  unfold GroqClient.chat, or_default. rewrite GatewayFacts.params_eq.
  unfold try_catch, bind, lift, ret.
  destruct (groq (groq_request false model messages [])) as [content|e]; reflexivity.
Qed.

End ChatFacts.

(** X16.  What POST /api/chat sends and answers, for a request with a
    message and a context that is an array, a string or absent: the
    messages are the system prompt, the items of the context in their
    order, then the message of the user; temperature, max_tokens and top_p
    are the defaults 0.7, 4000 and 1.  The answer carries the content of
    the provider (the empty text when it has none), the model as the
    request named it and the time; a failure of the provider is answered
    500 and changes no file. *)
Theorem chat_sends_system_context_user :
  forall `{Platform} (groq : Provider) (now : Z) (fields : Js.obj) (message : JSON)
         (items : list JSON) (w : World),
    Js.obj_get "message" fields = Some message ->
    Js.truthy (Some message) = true ->
    Assistant.context_items (Js.obj_get "context" fields) = Return items ->
    let model := Js.obj_get "model" fields in
    let named := match model with Some m => m | None => JStr "llama-4-scout" end in
    exists prompt request,
      Assistant.system_prompt (Js.obj_get "projectId" fields) w = (w, Return prompt) /\
      Js.obj_get "messages" request
        = Some (JArr (ProjectGenerator.message "system" (Some (JStr prompt))
                      :: items ++ [ProjectGenerator.message "user" (Some message)])%list) /\
      Js.obj_get "temperature" request = Some (JNum 7 (-1)) /\
      Js.obj_get "max_tokens" request = Some (JNum 4000 0) /\
      Js.obj_get "top_p" request = Some (JNum 1 0) /\
      (forall content,
          groq request = Return content ->
          Assistant.post_chat groq now (Some (JObj fields)) w =
          (w, Return (json [("response",
                             Some (JStr match content with Some c => c | None => "" end));
                            ("model", Some named);
                            ("timestamp", Some (JStr (Date_toISOString now)))]))) /\
      (forall e,
          groq request = Throw e ->
          fs_root (fst (Assistant.post_chat groq now (Some (JObj fields)) w)) = fs_root w /\
          snd (Assistant.post_chat groq now (Some (JObj fields)) w) =
          Return (status_json 500
                    [("error", Some (JStr "Failed to process chat message"))])).
Proof.
  intros P groq now fields message items w Hmessage Htruthy Hitems model named.
  pose proof (ChatFacts.system_prompt_eq (Js.obj_get "projectId" fields) w) as Hprompt.
  set (prompt := Assistant.systemPrompt ++ _) in Hprompt.
  set (messages := JArr (ProjectGenerator.message "system" (Some (JStr prompt))
                         :: items ++ [ProjectGenerator.message "user" (Some message)])%list).
  set (used := or_default model (JStr "llama-4-scout")).
  exists prompt, (groq_request false used (Some messages) []).
  split; [exact Hprompt|].
  split; [apply GatewayFacts.request_field; cbn [In]; auto|].
  split; [apply GatewayFacts.request_field; cbn [In]; auto|].
  split; [apply GatewayFacts.request_field; cbn [In]; auto 10|].
  split; [apply GatewayFacts.request_field; cbn [In]; auto 10|].
  assert (Hsteps : Assistant.post_chat groq now (Some (JObj fields)) w =
            try_catch
              (content <- GroqClient.chat groq used (Some messages) None ;;
               ret (json [("response", Routes.str content);
                          ("model", used);
                          ("timestamp", Routes.str (Date_toISOString now))]))
              (fun error =>
                 console_error [LStr "Chat error:"; LErr error] ;;;
                 ret (status_json 500
                        [("error", Routes.str "Failed to process chat message")])) w).
  { unfold Assistant.post_chat, try_catch.
    unfold lift. cbn [Js.get_prop Js.own_props].
    erewrite GeneratorFacts.bind_return by reflexivity.
    erewrite GeneratorFacts.bind_return by reflexivity.
    erewrite GeneratorFacts.bind_return by reflexivity.
    erewrite GeneratorFacts.bind_return by reflexivity.
    rewrite Hmessage, Htruthy. cbn [negb].
    erewrite GeneratorFacts.bind_return by exact Hprompt.
    fold model. rewrite Hitems.
    erewrite GeneratorFacts.bind_return by reflexivity.
    reflexivity. }
  split.
  - intros content Hc. rewrite Hsteps. unfold try_catch, bind.
    rewrite ChatFacts.chat_eq, Hc. unfold ret, used, named, or_default, Routes.str.
    destruct model; reflexivity.
  - intros e He. rewrite Hsteps. unfold try_catch, bind.
    rewrite ChatFacts.chat_eq, He. split; reflexivity.
Qed.

Lemma chat_sends_system_context_user_witness :
  let earlier := JObj [("role", JStr "assistant"); ("content", JStr "Use Express.")] in
  let fields := [("message", JStr "Which database?"); ("context", JArr [earlier]);
                 ("model", JStr "gemma2-9b")] in
  let w := mkWorld (Dir []) [] in
  Assistant.context_items (Js.obj_get "context" fields) = Return [earlier] /\
  @Assistant.post_chat Runtime.runtime (fun _ => Return (Some "PostgreSQL."))
     1700000000000 (Some (JObj fields)) w
  = (w, Return (json [("response", Some (JStr "PostgreSQL."));
                      ("model", Some (JStr "gemma2-9b"));
                      ("timestamp", Some (JStr "2023-11-14T22:13:20.000Z"))])).
Proof.
  intros earlier fields w.
  destruct (@chat_sends_system_context_user Runtime.runtime
              (fun _ => Return (Some "PostgreSQL.")) 1700000000000 fields
              (JStr "Which database?") [earlier] w eq_refl eq_refl eq_refl)
    as (prompt & request & _ & _ & _ & _ & _ & Hok & _).
  split; [reflexivity|].
  exact (Hok (Some "PostgreSQL.") eq_refl).
Defined.

(** X17.  POST /api/chat needs a message and a context that can be
    spread: a request without a message (absent, empty, null) is answered
    400 and nothing happens; a request whose context is neither an array
    nor a string (an object, a number, a boolean, null) is answered 500
    Failed to process chat message, whatever the provider would say, and
    no file is changed. *)
Theorem chat_requires_message_and_iterable_context :
  forall `{Platform} (groq : Provider) (now : Z) (fields : Js.obj) (w : World),
    let run := Assistant.post_chat groq now (Some (JObj fields)) w in
    (Js.truthy (Js.obj_get "message" fields) = false ->
     run = (w, Return (status_json 400 [("error", Some (JStr "Message is required"))]))) /\
    (forall context,
        Js.truthy (Js.obj_get "message" fields) = true ->
        Js.obj_get "context" fields = Some context ->
        (forall items, context <> JArr items) -> (forall s, context <> JStr s) ->
        fs_root (fst run) = fs_root w /\
        snd run = Return (status_json 500
                            [("error", Some (JStr "Failed to process chat message"))])).
Proof.
  intros P groq now fields w run. subst run. split.
  - intros Hm. unfold Assistant.post_chat, try_catch, bind, lift.
    cbn [Js.get_prop Js.own_props]. rewrite Hm. reflexivity.
  - intros context Hm Hc Harr Hstr.
    assert (Hthrow : Assistant.context_items (Some context)
                     = Throw (TypeError "context is not iterable")).
    { destruct context as [| | |s|items|o]; try reflexivity.
      - exfalso. apply (Hstr s). reflexivity.
      - exfalso. apply (Harr items). reflexivity. }
    unfold Assistant.post_chat.
    erewrite GeneratorFacts.try_catch_throw.
    2:{ unfold lift. cbn [Js.get_prop Js.own_props].
        erewrite GeneratorFacts.bind_return by reflexivity.
        erewrite GeneratorFacts.bind_return by reflexivity.
        erewrite GeneratorFacts.bind_return by reflexivity.
        erewrite GeneratorFacts.bind_return by reflexivity.
        rewrite Hm. cbn [negb].
        erewrite GeneratorFacts.bind_return by apply ChatFacts.system_prompt_eq.
        rewrite Hc, Hthrow. reflexivity. }
    split; reflexivity.
Qed.

(** X18.  The chat goes on without the context of a project that cannot
    be read: the system prompt is computed without writing and without
    failing; it is the base prompt when no project is named, when the
    name is not a string, when the metadata of the project cannot be read
    or is not JSON, and it is the base prompt followed by the name,
    technology, framework, database and description of the project (N/A
    for a framework or database that is missing or empty) when the
    metadata is an object. *)
Theorem chat_continues_without_project_context :
  forall `{Platform} (projectId : option JSON) (w : World),
    exists prompt,
      Assistant.system_prompt projectId w = (w, Return prompt) /\
      Str.starts_with Assistant.systemPrompt prompt = true /\
      (Js.truthy projectId = false -> prompt = Assistant.systemPrompt) /\
      ((forall id, projectId <> Some (JStr id)) -> prompt = Assistant.systemPrompt) /\
      (forall id,
          projectId = Some (JStr id) ->
          let metadataPath := Path.join [PROJECTS_DIR; id; "project-metadata.json"] in
          (forall e, snd (Fs.readFile metadataPath w) = Throw e ->
                     prompt = Assistant.systemPrompt) /\
          (forall text e, snd (Fs.readFile metadataPath w) = Return text ->
                          JSON_parse text = Throw e ->
                          prompt = Assistant.systemPrompt) /\
          (forall text o, id <> "" ->
                          snd (Fs.readFile metadataPath w) = Return text ->
                          JSON_parse text = Return (JObj o) ->
             prompt =
             Assistant.systemPrompt ++ Routes.nl ++ Routes.nl
             ++ "Context: You are helping with a project called " ++ Str.dquote
             ++ JsText.template (Js.obj_get "projectName" o) ++ Str.dquote ++ ". "
             ++ Routes.nl
             ++ "Technology: " ++ JsText.template (Js.obj_get "technology" o) ++ Routes.nl
             ++ "Framework: "
             ++ JsText.template (Js.or (Js.obj_get "framework" o) (Some (JStr "N/A")))
             ++ Routes.nl
             ++ "Database: "
             ++ JsText.template (Js.or (Js.obj_get "database" o) (Some (JStr "N/A")))
             ++ Routes.nl
             ++ "Description: " ++ JsText.template (Js.obj_get "description" o))).
Proof.
  intros P projectId w. eexists. split; [apply ChatFacts.system_prompt_eq|].
  split; [apply LineFacts.starts_with_app|].
  split; [intros Hf; rewrite Hf; apply PathFacts.append_empty|].
  split.
  - intros Hnot. destruct (Js.truthy projectId); [|apply PathFacts.append_empty].
    unfold Assistant.project_context.
    destruct projectId as [[| | |id| |]|]; try apply PathFacts.append_empty.
    exfalso. apply (Hnot id). reflexivity.
  - intros id Hid metadataPath. subst projectId.
    unfold Assistant.project_context. fold metadataPath.
    split; [|split].
    + intros e He. destruct (Js.truthy (Some (JStr id))); [|apply PathFacts.append_empty].
      pose proof (ListingFacts.readFile_pure metadataPath w) as Hp.
      unfold bind at 1. destruct (Fs.readFile metadataPath w) as [w1 [text|e1]];
        cbn [fst snd] in *; [discriminate He|apply PathFacts.append_empty].
    + intros text e Hr Hparse.
      destruct (Js.truthy (Some (JStr id))); [|apply PathFacts.append_empty].
      apply EditFacts.readFile_returns in Hr.
      erewrite GeneratorFacts.bind_return by exact Hr.
      unfold bind at 1, lift at 1. rewrite Hparse. apply PathFacts.append_empty.
    + intros text o Hne Hr Hparse.
      assert (Ht : Js.truthy (Some (JStr id)) = true).
      { cbn [Js.truthy]. apply negb_true_iff, String.eqb_neq, Hne. }
      rewrite Ht. apply EditFacts.readFile_returns in Hr.
      erewrite GeneratorFacts.bind_return by exact Hr.
      erewrite GeneratorFacts.bind_return by (unfold lift; rewrite Hparse; reflexivity).
      reflexivity.
Qed.

(** X19.  The models that the server advertises are the models that its
    gateway resolves: GET /api/models and GET /health list the same
    names, the default model is one of them, and for each listed name the
    details give the identifier that the gateway puts in its request to
    the provider, whatever the messages and the options. *)
Theorem advertised_models_are_resolved :
  forall `{Platform} (env : Env) (now : Z),
    exists models details,
      Js.obj_get "models" (Js.own_props (body Service.get_models)) = Some (JArr models) /\
      Js.obj_get "models" (Js.own_props (body (Service.get_health env now)))
        = Some (JArr models) /\
      Js.obj_get "details" (Js.own_props (body Service.get_models)) = Some (JObj details) /\
      (exists name, Js.obj_get "default" (Js.own_props (body Service.get_models))
                    = Some (JStr name) /\ In (JStr name) models) /\
      forall name,
        In (JStr name) models ->
        exists id,
          Js.obj_get name details = Some (JStr id) /\
          forall (stream : bool) (messages : option JSON) (o : Js.obj),
          exists request,
            GroqClient.params stream (Some (JStr name)) messages (Some (JObj o))
              = Return request /\
            Js.obj_get "model" request = Some (JStr id).
Proof.
  intros P env now.
  exists (map JStr (Js.Object_keys AVAILABLE_MODELS)), AVAILABLE_MODELS.
  split; [reflexivity|].
  split; [unfold Service.get_health, json; cbn [body Js.own_props];
          rewrite JsFacts.obj_get_literal; reflexivity|].
  split; [reflexivity|].
  split; [exists "llama-4-scout"; split; [reflexivity|cbn; auto]|].
  intros name Hin. cbn in Hin.
  assert (Hresolved : forall id,
            Js.obj_get name AVAILABLE_MODELS = Some (JStr id) ->
            forall (stream : bool) (messages : option JSON) (o : Js.obj),
            exists request,
              GroqClient.params stream (Some (JStr name)) messages (Some (JObj o))
                = Return request /\
              Js.obj_get "model" request = Some (JStr id)).
  { intros id Hid stream messages o. eexists. split; [apply GatewayFacts.params_eq|].
    erewrite GatewayFacts.request_field; [|cbn [In]; right; left; reflexivity].
    cbn [JsText.template JsText.to_string]. rewrite Hid.
    unfold Js.or. cbn [Js.truthy].
    destruct id; [|reflexivity].
    cbn in Hid. repeat (destruct (String.eqb name _); [discriminate Hid|]). discriminate Hid. }
  destruct Hin as [Hn|[Hn|[Hn|[Hn|[]]]]]; inversion Hn; subst name;
    eexists; (split; [reflexivity|apply Hresolved; reflexivity]).
Qed.

(** ** The listing of a directory tree *)

Module ScanFacts.
Import Names.

Section Induction.

Variable P : node -> Prop.
Hypothesis P_file : forall content t, P (File content t).
Hypothesis P_dir : forall es, Forall (fun e => P (snd e)) es -> P (Dir es).

(** Induction on a tree, with the property of the entries of a
    directory. *)
Fixpoint node_induction (n : node) : P n :=
  match n with
  | File content t => P_file content t
  | Dir es =>
      P_dir es
        ((fix all (l : list (string * node)) : Forall (fun e => P (snd e)) l :=
            match l with
            | [] => Forall_nil _
            | e :: l' => Forall_cons e (node_induction (snd e)) (all l')
            end) es)
  end.

End Induction.

Lemma scan_dir rel es :
  FileSystemManager.scan rel (Dir es) = Scan.items rel es [].
Proof.
  cbn [FileSystemManager.scan]. generalize (@nil (string * JSON)) as tree.
  induction es as [|[item c] es IH]; intros tree; [reflexivity|].
  cbn [Scan.items]. destruct c as [content t|sub]; apply IH.
Qed.

Lemma well_formed_dir es :
  Scan.well_formed (Dir es) = true <->
  NoDup (map fst es) /\
  Forall (fun e => Path.valid_name (fst e) = true /\ Scan.well_formed (snd e) = true) es.
Proof.
  cbn [Scan.well_formed].
  induction es as [|[name c] es IH].
  - split; [intros _; split; constructor|reflexivity].
  - cbn [map fst]. rewrite !andb_true_iff, negb_true_iff, IH. split.
    + intros (((Hv & Hn) & Hc) & (Hnd & Hall)). split.
      * constructor; [|exact Hnd]. intros Hin.
        assert (Hex : existsb (String.eqb name) (map fst es) = true).
        { apply existsb_exists. exists name. split; [exact Hin|apply String.eqb_refl]. }
        congruence.
      * constructor; [split; assumption|exact Hall].
    + intros (Hnd & Hall). inversion Hnd; subst. inversion Hall; subst.
      cbn [fst snd] in *. destruct H3 as [Hv Hc].
      repeat split; try assumption.
      destruct (existsb (String.eqb name) (map fst es)) eqn:E; [|reflexivity].
      apply existsb_exists in E. destruct E as (x & Hin & Hx).
      apply String.eqb_eq in Hx. subst x. contradiction.
Qed.

(** In a directory without a double name, the entries are what the
    names name. *)
Lemma child_in name c es :
  NoDup (map fst es) -> In (name, c) es -> Tree.child name es = Some c.
Proof.
  induction es as [|[k n] es IH]; cbn [map fst In Tree.child]; [tauto|].
  intros Hnd [Heq|Hin].
  - inversion Heq; subst. rewrite String.eqb_refl. reflexivity.
  - inversion Hnd; subst. destruct (String.eqb name k) eqn:E; [|apply IH; assumption].
    apply String.eqb_eq in E. subst k. exfalso. apply H1.
    apply (in_map fst) in Hin. exact Hin.
Qed.

Lemma in_child name c es : Tree.child name es = Some c -> In (name, c) es.
Proof.
  induction es as [|[k n] es IH]; cbn [Tree.child In]; [discriminate|].
  destruct (String.eqb name k) eqn:E; [|auto].
  apply String.eqb_eq in E. subst k. intros H. inversion H. auto.
Qed.


(** *** Assigning to the keys of a plain object *)

(** An assignment defines the property, or it is the assignment to
    [__proto__] that leaves the properties as they are. *)
Lemma put_cases k v o :
  Js.obj_put k v o = Js.obj_set k v o \/
  (k = "__proto__" /\ Js.obj_get k o = None /\ Js.obj_put k v o = o).
Proof.
  unfold Js.obj_put, Js.obj_set. destruct (Js.obj_get k o); [left; reflexivity|].
  destruct (String.eqb k "__proto__") eqn:E; [|left; reflexivity].
  apply String.eqb_eq in E. right. auto.
Qed.

Lemma put_not_proto k v o :
  k <> "__proto__" -> Js.obj_put k v o = Js.obj_set k v o.
Proof.
  intros Hk. destruct (put_cases k v o) as [E|(E & _)]; [exact E|contradiction].
Qed.

Lemma obj_get_put_sound k k' v v' o :
  Js.obj_get k (Js.obj_put k' v o) = Some v' ->
  Js.obj_get k o = Some v' \/ (k = k' /\ v' = v).
Proof.
  destruct (put_cases k' v o) as [E|(_ & _ & E)]; rewrite E; [|auto].
  rewrite JsFacts.obj_get_set. destruct (String.eqb k k') eqn:Ek; [|auto].
  apply String.eqb_eq in Ek. intros Hv. inversion Hv. auto.
Qed.

Lemma obj_get_put_keep k k' v o :
  Js.obj_get k o <> None -> Js.obj_get k (Js.obj_put k' v o) <> None.
Proof.
  intros Hk. destruct (put_cases k' v o) as [E|(_ & _ & E)]; rewrite E; [|exact Hk].
  rewrite JsFacts.obj_get_set. destruct (String.eqb k k'); [discriminate|exact Hk].
Qed.

Lemma obj_get_put_same k v o :
  k <> "__proto__" -> Js.obj_get k (Js.obj_put k v o) = Some v.
Proof.
  intros Hk. rewrite put_not_proto, JsFacts.obj_get_set, String.eqb_refl by assumption.
  reflexivity.
Qed.

(** No assignment creates the property [__proto__]. *)
Lemma obj_get_put_proto k v o :
  Js.obj_get "__proto__" o = None -> Js.obj_get "__proto__" (Js.obj_put k v o) = None.
Proof.
  intros Ho. destruct (put_cases k v o) as [E|(_ & _ & E)]; rewrite E; [|exact Ho].
  unfold Js.obj_put in E. rewrite JsFacts.obj_get_set.
  destruct (String.eqb "__proto__" k) eqn:Ek; [|exact Ho].
  apply String.eqb_eq in Ek. subst k. rewrite Ho in E. cbn [String.eqb Ascii.eqb Bool.eqb] in E.
  unfold Js.obj_set in E. rewrite Ho in E.
  exfalso. apply (f_equal (Js.obj_get "__proto__")) in E.
  rewrite Ho, JsFacts.obj_get_insert, String.eqb_refl in E by assumption. discriminate E.
Qed.

Lemma nodup_put k v o :
  NoDup (map fst o) -> NoDup (map fst (Js.obj_put k v o)).
Proof.
  intros Hnd. destruct (put_cases k v o) as [E|(_ & _ & E)]; rewrite E; [|exact Hnd].
  apply JsFacts.nodup_set, Hnd.
Qed.

(** [Object.assign] of an object without the property [__proto__] defines
    every property of the object. *)
Lemma Object_assign_defines source : forall target,
  Js.obj_get "__proto__" source = None ->
  Js.Object_assign target source = Js.obj_assign target source.
Proof.
  unfold Js.Object_assign, Js.obj_assign.
  induction source as [|[k v] source IH]; intros target Hs; [reflexivity|].
  cbn [Js.obj_get] in Hs. cbn [fold_left fst snd].
  destruct (String.eqb "__proto__" k) eqn:E; [discriminate|].
  apply String.eqb_neq in E. rewrite put_not_proto by congruence.
  apply IH, Hs.
Qed.

(** *** The keys of the listing *)

Lemma items_nodup rel l : forall tree,
  NoDup (map fst tree) -> NoDup (map fst (Scan.items rel l tree)).
Proof.
  induction l as [|[item c] l IH]; intros tree Hnd; [exact Hnd|].
  cbn [Scan.items]. destruct c as [content t|sub]; apply IH.
  - apply nodup_put, Hnd.
  - unfold Js.Object_assign.
    generalize (FileSystemManager.scan (Scan.item_key rel item) (Dir sub)) as source.
    pose proof (nodup_put (Scan.item_key rel item) FileSystemManager.directory_entry
                  tree Hnd) as Hp.
    revert Hp.
    generalize (Js.obj_put (Scan.item_key rel item) FileSystemManager.directory_entry tree)
      as target.
    intros target Ht source. revert target Ht.
    induction source as [|[k v] source IHs]; intros target Ht; [exact Ht|].
    cbn [fold_left fst snd]. apply IHs, nodup_put, Ht.
Qed.

Lemma scan_nodup rel n : NoDup (map fst (FileSystemManager.scan rel n)).
Proof.
  destruct n as [content t|es]; [constructor|].
  rewrite scan_dir. apply items_nodup. constructor.
Qed.

(** The listing has no key [__proto__]. *)
Lemma items_no_proto rel l :
  Forall (fun e => forall rel', Js.obj_get "__proto__"
                                  (FileSystemManager.scan rel' (snd e)) = None) l ->
  forall tree,
    Js.obj_get "__proto__" tree = None ->
    Js.obj_get "__proto__" (Scan.items rel l tree) = None.
Proof.
  induction l as [|[item c] l IH]; intros Hall tree Ht; [exact Ht|].
  inversion Hall as [|? ? Hc Hl]; subst. cbn [snd] in Hc.
  cbn [Scan.items]. destruct c as [content t|sub]; apply IH; try exact Hl.
  - apply obj_get_put_proto, Ht.
  - rewrite Object_assign_defines by apply Hc.
    rewrite JsFacts.obj_get_assign, JsFacts.obj_get_rev by apply scan_nodup.
    rewrite Hc. apply obj_get_put_proto, Ht.
Qed.

Lemma scan_no_proto n : forall rel,
  Js.obj_get "__proto__" (FileSystemManager.scan rel n) = None.
Proof.
  induction n as [content t|es IH] using node_induction; intros rel; [reflexivity|].
  rewrite scan_dir. apply items_no_proto; [exact IH|reflexivity].
Qed.

Lemma obj_get_scan_assign k key c tree :
  Js.obj_get k (Js.Object_assign tree (FileSystemManager.scan key c)) =
  match Js.obj_get k (FileSystemManager.scan key c) with
  | Some v => Some v
  | None => Js.obj_get k tree
  end.
Proof.
  rewrite Object_assign_defines by apply scan_no_proto.
  rewrite JsFacts.obj_get_assign, JsFacts.obj_get_rev by apply scan_nodup. reflexivity.
Qed.

(** Where the value of a key of the loop comes from. *)
Lemma items_sound rel k v l : forall tree,
  Js.obj_get k (Scan.items rel l tree) = Some v ->
  Js.obj_get k tree = Some v \/
  exists item c,
    In (item, c) l /\
    ((k = Scan.item_key rel item /\ v = Scan.entry_of c) \/
     Js.obj_get k (FileSystemManager.scan (Scan.item_key rel item) c) = Some v).
Proof.
  induction l as [|[item c] l IH]; intros tree Hk; [left; exact Hk|].
  cbn [Scan.items] in Hk. fold (Scan.item_key rel item) in Hk.
  destruct c as [content t|sub].
  - destruct (IH _ Hk) as [Ht|(item' & c' & Hin & Hc)].
    + destruct (obj_get_put_sound _ _ _ _ _ Ht) as [Ho|[E Hv]]; [left; exact Ho|].
      subst. right. exists item, (File content t). split; [left; reflexivity|].
      left. split; reflexivity.
    + right. exists item', c'. split; [right; exact Hin|exact Hc].
  - destruct (IH _ Hk) as [Ht|(item' & c' & Hin & Hc)].
    + rewrite obj_get_scan_assign in Ht.
      destruct (Js.obj_get k (FileSystemManager.scan (Scan.item_key rel item) (Dir sub)))
        as [v'|] eqn:Es.
      * inversion Ht; subst v'. right. exists item, (Dir sub).
        split; [left; reflexivity|]. right. exact Es.
      * destruct (obj_get_put_sound _ _ _ _ _ Ht) as [Ho|[E Hv]]; [left; exact Ho|].
        subst. right. exists item, (Dir sub). split; [left; reflexivity|].
        left. split; reflexivity.
    + right. exists item', c'. split; [right; exact Hin|exact Hc].
Qed.

(** A key that the loop has set stays set. *)
Lemma items_keep rel k l : forall tree,
  Js.obj_get k tree <> None -> Js.obj_get k (Scan.items rel l tree) <> None.
Proof.
  induction l as [|[item c] l IH]; intros tree Hk; [exact Hk|].
  cbn [Scan.items]. destruct c as [content t|sub]; apply IH.
  - apply obj_get_put_keep, Hk.
  - rewrite obj_get_scan_assign. destruct (Js.obj_get k (FileSystemManager.scan _ _));
      [discriminate|].
    apply obj_get_put_keep, Hk.
Qed.

(** The loop sets the key of every item, but the key [__proto__], and
    the keys of its listing. *)
Lemma items_defined rel item c l : forall tree,
  In (item, c) l ->
  (Scan.item_key rel item <> "__proto__" ->
   Js.obj_get (Scan.item_key rel item) (Scan.items rel l tree) <> None) /\
  forall k, Js.obj_get k (FileSystemManager.scan (Scan.item_key rel item) c) <> None ->
            Js.obj_get k (Scan.items rel l tree) <> None.
Proof.
  induction l as [|[item' c'] l IH]; intros tree Hin; [destruct Hin|].
  destruct Hin as [Heq|Hin].
  - inversion Heq; subst item' c'. cbn [Scan.items]. fold (Scan.item_key rel item).
    destruct c as [content t|sub].
    + split.
      * intros Hkey. apply items_keep. rewrite obj_get_put_same by assumption.
        discriminate.
      * intros k Hk. exfalso. apply Hk. reflexivity.
    + split.
      * intros Hkey. apply items_keep. rewrite obj_get_scan_assign.
        destruct (Js.obj_get _ (FileSystemManager.scan _ _)); [discriminate|].
        rewrite obj_get_put_same by assumption. discriminate.
      * intros k Hk. apply items_keep. rewrite obj_get_scan_assign.
        destruct (Js.obj_get k (FileSystemManager.scan _ _)); [discriminate|].
        exfalso. apply Hk. reflexivity.
  - cbn [Scan.items]. destruct c' as [content t|sub]; apply IH; exact Hin.
Qed.


(** *** The listing and the tree *)

(** The names on a path of a well-formed tree are names of entries. *)
Lemma lookup_valid p : forall n m,
  Scan.well_formed n = true -> Tree.lookup p n = Some m ->
  Forall (fun s => Path.valid_name s = true) p /\ Scan.well_formed m = true.
Proof.
  induction p as [|s p IH]; intros n m Hwf Hl.
  - inversion Hl; subst. split; [constructor|exact Hwf].
  - destruct n as [content t|es]; [discriminate|]. cbn [Tree.lookup] in Hl.
    destruct (Tree.child s es) as [c|] eqn:Ec; [|discriminate].
    apply well_formed_dir in Hwf. destruct Hwf as [_ Hall].
    rewrite Forall_forall in Hall. destruct (Hall _ (in_child _ _ _ Ec)) as [Hv Hc].
    destruct (IH _ _ Hc Hl) as [Hp Hm]. split; [constructor; assumption|exact Hm].
Qed.

(** Every key of the listing is the key of a path of the tree. *)
Lemma scan_sound n : forall rel k v,
  Scan.well_formed n = true ->
  Js.obj_get k (FileSystemManager.scan rel n) = Some v ->
  exists p m, p <> [] /\ Tree.lookup p n = Some m /\
              Scan.key_of rel p = k /\ v = Scan.entry_of m.
Proof.
  induction n as [content t|es IH] using node_induction; intros rel k v Hwf Hk.
  - discriminate Hk.
  - rewrite scan_dir in Hk. apply well_formed_dir in Hwf. destruct Hwf as [Hnd Hall].
    destruct (items_sound _ _ _ _ _ Hk) as [Ht|(item & c & Hin & Hc)]; [discriminate Ht|].
    pose proof (child_in _ _ _ Hnd Hin) as Hchild.
    destruct Hc as [[Hkey Hv]|Hsub].
    + exists [item], c. split; [discriminate|]. cbn [Tree.lookup Scan.key_of].
      rewrite Hchild. auto.
    + rewrite Forall_forall in IH, Hall.
      destruct (Hall _ Hin) as [_ Hwc].
      destruct (IH _ Hin _ _ _ Hwc Hsub) as (p & m & Hp & Hl & Hkey & Hv).
      exists (item :: p), m. split; [discriminate|]. cbn [Tree.lookup Scan.key_of].
      rewrite Hchild. auto.
Qed.

(** Every path of the tree has its key in the listing, but the key
    [__proto__]. *)
Lemma scan_defined p : forall n rel m,
  p <> [] -> Scan.key_of rel p <> "__proto__" -> Tree.lookup p n = Some m ->
  Js.obj_get (Scan.key_of rel p) (FileSystemManager.scan rel n) <> None.
Proof.
  induction p as [|s p IH]; intros n rel m Hne Hkey Hl; [congruence|].
  destruct n as [content t|es]; [discriminate|]. cbn [Tree.lookup] in Hl.
  destruct (Tree.child s es) as [c|] eqn:Ec; [|discriminate].
  rewrite scan_dir. cbn [Scan.key_of] in Hkey |- *.
  destruct (items_defined rel s c es [] (in_child _ _ _ Ec)) as [Hitem Hsub].
  destruct p as [|s' p]; [exact (Hitem Hkey)|].
  apply Hsub. eapply IH; [discriminate|exact Hkey|exact Hl].
Qed.

(** The key of a path of names is the names joined by slashes. *)
Lemma key_of_join p : forall rel,
  p <> [] -> Forall (fun s => Path.valid_name s = true) p ->
  Scan.key_of rel p =
  if String.eqb rel "" then Str.join "/" p else rel ++ "/" ++ Str.join "/" p.
Proof.
  induction p as [|s p IH]; intros rel Hne Hv; [congruence|].
  inversion Hv; subst. cbn [Scan.key_of].
  destruct p as [|s' p].
  - reflexivity.
  - rewrite IH by (discriminate || assumption).
    assert (Hs : s <> "") by (apply PathFacts.valid_name_spec in H1; tauto).
    unfold Scan.item_key. destruct (String.eqb rel "") eqn:E.
    + apply String.eqb_neq in Hs. rewrite Hs. reflexivity.
    + assert (Hk : String.eqb (rel ++ "/" ++ s) "" = false).
      { apply String.eqb_neq. destruct rel; [discriminate E|discriminate]. }
      rewrite Hk, PathFacts.join_cons, !DirnameFacts.append_assoc. reflexivity.
Qed.

(** Paths of names with the same text are the same path. *)
Lemma join_injective p q :
  p <> [] -> q <> [] ->
  Forall (fun s => Path.valid_name s = true) p ->
  Forall (fun s => Path.valid_name s = true) q ->
  Str.join "/" p = Str.join "/" q -> p = q.
Proof.
  intros Hp Hq Vp Vq Heq.
  assert (Hns : forall l, Forall (fun s => Path.valid_name s = true) l ->
                          Forall (fun seg => no_slash seg = true) l).
  { intros l Hl. eapply Forall_impl; [|exact Hl]. cbn beta. intros a Ha.
    apply PathFacts.valid_name_spec in Ha. tauto. }
  rewrite <- (PathFacts.segments_join p), <- (PathFacts.segments_join q) by auto.
  rewrite Heq. reflexivity.
Qed.

(** The listing of a well-formed tree: its paths, by their kinds; the
    item [__proto__] of the tree itself has no key. *)
Lemma scan_exact n p m :
  Scan.well_formed n = true -> p <> [] -> p <> ["__proto__"] ->
  Tree.lookup p n = Some m ->
  Js.obj_get (Str.join "/" p) (FileSystemManager.scan "" n) = Some (Scan.entry_of m).
Proof.
  intros Hwf Hne Hproto Hl.
  destruct (lookup_valid _ _ _ Hwf Hl) as [Hv _].
  assert (Hkey' : Scan.key_of "" p <> "__proto__").
  { rewrite key_of_join by assumption. cbn [String.eqb]. intros Heq.
    apply Hproto. apply join_injective; try assumption; try discriminate.
    repeat constructor. }
  pose proof (scan_defined p n "" m Hne Hkey' Hl) as Hdef.
  rewrite key_of_join in Hdef by assumption. cbn [String.eqb] in Hdef.
  destruct (Js.obj_get (Str.join "/" p) (FileSystemManager.scan "" n)) as [v|] eqn:Ev;
    [|congruence].
  destruct (scan_sound n "" _ _ Hwf Ev) as (q & m' & Hq & Hl' & Hkey & Hv').
  destruct (lookup_valid _ _ _ Hwf Hl') as [Hvq _].
  rewrite key_of_join in Hkey by assumption. cbn [String.eqb] in Hkey.
  apply join_injective in Hkey; try assumption. subst q.
  rewrite Hl in Hl'. inversion Hl'; subst. reflexivity.
Qed.

End ScanFacts.

(** X20.  getFileTree lists a directory tree exactly, but for an item
    of the directory itself whose name is [__proto__]: for a directory
    whose entries, at every level, have unique names that are names of
    entries, the result has one key for every file and directory below the
    directory other than such an item (what is below the item is listed),
    the names of its path joined by slashes, with the type file or
    directory of what the path names, and it has no other key. *)
Theorem getFileTree_lists_what_is_below_but_proto :
  forall (projectPath : string) (w : World) (es : list (string * node)),
    Tree.lookup (Fs.components projectPath) (fs_root w) = Some (Dir es) ->
    Scan.well_formed (Dir es) = true ->
    exists tree,
      FileSystemManager.getFileTree projectPath w = (w, Return tree) /\
      NoDup (map fst tree) /\
      (forall p m,
          p <> [] -> p <> ["__proto__"] -> Tree.lookup p (Dir es) = Some m ->
          Js.obj_get (Str.join "/" p) tree = Some (Scan.entry_of m)) /\
      (forall k v,
          Js.obj_get k tree = Some v ->
          exists p m, p <> [] /\ p <> ["__proto__"] /\
                      Tree.lookup p (Dir es) = Some m /\
                      k = Str.join "/" p /\ v = Scan.entry_of m).
Proof.
  intros projectPath w es Hdir Hwf.
  exists (FileSystemManager.scan "" (Dir es)).
  split; [apply StoreFacts.getFileTree_directory, Hdir|].
  split; [apply ScanFacts.scan_nodup|].
  split; [intros p m Hne Hproto Hl; apply ScanFacts.scan_exact; assumption|].
  intros k v Hk.
  destruct (ScanFacts.scan_sound _ _ _ _ Hwf Hk) as (p & m & Hne & Hl & Hkey & Hv).
  destruct (ScanFacts.lookup_valid _ _ _ Hwf Hl) as [Hvalid _].
  rewrite ScanFacts.key_of_join in Hkey by assumption. cbn [String.eqb] in Hkey.
  exists p, m. split; [exact Hne|]. split.
  - intros Hp. subst p. cbn in Hkey. subst k.
    rewrite ScanFacts.scan_no_proto in Hk. discriminate Hk.
  - split; [exact Hl|]. split; [symmetry; exact Hkey|exact Hv].
Qed.

Lemma getFileTree_lists_what_is_below_but_proto_witness :
  let es := [("src", Dir [("app.js", File "x" 0); ("lib", Dir [])]);
             ("__proto__", Dir [("index.js", File "p" 0)]);
             ("README.md", File "r" 0)] in
  let w := Examples.in_storage [("p1", Dir es)] in
  exists tree,
    FileSystemManager.getFileTree "/app/generated_projects/p1" w = (w, Return tree) /\
    Js.obj_get "src/app.js" tree = Some FileSystemManager.file_entry /\
    Js.obj_get "src/lib" tree = Some FileSystemManager.directory_entry /\
    Js.obj_get "__proto__/index.js" tree = Some FileSystemManager.file_entry /\
    Js.Object_keys tree =
      ["src"; "src/app.js"; "src/lib"; "__proto__/index.js"; "README.md"].
Proof.
  intros es w.
  destruct (getFileTree_lists_what_is_below_but_proto "/app/generated_projects/p1" w
              es eq_refl eq_refl)
    as (tree & Hget & _ & Hall & _).
  exists tree. split; [exact Hget|].
  assert (H1 : ["src"; "app.js"] <> []) by discriminate.
  assert (H1' : ["src"; "app.js"] <> ["__proto__"]) by discriminate.
  assert (H2 : ["src"; "lib"] <> []) by discriminate.
  assert (H2' : ["src"; "lib"] <> ["__proto__"]) by discriminate.
  assert (H3 : ["__proto__"; "index.js"] <> []) by discriminate.
  assert (H3' : ["__proto__"; "index.js"] <> ["__proto__"]) by discriminate.
  split; [exact (Hall ["src"; "app.js"] (File "x" 0) H1 H1' eq_refl)|].
  split; [exact (Hall ["src"; "lib"] (Dir []) H2 H2' eq_refl)|].
  split; [exact (Hall ["__proto__"; "index.js"] (File "p" 0) H3 H3' eq_refl)|].
  assert (Hc : FileSystemManager.getFileTree "/app/generated_projects/p1" w
               = (w, Return (FileSystemManager.scan "" (Dir es)))) by reflexivity.
  rewrite Hc in Hget. inversion Hget. reflexivity.
Defined.

(** ** The directory of a project as a tree of its own *)

Module SubtreeFacts.
Import Names.

(** Creating directories below a path acts on what the path names. *)
Lemma mkdir_p_below R : forall root sub y sub',
  Tree.lookup R root = Some sub ->
  Tree.mkdir_p y sub = inr sub' ->
  exists root', Tree.mkdir_p (R ++ y) root = inr root' /\
                Tree.lookup R root' = Some sub'.
Proof.
  induction R as [|s R IH]; intros root sub y sub' Hl Hm.
  - inversion Hl; subst. exists sub'. split; [exact Hm|reflexivity].
  - destruct root as [content t|es]; [discriminate|]. cbn [Tree.lookup] in Hl.
    destruct (Tree.child s es) as [c|] eqn:Ec; [|discriminate].
    destruct (IH _ _ _ _ Hl Hm) as (c' & Hc' & Hl').
    exists (Dir (Tree.set_child s c' es)).
    cbn [app]. rewrite TreeWrites.mkdir_p_cons, Ec, Hc'. split; [reflexivity|].
    cbn [Tree.lookup]. rewrite TreeFacts.child_set_child, String.eqb_refl. exact Hl'.
Qed.

Lemma write_nonempty y f n n' : Tree.write y f n = inr n' -> y <> [].
Proof. destruct y; [|discriminate]. destruct n; discriminate. Qed.

(** Writing a file below a path acts on what the path names. *)
Lemma write_below R : forall root sub y f sub',
  Tree.lookup R root = Some sub ->
  Tree.write y f sub = inr sub' ->
  exists root', Tree.write (R ++ y) f root = inr root' /\
                Tree.lookup R root' = Some sub'.
Proof.
  induction R as [|s R IH]; intros root sub y f sub' Hl Hw.
  - inversion Hl; subst. exists sub'. split; [exact Hw|reflexivity].
  - destruct root as [content t|es]; [discriminate|]. cbn [Tree.lookup] in Hl.
    destruct (Tree.child s es) as [c|] eqn:Ec; [|discriminate].
    destruct (IH _ _ _ _ _ Hl Hw) as (c' & Hc' & Hl').
    exists (Dir (Tree.set_child s c' es)).
    pose proof (write_nonempty _ _ _ _ Hw) as Hy.
    cbn [app]. destruct (R ++ y)%list as [|s' p] eqn:Ey.
    + apply app_eq_nil in Ey. tauto.
    + rewrite TreeWrites.write_cons, Ec, Hc'. split; [reflexivity|].
      cbn [Tree.lookup]. rewrite TreeFacts.child_set_child, String.eqb_refl. exact Hl'.
Qed.

(** A directory that is created where nothing was is empty. *)
Lemma mkdir_p_fresh p : forall n n',
  Tree.lookup p n = None -> Tree.mkdir_p p n = inr n' ->
  Tree.lookup p n' = Some (Dir []).
Proof.
  induction p as [|s p IH]; intros n n' Hl Hm; [discriminate|].
  destruct n as [content t|es]; [discriminate|].
  rewrite TreeWrites.mkdir_p_cons in Hm. cbn [Tree.lookup] in Hl.
  destruct (Tree.mkdir_p p _) as [e|c'] eqn:Ec; [discriminate|].
  inversion Hm; subst n'. cbn [Tree.lookup].
  rewrite TreeFacts.child_set_child, String.eqb_refl.
  destruct (Tree.child s es) as [c|].
  - eapply IH; eassumption.
  - destruct p as [|s' p].
    + inversion Ec. reflexivity.
    + apply (IH (Dir []) c'); [reflexivity|exact Ec].
Qed.

(** *** Well-formed trees stay well formed *)

Lemma set_child_keys s c es :
  map fst (Tree.set_child s c es) =
  if existsb (String.eqb s) (map fst es) then map fst es
  else (map fst es ++ [s])%list.
Proof.
  induction es as [|[k m] es IH]; [reflexivity|].
  cbn [Tree.set_child map fst existsb]. destruct (String.eqb s k) eqn:E.
  - reflexivity.
  - cbn [map fst orb]. rewrite IH.
    destruct (existsb (String.eqb s) (map fst es)); reflexivity.
Qed.

Lemma set_child_in s c es e :
  In e (Tree.set_child s c es) -> In e es \/ e = (s, c).
Proof.
  induction es as [|[k m] es IH]; cbn [Tree.set_child In].
  - intros [H|[]]. auto.
  - destruct (String.eqb s k) eqn:E; cbn [In].
    + apply String.eqb_eq in E. subst k. intros [H|H]; auto.
    + intros [H|H]; [auto|]. destruct (IH H); auto.
Qed.

Lemma well_formed_set_child s c es :
  Scan.well_formed (Dir es) = true ->
  Path.valid_name s = true -> Scan.well_formed c = true ->
  Scan.well_formed (Dir (Tree.set_child s c es)) = true.
Proof.
  intros Hwf Hs Hc. apply ScanFacts.well_formed_dir in Hwf. destruct Hwf as [Hnd Hall].
  apply ScanFacts.well_formed_dir. split.
  - rewrite set_child_keys.
    destruct (existsb (String.eqb s) (map fst es)) eqn:E; [exact Hnd|].
    apply NoDup_app; [exact Hnd|repeat constructor; intros []|].
    intros x Hx [Heq|[]]. subst x.
    assert (Hex : existsb (String.eqb s) (map fst es) = true).
    { apply existsb_exists. exists s. split; [exact Hx|apply String.eqb_refl]. }
    congruence.
  - rewrite Forall_forall in *. intros e He.
    destruct (set_child_in _ _ _ _ He) as [Hin|Heq]; [apply Hall, Hin|].
    subst e. split; assumption.
Qed.

Lemma well_formed_child s es c :
  Scan.well_formed (Dir es) = true -> Tree.child s es = Some c ->
  Scan.well_formed c = true.
Proof.
  intros Hwf Hc. apply ScanFacts.well_formed_dir in Hwf. destruct Hwf as [_ Hall].
  rewrite Forall_forall in Hall. apply (Hall _ (ScanFacts.in_child _ _ _ Hc)).
Qed.

Lemma well_formed_mkdir_p p : forall n n',
  Forall (fun s => Path.valid_name s = true) p ->
  Scan.well_formed n = true -> Tree.mkdir_p p n = inr n' ->
  Scan.well_formed n' = true.
Proof.
  induction p as [|s p IH]; intros n n' Hp Hwf Hm.
  - destruct n; [discriminate|]. inversion Hm; subst. exact Hwf.
  - destruct n as [content t|es]; [discriminate|].
    rewrite TreeWrites.mkdir_p_cons in Hm. inversion Hp; subst.
    destruct (Tree.mkdir_p p _) as [e|c'] eqn:Ec; [discriminate|].
    inversion Hm; subst n'. apply well_formed_set_child; try assumption.
    eapply IH; [eassumption| |exact Ec].
    destruct (Tree.child s es) as [c|] eqn:Es; [|reflexivity].
    eapply well_formed_child; eassumption.
Qed.

Lemma well_formed_write p : forall n n' content t,
  Forall (fun s => Path.valid_name s = true) p ->
  Scan.well_formed n = true -> Tree.write p (File content t) n = inr n' ->
  Scan.well_formed n' = true.
Proof.
  induction p as [|s p IH]; intros n n' content t Hp Hwf Hw.
  - destruct n; discriminate.
  - destruct n as [c0 t0|es]; [discriminate|]. inversion Hp; subst.
    destruct p as [|s' p].
    + rewrite TreeWrites.write_last in Hw.
      destruct (Tree.child s es) as [[c1 t1|es1]|]; try discriminate;
        inversion Hw; subst n'; apply well_formed_set_child; auto.
    + rewrite TreeWrites.write_cons in Hw.
      destruct (Tree.child s es) as [c|] eqn:Es; [|discriminate].
      destruct (Tree.write (s' :: p) _ c) as [e|c'] eqn:Ec; [discriminate|].
      inversion Hw; subst n'. apply well_formed_set_child; try assumption.
      eapply IH; [eassumption| |exact Ec]. eapply well_formed_child; eassumption.
Qed.

End SubtreeFacts.

(** ** The file tree of a reply, created entry by entry *)

Module CreationFacts.
Import Names.

Lemma prefixb_antisym p : forall q,
  prefixb p q = true -> prefixb q p = true -> p = q.
Proof.
  induction p as [|a p IH]; intros [|b q] Hpq Hqp; try reflexivity; try discriminate.
  cbn [prefixb] in *. apply andb_true_iff in Hpq, Hqp.
  destruct Hpq as [Hab Hpq], Hqp as [_ Hqp].
  apply String.eqb_eq in Hab. subst b. f_equal. apply IH; assumption.
Qed.

Lemma prefixb_length p : forall q, prefixb p q = true -> (List.length p <= List.length q)%nat.
Proof.
  induction p as [|a p IH]; intros [|b q] H; cbn [List.length] in *; try lia;
    try discriminate.
  cbn [prefixb] in H. apply andb_true_iff in H. destruct H as [_ H].
  specialize (IH _ H). lia.
Qed.

Lemma not_prefix_of_removelast l : l <> [] -> prefixb l (removelast l) = false.
Proof.
  intros Hne. destruct (prefixb l (removelast l)) eqn:E; [|reflexivity].
  apply prefixb_length in E.
  rewrite (app_removelast_last "" Hne) in E at 1.
  rewrite length_app in E. cbn in E. lia.
Qed.

Lemma removelast_valid l :
  Forall (fun s => Path.valid_name s = true) l ->
  Forall (fun s => Path.valid_name s = true) (removelast l).
Proof.
  intros H. rewrite Forall_forall in *. intros x Hx. apply H.
  destruct l as [|a l]; [destruct Hx|].
  rewrite (app_removelast_last "" (l := a :: l)) by discriminate.
  apply in_or_app. left. exact Hx.
Qed.

(** What a tree holds when directories have been created in it. *)
Lemma after_mkdir l sub sub' p m :
  Tree.mkdir_p l sub = inr sub' -> Tree.lookup p sub' = Some m ->
  (prefixb p l = true /\ kind_of m = KDir) \/
  (prefixb p l = false /\ Tree.lookup p sub = Some m).
Proof.
  intros Hm Hl. destruct (prefixb p l) eqn:E.
  - left. split; [reflexivity|].
    destruct (TreeWrites.lookup_mkdir_p_prefix _ _ _ _ Hm E) as (es & Hes).
    rewrite Hes in Hl. inversion Hl. reflexivity.
  - right. split; [reflexivity|].
    rewrite <- (TreeWrites.lookup_mkdir_p_other _ _ _ _ Hm E). exact Hl.
Qed.

(** What a tree holds when a file has been written in it. *)
Lemma after_write l content t sub sub' p m :
  Tree.write l (File content t) sub = inr sub' -> Tree.lookup p sub' = Some m ->
  (p = l /\ m = File content t) \/
  (prefixb p l = true /\ p <> l /\ kind_of m = KDir) \/
  (prefixb p l = false /\ Tree.lookup p sub = Some m).
Proof.
  intros Hw Hl. destruct (prefixb p l) eqn:E.
  - destruct (list_eq_dec string_dec p l) as [Heq|Hne].
    + left. subst p. rewrite (TreeWrites.lookup_write _ _ _ _ Hw) in Hl.
      inversion Hl. auto.
    + right. left. split; [reflexivity|]. split; [exact Hne|].
      destruct (TreeWrites.kind_write_prefix _ _ _ _ _ Hw E Hne) as [Hk _].
      unfold kind_at in Hk. rewrite Hl in Hk. inversion Hk. reflexivity.
  - right. right. split; [reflexivity|].
    rewrite <- (TreeWrites.lookup_write_other _ _ _ _ _ _ Hw E). exact Hl.
Qed.

Lemma covered_more e done p m :
  Descriptor.covered done p m -> Descriptor.covered (e :: done) p m.
Proof. intros (e' & Hin & H). exists e'. split; [right; exact Hin|exact H]. Qed.

Section Entries.

Variable now : Z.
Variable E : list (string * JSON).

Hypothesis named : forall e,
  In e E ->
  Descriptor.entry_names e <> [] /\
  Forall (fun s => Path.valid_name s = true) (Descriptor.entry_names e).

Hypothesis compat : forall e e',
  In e E -> In e' E ->
  Descriptor.entry_kind e = KFile ->
  prefixb (Descriptor.entry_names e) (Descriptor.entry_names e') = true ->
  Descriptor.entry_names e' = Descriptor.entry_names e /\
  Descriptor.entry_kind e' = KFile.

(** A file on the path of an entry is the file of this entry. *)
Lemma file_on_path done sub e q :
  Descriptor.created done sub -> incl done E -> In e E ->
  prefixb q (Descriptor.entry_names e) = true ->
  kind_at q sub = Some KFile ->
  Descriptor.entry_kind e = KFile /\ q = Descriptor.entry_names e.
Proof.
  intros (Hwf & Hdir & Hcov & Hkinds) Hincl He Hq Hk.
  unfold kind_at in Hk. destruct (Tree.lookup q sub) as [m|] eqn:El; [|discriminate].
  cbn [option_map] in Hk. assert (Hm : kind_of m = KFile) by congruence. clear Hk.
  destruct q as [|s q].
  - inversion El; subst m. congruence.
  - assert (Hne : s :: q <> []) by discriminate.
    destruct (Hcov _ _ Hne El) as (e' & Hin & [(_ & Hk' & Hn')|(Hd & _)]);
      [|congruence].
    rewrite <- Hn' in Hq.
    destruct (compat e' e (Hincl _ Hin) He Hk' Hq) as [Hn Hke].
    split; [exact Hke|]. congruence.
Qed.

(** A directory entry is created, whatever was created before. *)
Lemma create_directory done sub e :
  Descriptor.created done sub -> incl done E -> In e E ->
  Descriptor.entry_kind e = KDir ->
  exists sub', Descriptor.apply now e sub = inr sub' /\
               Descriptor.created (e :: done) sub'.
Proof.
  intros Hc Hincl He Hkd. pose proof Hc as (Hwf & Hdir & Hcov & Hkinds).
  destruct (named e He) as [Hne Hvalid].
  unfold Descriptor.apply. rewrite Hkd.
  destruct (TreeWrites.mkdir_p_succeeds (Descriptor.entry_names e) sub) as (sub' & Hm).
  { intros q Hq Hk. destruct (file_on_path done sub e q Hc Hincl He Hq Hk). congruence. }
  exists sub'. split; [exact Hm|].
  split; [eapply SubtreeFacts.well_formed_mkdir_p; eassumption|].
  split; [destruct (TreeWrites.mkdir_p_is_dir _ _ _ Hm) as (es & Hes); subst; reflexivity|].
  split.
  - intros p m Hp Hl.
    destruct (after_mkdir _ _ _ _ _ Hm Hl) as [[Hpre Hk]|[Hpre Hold]].
    + exists e. split; [left; reflexivity|]. right.
      split; [exact Hk|]. split; [exact Hpre|]. congruence.
    + apply covered_more. apply Hcov; assumption.
  - intros e' [Heq|Hin].
    + subst e'. rewrite Hkd.
      destruct (TreeWrites.lookup_mkdir_p_prefix _ _ _ _ Hm (TreeWrites.prefixb_refl _))
        as (es & Hes).
      unfold kind_at. rewrite Hes. reflexivity.
    + destruct (prefixb (Descriptor.entry_names e') (Descriptor.entry_names e)) eqn:Ep.
      * destruct (TreeWrites.lookup_mkdir_p_prefix _ _ _ _ Hm Ep) as (es & Hes).
        unfold kind_at. rewrite Hes. cbn [option_map kind_of].
        destruct (Descriptor.entry_kind e') eqn:Ek'; [|reflexivity].
        destruct (compat e' e (Hincl _ Hin) He Ek' Ep). congruence.
      * unfold kind_at. rewrite (TreeWrites.lookup_mkdir_p_other _ _ _ _ Hm Ep).
        apply Hkinds, Hin.
Qed.

(** A file entry is created, whatever was created before. *)
Lemma create_file done sub e :
  Descriptor.created done sub -> incl done E -> In e E ->
  Descriptor.entry_kind e = KFile ->
  exists sub', Descriptor.apply now e sub = inr sub' /\
               Descriptor.created (e :: done) sub'.
Proof.
  intros Hc Hincl He Hkd. pose proof Hc as (Hwf & Hdir & Hcov & Hkinds).
  destruct (named e He) as [Hne Hvalid].
  set (l := Descriptor.entry_names e) in *.
  pose proof (MaterializerFacts.prefixb_removelast l) as Hdl.
  pose proof (not_prefix_of_removelast l Hne) as Hld.
  unfold Descriptor.apply. rewrite Hkd. fold l.
  destruct (TreeWrites.mkdir_p_succeeds (removelast l) sub) as (sub1 & Hm).
  { intros q Hq Hk.
    destruct (file_on_path done sub e q Hc Hincl He
                (MaterializerFacts.prefixb_trans _ _ _ Hq Hdl) Hk) as [_ Heq].
    fold l in Heq. subst q. congruence. }
  rewrite Hm.
  assert (Hsame : forall p, prefixb p l = false ->
                            Tree.lookup p sub1 = Tree.lookup p sub).
  { intros p Hp. apply (TreeWrites.lookup_mkdir_p_other _ _ _ _ Hm).
    destruct (prefixb p (removelast l)) eqn:Ep; [|reflexivity].
    rewrite (MaterializerFacts.prefixb_trans _ _ _ Ep Hdl) in Hp. discriminate. }
  assert (Hself : prefixb l l = true) by apply TreeWrites.prefixb_refl.
  assert (Hwrite : exists sub', Tree.write l (File (Descriptor.content_of (snd e)) now) sub1
                                = inr sub').
  { rewrite (app_removelast_last "" Hne).
    apply TreeWrites.write_succeeds.
    - destruct (TreeWrites.lookup_mkdir_p_prefix _ _ _ _ Hm (TreeWrites.prefixb_refl _))
        as (es & Hes).
      unfold kind_at. rewrite Hes. reflexivity.
    - rewrite <- (app_removelast_last "" Hne). unfold kind_at.
      rewrite (TreeWrites.lookup_mkdir_p_other _ _ _ _ Hm Hld).
      destruct (Tree.lookup l sub) as [m|] eqn:El; [|discriminate].
      cbn [option_map]. intros Hk. assert (Hmk : kind_of m = KDir) by congruence.
      destruct (Hcov _ _ Hne El) as (e' & Hin & [(Hf & _)|(_ & Hpre & Hnot)]);
        [congruence|].
      destruct (compat e e' He (Hincl _ Hin) Hkd Hpre) as [Hn Hke].
      apply (Hnot Hke). symmetry. exact Hn. }
  destruct Hwrite as (sub' & Hw). exists sub'. split; [exact Hw|].
  split.
  { eapply SubtreeFacts.well_formed_write; [exact Hvalid| |exact Hw].
    eapply SubtreeFacts.well_formed_mkdir_p; [|exact Hwf|exact Hm].
    apply removelast_valid, Hvalid. }
  split.
  { destruct sub1 as [c1 t1|es1]; [destruct l; discriminate Hw|].
    destruct l as [|s l']; [discriminate Hw|].
    cbn [Tree.write] in Hw. destruct l' as [|s' l''].
    - destruct (Tree.child s es1) as [[|]|]; try discriminate; inversion Hw; reflexivity.
    - destruct (Tree.child s es1) as [c|]; [|discriminate].
      destruct (Tree.write _ _ c); [discriminate|]. inversion Hw. reflexivity. }
  split.
  - intros p m Hp Hl.
    destruct (after_write _ _ _ _ _ _ _ Hw Hl) as [[Heq Hf]|[(Hpre & Hnot & Hk)|[Hpre Hold]]].
    + exists e. split; [left; reflexivity|]. left. subst m. auto.
    + exists e. split; [left; reflexivity|]. right. auto.
    + apply covered_more. apply Hcov; [exact Hp|].
      rewrite <- (Hsame p Hpre). exact Hold.
  - intros e' [Heq|Hin].
    + subst e'. rewrite Hkd. unfold kind_at. fold l.
      rewrite (TreeWrites.lookup_write _ _ _ _ Hw). reflexivity.
    + set (l' := Descriptor.entry_names e').
      destruct (prefixb l' l) eqn:Ep.
      * destruct (list_eq_dec string_dec l' l) as [Heq|Hneq].
        -- rewrite Heq. unfold kind_at. rewrite (TreeWrites.lookup_write _ _ _ _ Hw).
           cbn [option_map kind_of].
           assert (Hpre : prefixb l l' = true) by (rewrite Heq; exact Hself).
           destruct (compat e e' He (Hincl _ Hin) Hkd Hpre) as [_ Hke]. congruence.
        -- destruct (TreeWrites.kind_write_prefix _ _ _ _ _ Hw Ep Hneq) as [Hk _].
           rewrite Hk.
           destruct (Descriptor.entry_kind e') eqn:Ek'; [|reflexivity].
           destruct (compat e' e (Hincl _ Hin) He Ek' Ep) as [Hn _].
           exfalso. apply Hneq. symmetry. exact Hn.
      * unfold kind_at. rewrite (TreeWrites.lookup_write_other _ _ _ _ _ _ Hw Ep).
        rewrite (Hsame _ Ep). apply Hkinds, Hin.
Qed.

(** Every entry of the file tree is created, in any order. *)
Lemma create_all rest : forall done sub,
  Descriptor.created done sub -> incl done E -> incl rest E ->
  exists sub', Descriptor.apply_all now rest sub = inr sub' /\
               Descriptor.created (rev rest ++ done) sub'.
Proof.
  induction rest as [|e rest IH]; intros done sub Hc Hdone Hrest.
  - exists sub. split; [reflexivity|exact Hc].
  - assert (He : In e E) by (apply Hrest; left; reflexivity).
    assert (Hstep : exists sub1, Descriptor.apply now e sub = inr sub1 /\
                                 Descriptor.created (e :: done) sub1).
    { destruct (Descriptor.entry_kind e) eqn:Ek;
        [apply create_file|apply create_directory]; assumption. }
    destruct Hstep as (sub1 & Ha & Hc1).
    destruct (IH (e :: done) sub1 Hc1) as (sub' & Hall & Hc').
    + intros x [Hx|Hx]; [subst x; exact He|apply Hdone, Hx].
    + intros x Hx. apply Hrest. right. exact Hx.
    + exists sub'. cbn [Descriptor.apply_all rev]. rewrite Ha.
      split; [exact Hall|]. rewrite <- app_assoc. exact Hc'.
Qed.

End Entries.

End CreationFacts.

(** ** An entry of the file tree, on the file system *)

Module EntryFacts.
Import Names.

(** A text that ends with a slash has an empty last segment. *)
Lemma segments_trailing key :
  Str.ends_with "/" key = true ->
  Path.segments_of key = (removelast (Path.segments_of key) ++ [""])%list.
Proof.
  induction key as [|c s IH]; [discriminate|].
  rewrite TrailingFacts.ends_with_cons, PathFacts.segments_cons.
  intros H. apply orb_true_iff in H. destruct H as [H|H].
  - apply String.eqb_eq in H. inversion H; subst. reflexivity.
  - specialize (IH H). pose proof (PathFacts.segments_nonempty s) as Hne.
    destruct (Ascii.eqb c Path.slash).
    + destruct (Path.segments_of s) as [|h t] eqn:Es; [congruence|].
      change (removelast ("" :: h :: t)) with ("" :: removelast (h :: t)).
      cbn [app]. rewrite <- IH. reflexivity.
    + destruct (Path.segments_of s) as [|h t] eqn:Es; [congruence|].
      destruct t as [|h' t].
      * cbn in IH. inversion IH; subst h.
        pose proof (PathFacts.join_segments s) as Hj. rewrite Es in Hj. cbn in Hj.
        subst s. discriminate H.
      * change (removelast (String c h :: h' :: t))
          with (String c h :: removelast (h' :: t)).
        change (removelast (h :: h' :: t)) with (h :: removelast (h' :: t)) in IH.
        change ((h :: removelast (h' :: t)) ++ [""])%list
          with (h :: (removelast (h' :: t) ++ [""]))%list in IH.
        change ((String c h :: removelast (h' :: t)) ++ [""])%list
          with (String c h :: (removelast (h' :: t) ++ [""]))%list.
        injection IH as Ht. f_equal. exact Ht.
Qed.

Lemma valid_kept l :
  Forall (fun s => Path.valid_name s = true) l -> filter kept l = l.
Proof.
  induction 1 as [|a l Ha _ IH]; [reflexivity|].
  cbn [filter]. rewrite IH. apply PathFacts.valid_name_spec in Ha.
  destruct Ha as (H1 & H2 & _). unfold kept.
  apply String.eqb_neq in H1, H2. rewrite H1, H2. reflexivity.
Qed.

Lemma valid_not_parent l :
  Forall (fun s => Path.valid_name s = true) l -> Forall (fun seg => seg <> "..") l.
Proof.
  intros H. eapply Forall_impl; [|exact H]. cbn beta. intros a Ha.
  apply PathFacts.valid_name_spec in Ha. tauto.
Qed.

(** The segments of the key of a well-named entry: its names, and an
    empty segment when the key ends with a slash. *)
Lemma segments_of_entry e :
  Descriptor.well_named e = true ->
  Descriptor.entry_names e <> [] /\
  Forall (fun s => Path.valid_name s = true) (Descriptor.entry_names e) /\
  (Descriptor.kind_of_entry (snd e) = Some (Descriptor.entry_kind e)) /\
  exists tail,
    Path.segments_of (fst e) = (Descriptor.entry_names e ++ tail)%list /\
    (tail = [] \/ tail = [""]) /\
    (Descriptor.entry_kind e = KFile -> tail = []).
Proof.
  unfold Descriptor.well_named, Descriptor.entry_names, Descriptor.entry_kind.
  destruct (Descriptor.kind_of_entry (snd e)) as [k|]; [|discriminate].
  destruct (Descriptor.names (fst e) k) as [|a l] eqn:En; [discriminate|].
  intros Hv. pose proof (proj1 (forallb_forall _ _) Hv) as Hall.
  split; [discriminate|]. split; [apply Forall_forall; intros x Hx; apply Hall, Hx|].
  split; [reflexivity|].
  unfold Descriptor.names in En. destruct k.
  - exists []. rewrite app_nil_r. auto.
  - destruct (Str.ends_with "/" (fst e)) eqn:Et.
    + exists [""]. rewrite <- En. split; [apply segments_trailing, Et|].
      split; [auto|discriminate].
    + exists []. rewrite app_nil_r. split; [exact En|]. auto.
Qed.

Section Project.

Context `{Platform}.
Variable now : Z.
Variable projectPath : string.
Hypothesis projectPath_absolute : Path.is_absolute projectPath = true.

(** The path of an entry is the path of the project, then its names. *)
Lemma entry_components e :
  Descriptor.well_named e = true ->
  Fs.components (Path.join [projectPath; fst e])
  = (Fs.components projectPath ++ Descriptor.entry_names e)%list.
Proof.
  intros Hwn. destruct (segments_of_entry e Hwn) as (_ & Hv & _ & tail & Hs & Ht & _).
  rewrite MaterializerFacts.entry_inside; [|assumption|].
  - rewrite Hs, filter_app, (valid_kept _ Hv).
    destruct Ht as [Ht|Ht]; subst tail; cbn; rewrite app_nil_r; reflexivity.
  - rewrite Hs. apply Forall_app. split; [apply valid_not_parent, Hv|].
    destruct Ht as [Ht|Ht]; subst tail; repeat constructor; discriminate.
Qed.

Lemma entry_dirname e :
  Descriptor.well_named e = true ->
  Fs.components (Path.dirname (Path.join [projectPath; fst e]))
  = (Fs.components projectPath ++ removelast (Descriptor.entry_names e))%list.
Proof.
  intros Hwn. destruct (segments_of_entry e Hwn) as (Hne & _).
  rewrite DirnameFacts.components_dirname_join by assumption.
  rewrite entry_components by assumption. apply removelast_app, Hne.
Qed.

(** The path of a file entry ends with no slash. *)
Lemma entry_trailing e :
  Descriptor.well_named e = true -> Descriptor.entry_kind e = KFile ->
  Path.has_trailing_slash (Path.join [projectPath; fst e]) = false.
Proof.
  intros Hwn Hk.
  destruct (segments_of_entry e Hwn) as (Hne & Hv & _ & tail & Hs & _ & Ht).
  rewrite (Ht Hk), app_nil_r in Hs.
  assert (Hends : Str.ends_with "/" (fst e) = false).
  { destruct (Str.ends_with "/" (fst e)) eqn:E; [|reflexivity].
    pose proof (segments_trailing _ E) as Hst. rewrite Hs in Hst.
    rewrite Forall_forall in Hv.
    assert (Hin : In "" (Descriptor.entry_names e))
      by (rewrite Hst; apply in_or_app; right; left; reflexivity).
    specialize (Hv _ Hin). discriminate Hv. }
  assert (Hkey : fst e <> "").
  { intros Heq. rewrite Heq in Hs. cbn in Hs. rewrite <- Hs in Hv.
    inversion Hv; subst. discriminate. }
  pose proof (entry_components e Hwn) as Hc.
  destruct (PathFacts.join_absolute projectPath [fst e] projectPath_absolute)
    as [Hjoin Habs].
  assert (Hf : filter nonempty [fst e] = [fst e]).
  { cbn [filter]. unfold nonempty. apply String.eqb_neq in Hkey. rewrite Hkey. reflexivity. }
  rewrite Hf in Hjoin, Habs. rewrite Hjoin in Hc |- *.
  rewrite PathFacts.components_normalize in Hc by assumption.
  rewrite PathFacts.normalize_absolute by assumption.
  pose proof (PathFacts.components_valid (Str.join "/" [projectPath; fst e])) as Hvalid.
  destruct (Fs.components (Str.join "/" [projectPath; fst e])) as [|a l] eqn:Ec.
  { symmetry in Hc. apply app_eq_nil in Hc. tauto. }
  rewrite TrailingFacts.render_trailing by assumption.
  rewrite TrailingFacts.trailing_slash_eq.
  change (Str.join "/" [projectPath; fst e]) with (projectPath ++ "/" ++ fst e).
  rewrite TrailingFacts.ends_with_slash_app by discriminate.
  rewrite (TrailingFacts.ends_with_slash_app "/") by assumption.
  exact Hends.
Qed.

(** What the entry reads of its data. *)
Lemma entry_data e :
  Descriptor.well_named e = true ->
  exists props,
    snd e = JObj props /\
    match Descriptor.entry_kind e with
    | KDir => Js.is_string "directory" (Js.obj_get "type" props) = true
    | KFile =>
        Js.is_string "directory" (Js.obj_get "type" props) = false /\
        Js.is_string "file" (Js.obj_get "type" props) = true /\
        Js.or (Js.obj_get "content" props) (Some (JStr ""))
          = Some (JStr (Descriptor.content_of (snd e)))
    end.
Proof.
  unfold Descriptor.well_named, Descriptor.entry_kind, Descriptor.content_of.
  destruct (snd e) as [| | | | |props]; try discriminate. cbn [Descriptor.kind_of_entry].
  intros Hwn. exists props. split; [reflexivity|]. cbn [Js.own_props].
  destruct (Js.obj_get "type" props) as [[| | |type| |]|]; try discriminate.
  cbn [Js.is_string].
  destruct (String.eqb type "directory"); [reflexivity|].
  destruct (String.eqb type "file"); [|discriminate].
  destruct (Js.obj_get "content" props) as [[| | |content| |]|]; try discriminate.
  - split; [reflexivity|]. split; [reflexivity|].
    unfold Js.or. cbn [Js.truthy].
    destruct (String.eqb content "") eqn:E; [|reflexivity].
    apply String.eqb_eq in E. subst. reflexivity.
  - auto.
Qed.

(** An entry acts on the directory of the project as on a tree. *)
Lemma createEntry_step e w sub sub' :
  Descriptor.well_named e = true ->
  Tree.lookup (Fs.components projectPath) (fs_root w) = Some sub ->
  Descriptor.apply now e sub = inr sub' ->
  exists w',
    FileSystemManager.createEntry now projectPath e w = (w', Return tt) /\
    Tree.lookup (Fs.components projectPath) (fs_root w') = Some sub'.
Proof.
  intros Hwn Hsub Happly. destruct (entry_data e Hwn) as (props & Hdata & Hkind).
  destruct e as [filePath fileData]. cbn [fst snd] in *. subst fileData.
  pose proof (entry_components (filePath, JObj props) Hwn) as Hcomp.
  pose proof (entry_dirname (filePath, JObj props) Hwn) as Hdir.
  pose proof (entry_trailing (filePath, JObj props) Hwn) as Htrail.
  cbn [fst] in Hcomp, Hdir, Htrail.
  unfold FileSystemManager.createEntry, Descriptor.apply in *.
  cbn [snd] in Happly.
  unfold bind at 1, lift at 1. cbn [Js.get_prop Js.own_props].
  destruct (Descriptor.entry_kind (filePath, JObj props)) eqn:Ek.
  - destruct Hkind as (Hnd & Hf & Hcontent). rewrite Hnd, Hf.
    destruct (Tree.mkdir_p _ sub) as [err|sub1] eqn:Em; [discriminate|].
    destruct (SubtreeFacts.mkdir_p_below _ _ _ _ _ Hsub Em) as (root1 & Hm1 & Hl1).
    unfold bind at 1, Fs.mkdir at 1.
    rewrite Hdir. cbn [fst]. rewrite Hm1.
    unfold bind at 1, lift at 1. rewrite Hcontent.
    destruct (SubtreeFacts.write_below _ _ _ _ _ _ Hl1 Happly) as (root2 & Hw2 & Hl2).
    unfold Fs.writeFile, Fs.write_content.
    rewrite (Htrail eq_refl), Hcomp. cbn [fst fs_root].
    rewrite Hw2. eexists. split; [reflexivity|exact Hl2].
  - rewrite Hkind.
    destruct (SubtreeFacts.mkdir_p_below _ _ _ _ _ Hsub Happly) as (root1 & Hm1 & Hl1).
    unfold Fs.mkdir. rewrite Hcomp. cbn [fst]. rewrite Hm1. eexists. split; [reflexivity|exact Hl1].
Qed.

(** The loop over the entries acts on the directory of the project as
    on a tree. *)
Lemma for_of_step entries : forall w sub sub',
  (forall e, In e entries -> Descriptor.well_named e = true) ->
  Tree.lookup (Fs.components projectPath) (fs_root w) = Some sub ->
  Descriptor.apply_all now entries sub = inr sub' ->
  exists w',
    for_of entries (FileSystemManager.createEntry now projectPath) w = (w', Return tt) /\
    Tree.lookup (Fs.components projectPath) (fs_root w') = Some sub'.
Proof.
  induction entries as [|e entries IH]; intros w sub sub' Hwn Hsub Hall.
  - inversion Hall; subst. exists w. split; [reflexivity|exact Hsub].
  - cbn [Descriptor.apply_all] in Hall.
    destruct (Descriptor.apply now e sub) as [err|sub1] eqn:Ea; [discriminate|].
    destruct (createEntry_step e w sub sub1 (Hwn e (or_introl eq_refl)) Hsub Ea)
      as (w1 & Hw1 & Hl1).
    destruct (IH w1 sub1 sub' (fun x Hx => Hwn x (or_intror Hx)) Hl1 Hall)
      as (w' & Hw' & Hl').
    exists w'. split; [|exact Hl']. cbn [for_of]. unfold bind. rewrite Hw1. exact Hw'.
Qed.

End Project.

End EntryFacts.

Module RoundTripFacts.
Import Names.

(** What a well-formed file tree gives for its entries. *)
Lemma well_formed_named fileTree e :
  Descriptor.well_formed fileTree = true -> In e fileTree ->
  Descriptor.well_named e = true.
Proof.
  unfold Descriptor.well_formed. intros H Hin. apply andb_true_iff in H.
  destruct H as [H _]. exact (proj1 (forallb_forall _ _) H e Hin).
Qed.

Lemma well_formed_compatible fileTree e e' :
  Descriptor.well_formed fileTree = true -> In e fileTree -> In e' fileTree ->
  Descriptor.entry_kind e = KFile ->
  prefixb (Descriptor.entry_names e) (Descriptor.entry_names e') = true ->
  Descriptor.entry_names e' = Descriptor.entry_names e /\
  Descriptor.entry_kind e' = KFile.
Proof.
  unfold Descriptor.well_formed. intros H He He' Hk Hp. apply andb_true_iff in H.
  destruct H as [_ H].
  pose proof (proj1 (forallb_forall _ _) (proj1 (forallb_forall _ _) H e He) e' He') as Hc.
  unfold Descriptor.compatible, Descriptor.is_file in Hc. rewrite Hk, Hp in Hc.
  cbn [andb] in Hc. apply andb_true_iff in Hc. destruct Hc as [Hf Hq].
  split.
  - symmetry. apply CreationFacts.prefixb_antisym; assumption.
  - destruct (Descriptor.entry_kind e'); [reflexivity|discriminate].
Qed.

(** The storage root being a directory, a project that is not there can
    be created. *)
Lemma fresh_project root R name :
  kind_at R root = Some KDir -> Tree.lookup (R ++ [name]) root = None ->
  exists root', Tree.mkdir_p (R ++ [name]) root = inr root' /\
                Tree.lookup (R ++ [name]) root' = Some (Dir []).
Proof.
  intros Hdir Hnone.
  destruct (TreeWrites.mkdir_p_succeeds (R ++ [name]) root) as (root' & Hm).
  { intros q Hq Hk. apply TreeWrites.prefixb_spec in Hq. destruct Hq as (r & Hr).
    unfold kind_at in Hk, Hdir.
    destruct (Tree.lookup q root) as [[content t|es]|] eqn:El; try discriminate.
    destruct r as [|x r] using rev_ind.
    - rewrite app_nil_r in Hr. subst q. congruence.
    - clear IHr. rewrite app_assoc in Hr. apply app_inj_tail in Hr.
      destruct Hr as [HR _]. subst R.
      rewrite TreeWrites.lookup_app, El in Hdir. destruct r; discriminate. }
  exists root'. split; [exact Hm|]. eapply SubtreeFacts.mkdir_p_fresh; eassumption.
Qed.

Lemma created_empty : Descriptor.created [] (Dir []).
Proof.
  split; [reflexivity|]. split; [reflexivity|]. split.
  - intros p m Hp Hl. destruct p; [congruence|discriminate].
  - intros e [].
Qed.

Lemma entry_of_kind m : Scan.entry_of m = Descriptor.entry_for (kind_of m).
Proof. destruct m; reflexivity. Qed.

(** The project of a well-formed file tree is created: its directory
    holds what the entries, applied to an empty directory, leave. *)
Lemma materialized `{Platform} now projectId fileTree w :
  Path.valid_name projectId = true ->
  kind_at (Fs.components PROJECTS_DIR) (fs_root w) = Some KDir ->
  Tree.lookup (Fs.components PROJECTS_DIR ++ [projectId])%list (fs_root w) = None ->
  Descriptor.well_formed fileTree = true ->
  let projectPath := Path.join [PROJECTS_DIR; projectId] in
  exists w' es,
    FileSystemManager.createProjectFiles now projectId (Some (JObj fileTree)) w
      = (w', Return projectPath) /\
    Tree.lookup (Fs.components projectPath) (fs_root w') = Some (Dir es) /\
    Descriptor.apply_all now fileTree (Dir []) = inr (Dir es) /\
    Descriptor.created (rev fileTree) (Dir es).
Proof.
  intros Hid Hroot Hnew Hwf projectPath.
  pose proof PathFacts.PROJECTS_DIR_absolute as Hpd.
  assert (Habs : Path.is_absolute projectPath = true)
    by apply PathFacts.join_is_absolute, Hpd.
  assert (HR : Fs.components projectPath = (Fs.components PROJECTS_DIR ++ [projectId])%list)
    by (apply PathFacts.components_join_name; assumption).
  destruct (fresh_project _ _ _ Hroot Hnew) as (root1 & Hm1 & Hl1).
  assert (Hnamed : forall e, In e fileTree -> Descriptor.well_named e = true)
    by (intros e He; eapply well_formed_named; eassumption).
  destruct (CreationFacts.create_all now fileTree) with (rest := fileTree) (done := @nil (string * JSON)) (sub := Dir [])
    as (sub & Hall & Hcreated).
  { intros e He. destruct (EntryFacts.segments_of_entry e (Hnamed e He)) as (H1 & H2 & _).
    auto. }
  { intros e e' He He'. apply well_formed_compatible with fileTree; assumption. }
  { apply created_empty. }
  { intros x []. }
  { intros x Hx. exact Hx. }
  rewrite app_nil_r in Hcreated.
  set (w1 := mkWorld root1 (console w)).
  assert (Hsub1 : Tree.lookup (Fs.components projectPath) (fs_root w1) = Some (Dir []))
    by (rewrite HR; exact Hl1).
  destruct (EntryFacts.for_of_step now projectPath Habs fileTree w1 (Dir []) sub
              Hnamed Hsub1 Hall) as (w' & Hloop & Hsub).
  destruct sub as [content t|es]; [destruct Hcreated as (_ & Hkd & _); discriminate Hkd|].
  exists w', es. split; [|auto].
  unfold FileSystemManager.createProjectFiles. fold projectPath.
  assert (Hmk : Fs.mkdir projectPath w = (w1, Return tt)).
  { unfold Fs.mkdir. rewrite HR, Hm1. reflexivity. }
  erewrite GeneratorFacts.bind_return by exact Hmk.
  erewrite GeneratorFacts.bind_return by reflexivity.
  cbn [Js.own_props].
  erewrite GeneratorFacts.bind_return by exact Hloop. reflexivity.
Qed.

End RoundTripFacts.

(** X21.  createProjectFiles and getFileTree are a round trip on the
    paths of a well-formed file tree, but for the path [__proto__].  When
    the storage root is a directory, the project is new, every key is a
    path of names (the key of a directory may end with a slash), every
    entry is a directory or a file with a text or no content, and no file
    stands where another entry needs a directory, then createProjectFiles
    succeeds, and the tree that getFileTree returns has every entry of
    the file tree whose path is not the single name [__proto__] under its
    path with its type, the files under their very keys, and, besides,
    only directories on the paths of the entries; it has no key
    [__proto__]. *)
Theorem createProjectFiles_then_getFileTree_but_proto :
  forall `{Platform} (now : Z) (projectId : string) (fileTree : Js.obj) (w : World),
    Path.valid_name projectId = true ->
    Names.kind_at (Fs.components PROJECTS_DIR) (fs_root w) = Some Names.KDir ->
    Tree.lookup (Fs.components PROJECTS_DIR ++ [projectId])%list (fs_root w) = None ->
    Descriptor.well_formed fileTree = true ->
    let projectPath := Path.join [PROJECTS_DIR; projectId] in
    exists w' tree,
      FileSystemManager.createProjectFiles now projectId (Some (JObj fileTree)) w
        = (w', Return projectPath) /\
      FileSystemManager.getFileTree projectPath w' = (w', Return tree) /\
      (forall e,
          In e fileTree ->
          Descriptor.entry_names e <> ["__proto__"] ->
          Js.obj_get (Str.join "/" (Descriptor.entry_names e)) tree
            = Some (Descriptor.entry_for (Descriptor.entry_kind e))) /\
      (forall key fileData,
          In (key, fileData) fileTree ->
          Descriptor.is_file (key, fileData) = true ->
          key <> "__proto__" ->
          Js.obj_get key tree = Some FileSystemManager.file_entry) /\
      Js.obj_get "__proto__" tree = None /\
      (forall k v,
          Js.obj_get k tree = Some v ->
          exists e p,
            In e fileTree /\ k = Str.join "/" p /\
            Names.prefixb p (Descriptor.entry_names e) = true /\
            ((v = FileSystemManager.file_entry /\ Descriptor.is_file e = true /\
              p = Descriptor.entry_names e) \/
             (v = FileSystemManager.directory_entry /\
              (Descriptor.is_file e = true -> p <> Descriptor.entry_names e)))).
Proof.
  intros P now projectId fileTree w Hid Hroot Hnew Hwf projectPath.
  destruct (RoundTripFacts.materialized now projectId fileTree w Hid Hroot Hnew Hwf)
    as (w' & es & Hcreate & Hsub & _ & Hcreated).
  fold projectPath in Hcreate, Hsub.
  destruct Hcreated as (Hwfs & Hkd & Hcov & Hkinds).
  assert (Hnamed : forall e, In e fileTree -> Descriptor.well_named e = true)
    by (intros e He; eapply RoundTripFacts.well_formed_named; eassumption).
  exists w', (FileSystemManager.scan "" (Dir es)).
  split; [exact Hcreate|].
  split; [apply StoreFacts.getFileTree_directory with (es := es); exact Hsub|].
  assert (Hentry : forall e, In e fileTree ->
            Descriptor.entry_names e <> ["__proto__"] ->
            Js.obj_get (Str.join "/" (Descriptor.entry_names e))
              (FileSystemManager.scan "" (Dir es))
            = Some (Descriptor.entry_for (Descriptor.entry_kind e))).
  { intros e He Hproto. apply in_rev in He. specialize (Hkinds e He).
    unfold Names.kind_at in Hkinds.
    destruct (Tree.lookup (Descriptor.entry_names e) (Dir es)) as [m|] eqn:El;
      [|discriminate].
    cbn [option_map] in Hkinds. assert (Hm : Names.kind_of m = Descriptor.entry_kind e)
      by congruence.
    rewrite <- Hm, <- RoundTripFacts.entry_of_kind.
    apply ScanFacts.scan_exact; [exact Hwfs| |exact Hproto|exact El].
    apply in_rev in He.
    destruct (EntryFacts.segments_of_entry e (Hnamed e He)) as (H1 & _). exact H1. }
  split; [exact Hentry|]. split; [|split].
  - intros key fileData He Hfile Hkey.
    assert (Hnames : Descriptor.entry_names (key, fileData) = Path.segments_of key).
    { unfold Descriptor.is_file in Hfile. unfold Descriptor.entry_names.
      destruct (Descriptor.entry_kind (key, fileData)); [reflexivity|discriminate]. }
    assert (Hproto : Descriptor.entry_names (key, fileData) <> ["__proto__"]).
    { rewrite Hnames. intros Hs. apply Hkey.
      rewrite <- (PathFacts.join_segments key), Hs. reflexivity. }
    specialize (Hentry _ He Hproto).
    unfold Descriptor.is_file in Hfile.
    destruct (Descriptor.entry_kind (key, fileData)) eqn:Ek; [|discriminate].
    rewrite Hnames, PathFacts.join_segments in Hentry. exact Hentry.
  - apply ScanFacts.scan_no_proto.
  - intros k v Hk.
    destruct (ScanFacts.scan_sound _ _ _ _ Hwfs Hk) as (p & m & Hp & Hl & Hkey & Hv).
    destruct (ScanFacts.lookup_valid _ _ _ Hwfs Hl) as [Hvalid _].
    rewrite ScanFacts.key_of_join in Hkey by assumption. cbn [String.eqb] in Hkey.
    destruct (Hcov _ _ Hp Hl) as (e & He & Hcase). apply in_rev in He.
    exists e, p. split; [exact He|]. split; [symmetry; exact Hkey|].
    unfold Descriptor.is_file.
    destruct Hcase as [(Hf & Hke & Hn)|(Hd & Hpre & Hnot)].
    + split; [rewrite Hn; apply TreeWrites.prefixb_refl|]. left.
      rewrite Hke. split; [|auto]. subst v. destruct m; [reflexivity|discriminate].
    + split; [exact Hpre|]. right.
      split; [subst v; destruct m; [discriminate|reflexivity]|].
      intros Hfile. apply Hnot.
      destruct (Descriptor.entry_kind e); [reflexivity|discriminate].
Qed.

Lemma createProjectFiles_then_getFileTree_but_proto_witness :
  let w := Examples.in_storage [] in
  Descriptor.well_formed Samples.scaffold = true /\
  exists w' tree,
    @FileSystemManager.createProjectFiles Runtime.runtime 5 "u1"
       (Some (JObj Samples.scaffold)) w = (w', Return "/app/generated_projects/u1") /\
    FileSystemManager.getFileTree "/app/generated_projects/u1" w' = (w', Return tree) /\
    Js.obj_get "src/app.js" tree = Some FileSystemManager.file_entry /\
    Js.obj_get "package.json" tree = Some FileSystemManager.file_entry /\
    Js.obj_get "src/controllers" tree = Some FileSystemManager.directory_entry.
Proof.
  intros w.
  assert (Hwf : Descriptor.well_formed Samples.scaffold = true) by (vm_compute; reflexivity).
  split; [exact Hwf|].
  destruct (@createProjectFiles_then_getFileTree_but_proto Runtime.runtime 5 "u1"
              Samples.scaffold w eq_refl eq_refl eq_refl Hwf)
    as (w' & tree & Hcreate & Hscan & Hentries & Hfiles & _).
  assert (Hin1 : In ("src/app.js", Samples.file "x") Samples.scaffold) by (cbn; auto).
  assert (Hin2 : In ("package.json", JObj [("type", JStr "file")]) Samples.scaffold)
    by (cbn; auto).
  assert (Hin3 : In ("src/controllers/", Samples.directory) Samples.scaffold)
    by (cbn; auto).
  assert (Hk1 : "src/app.js" <> "__proto__") by discriminate.
  assert (Hk2 : "package.json" <> "__proto__") by discriminate.
  assert (Hk3 : Descriptor.entry_names ("src/controllers/", Samples.directory)
                <> ["__proto__"]) by (vm_compute; discriminate).
  exists w', tree. split; [exact Hcreate|]. split; [exact Hscan|].
  split; [exact (Hfiles "src/app.js" (Samples.file "x") Hin1 eq_refl Hk1)|].
  split; [exact (Hfiles "package.json" (JObj [("type", JStr "file")]) Hin2 eq_refl Hk2)|].
  exact (Hentries ("src/controllers/", Samples.directory) Hin3 Hk3).
Defined.

(** The exception is real: the file of the key [__proto__] is created,
    and the listing of the project does not have it. *)
Remark created_proto_file_is_not_listed :
  let w := Examples.in_storage [] in
  let fileTree := [("__proto__", Samples.file "x"); ("a.js", Samples.file "y")] in
  let w' := fst (@FileSystemManager.createProjectFiles Runtime.runtime 5 "u1"
                   (Some (JObj fileTree)) w) in
  Descriptor.well_formed fileTree = true /\
  Tree.lookup ["app"; "generated_projects"; "u1"; "__proto__"] (fs_root w')
    = Some (File "x" 5) /\
  FileSystemManager.getFileTree "/app/generated_projects/u1" w'
    = (w', Return [("a.js", FileSystemManager.file_entry)]).
Proof. repeat split; vm_compute; reflexivity. Qed.

(** ** The contents of the files of a reply *)

Module ContentFacts.
Import Names.

(** An entry changes nothing off its path. *)
Lemma apply_frame now e sub sub' p :
  Descriptor.apply now e sub = inr sub' ->
  prefixb p (Descriptor.entry_names e) = false ->
  Tree.lookup p sub' = Tree.lookup p sub.
Proof.
  unfold Descriptor.apply. intros Ha Hp.
  destruct (Descriptor.entry_kind e).
  - destruct (Tree.mkdir_p _ sub) as [err|sub1] eqn:Em; [discriminate|].
    rewrite (TreeWrites.lookup_write_other _ _ _ _ _ _ Ha Hp).
    apply (TreeWrites.lookup_mkdir_p_other _ _ _ _ Em).
    destruct (prefixb p (removelast (Descriptor.entry_names e))) eqn:E; [|reflexivity].
    rewrite (MaterializerFacts.prefixb_trans _ _ _ E
               (MaterializerFacts.prefixb_removelast _)) in Hp.
    discriminate.
  - apply (TreeWrites.lookup_mkdir_p_other _ _ _ _ Ha Hp).
Qed.

(** A file entry leaves its file. *)
Lemma apply_written now e sub sub' :
  Descriptor.entry_kind e = KFile ->
  Descriptor.apply now e sub = inr sub' ->
  Tree.lookup (Descriptor.entry_names e) sub'
  = Some (File (Descriptor.content_of (snd e)) now).
Proof.
  unfold Descriptor.apply. intros Hk Ha. rewrite Hk in Ha.
  destruct (Tree.mkdir_p _ sub) as [err|sub1]; [discriminate|].
  apply (TreeWrites.lookup_write _ _ _ _ Ha).
Qed.

Lemma apply_all_frame now rest : forall sub sub' p,
  Descriptor.apply_all now rest sub = inr sub' ->
  (forall e, In e rest -> prefixb p (Descriptor.entry_names e) = false) ->
  Tree.lookup p sub' = Tree.lookup p sub.
Proof.
  induction rest as [|e rest IH]; intros sub sub' p Hall Hp.
  - inversion Hall. reflexivity.
  - cbn [Descriptor.apply_all] in Hall.
    destruct (Descriptor.apply now e sub) as [err|sub1] eqn:Ea; [discriminate|].
    rewrite (IH _ _ _ Hall (fun x Hx => Hp x (or_intror Hx))).
    apply (apply_frame _ _ _ _ _ Ea). apply Hp. left. reflexivity.
Qed.

Lemma apply_all_app now before : forall rest sub sub',
  Descriptor.apply_all now (before ++ rest) sub = inr sub' ->
  exists sub1, Descriptor.apply_all now before sub = inr sub1 /\
               Descriptor.apply_all now rest sub1 = inr sub'.
Proof.
  induction before as [|e before IH]; intros rest sub sub' Hall.
  - exists sub. split; [reflexivity|exact Hall].
  - cbn [app Descriptor.apply_all] in *.
    destruct (Descriptor.apply now e sub) as [err|sub0]; [discriminate|].
    apply IH, Hall.
Qed.

(** The key of a file entry is its names joined by slashes. *)
Lemma file_key e :
  Descriptor.entry_kind e = KFile ->
  Str.join "/" (Descriptor.entry_names e) = fst e.
Proof.
  intros Hk. unfold Descriptor.entry_names. rewrite Hk. apply PathFacts.join_segments.
Qed.

(** In a file tree of unique keys, the file of an entry holds the
    content of this entry when all entries are created. *)
Lemma file_content now fileTree e sub sub' :
  Descriptor.well_formed fileTree = true -> NoDup (map fst fileTree) ->
  In e fileTree -> Descriptor.entry_kind e = KFile ->
  Descriptor.apply_all now fileTree sub = inr sub' ->
  Tree.lookup (Descriptor.entry_names e) sub'
  = Some (File (Descriptor.content_of (snd e)) now).
Proof.
  intros Hwf Hnd He Hk Hall.
  destruct (in_split _ _ He) as (before & rest & Hsplit).
  rewrite Hsplit in Hall. apply apply_all_app in Hall.
  destruct Hall as (sub1 & _ & Hall). cbn [Descriptor.apply_all] in Hall.
  destruct (Descriptor.apply now e sub1) as [err|sub2] eqn:Ea; [discriminate|].
  rewrite (apply_all_frame _ _ _ _ _ Hall); [exact (apply_written _ _ _ _ Hk Ea)|].
  intros e' He'.
  destruct (prefixb (Descriptor.entry_names e) (Descriptor.entry_names e')) eqn:Ep;
    [|reflexivity].
  exfalso.
  assert (Hin' : In e' fileTree)
    by (rewrite Hsplit; apply in_or_app; right; right; exact He').
  destruct (RoundTripFacts.well_formed_compatible _ _ _ Hwf He Hin' Hk Ep) as [Hn Hk'].
  assert (Hkey : fst e' = fst e)
    by (rewrite <- (file_key e Hk), <- (file_key e' Hk'), Hn; reflexivity).
  rewrite Hsplit, map_app in Hnd. cbn [map] in Hnd.
  apply NoDup_remove_2 in Hnd. apply Hnd. apply in_or_app. right.
  rewrite <- Hkey. apply in_map, He'.
Qed.

End ContentFacts.

Module ReadBackFacts.
Import Names.

(** The joined path ends with a slash when its last part does. *)
Lemma join_trailing a rest key :
  Path.is_absolute a = true -> key <> "" ->
  Fs.components (Path.join (a :: rest ++ [key])) <> [] ->
  Path.has_trailing_slash (Path.join (a :: rest ++ [key])) = Str.ends_with "/" key.
Proof.
  intros Ha Hkey Hne.
  destruct (PathFacts.join_absolute a (rest ++ [key]) Ha) as [Hjoin Habs].
  assert (Hf : filter nonempty (rest ++ [key]) = (filter nonempty rest ++ [key])%list).
  { rewrite filter_app. cbn [filter]. unfold nonempty at 2.
    apply String.eqb_neq in Hkey. rewrite Hkey. reflexivity. }
  rewrite Hf in Hjoin, Habs.
  change (a :: filter nonempty rest ++ [key])%list
    with ((a :: filter nonempty rest) ++ [key])%list in Hjoin, Habs.
  rewrite TrailingFacts.join_snoc in Hjoin, Habs by discriminate.
  rewrite Hjoin in Hne |- *.
  rewrite PathFacts.components_normalize in Hne by assumption.
  rewrite PathFacts.normalize_absolute by assumption.
  pose proof (PathFacts.components_valid
                (Str.join "/" (a :: filter nonempty rest) ++ "/" ++ key)) as Hvalid.
  destruct (Fs.components (Str.join "/" (a :: filter nonempty rest) ++ "/" ++ key))
    as [|x l]; [congruence|].
  rewrite TrailingFacts.render_trailing by assumption.
  rewrite TrailingFacts.trailing_slash_eq.
  rewrite TrailingFacts.ends_with_slash_app by discriminate.
  apply (TrailingFacts.ends_with_slash_app "/"). exact Hkey.
Qed.

(** The key of a file entry is not empty and ends with no slash. *)
Lemma file_key_plain e :
  Descriptor.well_named e = true -> Descriptor.entry_kind e = KFile ->
  fst e <> "" /\ Str.ends_with "/" (fst e) = false.
Proof.
  intros Hwn Hk.
  destruct (EntryFacts.segments_of_entry e Hwn) as (Hne & Hv & _ & tail & Hs & _ & Ht).
  rewrite (Ht Hk), app_nil_r in Hs. split.
  - intros Heq. rewrite Heq in Hs. cbn in Hs. rewrite <- Hs in Hv.
    inversion Hv; subst. discriminate.
  - destruct (Str.ends_with "/" (fst e)) eqn:E; [|reflexivity].
    pose proof (EntryFacts.segments_trailing _ E) as Hst. rewrite Hs in Hst.
    rewrite Forall_forall in Hv.
    assert (Hin : In "" (Descriptor.entry_names e))
      by (rewrite Hst; apply in_or_app; right; left; reflexivity).
    specialize (Hv _ Hin). discriminate Hv.
Qed.

End ReadBackFacts.

(** X22.  The files of a generated project are read back with their
    contents: for a well-formed file tree of unique keys, created for a
    new project, GET /api/project/:projectId/file/<key> answers, for
    every file entry, 200 with the content of the entry (the empty text
    when the entry has none), its size in bytes and the time of the
    creation. *)
Theorem created_files_are_read_back :
  forall `{Platform} (now : Z) (projectId : string) (fileTree : Js.obj) (w : World),
    Path.valid_name projectId = true ->
    Names.kind_at (Fs.components PROJECTS_DIR) (fs_root w) = Some Names.KDir ->
    Tree.lookup (Fs.components PROJECTS_DIR ++ [projectId])%list (fs_root w) = None ->
    Descriptor.well_formed fileTree = true ->
    NoDup (map fst fileTree) ->
    exists w',
      FileSystemManager.createProjectFiles now projectId (Some (JObj fileTree)) w
        = (w', Return (Path.join [PROJECTS_DIR; projectId])) /\
      forall key fileData,
        In (key, fileData) fileTree ->
        Descriptor.is_file (key, fileData) = true ->
        Routes.get_file projectId key w' =
        (w', Return (json [("content", Some (JStr (Descriptor.content_of fileData)));
                           ("path", Some (JStr key));
                           ("size", Some (Js.num (Str.utf8_length
                                                    (Descriptor.content_of fileData))));
                           ("modified", Some (JStr (Date_toISOString now)))])).
Proof.
  intros P now projectId fileTree w Hid Hroot Hnew Hwf Hnd.
  destruct (RoundTripFacts.materialized now projectId fileTree w Hid Hroot Hnew Hwf)
    as (w' & es & Hcreate & Hsub & Hall & _).
  exists w'. split; [exact Hcreate|].
  intros key fileData He Hfile.
  assert (Hk : Descriptor.entry_kind (key, fileData) = Names.KFile).
  { unfold Descriptor.is_file in Hfile.
    destruct (Descriptor.entry_kind (key, fileData)); [reflexivity|discriminate]. }
  pose proof (RoundTripFacts.well_formed_named _ _ Hwf He) as Hwn.
  pose proof PathFacts.PROJECTS_DIR_absolute as Hpd.
  assert (Habs : Path.is_absolute (Path.join [PROJECTS_DIR; projectId]) = true)
    by apply PathFacts.join_is_absolute, Hpd.
  assert (Hcomp : Fs.components (Path.join [PROJECTS_DIR; projectId; key])
                  = (Fs.components (Path.join [PROJECTS_DIR; projectId])
                     ++ Descriptor.entry_names (key, fileData))%list).
  { rewrite PathFacts.components_join3 by assumption.
    apply (EntryFacts.entry_components (Path.join [PROJECTS_DIR; projectId]) Habs
             (key, fileData) Hwn). }
  destruct (ReadBackFacts.file_key_plain _ Hwn Hk) as [Hkey Hends]. cbn [fst] in *.
  apply FileFacts.get_file_of_file.
  - rewrite Hcomp, TreeWrites.lookup_app, Hsub.
    apply (ContentFacts.file_content now fileTree (key, fileData) (Dir []));
      assumption.
  - rewrite (ReadBackFacts.join_trailing PROJECTS_DIR [projectId] key); try assumption.
    cbn [app]. rewrite Hcomp.
    destruct (EntryFacts.segments_of_entry _ Hwn) as (Hne & _).
    intros Heq. apply app_eq_nil in Heq. tauto.
Qed.

Lemma created_files_are_read_back_witness :
  let w := Examples.in_storage [] in
  Descriptor.well_formed Samples.scaffold = true /\
  exists w',
    @FileSystemManager.createProjectFiles Runtime.runtime 1700000000000 "u1"
       (Some (JObj Samples.scaffold)) w = (w', Return "/app/generated_projects/u1") /\
    @Routes.get_file Runtime.runtime "u1" "package.json" w' =
    (w', Return (json [("content", Some (JStr ""));
                       ("path", Some (JStr "package.json"));
                       ("size", Some (Js.num 0));
                       ("modified", Some (JStr "2023-11-14T22:13:20.000Z"))])).
Proof.
  intros w.
  assert (Hwf : Descriptor.well_formed Samples.scaffold = true) by (vm_compute; reflexivity).
  assert (Hnd : NoDup (map fst Samples.scaffold)).
  { cbn [map fst Samples.scaffold]. repeat constructor; cbn [In]; intuition discriminate. }
  split; [exact Hwf|].
  destruct (@created_files_are_read_back Runtime.runtime 1700000000000 "u1"
              Samples.scaffold w eq_refl eq_refl eq_refl Hwf Hnd)
    as (w' & Hcreate & Hfiles).
  exists w'. split; [exact Hcreate|].
  apply (Hfiles "package.json" (JObj [("type", JStr "file")])); [cbn; auto|reflexivity].
Defined.

(** ** Entries that are passed over *)

Module SkippingFacts.

Lemma createEntry_ignored `{P : Platform} now projectPath entry w :
  Descriptor.ignored entry = true ->
  FileSystemManager.createEntry now projectPath entry w = (w, Return tt).
Proof.
  unfold Descriptor.ignored, FileSystemManager.createEntry.
  destruct entry as [filePath fileData]. cbn [snd]. unfold bind, lift.
  destruct (Js.get_prop (Some fileData) "type") as [type|e]; [|discriminate].
  intros H. apply andb_true_iff in H. destruct H as [Hd Hf].
  apply negb_true_iff in Hd, Hf. rewrite Hd, Hf. reflexivity.
Qed.

Lemma for_of_ignored `{P : Platform} now projectPath entries : forall w,
  for_of entries (FileSystemManager.createEntry now projectPath) w
  = for_of (filter (fun e => negb (Descriptor.ignored e)) entries)
      (FileSystemManager.createEntry now projectPath) w.
Proof.
  induction entries as [|e entries IH]; intros w; [reflexivity|].
  cbn [filter]. destruct (Descriptor.ignored e) eqn:E; cbn [negb for_of].
  - unfold bind at 1. rewrite (createEntry_ignored _ _ _ _ E). apply IH.
  - unfold bind.
    destruct (FileSystemManager.createEntry now projectPath e w) as [w1 [[]|err]];
      [apply IH|reflexivity].
Qed.

Lemma bind_ext {A B} (m : M A) (k k' : A -> M B) w :
  (forall a w', k a w' = k' a w') -> bind m k w = bind m k' w.
Proof. intros H. unfold bind. destruct (m w) as [w' [a|e]]; [apply H|reflexivity]. Qed.

Lemma bind_lift {A B} (a : A) (k : A -> M B) w :
  bind (lift (Return a)) k w = k a w.
Proof. reflexivity. Qed.

End SkippingFacts.

(** X23.  createProjectFiles passes over the entries whose type is
    neither directory nor file (a missing type, another word, a value
    that is no text): the file tree does what it does without them, with
    the same result and the same file system. *)
Theorem entries_of_unknown_type_are_ignored :
  forall `{Platform} (now : Z) (projectId : string) (fileTree : Js.obj) (w : World),
    FileSystemManager.createProjectFiles now projectId (Some (JObj fileTree)) w
    = FileSystemManager.createProjectFiles now projectId
        (Some (JObj (filter (fun e => negb (Descriptor.ignored e)) fileTree))) w.
Proof.
  intros P now projectId fileTree w. unfold FileSystemManager.createProjectFiles.
  apply SkippingFacts.bind_ext. intros _ w1.
  cbn [Js.Object_entries Js.own_props]. rewrite !SkippingFacts.bind_lift.
  unfold bind.
  rewrite (SkippingFacts.for_of_ignored now (Path.join [PROJECTS_DIR; projectId]) fileTree).
  reflexivity.
Qed.

(** X24.  A reply without a file tree leaves an empty project behind:
    createProjectFiles creates the directory of the project before it
    reads the entries, so when the parsed reply has no fileTree (or null),
    POST /api/generate answers 500 with the TypeError of Object.entries,
    and the new, empty directory of the project stays in the storage
    root. *)
Theorem reply_without_file_tree_leaves_empty_project :
  forall `{Platform} (env : Env) (groq : Provider) (uuid : string) (now : Z)
         (fields : Js.obj) (content : string) (o : Js.obj) (w : World),
    Js.truthy (Js.obj_get "prompt" fields) = true ->
    Service.groqConfigured env = true ->
    (forall request, groq request = Return (Some content)) ->
    JSON_parse (ProjectGenerator.jsonContent content) = Return (JObj o) ->
    Js.obj_get "fileTree" o = None \/ Js.obj_get "fileTree" o = Some JNull ->
    Path.valid_name uuid = true ->
    Names.kind_at (Fs.components PROJECTS_DIR) (fs_root w) = Some Names.KDir ->
    Tree.lookup (Fs.components PROJECTS_DIR ++ [uuid])%list (fs_root w) = None ->
    let run := Routes.post_generate env groq uuid now (Some (JObj fields)) w in
    Tree.lookup (Fs.components PROJECTS_DIR ++ [uuid])%list (fs_root (fst run))
      = Some (Dir []) /\
    exists r,
      snd run = Return r /\ status r = 500 /\
      Js.obj_get "error" (Js.own_props (body r))
        = Some (JStr "Failed to generate project") /\
      Js.obj_get "message" (Js.own_props (body r))
        = Some (JStr "Cannot convert undefined or null to object").
Proof.
  intros P env groq uuid now fields content o w Hprompt Hconf Hgroq Hparse Htree
         Hid Hroot Hnew run.
  destruct (StoringFacts.configured_key env Hconf) as (key & Hkey & Hne).
  destruct (RoundTripFacts.fresh_project _ _ _ Hroot Hnew) as (root1 & Hm1 & Hl1).
  pose proof PathFacts.PROJECTS_DIR_absolute as Hpd.
  set (e := TypeError "Cannot convert undefined or null to object").
  set (w1 := mkWorld root1 (console w)).
  assert (Hcreate : FileSystemManager.createProjectFiles now uuid
                      (Js.obj_get "fileTree" o) w = (w1, Throw e)).
  { unfold FileSystemManager.createProjectFiles.
    assert (Hmk : Fs.mkdir (Path.join [PROJECTS_DIR; uuid]) w = (w1, Return tt)).
    { unfold Fs.mkdir. rewrite PathFacts.components_join_name by assumption.
      rewrite Hm1. reflexivity. }
    erewrite GeneratorFacts.bind_return by exact Hmk.
    eapply GeneratorFacts.bind_throw. unfold lift.
    destruct Htree as [Ht|Ht]; rewrite Ht; reflexivity. }
  assert (Hrun : run = (mkWorld root1 (console w ++ [[LStr "Generation error:"; LErr e]])%list,
                        Return (Answers.generation_failure env e))).
  { subst run. unfold Routes.post_generate.
    erewrite GeneratorFacts.try_catch_throw.
    2:{ unfold lift. cbn [Js.get_prop Js.own_props].
        erewrite GeneratorFacts.bind_return by reflexivity.
        erewrite GeneratorFacts.bind_return by reflexivity.
        rewrite Hprompt, Hkey, Hne. cbn [negb].
        erewrite GeneratorFacts.bind_return
          by (eapply StoringFacts.generate_of_reply; eassumption).
        erewrite GeneratorFacts.bind_return by reflexivity.
        cbn [Js.own_props].
        eapply GeneratorFacts.bind_throw. exact Hcreate. }
    reflexivity. }
  rewrite Hrun. cbn [fst snd fs_root]. split; [exact Hl1|].
  eexists. split; [reflexivity|].
  destruct (StoringFacts.failure_fields env e) as (Hs & He & Hm & _). auto.
Qed.

Lemma reply_without_file_tree_leaves_empty_project_witness :
  let env := mkEnv (Some "k") None in
  let run := @Routes.post_generate Runtime.runtime env
               (fun _ => Return (Some "{}")) "u1" 0
               (Some (JObj [("prompt", JStr "an API")])) (Examples.in_storage []) in
  fs_root (fst run) = Dir [("app", Dir [("generated_projects", Dir [("u1", Dir [])])])] /\
  exists r, snd run = Return r /\ status r = 500.
Proof.
  intros env run.
  assert (Hparse : @JSON_parse Runtime.runtime (ProjectGenerator.jsonContent "{}")
                   = Return (JObj [])) by (vm_compute; reflexivity).
  destruct (@reply_without_file_tree_leaves_empty_project Runtime.runtime env
              (fun _ => Return (Some "{}")) "u1" 0 [("prompt", JStr "an API")] "{}" []
              (Examples.in_storage []) eq_refl eq_refl (fun _ => eq_refl) Hparse
              (or_introl eq_refl) eq_refl eq_refl eq_refl)
    as (_ & r & Hr & Hs & _).
  split; [vm_compute; reflexivity|].
  exists r. split; [exact Hr|exact Hs].
Defined.

(** ** The backup of an enhanced file *)

Module BackupFacts.
Import Names.

Lemma includes_slash_app a : forall b,
  Str.includes "/" (a ++ b) = Str.includes "/" a || Str.includes "/" b.
Proof.
  induction a as [|c a IH]; intros b; [reflexivity|].
  cbn [append]. rewrite !PathFacts.includes_slash_cons, IH. apply orb_assoc.
Qed.

(** A name with the suffix of the backup is a name. *)
Lemma backup_name n :
  Path.valid_name n = true ->
  Path.valid_name (n ++ ".backup") = true /\ String.eqb (n ++ ".backup") n = false.
Proof.
  intros Hn. apply PathFacts.valid_name_spec in Hn. destruct Hn as (H1 & _ & _ & Hs).
  split.
  - apply PathFacts.valid_name_spec.
    destruct n as [|c r]; [congruence|]. cbn [append].
    split; [discriminate|]. split; [destruct r; discriminate|].
    split; [destruct r as [|d r]; [discriminate|destruct r; discriminate]|].
    unfold no_slash in *. change (String c (r ++ ".backup")) with (String c r ++ ".backup").
    rewrite includes_slash_app. apply negb_true_iff in Hs. rewrite Hs. reflexivity.
  - apply String.eqb_neq. clear. induction n as [|c r IH]; [discriminate|].
    cbn [append]. intros Heq. injection Heq as Heq. exact (IH Heq).
Qed.

Lemma join_suffix l n s :
  Str.join "/" (l ++ [n ++ s]) = Str.join "/" (l ++ [n]) ++ s.
Proof.
  destruct l as [|a l].
  - reflexivity.
  - rewrite !TrailingFacts.join_snoc by discriminate.
    rewrite !DirnameFacts.append_assoc. reflexivity.
Qed.

(** A joined path that ends with no slash is its components, rendered. *)
Lemma joined_path_render a rest :
  Path.is_absolute a = true ->
  Fs.components (Path.join (a :: rest)) <> [] ->
  Path.has_trailing_slash (Path.join (a :: rest)) = false ->
  Path.join (a :: rest) = render (Fs.components (Path.join (a :: rest))) false.
Proof.
  intros Ha Hne Ht.
  destruct (PathFacts.join_absolute a rest Ha) as [Hjoin Habs].
  set (q := Str.join "/" (a :: filter nonempty rest)) in *.
  assert (Hc : Fs.components (Path.join (a :: rest)) = Fs.components q)
    by (rewrite Hjoin; apply PathFacts.components_normalize, Habs).
  assert (Hr : Path.join (a :: rest)
               = render (Fs.components q) (Path.has_trailing_slash q))
    by (rewrite Hjoin; apply PathFacts.normalize_absolute, Habs).
  rewrite Hc in Hne |- *. rewrite Hr in Ht |- *.
  pose proof (PathFacts.components_valid q) as Hv.
  destruct (Fs.components q) as [|x l]; [congruence|].
  rewrite TrailingFacts.render_trailing in Ht by assumption. rewrite Ht. reflexivity.
Qed.

(** The path of the backup: the last name with its suffix. *)
Lemma backup_components a rest :
  Path.is_absolute a = true ->
  Fs.components (Path.join (a :: rest)) <> [] ->
  Path.has_trailing_slash (Path.join (a :: rest)) = false ->
  let comps := Fs.components (Path.join (a :: rest)) in
  Fs.components (Path.join (a :: rest) ++ ".backup")
    = (removelast comps ++ [(last comps "" ++ ".backup")%string])%list /\
  Path.has_trailing_slash (Path.join (a :: rest) ++ ".backup") = false /\
  Path.valid_name (last comps "") = true.
Proof.
  intros Ha Hne Ht comps.
  pose proof (joined_path_render a rest Ha Hne Ht) as Hr. fold comps in Hr.
  pose proof (PathFacts.components_valid (Path.join (a :: rest))) as Hv. fold comps in Hv.
  assert (Hsplit : comps = (removelast comps ++ [last comps ""])%list)
    by (apply app_removelast_last; exact Hne).
  assert (Hlast : Path.valid_name (last comps "") = true).
  { rewrite Forall_forall in Hv. apply Hv.
    assert (Hin : In (last comps "") (removelast comps ++ [last comps ""])%list)
      by (apply in_or_app; right; left; reflexivity).
    rewrite <- Hsplit in Hin. exact Hin. }
  destruct (backup_name _ Hlast) as [Hb _].
  split; [|split; [|exact Hlast]].
  - rewrite Hr.
    assert (Heq : render comps false ++ ".backup"
                  = render (removelast comps ++ [last comps "" ++ ".backup"]) false).
    { rewrite Hsplit at 1. unfold render.
      destruct (removelast comps ++ [last comps ""])%list eqn:E1;
        [apply app_eq_nil in E1; destruct E1; discriminate|]. rewrite <- E1.
      destruct (removelast comps ++ [(last comps "" ++ ".backup")%string])%list eqn:E2;
        [apply app_eq_nil in E2; destruct E2; discriminate|]. rewrite <- E2.
      rewrite join_suffix, !PathFacts.append_empty, !DirnameFacts.append_assoc.
      reflexivity. }
    rewrite Heq. apply PathFacts.components_render.
    apply Forall_app. split.
    + rewrite Hsplit in Hv. apply Forall_app in Hv. tauto.
    + repeat constructor. exact Hb.
  - rewrite TrailingFacts.trailing_slash_eq.
    rewrite TrailingFacts.ends_with_slash_app by discriminate. reflexivity.
Qed.

(** A file and its backup, written one after the other. *)
Lemma two_writes root init n b c t current enhanced now :
  Tree.lookup (init ++ [n]) root = Some (File c t) ->
  String.eqb b n = false ->
  kind_at (init ++ [b]) root <> Some KDir ->
  exists root1 root2,
    Tree.write (init ++ [b]) (File current now) root = inr root1 /\
    Tree.write (init ++ [n]) (File enhanced now) root1 = inr root2 /\
    Tree.lookup (init ++ [n]) root2 = Some (File enhanced now) /\
    Tree.lookup (init ++ [b]) root2 = Some (File current now) /\
    forall q, prefixb q (init ++ [n]) = false -> prefixb q (init ++ [b]) = false ->
              Tree.lookup q root2 = Tree.lookup q root.
Proof.
  intros Hfile Hbn Hb.
  destruct (StoreFacts.holder_is_directory _ _ _ _ Hfile) as (es & Hdir).
  destruct (TreeWrites.write_succeeds init b root (File current now)) as (root1 & Hw1);
    [unfold kind_at; rewrite Hdir; reflexivity|exact Hb|].
  assert (Hnb : prefixb (init ++ [n]) (init ++ [b]) = false).
  { rewrite StoreFacts.prefixb_sibling, String.eqb_sym. exact Hbn. }
  assert (Hbn' : prefixb (init ++ [b]) (init ++ [n]) = false)
    by (rewrite StoreFacts.prefixb_sibling; exact Hbn).
  destruct (TreeWrites.write_succeeds init n root1 (File enhanced now)) as (root2 & Hw2).
  - assert (Hne : init <> (init ++ [b])%list).
    { intros Heq. apply (f_equal (@List.length string)) in Heq.
      rewrite length_app in Heq. cbn in Heq. lia. }
    apply (TreeWrites.kind_write_prefix _ _ _ _ _ Hw1 (MaterializerFacts.prefixb_app _ _) Hne).
  - unfold kind_at. rewrite (TreeWrites.lookup_write_other _ _ _ _ _ _ Hw1 Hnb), Hfile.
    discriminate.
  - exists root1, root2. split; [exact Hw1|]. split; [exact Hw2|].
    split; [apply (TreeWrites.lookup_write _ _ _ _ Hw2)|].
    split.
    + rewrite (TreeWrites.lookup_write_other _ _ _ _ _ _ Hw2 Hbn').
      apply (TreeWrites.lookup_write _ _ _ _ Hw1).
    + intros q Hqn Hqb.
      rewrite (TreeWrites.lookup_write_other _ _ _ _ _ _ Hw2 Hqn).
      apply (TreeWrites.lookup_write_other _ _ _ _ _ _ Hw1 Hqb).
Qed.

End BackupFacts.

(** X25.  What a successful enhancement leaves: when the file exists,
    the provider answers and no directory stands at the path of the
    backup, PUT /api/project/:projectId/enhance/* answers 200 with the
    cleaned reply; the file then holds the cleaned reply and the file
    named after it with the suffix .backup holds the previous content,
    both with the time of the request; nothing else is changed. *)
Theorem enhance_replaces_file_and_keeps_backup :
  forall `{Platform} (groq : Provider) (now : Z) (projectId filePath : string)
         (fields : Js.obj) (current : string) (t : Z) (reply enhanced : string)
         (w : World),
    let fullPath := Path.join [PROJECTS_DIR; projectId; filePath] in
    let backupPath := fullPath ++ ".backup" in
    let run := Routes.put_enhance groq now projectId filePath (Some (JObj fields)) w in
    Js.truthy (Js.obj_get "requirements" fields) = true ->
    Tree.lookup (Fs.components fullPath) (fs_root w) = Some (File current t) ->
    Path.has_trailing_slash fullPath = false ->
    (forall request, groq request = Return (Some reply)) ->
    ProjectGenerator.strip_code_block (Str.trim reply) = Return enhanced ->
    Names.kind_at (Fs.components backupPath) (fs_root w) <> Some Names.KDir ->
    snd run = Return (json [("success", Some (JBool true));
                            ("message", Some (JStr "File enhanced successfully"));
                            ("backupCreated", Some (JBool true));
                            ("content", Some (JStr enhanced))]) /\
    Tree.lookup (Fs.components fullPath) (fs_root (fst run))
      = Some (File enhanced now) /\
    Tree.lookup (Fs.components backupPath) (fs_root (fst run))
      = Some (File current now) /\
    console (fst run) = console w /\
    (forall q,
        Names.prefixb q (Fs.components fullPath) = false ->
        Names.prefixb q (Fs.components backupPath) = false ->
        Tree.lookup q (fs_root (fst run)) = Tree.lookup q (fs_root w)).
Proof.
  intros P groq now projectId filePath fields current t reply enhanced w
         fullPath backupPath run Hreq Hfile Htrail Hgroq Hstrip Hbackup.
  pose proof PathFacts.PROJECTS_DIR_absolute as Hpd.
  assert (Hne : Fs.components fullPath <> []).
  { intros Hnil. unfold fullPath in Hnil, Htrail.
    destruct (PathFacts.join_absolute PROJECTS_DIR [projectId; filePath] Hpd)
      as [Hjoin Habs].
    rewrite Hjoin in Hnil, Htrail.
    rewrite PathFacts.components_normalize in Hnil by assumption.
    rewrite PathFacts.normalize_absolute, Hnil in Htrail by assumption.
    discriminate Htrail. }
  destruct (BackupFacts.backup_components PROJECTS_DIR [projectId; filePath] Hpd Hne Htrail)
    as (Hbc & Hbt & Hlast).
  fold fullPath in Hbc, Hbt, Hlast. fold backupPath in Hbc, Hbt.
  set (init := removelast (Fs.components fullPath)) in *.
  set (n := last (Fs.components fullPath) "") in *.
  assert (Hsplit : Fs.components fullPath = (init ++ [n])%list)
    by (apply app_removelast_last; exact Hne).
  destruct (BackupFacts.backup_name n Hlast) as [_ Hbn].
  rewrite Hbc in Hbackup |- *. rewrite Hsplit in Hfile |- *.
  destruct (BackupFacts.two_writes (fs_root w) init n (n ++ ".backup") current t
              current enhanced now Hfile Hbn Hbackup)
    as (root1 & root2 & Hw1 & Hw2 & Hl2 & Hl1 & Hframe).
  assert (Hread : Fs.readFile fullPath w = (w, Return current)).
  { apply (StoreFacts.readFile_file fullPath w current t); [|exact Htrail].
    rewrite Hsplit. exact Hfile. }
  assert (Hrun : run = (mkWorld root2 (console w),
                        Return (json [("success", Some (JBool true));
                                      ("message", Some (JStr "File enhanced successfully"));
                                      ("backupCreated", Some (JBool true));
                                      ("content", Some (JStr enhanced))]))).
  { subst run. unfold Routes.put_enhance. fold fullPath.
    apply GeneratorFacts.try_catch_return.
    unfold lift. cbn [Js.get_prop Js.own_props].
    erewrite GeneratorFacts.bind_return by reflexivity.
    erewrite GeneratorFacts.bind_return by reflexivity.
    rewrite Hreq. cbn [negb].
    apply GeneratorFacts.try_catch_return.
    erewrite GeneratorFacts.bind_return by exact Hread.
    erewrite GeneratorFacts.bind_return
      by (rewrite (CleaningFacts.enhance_of_reply _ _ _ _ _ _ _ Hgroq), Hstrip;
          reflexivity).
    fold backupPath.
    assert (Hb : Fs.writeFile now backupPath (Routes.str current) w
                 = (mkWorld root1 (console w), Return tt)).
    { unfold Fs.writeFile, Fs.write_content, Routes.str. rewrite Hbt, Hbc, Hw1. reflexivity. }
    erewrite GeneratorFacts.bind_return by exact Hb.
    assert (Hf : Fs.writeFile now fullPath (Routes.str enhanced)
                   (mkWorld root1 (console w))
                 = (mkWorld root2 (console w), Return tt)).
    { unfold Fs.writeFile, Fs.write_content, Routes.str. rewrite Htrail, Hsplit. cbn [fs_root console].
      rewrite Hw2. reflexivity. }
    erewrite GeneratorFacts.bind_return by exact Hf.
    reflexivity. }
  rewrite Hrun. cbn [fst snd fs_root console].
  split; [reflexivity|]. split; [exact Hl2|]. split; [exact Hl1|].
  split; [reflexivity|exact Hframe].
Qed.

Lemma enhance_replaces_file_and_keeps_backup_witness :
  let nl := ProjectGenerator.newline in
  let w := Examples.in_storage
             [("p1", Dir [("a.js", File "v0" 0); ("b.js", File "other" 0)])] in
  let reply := "```js" ++ nl ++ "v1" ++ nl ++ "```" in
  let run := @Routes.put_enhance Runtime.runtime (fun _ => Return (Some reply)) 1000
               "p1" "a.js" (Some (JObj [("requirements", JStr "improve")])) w in
  Tree.lookup ["app"; "generated_projects"; "p1"; "a.js"] (fs_root w)
    = Some (File "v0" 0) /\
  fs_root (fst run)
    = fs_root (Examples.in_storage
                 [("p1", Dir [("a.js", File "v1" 1000); ("b.js", File "other" 0);
                              ("a.js.backup", File "v0" 1000)])]) /\
  Tree.lookup ["app"; "generated_projects"; "p1"; "a.js.backup"] (fs_root (fst run))
    = Some (File "v0" 1000).
Proof.
  intros nl w reply run.
  assert (Hfile : Tree.lookup
                    (Fs.components (Path.join [@PROJECTS_DIR Runtime.runtime; "p1"; "a.js"]))
                    (fs_root w) = Some (File "v0" 0)) by reflexivity.
  assert (Hbackup : Names.kind_at
                      (Fs.components (Path.join [@PROJECTS_DIR Runtime.runtime; "p1"; "a.js"]
                                      ++ ".backup"))
                      (fs_root w) <> Some Names.KDir) by (vm_compute; discriminate).
  split; [exact Hfile|]. split; [vm_compute; reflexivity|].
  exact (proj1 (proj2 (proj2
    (@enhance_replaces_file_and_keeps_backup Runtime.runtime
       (fun _ => Return (Some reply)) 1000 "p1" "a.js"
       [("requirements", JStr "improve")] "v0" 0 reply "v1" w
       eq_refl Hfile eq_refl (fun _ => eq_refl) eq_refl Hbackup)))).
Defined.

(** ** The metadata and the file routes *)

Module StalenessFacts.

(** A property of the details other than the file tree is a property of
    the metadata. *)
Lemma details_field k (projectData : JSON) (tree : option JSON) :
  k <> "currentFileTree" ->
  Js.obj_get k (Js.obj_assign (Js.spread (Some projectData))
                  (Js.literal [("currentFileTree", tree)]))
  = Js.obj_get k (Js.spread (Some projectData)).
Proof.
  intros Hk. rewrite JsFacts.obj_get_assign.
  assert (Hnone : Js.obj_get k (rev (Js.literal [("currentFileTree", tree)])) = None).
  { destruct tree as [v|]; cbn; [|reflexivity].
    apply String.eqb_neq in Hk. rewrite Hk. reflexivity. }
  rewrite Hnone. reflexivity.
Qed.

(** Reading depends on what the path names. *)
Lemma readFile_same p w w' :
  Tree.lookup (Fs.components p) (fs_root w') = Tree.lookup (Fs.components p) (fs_root w) ->
  snd (Fs.readFile p w') = snd (Fs.readFile p w).
Proof.
  intros Hl. unfold Fs.readFile, bind, Fs.resolve. rewrite Hl.
  destruct (Tree.lookup (Fs.components p) (fs_root w)) as [[c t|es]|];
    [destruct (Path.has_trailing_slash p)|..]; reflexivity.
Qed.

End StalenessFacts.

(** X26.  The file route does not protect the metadata of a project: a
    successful PUT of project-metadata.json replaces the record that the
    details and the listing read.  With a text that is not JSON the
    details then answer 404 and the listing passes the project over; with
    a JSON text the details answer with the properties of that text. *)
Theorem file_route_can_replace_the_metadata :
  forall `{Platform} (now : Z) (projectId : string) (fields : Js.obj)
         (content : string) (w : World),
    Js.obj_get "content" fields = Some (JStr content) ->
    let put := Routes.put_file now projectId "project-metadata.json"
                 (Some (JObj fields)) w in
    (exists r, snd put = Return r /\ status r = 200) ->
    (forall e,
        JSON_parse content = Throw e ->
        Routes.get_project projectId (fst put)
          = (fst put, Return (status_json 404 [("error", Some (JStr "Project not found"))])) /\
        Listing.listed (fst put) projectId = []) /\
    (forall projectData,
        JSON_parse content = Return projectData ->
        exists r,
          Routes.get_project projectId (fst put) = (fst put, Return r) /\
          status r = 200 /\
          forall k, k <> "currentFileTree" ->
                    Js.obj_get k (Js.own_props (body r))
                    = Js.obj_get k (Js.spread (Some projectData))).
Proof.
  intros P now projectId fields content w Hcontent put (r & Hr & Hstatus).
  pose proof PathFacts.PROJECTS_DIR_absolute as Hpd.
  assert (Hwritten : Tree.lookup
                       (Fs.components (Path.join [PROJECTS_DIR; projectId;
                                                  "project-metadata.json"]))
                       (fs_root (fst put)) = Some (File content now)).
  { subst put. rewrite (FileFacts.put_file_steps _ _ _ _ _ _ Hcontent) in *.
    destruct (Fs.mkdir _ w) as [w1 [[]|e]].
    2:{ cbn [snd] in Hr. inversion Hr; subst r. discriminate Hstatus. }
    destruct (Fs.writeFile now _ (Some (JStr content)) w1) as [w2 [[]|e]] eqn:Ew.
    2:{ cbn [snd] in Hr. inversion Hr; subst r. discriminate Hstatus. }
    cbn [fst]. eapply StoreFacts.writeFile_written, Ew. }
  set (w' := fst put) in *.
  assert (Hread3 : Fs.readFile (Path.join [PROJECTS_DIR; projectId; "project-metadata.json"]) w'
                   = (w', Return content)).
  { eapply StoreFacts.readFile_file; [exact Hwritten|].
    apply (TrailingFacts.join_name_trailing PROJECTS_DIR [projectId] "project-metadata.json");
      [assumption|reflexivity]. }
  assert (Hread : Fs.readFile (Path.join [Path.join [PROJECTS_DIR; projectId];
                                          "project-metadata.json"]) w'
                  = (w', Return content)).
  { eapply StoreFacts.readFile_file.
    - rewrite <- PathFacts.components_join3 by assumption. exact Hwritten.
    - apply (TrailingFacts.join_name_trailing (Path.join [PROJECTS_DIR; projectId]) []
               "project-metadata.json");
        [apply PathFacts.join_is_absolute; assumption|reflexivity]. }
  split.
  - intros e Hparse. split.
    + rewrite DetailFacts.get_project_eq, Hread. cbn [snd]. rewrite Hparse. reflexivity.
    + unfold Listing.listed. destruct (Str.ends_with ".zip" projectId); [reflexivity|].
      unfold Routes.read_summary.
      erewrite GeneratorFacts.bind_return by exact Hread3.
      erewrite GeneratorFacts.bind_throw by (unfold lift; rewrite Hparse; reflexivity).
      reflexivity.
  - intros projectData Hparse.
    rewrite DetailFacts.get_project_eq, Hread. cbn [snd]. rewrite Hparse.
    eexists. split; [reflexivity|]. split; [reflexivity|].
    intros k Hk. cbn [body Js.own_props]. apply StalenessFacts.details_field, Hk.
Qed.

Lemma file_route_can_replace_the_metadata_witness :
  let put := @Routes.put_file Runtime.runtime 9 "b" "project-metadata.json"
               (Some (JObj [("content", JStr "oops")])) Examples.three_projects in
  (exists r, snd put = Return r /\ status r = 200) /\
  @Routes.get_project Runtime.runtime "b" (fst put)
    = (fst put, Return (status_json 404 [("error", Some (JStr "Project not found"))])).
Proof.
  intros put.
  assert (Hput : exists r, snd put = Return r /\ status r = 200)
    by (eexists; split; reflexivity).
  split; [exact Hput|].
  assert (Hparse : @JSON_parse Runtime.runtime "oops"
                   = Throw (match @JSON_parse Runtime.runtime "oops" with
                            | Throw e => e
                            | Return _ => Error ""
                            end)) by (vm_compute; reflexivity).
  exact (proj1 (proj1 (@file_route_can_replace_the_metadata Runtime.runtime 9 "b"
                         [("content", JStr "oops")] "oops" Examples.three_projects
                         eq_refl Hput) _ Hparse)).
Defined.

Module EditFrameFacts.
Import Names.

(** An update changes nothing off the path of its file. *)
Lemma put_file_frame `{Platform} now projectId filePath req_body w q :
  prefixb q (Fs.components (Path.join [PROJECTS_DIR; projectId; filePath])) = false ->
  Tree.lookup q (fs_root (fst (Routes.put_file now projectId filePath req_body w)))
  = Tree.lookup q (fs_root w).
Proof.
  intros Hq. pose proof PathFacts.PROJECTS_DIR_absolute as Hpd.
  set (fullPath := Path.join [PROJECTS_DIR; projectId; filePath]) in *.
  assert (Hd : prefixb q (Fs.components (Path.dirname fullPath)) = false).
  { unfold fullPath. rewrite DirnameFacts.components_dirname_join by assumption.
    fold fullPath.
    destruct (prefixb q (removelast (Fs.components fullPath))) eqn:E; [|reflexivity].
    rewrite (MaterializerFacts.prefixb_trans _ _ _ E
               (MaterializerFacts.prefixb_removelast _)) in Hq.
    discriminate. }
  unfold Routes.put_file. fold fullPath.
  rewrite StoreFacts.try_catch_root by reflexivity.
  unfold bind at 1, lift.
  destruct (Js.get_prop req_body "content") as [[v|]|e]; try reflexivity.
  pose proof (MaterializerFacts.mkdir_frame (Path.dirname fullPath) w q Hd) as Hm.
  unfold bind at 1.
  destruct (Fs.mkdir (Path.dirname fullPath) w) as [w1 [[]|e]]; cbn [fst] in Hm;
    [|exact Hm].
  pose proof (MaterializerFacts.writeFile_frame now fullPath (Some v) w1 q Hq) as Hw.
  unfold bind.
  destruct (Fs.writeFile now fullPath (Some v) w1) as [w2 [[]|e]]; cbn [fst] in Hw |- *;
    unfold ret; cbn [fst]; congruence.
Qed.

End EditFrameFacts.

(** X27.  The metadata of a project is not updated by the edits of its
    files: after PUT /api/project/:projectId/file/* on a path that the
    path of the metadata is no prefix of, the details of the project
    answer with the same status and the same properties as before, the
    current file tree apart. *)
Theorem file_update_leaves_the_metadata :
  forall `{Platform} (now : Z) (projectId filePath : string) (req_body : option JSON)
         (w : World),
    let fullPath := Path.join [PROJECTS_DIR; projectId; filePath] in
    let metadataPath :=
      Path.join [Path.join [PROJECTS_DIR; projectId]; "project-metadata.json"] in
    let w' := fst (Routes.put_file now projectId filePath req_body w) in
    Names.prefixb (Fs.components metadataPath) (Fs.components fullPath) = false ->
    exists r r',
      Routes.get_project projectId w = (w, Return r) /\
      Routes.get_project projectId w' = (w', Return r') /\
      status r' = status r /\
      forall k, k <> "currentFileTree" ->
                Js.obj_get k (Js.own_props (body r')) = Js.obj_get k (Js.own_props (body r)).
Proof.
  intros P now projectId filePath req_body w fullPath metadataPath w' Hoff.
  pose proof (EditFrameFacts.put_file_frame now projectId filePath req_body w _ Hoff)
    as Hframe.
  fold w' in Hframe.
  pose proof (StalenessFacts.readFile_same metadataPath w w' Hframe) as Hsame.
  rewrite !DetailFacts.get_project_eq. fold metadataPath. rewrite Hsame.
  eexists. eexists. split; [reflexivity|]. split; [reflexivity|].
  destruct (snd (Fs.readFile metadataPath w)) as [text|e]; [|auto].
  destruct (JSON_parse text) as [projectData|e]; [|auto].
  split; [reflexivity|]. intros k Hk. cbn [body Js.own_props].
  rewrite !StalenessFacts.details_field by assumption. reflexivity.
Qed.

Lemma file_update_leaves_the_metadata_witness :
  let w := Examples.three_projects in
  let w' := fst (@Routes.put_file Runtime.runtime 9 "b" "src/new.js"
                   (Some (JObj [("content", JStr "x")])) w) in
  Tree.lookup ["app"; "generated_projects"; "b"; "src"; "new.js"] (fs_root w')
    = Some (File "x" 9) /\
  exists r r',
    @Routes.get_project Runtime.runtime "b" w = (w, Return r) /\
    @Routes.get_project Runtime.runtime "b" w' = (w', Return r') /\
    status r' = status r /\
    forall k, k <> "currentFileTree" ->
              Js.obj_get k (Js.own_props (body r')) = Js.obj_get k (Js.own_props (body r)).
Proof.
  intros w w'. split; [vm_compute; reflexivity|].
  exact (@file_update_leaves_the_metadata Runtime.runtime 9 "b" "src/new.js"
           (Some (JObj [("content", JStr "x")])) w eq_refl).
Defined.
